(* ===== verification/_CoqProject ===== *)
-Q . S2P
Prelude.v
PyValue.v
Exports.v
Effects.v
Extract.v
Executor.v
Calls.v
Cursor.v
Grid.v
Cache.v
FindUi.v
Desktop.v
Vad.v
Transcribe.v
History.v
Images.v
Remote.v
Overlay.v
Agent.v
Program.v
