(* ===== verification/Prelude.v ===== *)
(** * Desktop agent: a verification development

    The program (src/main.py and src/services/) drives a desktop.  One
    iteration of [run_desktop_agent] takes a screenshot, attaches it to the
    conversation, asks a remote language model what to do
    (openrouter_api.py), extracts the JSON commands from the reply
    ([extract_json]), executes them in batches ([process_commands]) through
    the pointer and keyboard primitives (cursor_module.py,
    keyboard_module.py) and the grid over the screenshot
    (screenshot_module.py, find_ui.py), and records the results in the
    conversation.  A voice channel (voice_input.py) cuts the microphone
    stream into recordings that, once transcribed, can pause, stop or
    redirect the loop; the command [listen] closes the pause gate from the
    inside.

    ** Files, in dependency order

    - [Prelude] (this file): the shared library.  Python list idioms used
      all over the sources ([l[-1]], [l[-n:]], [text[:a] + text[b:]],
      [max(0, min(x, w - 1))]), ranges of integers, floor division by rows
      and columns, their lemmas, the tactics and the hint databases, and
      [eventually]: what comes to hold along every sequence of steps of a
      relation.
    - [PyValue]: the values the program manipulates.  [json] is what
      [json.loads] returns; [py_eq] is [==], [subscript] and [dict_get]
      are [d[k]] and [d.get(k, default)], [py_min], [py_max], [py_add] and
      [py_int] the arithmetic the primitives apply to command parameters,
      with the exceptions they raise ([exn]: [KeyError] apart from every
      other [Exception], as the handlers of the sources tell them apart).
      The texts Python computes ([str(v)], [repr(s)], the message of an
      interpreter error) come from the class [PyFormat].
    - [Exports]: the modules of src/services as dictionaries of the
      names they bind: cursor.py, which only imports and re-exports, with
      its [__all__]; the two sets of thresholds (cache_module.py,
      ui_detection_module.py); and the import lines of the other
      sources.  [import_from] and [import_star] are Python's import
      statements.
    - [Effects]: the monad [ST S A] of computations that change a state
      and may raise, with [try_catch] and its laws, and [preserves]: the
      computations that leave the state within a preorder.
    - [Extract]: [extract_json] of execute_funcs.py.  The record [scan]
      has one field per Python local, [scan_step] is the body of the
      loop, [json.loads] is the parameter [loads].
    - [Executor]: [process_commands], [execute_batch_commands] and the
      pause gate of execute_funcs.py.  [dispatch] is the chain of
      [if]/[elif] on the command name, one branch per command;
      [execute_batch_loop] the loop with its two handlers; [try_body],
      [process_step] and [process_loop] the batching loop with its inner
      and outer [try].  The desktop is the interface [device]: what every
      call does, as a function of the calls made before.
    - [Calls]: on whose behalf the executor calls the desktop: [call_name]
      gives the command name of the branch of [execute_batch_commands]
      that makes a call.
    - [Cursor]: the primitives of cursor_module.py and keyboard_module.py
      over the state [gui] of the libraries they wrap (monitors, pointer,
      fail-safe switch, clipboard, pending restore threads, accepted
      calls); the libraries' refusals are the parameter [refuses].
    - [Grid]: the grid of screenshot_module.py: [make_grid] computes the
      counts ([initial_rows], [initial_cols], the loop [grow]) and the
      cells ([grid_cells], two nested loops); [cursor_cell],
      [target_cell] and [get_cell_center_coordinates] (find_ui.py) are
      the searches.
    - [Cache]: the dictionary [_screenshot_cache] of cache_module.py as the
      record [cache], and the functions that read and write it:
      [capture_cursor_area], [save_screenshot_with_grid],
      [save_screenshots], [get_grid_cells], [move_cursor_to_cell].
    - [FindUi]: find_ui.py from [extract_cell_number_from_llm_response]
      on.  The regular expressions are functions on texts ([search_cell],
      [findall_digits], [search_coordinates], [findall_numbers]); the
      answers of the model and the state of the files are the record
      [env]; the functions run on the [world] of the libraries and the
      cache.
    - [Desktop]: the [device] the program runs against.  [perform] is the
      primitive behind each call of the executor, its result dropped as
      execute_funcs.py drops it; [run] is the machine after a trace of
      calls; [desktop] packs them as the interface [Executor] is proved
      against.
    - [Vad]: [VoiceInputProcessor.audio_callback] of voice_input.py over
      the record [vad] of the fields it touches; [feed] is the stream
      delivering block after block.
    - [Transcribe]: the rest of [VoiceInputProcessor]: the constructor
      ([VoiceInputProcessor], lines 10-49: the three imports that look
      for Whisper, the device, the model) and the record [processor],
      which holds the fields of the callback, the pool of futures,
      [self.futures], the text queue and where the thread of
      [process_audio_queue] is.  The threads act by atomic steps named by
      a [label]: [Hear] ([audio_callback]), [Take] (lines 141-156),
      [Collect] (158-172), [Empty] (174-190), [Exit], [Work] and [Finish]
      (a worker of the pool takes an item, [_transcribe_audio] ends), and
      the calls of the agent ([CallStart], [CallStop], [GetOne],
      [GetAll]).  [act] is one step, [acts] an execution with what it
      hands out, [drive] the execution that leaves out the steps that
      cannot be made.
    - [History]: lines 330-385 of [run_desktop_agent] (main.py) on the
      list [messages], over a heap of message dictionaries so that
      [temp_messages = list(messages)] shares them, and the cut of the
      request in [generate] (openrouter_api.py).
    - [Images]: [save_screenshot] of screenshot_utils.py as the
      arithmetic of the resized picture and of the red dot, and
      [convert_to_base64] of image_utils.py with its cache
      [_base64_cache], a finite map from paths to [entry]; the file
      system and PIL are the record [disk]; [splitext] is
      [os.path.splitext].
    - [Remote]: [generate] of openrouter_api.py before its cut
      ([load_prompt] with the cache of prompts, [replacements],
      [generate_with_prompt]), and the two questions of find_ui.py
      ([llm_choose_best_grid_cell], [ask_coordinates]); [search_env]
      gives their answers to the search of [FindUi]; files and the API
      are the record [outside].
    - [Overlay]: the globals [agent_status] and [status_window] of
      main.py with [update_agent_status], and the status window
      ([StatusOverlay], lines 53-99) as the record [overlay]: its
      geometry, its label, and whether [check_running] has destroyed it.
    - [Agent]: [run_desktop_agent] as a whole (main.py 102-111, 176-404).
      The record [agent] holds the counter, the two stop flags, the state
      of the executor, the history, the voice processor if there is one,
      the status with its window, the two caches and the requests sent.
      [setup] is lines 180-224 (the voice processor may fail to start,
      the first screenshot may raise), [before] the head of the loop
      (lines 272-308) with [process_voice_input]; [iteration] (309-394)
      is [look] ([save_screenshot], [convert_to_base64], [attach],
      [hide]), [ask] ([request], [generate_with_prompt]) and [obey]
      ([extract_json], [process_commands], [record_results],
      [truncate]), with the calls of [update_agent_status] where the
      source has them; [pass] is one pass, [run_loop] the loop on a list
      of [pass_env], one per pass, that say what the key listener, the
      timer of the window, the voice threads, the console, the screen
      and the files do meanwhile; [finally] is the cleanup, which
      puts the sign to stop on [_command_results_queue], a field of the
      agent.  [Frame] is the class of the relations between states that
      the operations of the loop respect; the lemmas that follow a
      computation through the loop are proved once, for every frame.
    - [Program]: the rest of main.py.  [main_program] is the block under
      [__main__] from the parsed arguments [args] on: the first status
      ([launch]), [run_desktop_agent] on what the machine does at the
      start ([startup], from which [boot_of] makes the set-up, calling
      the constructor of the voice processor), the [except] that prints
      and the [finally] that clears the flag.  [command_processor_turn],
      [update_position_turn] and [update_screenshots_turn] are one turn
      of the loops of the three threads of lines 146-174.
      [transform_ui_elements] and [get_ui_visual_summary] (lines
      119-144) work on JSON values; [list.sort] is a stable insertion
      sort on the indexes that are numbers.

    ** What is proved

    - Extraction: on a reply made of prose and top-level objects the
      result is exactly the decoded objects in order and the text without
      them; for every reply, each object returned is the decoding of a
      brace-delimited span, the spans being disjoint and ordered; a stray
      closing brace makes the next object invisible.
    - Execution: results are a subsequence of the commands, in order; the
      behaviour of every way out of a batch (unknown name, [listen], an
      exception) and of the batching rules ([wait] flushes first, three
      commands or the last command flush, a command without a name drops
      what is pending); later batches still run after the gate is closed.
    - Calls: every call [process_commands] makes is the call of a command
      of its input with the matching name, or a delay.
    - Primitives: the pointer is moved to a pixel of the primary monitor
      whatever integers are asked for; what a parameter that is not a
      number raises; [type_text] returns and restores the clipboard, and
      two calls in a row lose the user's clipboard.
    - Grid: the loop on the counts ends; the cells are disjoint, numbered
      row by row, found by number and by position; the margin the floor
      divisions leave uncovered.
    - Cache: hit and miss of [capture_cursor_area]; the time shared by the
      two pictures; the cells served after a capture.
    - Targeting: a cell number read out of an answer is the value of a
      run of digits of the answer; the cell path sends the pointer to the
      centre of the cell named, inside the screenshot; the fallback sends
      whatever two numbers the answer holds, unclamped.
    - Desktop: with the executor on the real primitives, the pointer
      stays on the primary monitor whatever the commands, unless one is a
      search for an element; a text that could not be typed and an
      element that was not found are both reported as successes.
    - Voice: the invariant of a recording in progress; a burst of speech
      followed by silence queues exactly one recording; a recording that
      ends is never discarded as too short; silence accumulates in the
      buffer.
    - Transcription: every execution keeps the processor well formed
      ([orderly]); what reaches the agent is a subsequence of the
      transcripts of the pool, in the order of submission; a recording
      that is alone is delivered along every execution (liveness, by
      [eventually] over the steps that change something); a future that
      is replaced is never delivered, finished or not; when Whisper
      raises, the indicator of [is_processing] stays on.
    - History: the heap model refines a specification on values; the cut
      keeps the first message and the last 14; the screenshots stay in the
      history; the bound on its length between iterations.
    - Images: the picture is 512 high, as wide as the screen asks within
      a pixel, and the dot lies in it; the six ways a call of
      [convert_to_base64] ends; an encoding that was stored is served for
      half a second while the modification time stands, whatever the
      file holds.
    - Remote: [generate] raises exactly when the prompt is not cached and
      its file cannot be read; a prompt is read once; a search whose
      screenshot cannot be read raises though the screenshot is not
      sent; [str.replace] by the same text is the identity.
    - Overlay: while the window can be written to, its label shows the
      status; once the timer has seen the agent stopped, every
      [update_agent_status] raises.
    - Agent: the model is asked at most [max_iterations] times; when
      nothing fails, an iteration does to the history what [exchange]
      does, so the theorems of [History] hold of the loop; without the
      voice the loop ends within [max_iterations + 1] passes; with a voice
      processor whose indicator stays on it never ends and never asks;
      the poll drops the transcriptions behind the first one it accepts;
      a screenshot that cannot be taken and a prompt that cannot be read
      end the loop with their exception; a window destroyed after ESC
      makes the cleanup raise at its first line, and a first screenshot
      that raises leaves the function before the cleanup: both leave the
      voice processor running.
    - Program: without the voice (not asked for, not importable, Whisper
      missing, the model or the stream failing) the program ends and
      clears its flag; after ESC with the window up it prints the error
      of Tk and ends with the voice processor running; the worker of the
      command queue never runs a command, at whatever point of a run it
      takes its turns; the thread of the pointer does not raise and ends
      at the first reading of a cleared flag; [transform_ui_elements]
      numbers elements without index in their order, lists elements
      with indexes by rising index, leaves no index 0, and what it
      returns can always be summed up by [get_ui_visual_summary]; an
      index it gives can collide with one that was there.
    - Exports: an import of names succeeds exactly when the names are
      bound, and raises for the first that is not; cursor.py loads and
      hands on the functions of cursor_module.py and keyboard_module.py
      and the thresholds of cache_module.py; [from services.cursor
      import *] raises, for five names of [__all__] are bound nowhere;
      three thresholds differ between the two modules that define them.

    ** Modelling conventions, bounds and fuel

    - A Python [str] is a [list ascii] in [Extract] (the bytes of its
      UTF-8 encoding: braces, backslash and ASCII white space never occur
      inside a multi-byte sequence) and a [string] elsewhere.
      [str.strip()] is modelled on the ASCII white space only.
    - A Python [int] is a [Z]; a [float] is a [Q]: no rounding, no NaN, no
      infinity.  The theorems on the grid loop hold for every starting
      pair of counts and so do not depend on rounding.  The width of the
      resized screenshot is computed exactly: where the exact quotient is
      a whole number the floating point product can fall just below it.
    - The only loop that is not a traversal is [while num_rows * num_cols
      < 500] of the grid: [grow] takes fuel, [grow_fuel] is 23, and
      [grow_terminates] shows that 23 iterations are enough from any pair
      of non-negative counts, since [23 * 23 > 500].  [re.findall] of a
      number pattern goes on in what a match leaves: [findall_numbers]
      takes the length of the text plus one as fuel, and
      [findall_numbers_fuel_enough] shows that more changes nothing.
    - The regular expressions are modelled on ASCII: [\d] is [0-9] and
      [\s] the six ASCII blanks; [int(float(s))] is exact.
    - Exceptions are values of [result A]; a [try]/[except] is a [match]
      or [try_catch].
    - Clock readings, the pointer position, the screen size and the
      answers of the remote model are arguments: the theorems hold for
      all of them.
    - Threads are interleavings of atomic steps.  A pass of
      [process_audio_queue] is two steps, so that a worker can finish
      between the submission and the collection; a call of a method by
      the agent is one step.  The pool is the list of the futures it was
      given; that it runs two at a time, oldest first, and that
      [cancel()] only cancels a pending future is the behaviour of
      [concurrent.futures], written into [work], [cancel] and [done].
    - The two loops that need not end have no fuel of their own: an
      execution of the voice processor is a finite list of labels, and
      the loop of the agent runs on a finite list of passes and says
      whether it ended within it ([run_loop] returns [None] when it did
      not).  [silent_agent_ends] shows that [max_iterations + 1] passes
      are enough without the voice; [doomed_voice_stalls_agent] that no
      number is enough with a voice processor that hangs.
    - The threads of main.py beside the loop are modelled a turn at a
      time; they are not interleaved with the passes of [run_loop],
      because [commands_run_by_loop_only] shows that a turn of the
      worker changes nothing at any pass, and the globals the thread of
      the pointer writes are read nowhere.
    - [transform_ui_elements] returns [Ok None] for the lists the model
      does not cover: two elements or more with an index that is not a
      number, where what Python's sort does depends on the comparisons
      it happens to make.
    - A module is the list of its bindings, the latest first; a function
      is known by the module that defines it.
    - [str.lower()] is a parameter of [Agent]; the words of
      [process_voice_input] are the bytes of their UTF-8 encoding.
    - The ESC key and the timer of the status window act at fixed points
      of a pass: before the condition of the loop (first the key, then the
      timer) and, for the key, between the condition and the test of
      [stop_event].  An ESC in the middle of an iteration is the ESC at
      the head of the next pass.
    - Nothing is axiomatised: what the sources call and do not define is a
      [Context] variable of a section, a field of a record or of a class.

    ** Not modelled

    The drawing of the status window; the pynput key listener
    ([start_key_listener]; its handler [on_esc_press] is modelled) and
    the parsing of the command line by argparse; the HTTP call, Whisper,
    sounddevice, the codecs, base64 and every pixel operation, among
    them the drawing of the grid and of the pointer on the screenshot
    and the files save_screenshot_with_grid writes;
    [get_current_screenshot] of find_ui.py, which nothing calls;
    [get_transcription] with [block=True].  Where a modelled component
    calls one of them it is a parameter or a field of the records
    [disk], [outside], [whisper_env] and [startup].  These are calls
    into libraries whose results the program only passes on: there is
    nothing of the program's own left in them to model. *)

From Stdlib Require Export ZArith Lia List Bool.
From Stdlib Require Export Ascii.
From stdpp Require Export prelude strings.

(** ** Hint databases

    [agent] collects the resolution hints of the development, [agent_rw]
    its rewriting rules on lengths. *)

#[export] Set Warnings "-clear-no-such-hyp".

Create HintDb agent discriminated.
Create Rewrite HintDb agent_rw.

#[export] Hint Rewrite @length_app @length_take @length_drop @length_cons
  @length_nil @length_fmap @length_reverse : agent_rw.

(** ** Tactics *)

(** Normalise every length in the goal and the context, then decide. *)
Ltac len := autorewrite with agent_rw in *; simpl in *; try lia.

(** Case analysis on every [if] or [match] scrutinee of the goal, keeping
    the equations. *)
Ltac cases := repeat (case_match; simplify_eq/=; try done).

(** A boolean test [bool_decide P] in the goal or context: split on [P]. *)
Ltac bdestruct :=
  repeat match goal with
    | |- context [bool_decide ?P] => destruct (bool_decide_reflect P)
    | H : context [bool_decide ?P] |- _ => destruct (bool_decide_reflect P)
    end; simpl in *.

(** A closed decidable proposition, by evaluation of its decision. *)
Ltac by_compute := apply (bool_decide_unpack _); vm_compute; exact I.

(** ** Python list idioms *)

Section PyList.
Context {A : Type}.
Implicit Types (l k : list A) (n : nat).

(** [l[-n:]]: the last [n] elements ([n > 0]); the whole list when it is
    shorter. *)
Definition py_last_n n l : list A := drop (length l - n) l.

(** [l[:i] + l[j:]]: the list with the slice [i, j) cut out. *)
Definition cut_span (i j : nat) l : list A := take i l ++ drop j l.

(** [l[a:b]] for [a <= b]. *)
Definition slice (a b : nat) l : list A := take (b - a) (drop a l).

Lemma py_last_n_length n l : length (py_last_n n l) = n `min` length l.
Proof. unfold py_last_n. len. Qed.

Lemma py_last_n_all n l : length l <= n -> py_last_n n l = l.
Proof.
  intros Hn. unfold py_last_n.
  by replace (length l - n) with 0 by lia.
Qed.

Lemma py_last_n_app n l k : length k = n -> py_last_n n (l ++ k) = k.
Proof.
  intros <-. unfold py_last_n. rewrite length_app.
  replace (length l + length k - length k) with (length l) by lia.
  by rewrite drop_app_length.
Qed.

(** An element in front of a list long enough is not among the last
    [n]. *)
Lemma py_last_n_cons n x l :
  n <= length l -> py_last_n n (x :: l) = py_last_n n l.
Proof.
  intros Hn. unfold py_last_n. simpl length.
  by replace (S (length l) - n) with (S (length l - n)) by lia.
Qed.

Lemma py_last_n_suffix n l : py_last_n n l `suffix_of` l.
Proof. apply suffix_drop. Qed.

Lemma last_py_last_n n l : 0 < n -> last (py_last_n n l) = last l.
Proof.
  intros Hn. unfold py_last_n.
  destruct (decide (length l = 0)) as [->%nil_length_inv | Hl]; [done |].
  rewrite !last_lookup, lookup_drop, length_drop. f_equal. lia.
Qed.

Lemma cut_span_length i j l :
  i <= j <= length l -> length (cut_span i j l) = length l - (j - i).
Proof. intros ?. unfold cut_span. len. Qed.

Lemma cut_span_empty i l : cut_span i i l = l.
Proof. apply take_drop. Qed.

Lemma cut_span_app l1 l2 l3 :
  cut_span (length l1) (length l1 + length l2) (l1 ++ l2 ++ l3) = l1 ++ l3.
Proof.
  unfold cut_span. rewrite take_app_length. f_equal.
  by rewrite drop_app_add', ?drop_app_length.
Qed.
Lemma slice_empty a l : slice a a l = [].
Proof. unfold slice. by rewrite Nat.sub_diag. Qed.

Lemma slice_length a b l : b <= length l -> length (slice a b l) = b - a.
Proof. intros ?. unfold slice. len. Qed.

(** Extending a slice by the element at its end. *)
Lemma slice_snoc a i l x :
  a <= i -> l !! i = Some x -> slice a (S i) l = slice a i l ++ [x].
Proof.
  intros Ha Hx. unfold slice.
  replace (S i - a) with (S (i - a)) by lia.
  apply take_S_r. rewrite lookup_drop. by replace (a + (i - a)) with i by lia.
Qed.

Lemma slice_app l1 l2 l3 :
  slice (length l1) (length l1 + length l2) (l1 ++ l2 ++ l3) = l2.
Proof.
  unfold slice. rewrite drop_app_length.
  replace (length l1 + length l2 - length l1) with (length l2) by lia.
  by rewrite take_app_length.
Qed.

(** The list from position [i] on starts with its element at [i]. *)
Lemma drop_cons_inv i l x k :
  drop i l = x :: k -> l !! i = Some x /\ drop (S i) l = k /\ i < length l.
Proof.
  intros Hd. split_and!.
  - by rewrite <- (Nat.add_0_r i), <- lookup_drop, Hd.
  - replace (S i) with (i + 1) by lia. by rewrite <- drop_drop, Hd.
  - apply (f_equal length) in Hd. rewrite length_drop in Hd. simpl in Hd. lia.
Qed.

Lemma cut_span_length_le i j l : i <= j -> length (cut_span i j l) <= length l.
Proof. intros ?. unfold cut_span. len. Qed.
End PyList.

(** ** Clamping: [max(lo, min(x, hi))] *)

Definition clamp (lo hi x : Z) : Z := Z.max lo (Z.min x hi).

Lemma clamp_bounds lo hi x : (lo <= hi)%Z -> (lo <= clamp lo hi x <= hi)%Z.
Proof. unfold clamp. lia. Qed.

Lemma clamp_id lo hi x : (lo <= x <= hi)%Z -> clamp lo hi x = x.
Proof. unfold clamp. lia. Qed.

Lemma clamp_idem lo hi x :
  (lo <= hi)%Z -> clamp lo hi (clamp lo hi x) = clamp lo hi x.
Proof. unfold clamp. lia. Qed.

Lemma clamp_mono lo hi x y :
  (x <= y)%Z -> (clamp lo hi x <= clamp lo hi y)%Z.
Proof. unfold clamp. lia. Qed.

(** ** Ranges: [range(n)] is [seqZ 0 n] *)

Lemma seqZ_succ m n : (0 <= n)%Z -> seqZ m (Z.succ n) = seqZ m n ++ [(m + n)%Z].
Proof.
  intros Hn. unfold Z.succ. rewrite seqZ_app by lia.
  by rewrite (seqZ_cons _ 1), (seqZ_nil _ (Z.pred 1)) by lia.
Qed.

(** Two functions that agree on a range have the same image of it. *)
Lemma seqZ_fmap_ext {A} (f g : Z -> A) m n :
  (forall k, (m <= k < m + n)%Z -> f k = g k) -> f <$> seqZ m n = g <$> seqZ m n.
Proof. intros Hfg. by apply Forall_fmap_ext, Forall_seqZ. Qed.

Lemma seqZ_fmap_lookup {A} (f : Z -> A) n (k : Z) :
  (0 <= k < n)%Z -> (f <$> seqZ 0 n) !! Z.to_nat k = Some (f k).
Proof.
  intros Hk. rewrite list_lookup_fmap, lookup_seqZ_lt by lia. simpl.
  do 2 f_equal. lia.
Qed.

(** ** Row-major positions *)

Lemma div_row_col row col n : (0 <= col < n)%Z -> ((row * n + col) / n)%Z = row.
Proof. intros ?. symmetry. apply (Z.div_unique _ _ _ col); lia. Qed.

Lemma mod_row_col row col n :
  (0 <= col < n)%Z -> ((row * n + col) mod n)%Z = col.
Proof. intros ?. symmetry. apply (Z.mod_unique _ _ row); lia. Qed.

(** A position is its row times the width plus its column. *)
Lemma row_col_eq k n : (0 < n)%Z -> (k = k / n * n + k mod n)%Z.
Proof. intros ?. rewrite Z.mul_comm. apply Z.div_mod. lia. Qed.

(** [lo <= p < lo + size] says in which cell of size [size] [p] lies. *)
Lemma div_cell p i size :
  (0 < size)%Z -> (i * size <= p < i * size + size)%Z <-> (p / size)%Z = i.
Proof.
  intros ?. split.
  - intros ?. symmetry. apply (Z.div_unique _ _ _ (p - i * size)); lia.
  - intros <-. pose proof (Z.mod_pos_bound p size).
    pose proof (row_col_eq p size). lia.
Qed.

(** ** Progress *)

Section Eventually.
Context {St : Type} (R : relation St).

(** Along every sequence of steps of [R] from [s], [P] comes to hold: it
    holds now, or a step can be made and [P] comes to hold after every
    step that can be made. *)
Inductive eventually (P : St -> Prop) : St -> Prop :=
| eventually_now s : P s -> eventually P s
| eventually_step s :
    (exists s', R s s') -> (forall s', R s s' -> eventually P s') ->
    eventually P s.

Lemma eventually_mono (P Q : St -> Prop) s :
  (forall s, P s -> Q s) -> eventually P s -> eventually Q s.
Proof.
  intros HPQ. induction 1 as [s HP | s Hex _ IH];
    [apply eventually_now | apply eventually_step]; auto.
Qed.

Lemma eventually_trans (P Q : St -> Prop) s :
  eventually P s -> (forall s, P s -> eventually Q s) -> eventually Q s.
Proof.
  intros HP HPQ. induction HP as [s HP | s Hex _ IH]; [by apply HPQ |].
  by apply eventually_step.
Qed.

(** What comes to hold on every way is reached on some way. *)
Lemma eventually_reaches (P : St -> Prop) s :
  eventually P s -> exists s', rtc R s s' /\ P s'.
Proof.
  induction 1 as [s HP | s [s1 Hs1] _ IH]; [by exists s |].
  destruct (IH s1 Hs1) as (s' & Hrtc & HP). exists s'. split; [| done].
  by eapply rtc_l.
Qed.

End Eventually.

#[export] Hint Resolve clamp_bounds clamp_mono : agent.
#[export] Hint Rewrite @py_last_n_length : agent_rw.
