(* ===== verification/PyValue.v ===== *)
(** * PyValue: the Python values the agent manipulates

    What [json.loads] returns and what the sources do with it: subscripting
    ([d[k]], [d.get(k, default)]), equality ([==], [in]), truth value,
    [str()] and [repr()], and the exceptions those operations raise.  The
    executor (src/services/execute_funcs.py) catches [KeyError] apart from
    every other [Exception], so [exn] keeps the two apart. *)

From S2P Require Import Prelude.
From Stdlib Require Import QArith.
From stdpp Require Import pretty.
#[local] Close Scope Q_scope.
#[local] Open Scope string_scope.

(** ** Values *)

#[local] Unset Elimination Schemes.
#[warnings="-register-all"]
Inductive json : Type :=
| JNull
| JBool (b : bool)
| JInt (n : Z)
| JFloat (q : Q)
| JStr (s : string)
| JArr (items : list json)
| JObj (fields : list (string * json)).
#[local] Set Elimination Schemes.

(** A Python [str]: the bytes of its UTF-8 encoding. *)
Abbreviation text := (list ascii).

Definition text_of (s : string) : text := String.list_ascii_of_string s.

(** ** Exceptions *)

(** The interpreter errors the modelled code can provoke, by the site that
    raises them.  Their message texts are Python's, see [PyFormat]. *)
Inductive pyerr : Type :=
| NotSubscriptable (v : json) (k : string)   (* [v[k]], [v] not a dict *)
| NoAttribute (v : json) (attr : string)     (* [v.get], [v] not a dict *)
| NotIterable (v : json)                     (* [f( *v)], ['+'.join(v)] *)
| BadJoinItem (i : nat) (v : json)           (* [sep.join] on a non-str item *)
| NotOrdered (a b : json)                    (* [a < b] without an order *)
| BadOperand (op : string) (a b : json)      (* [a + b] on unsupported types *)
| BadArgument (f : string) (v : json).       (* [f(v)], [v] of a type [f] refuses *)

Inductive exn : Type :=
| KeyError (k : string)
| Exception (message : string).

Inductive result (A : Type) : Type :=
| Ok (a : A)
| Raise (e : exn).
Arguments Ok {A} a.
Arguments Raise {A} e.

Definition bind {A B} (m : result A) (k : A -> result B) : result B :=
  match m with Ok a => k a | Raise e => Raise e end.

(** The computation did not raise. *)
Definition returned {A} (r : result A) : Prop :=
  match r with Ok _ => True | Raise _ => False end.

Declare Scope py_scope.
Delimit Scope py_scope with py.
Notation "x <- m ;; k" := (bind m (fun x => k))
  (at level 100, m at next level, right associativity) : py_scope.
#[local] Open Scope py_scope.

(** What Python computes and the sources only call: the text of a float,
    the [repr] of a string and the message of an interpreter error. *)
Class PyFormat : Type := {
  float_str : Q -> string;
  str_repr : string -> string;
  err_text : pyerr -> string;
}.

(** A rendering for examples: a float as numerator/denominator, a string
    between single quotes, an error by the name of its class. *)
Definition demo_format : PyFormat := {|
  float_str q := pretty (Qnum q) +:+ "/" +:+ pretty (Zpos (Qden q));
  str_repr s := "'" +:+ s +:+ "'";
  err_text e :=
    match e with
    | NotSubscriptable _ _ => "TypeError"
    | NoAttribute _ _ => "AttributeError"
    | NotIterable _ => "TypeError"
    | BadJoinItem _ _ => "TypeError"
    | NotOrdered _ _ => "TypeError"
    | BadOperand _ _ _ => "TypeError"
    | BadArgument _ _ => "TypeError"
    end;
|}.

(** The command object [{"command": name, "params": {...}}]. *)
Definition cmd (name : string) (params : list (string * json)) : json :=
  JObj [("command", JStr name); ("params", JObj params)].

(** ** Dictionaries *)

Section Assoc.
Context {V : Type}.

(** [d.get(k)] on an insertion-ordered dictionary. *)
Fixpoint assoc (k : string) (d : list (string * V)) : option V :=
  match d with
  | [] => None
  | (k', v) :: d' => if decide (k = k') then Some v else assoc k d'
  end.

Lemma assoc_Some k d v : assoc k d = Some v -> (k, v) ∈ d.
Proof.
  induction d as [| [k' v'] d IH]; simpl; [done |].
  case_decide; intros; simplify_eq; [left | right; auto].
Qed.

Lemma assoc_None k d : assoc k d = None <-> k ∉ d.*1.
Proof.
  induction d as [| [k' v'] d IH]; simpl.
  - split; [intros _ Hin; inversion Hin | done].
  - rewrite not_elem_of_cons, <- IH. case_decide; [split|]; intuition congruence.
Qed.

Lemma assoc_NoDup k v d : NoDup d.*1 -> (k, v) ∈ d -> assoc k d = Some v.
Proof.
  induction d as [| [k' v'] d IH]; simpl; [by inversion 2 |].
  intros [Hk Hd]%NoDup_cons [? | Hin]%elem_of_cons; simplify_eq.
  - by rewrite decide_True.
  - rewrite decide_False; [auto |].
    intros ->. apply Hk, list_elem_of_fmap. by exists (k', v).
Qed.
End Assoc.

(** ** Induction on values *)

Section JsonInd.
Context (P : json -> Prop).
Context (Hnull : P JNull) (Hbool : forall b, P (JBool b))
  (Hint : forall n, P (JInt n)) (Hfloat : forall q, P (JFloat q))
  (Hstr : forall s, P (JStr s))
  (Harr : forall l, Forall P l -> P (JArr l))
  (Hobj : forall d, Forall (fun kv => P kv.2) d -> P (JObj d)).

Fixpoint json_ind (v : json) : P v :=
  match v with
  | JNull => Hnull
  | JBool b => Hbool b
  | JInt n => Hint n
  | JFloat q => Hfloat q
  | JStr s => Hstr s
  | JArr l =>
      Harr l ((fix go l : Forall P l :=
                 match l with
                 | [] => Forall_nil_2 P
                 | x :: l' => Forall_cons_2 P x l' (json_ind x) (go l')
                 end) l)
  | JObj d =>
      Hobj d ((fix go d : Forall (fun kv => P kv.2) d :=
                 match d with
                 | [] => Forall_nil_2 _
                 | kv :: d' => Forall_cons_2 _ kv d' (json_ind kv.2) (go d')
                 end) d)
  end.
End JsonInd.

(** ** Numbers, truth, equality *)

(** The number a value denotes in arithmetic and comparisons: [bool] is a
    subclass of [int] in Python. *)
Definition num_of (v : json) : option Q :=
  match v with
  | JBool b => Some (inject_Z (if b then 1 else 0))
  | JInt n => Some (inject_Z n)
  | JFloat q => Some q
  | _ => None
  end.

(** [bool(v)]: what [if v:] tests. *)
Definition py_truthy (v : json) : bool :=
  match v with
  | JNull => false
  | JBool b => b
  | JInt n => negb (n =? 0)%Z
  | JFloat q => negb (Qeq_bool q 0)
  | JStr s => negb (bool_decide (s = ""))
  | JArr l => negb (bool_decide (l = []))
  | JObj d => negb (bool_decide (d = []))
  end.

(** [a == b].  Numbers compare by value across [bool], [int] and [float];
    lists element-wise; dictionaries as maps, whatever the insertion
    order. *)
Fixpoint py_eq (a b : json) {struct a} : bool :=
  match a, b with
  | JNull, JNull => true
  | JStr s, JStr t => bool_decide (s = t)
  | JArr l, JArr m =>
      (fix go (l m : list json) : bool :=
         match l, m with
         | [], [] => true
         | x :: l', y :: m' => py_eq x y && go l' m'
         | _, _ => false
         end) l m
  | JObj d, JObj e =>
      bool_decide (length d = length e) &&
      (fix go (d : list (string * json)) : bool :=
         match d with
         | [] => true
         | (k, v) :: d' =>
             match assoc k e with
             | Some w => py_eq v w
             | None => false
             end && go d'
         end) d
  | _, _ =>
      match num_of a, num_of b with
      | Some x, Some y => Qeq_bool x y
      | _, _ => false
      end
  end.

(** [v in l] for a list [l] of values. *)
Definition py_in (v : json) (l : list json) : bool :=
  existsb (py_eq v) l.

(** Every dictionary of the value has distinct keys: what [json.loads]
    builds. *)
Fixpoint wf_json (v : json) : bool :=
  match v with
  | JArr l => forallb wf_json l
  | JObj d =>
      bool_decide (NoDup d.*1) &&
      (fix go (d : list (string * json)) : bool :=
         match d with [] => true | kv :: d' => wf_json kv.2 && go d' end) d
  | _ => true
  end.

(** ** Subscripting *)

Section Subscript.
Context `{PyFormat}.

(** [v[k]]: [KeyError] on a dict without the key, [TypeError] on anything
    that is not a dict. *)
Definition subscript (v : json) (k : string) : result json :=
  match v with
  | JObj d =>
      match assoc k d with
      | Some w => Ok w
      | None => Raise (KeyError k)
      end
  | _ => Raise (Exception (err_text (NotSubscriptable v k)))
  end.

(** [v.get(k, default)]: [AttributeError] on anything that is not a
    dict. *)
Definition dict_get (v : json) (k : string) (default : json) : result json :=
  match v with
  | JObj d => Ok (from_option id default (assoc k d))
  | _ => Raise (Exception (err_text (NoAttribute v "get")))
  end.

(** [command['params'][k]] *)
Definition param (command : json) (k : string) : result json :=
  params <- subscript command "params" ;; subscript params k.

(** [command['params'].get(k, default)] *)
Definition param_get (command : json) (k : string) (default : json)
  : result json :=
  params <- subscript command "params" ;; dict_get params k default.

(** ** Text of a value *)

Definition join (sep : string) (l : list string) : string :=
  String.concat sep l.

(** [repr(v)] *)
Fixpoint py_repr (v : json) : string :=
  match v with
  | JNull => "None"
  | JBool b => if b then "True" else "False"
  | JInt n => pretty n
  | JFloat q => float_str q
  | JStr s => str_repr s
  | JArr l => "[" +:+ join ", " (map py_repr l) +:+ "]"
  | JObj d =>
      "{" +:+ join ", " (map (fun kv => str_repr kv.1 +:+ ": " +:+ py_repr kv.2) d)
          +:+ "}"
  end.

(** [str(v)], which is what an f-string interpolates. *)
Definition py_str (v : json) : string :=
  match v with
  | JStr s => s
  | _ => py_repr v
  end.

(** [str(e)] for a caught exception [e]: a [KeyError] prints the [repr] of
    its key. *)
Definition exn_str (e : exn) : string :=
  match e with
  | KeyError k => str_repr k
  | Exception m => m
  end.

(** The strings [sep.join(v)] iterates over: the items of a list, the
    characters of a string, the keys of a dict. *)
Definition join_items (v : json) : result (list json) :=
  match v with
  | JArr l => Ok l
  | JStr s => Ok (map (fun c => JStr (String c "")) (String.list_ascii_of_string s))
  | JObj d => Ok (map (fun kv => JStr kv.1) d)
  | _ => Raise (Exception (err_text (NotIterable v)))
  end.

Fixpoint join_strs (i : nat) (l : list json) : result (list string) :=
  match l with
  | [] => Ok []
  | JStr s :: l' => r <- join_strs (S i) l' ;; Ok (s :: r)
  | v :: _ => Raise (Exception (err_text (BadJoinItem i v)))
  end.

(** [sep.join(v)] *)
Definition py_join (sep : string) (v : json) : result string :=
  items <- join_items v ;; strs <- join_strs 0 items ;; Ok (join sep strs).

(** ** Arithmetic and order on numbers

    The operations below are the ones the sources apply with a number on
    one side at least ([min(x, screen_width - 1)], [current_x + dx]); a
    value that is not a number on the other side raises [TypeError].  A
    [float] is a rational here: the model has no rounding, no infinity and
    no NaN. *)

(** The integer a value of type [int] or [bool] is. *)
Definition int_of (v : json) : option Z :=
  match v with
  | JBool b => Some (if b then 1 else 0)%Z
  | JInt n => Some n
  | _ => None
  end.

(** [a < b] *)
Definition py_lt (a b : json) : result bool :=
  match num_of a, num_of b with
  | Some x, Some y => Ok (negb (Qle_bool y x))
  | _, _ => Raise (Exception (err_text (NotOrdered a b)))
  end.

(** [min(a, b)]: [b] when [b < a], else [a]. *)
Definition py_min (a b : json) : result json :=
  lt <- py_lt b a ;; Ok (if lt : bool then b else a).

(** [max(a, b)]: [b] when [b > a], else [a]. *)
Definition py_max (a b : json) : result json :=
  gt <- py_lt a b ;; Ok (if gt : bool then b else a).

(** [a + b] *)
Definition py_add (a b : json) : result json :=
  match int_of a, int_of b with
  | Some m, Some n => Ok (JInt (m + n))
  | _, _ =>
      match num_of a, num_of b with
      | Some x, Some y => Ok (JFloat (Qred (x + y)))
      | _, _ => Raise (Exception (err_text (BadOperand "+" a b)))
      end
  end.

(** [int(v)] on a number: towards zero. *)
Definition py_int (v : json) : option Z :=
  match num_of v with
  | Some q => Some (Z.quot (Qnum q) (Zpos (Qden q)))
  | None => None
  end.

End Subscript.

(** ** Lemmas *)

Lemma bind_Ok {A B} (m : result A) (k : A -> result B) b :
  bind m k = Ok b <-> exists a, m = Ok a /\ k a = Ok b.
Proof. destruct m; simpl; naive_solver. Qed.

Lemma bind_Raise {A B} (m : result A) (k : A -> result B) e :
  bind m k = Raise e <-> m = Raise e \/ exists a, m = Ok a /\ k a = Raise e.
Proof. destruct m; simpl; naive_solver. Qed.

Section SubscriptLemmas.
Context `{PyFormat}.

Lemma subscript_Ok v k w :
  subscript v k = Ok w <-> exists d, v = JObj d /\ assoc k d = Some w.
Proof.
  destruct v; simpl; try naive_solver.
  destruct (assoc k fields) eqn:E; naive_solver.
Qed.

Lemma subscript_KeyError v k k' :
  subscript v k = Raise (KeyError k') <->
  k' = k /\ exists d, v = JObj d /\ assoc k d = None.
Proof.
  destruct v; simpl; try naive_solver.
  destruct (assoc k fields) eqn:E; naive_solver.
Qed.

Lemma dict_get_Ok v k dflt w :
  dict_get v k dflt = Ok w <->
  exists d, v = JObj d /\ w = from_option id dflt (assoc k d).
Proof. destruct v; simpl; naive_solver. Qed.

(** [d.get] never raises [KeyError]. *)
Lemma dict_get_no_KeyError v k dflt k' :
  dict_get v k dflt <> Raise (KeyError k').
Proof. by destruct v. Qed.

(** A [KeyError] out of [command['params'][k]] names the missing key:
    ["params"] or [k]. *)
Lemma param_KeyError command k k' :
  param command k = Raise (KeyError k') -> k' = "params" \/ k' = k.
Proof.
  unfold param. intros [E | (p & _ & E)]%bind_Raise.
  - apply subscript_KeyError in E. naive_solver.
  - apply subscript_KeyError in E. naive_solver.
Qed.

Lemma param_get_KeyError command k dflt k' :
  param_get command k dflt = Raise (KeyError k') -> k' = "params".
Proof.
  unfold param_get. intros [E | (p & _ & E)]%bind_Raise.
  - apply subscript_KeyError in E. naive_solver.
  - by apply dict_get_no_KeyError in E.
Qed.
(** *** Numbers *)

Lemma int_of_num_of v n : int_of v = Some n -> num_of v = Some (inject_Z n).
Proof. destruct v as [| [] | | | | |]; naive_solver. Qed.

Lemma py_lt_num a b x y :
  num_of a = Some x -> num_of b = Some y ->
  py_lt a b = Ok (negb (Qle_bool y x)).
Proof. unfold py_lt. by intros -> ->. Qed.

(** An order test raises exactly when a side is not a number. *)
Lemma py_lt_Raise a b :
  (exists e, py_lt a b = Raise e) <-> num_of a = None \/ num_of b = None.
Proof.
  unfold py_lt. destruct (num_of a), (num_of b); naive_solver.
Qed.

Lemma py_min_num a b x y :
  num_of a = Some x -> num_of b = Some y ->
  exists v q, py_min a b = Ok v /\ num_of v = Some q /\
    (q <= x)%Q /\ (q <= y)%Q /\ (v = a \/ v = b).
Proof.
  intros Ha Hb. unfold py_min. rewrite (py_lt_num b a y x) by done. simpl.
  destruct (Qle_bool x y) eqn:Hle; simpl.
  - apply Qle_bool_iff in Hle. exists a, x. split_and!; auto. apply Qle_refl.
  - exists b, y. split_and!; auto; [| apply Qle_refl].
    apply Qlt_le_weak, Qnot_le_lt. intros Hxy.
    apply Qle_bool_iff in Hxy. congruence.
Qed.

Lemma py_max_num a b x y :
  num_of a = Some x -> num_of b = Some y ->
  exists v q, py_max a b = Ok v /\ num_of v = Some q /\
    (x <= q)%Q /\ (y <= q)%Q /\ (v = a \/ v = b).
Proof.
  intros Ha Hb. unfold py_max. rewrite (py_lt_num a b x y) by done. simpl.
  destruct (Qle_bool y x) eqn:Hle; simpl.
  - apply Qle_bool_iff in Hle. exists a, x. split_and!; auto. apply Qle_refl.
  - exists b, y. split_and!; auto; [| apply Qle_refl].
    apply Qlt_le_weak, Qnot_le_lt. intros Hxy.
    apply Qle_bool_iff in Hxy. congruence.
Qed.

Lemma py_min_int m n : py_min (JInt m) (JInt n) = Ok (JInt (Z.min m n)).
Proof.
  unfold py_min, py_lt. simpl. unfold Qle_bool. simpl. rewrite !Z.mul_1_r.
  destruct (Z.leb_spec m n); simpl; f_equal; f_equal; lia.
Qed.

Lemma py_max_int m n : py_max (JInt m) (JInt n) = Ok (JInt (Z.max m n)).
Proof.
  unfold py_max, py_lt. simpl. unfold Qle_bool. simpl. rewrite !Z.mul_1_r.
  destruct (Z.leb_spec n m); simpl; f_equal; f_equal; lia.
Qed.

Lemma py_add_int m n : py_add (JInt m) (JInt n) = Ok (JInt (m + n)).
Proof. done. Qed.

(** [int()] of a number between 0 and an integer lies there too. *)
Lemma py_int_between v q hi :
  num_of v = Some q -> (0 <= q)%Q -> (q <= inject_Z hi)%Q ->
  exists n, py_int v = Some n /\ (0 <= n <= hi)%Z.
Proof.
  intros Hv Hlo Hhi. unfold py_int. rewrite Hv. eexists; split; [done |].
  destruct q as [n d]. unfold Qle in *. simpl in *.
  rewrite Z.quot_div_nonneg by lia. split.
  - apply Z.div_pos; lia.
  - apply Z.div_le_upper_bound; lia.
Qed.

Lemma py_int_int n : py_int (JInt n) = Some n.
Proof. unfold py_int. simpl. by rewrite Z.quot_1_r. Qed.

End SubscriptLemmas.

Lemma subscript_cmd `{PyFormat} name params :
  subscript (cmd name params) "command" = Ok (JStr name).
Proof. reflexivity. Qed.

(** ** Equality is an equivalence where it should be *)

Lemma py_eq_str s t : py_eq (JStr s) (JStr t) = bool_decide (s = t).
Proof. done. Qed.

(** Comparing with a string literal: only that string is equal to it. *)
Lemma py_eq_JStr_r v s : py_eq v (JStr s) = true <-> v = JStr s.
Proof.
  destruct v; simpl; try naive_solver.
  rewrite bool_decide_eq_true. naive_solver.
Qed.

Lemma py_eq_num a b x y :
  num_of a = Some x -> num_of b = Some y -> py_eq a b = Qeq_bool x y.
Proof. destruct a, b; simpl; intros; by simplify_eq. Qed.

