(* ===== verification/Exports.v ===== *)
(** * Exports: the names the modules of services bind

    src/services/cursor.py, which binds nothing of its own: it imports
    from cache_module.py, cursor_module.py and keyboard_module.py and
    lists in [__all__] what [from services.cursor import *] is to give.
    src/services/ui_detection_module.py and lines 17-23 of
    cache_module.py, the two sets of thresholds.  The import lines of
    main.py, execute_funcs.py, screenshot_module.py and find_ui.py that
    take names from these modules.

    A module is the dictionary of its attributes, written as the list of
    its bindings with the latest first, and its [__all__] when it has
    one.  What a function does is in the files of
    its module; here a function is known by the module that defines it.
    What [from M import a, b] and [from M import *] do is Python's, and
    written out. *)

From S2P Require Import Prelude PyValue.
#[local] Open Scope string_scope.
#[local] Open Scope list_scope.
#[local] Open Scope py_scope.

(** ** Modules *)

(** What a name is bound to. *)
Inductive value : Type :=
| Library (name : string)         (* a module or a function that was imported *)
| Callable (module_name : string) (* a function, by the module of its [def] *)
| Object                          (* a dictionary, a lock *)
| Size (a b : Z).                 (* a pair of numbers *)

#[export] Instance value_eq_dec : EqDecision value.
Proof. solve_decision. Defined.

(** The names that are bound, the latest binding first: [assoc] finds
    what a name is bound to. *)
Abbreviation namespace := (list (string * value)).

Record module : Type := Module {
  attrs : namespace;
  all : option (list string);     (* [__all__] *)
}.

(** The statements of a module bind their names in turn. *)
Definition binds (l : list (string * value)) (ns : namespace) : namespace :=
  foldl (fun ns kv => kv :: ns) ns l.

Definition defs (module_name : string) (names : list string)
  : list (string * value) :=
  (fun n => (n, Callable module_name)) <$> names.

(** ** Imports *)

Definition quoted (s : string) : string := "'" +:+ s +:+ "'".

(** [from module_name import names], in a module that has bound [ns]:
    the first name that is no attribute of the module raises
    [ImportError]. *)
Fixpoint import_from (module_name : string) (m : module) (names : list string)
  (ns : namespace) : result (namespace) :=
  match names with
  | [] => Ok ns
  | n :: names =>
      match assoc n (attrs m) with
      | Some v => import_from module_name m names ((n, v) :: ns)
      | None =>
          Raise (Exception ("cannot import name " +:+ quoted n +:+ " from "
                            +:+ quoted module_name))
      end
  end.

(** The names of [__all__] are looked up one by one; the first that is
    no attribute raises [AttributeError]. *)
Fixpoint import_listed (module_name : string) (m : module) (names : list string)
  (ns : namespace) : result (namespace) :=
  match names with
  | [] => Ok ns
  | n :: names =>
      match assoc n (attrs m) with
      | Some v => import_listed module_name m names ((n, v) :: ns)
      | None =>
          Raise (Exception ("module " +:+ quoted module_name
                            +:+ " has no attribute " +:+ quoted n))
      end
  end.

Definition public (n : string) : bool :=
  match n with String "_" _ => false | _ => true end.

(** [from module_name import *]: the names of [__all__], or without it
    every name that does not begin with an underscore. *)
Definition import_star (module_name : string) (m : module)
  (ns : namespace) : result (namespace) :=
  match all m with
  | Some names => import_listed module_name m names ns
  | None => Ok (filter (fun kv => public kv.1 = true) (attrs m) ++ ns)
  end.

(** ** The modules of services *)

(** cache_module.py *)
Definition cache_module : module :=
  {| attrs :=
       binds [("threading", Library "threading"); ("time", Library "time");
              ("_screenshot_cache", Object); ("_cache_lock", Object);
              ("BUTTON_MIN_SIZE", Size 30 15); ("BUTTON_MAX_SIZE", Size 300 100);
              ("TEXTBOX_MIN_SIZE", Size 100 20); ("TEXTBOX_MAX_SIZE", Size 800 50);
              ("ICON_SIZE_RANGE", Size 16 64); ("MENU_MIN_SIZE", Size 100 200)] [];
     all := None |}.

(** ui_detection_module.py *)
Definition ui_detection_module : module :=
  {| attrs :=
       binds [("np", Library "numpy");
              ("BUTTON_MIN_SIZE", Size 50 20); ("BUTTON_MAX_SIZE", Size 300 100);
              ("TEXTBOX_MIN_SIZE", Size 100 20); ("TEXTBOX_MAX_SIZE", Size 500 200);
              ("ICON_SIZE_RANGE", Size 16 64); ("MENU_MIN_SIZE", Size 100 150)] [];
     all := None |}.

(** cursor_module.py *)
Definition cursor_module : module :=
  {| attrs :=
       binds ([("pyautogui", Library "pyautogui");
               ("get_monitors", Library "screeninfo.get_monitors")]
              ++ defs "services.cursor_module"
                   ["get_cursor_position"; "get_screen_dimensions";
                    "move_cursor_absolute"; "move_cursor_relative";
                    "click_mouse_button"; "double_click"; "drag_to";
                    "mouse_down"; "mouse_up"; "scroll"]) [];
     all := None |}.

(** keyboard_module.py *)
Definition keyboard_module : module :=
  {| attrs :=
       binds ([("pyautogui", Library "pyautogui");
               ("pyperclip", Library "pyperclip");
               ("threading", Library "threading"); ("time", Library "time")]
              ++ defs "services.keyboard_module"
                   ["press_key"; "press_hotkey"; "type_text"]) [];
     all := None |}.

(** Lines 33-59 of cursor.py. *)
Definition cursor_all : list string :=
  ["get_cursor_position"; "get_screen_dimensions"; "move_cursor_absolute";
   "move_cursor_relative"; "move_cursor_to_element";
   "move_cursor_to_element_by_index"; "click_mouse_button"; "double_click";
   "drag_to"; "mouse_down"; "mouse_up"; "scroll";
   "press_key"; "press_hotkey"; "type_text";
   "capture_cursor_area"; "save_screenshot";
   "find_all_ui_elements"].

(** cursor.py: what loading the module gives. *)
Definition cursor_py : result module :=
  ns <- import_from "services.cache_module" cache_module
          ["_screenshot_cache"; "_cache_lock"; "BUTTON_MIN_SIZE";
           "BUTTON_MAX_SIZE"; "TEXTBOX_MIN_SIZE"; "TEXTBOX_MAX_SIZE";
           "ICON_SIZE_RANGE"; "MENU_MIN_SIZE"] [] ;;
  ns <- import_from "services.cursor_module" cursor_module
          ["get_cursor_position"; "get_screen_dimensions";
           "move_cursor_absolute"; "move_cursor_relative";
           "click_mouse_button"; "double_click"; "drag_to"; "mouse_down";
           "mouse_up"; "scroll"] ns ;;
  ns <- import_from "services.keyboard_module" keyboard_module
          ["press_key"; "press_hotkey"; "type_text"] ns ;;
  Ok {| attrs := ns; all := Some cursor_all |}.

(** ** The imports from these modules *)

(** Line 5 of main.py. *)
Definition main_imports : result (namespace) :=
  m <- cursor_py ;;
  import_from "services.cursor" m
    ["get_cursor_position"; "get_screen_dimensions"; "press_hotkey"] [].

(** Lines 6-19 of execute_funcs.py. *)
Definition execute_funcs_imports : result (namespace) :=
  m <- cursor_py ;;
  import_from "services.cursor" m
    ["move_cursor_absolute"; "move_cursor_relative"; "click_mouse_button";
     "press_key"; "double_click"; "drag_to"; "mouse_down"; "mouse_up";
     "press_hotkey"; "type_text"; "scroll"; "get_cursor_position"] [].

(** Lines 9-10 of screenshot_module.py. *)
Definition screenshot_module_imports : result (namespace) :=
  ns <- import_from "services.cache_module" cache_module
          ["_screenshot_cache"; "_cache_lock"] [] ;;
  import_from "services.cursor_module" cursor_module
    ["get_cursor_position"; "get_screen_dimensions"] ns.

(** Line 11 of find_ui.py. *)
Definition find_ui_imports : result (namespace) :=
  import_from "services.cache_module" cache_module
    ["_screenshot_cache"; "_cache_lock"] [].

(** * Properties *)

Section Imports.
Context (module_name : string) (m : module).

(** An import of names succeeds when all of them are attributes, and
    binds each to what the module has. *)
Lemma import_from_Ok names ns :
  Forall (fun n => is_Some (assoc n (attrs m))) names ->
  exists ns',
    import_from module_name m names ns = Ok ns' /\
    (forall n, n ∈ names -> assoc n ns' = assoc n (attrs m)) /\
    (forall n, n ∉ names -> assoc n ns' = assoc n ns).
Proof.
  intros Hn. revert ns. induction Hn as [| n l [v Hv] _ IH]; intros ns; simpl.
  { exists ns. split_and!; [done | by intros ? ?%elem_of_nil | done]. }
  rewrite Hv. destruct (IH ((n, v) :: ns)) as (ns' & -> & Hin & Hout).
  exists ns'. split; [done |]. split.
  - intros n' [-> | ?]%elem_of_cons; [| by apply Hin].
    destruct (decide (n ∈ l)); [by apply Hin |].
    rewrite Hout by done. simpl. by rewrite decide_True.
  - intros n' [? ?]%not_elem_of_cons. rewrite Hout by done. simpl.
    by rewrite decide_False.
Qed.

(** It raises for the first name that is none. *)
Lemma import_from_Raise found n names ns :
  Forall (fun n => is_Some (assoc n (attrs m))) found -> assoc n (attrs m) = None ->
  import_from module_name m (found ++ n :: names) ns
  = Raise (Exception ("cannot import name " +:+ quoted n +:+ " from "
                      +:+ quoted module_name)).
Proof.
  intros Hf Hn. revert ns. induction Hf as [| n' l [v Hv] _ IH]; intros ns; simpl.
  - by rewrite Hn.
  - by rewrite Hv.
Qed.

(** With [__all__], a star import raises for the first name of it that
    is no attribute. *)
Lemma import_star_Raise found n names ns :
  all m = Some (found ++ n :: names) ->
  Forall (fun n => is_Some (assoc n (attrs m))) found -> assoc n (attrs m) = None ->
  import_star module_name m ns
  = Raise (Exception ("module " +:+ quoted module_name
                      +:+ " has no attribute " +:+ quoted n)).
Proof.
  intros Ha Hf Hn. unfold import_star. rewrite Ha. clear Ha. revert ns.
  induction Hf as [| n' l [v Hv] _ IH]; intros ns; simpl.
  - by rewrite Hn.
  - by rewrite Hv.
Qed.

(** Without [__all__] a star import does not raise, and gives no name
    that begins with an underscore. *)
Lemma import_star_public ns n :
  all m = None -> public n = false ->
  exists ns', import_star module_name m ns = Ok ns' /\ assoc n ns' = assoc n ns.
Proof.
  intros Ha Hn. unfold import_star. rewrite Ha. eexists. split; [done |].
  induction (attrs m) as [| [k v] l IH]; [done |].
  rewrite filter_cons. case_decide as Hk; simpl in *; [| done].
  rewrite decide_False; [done |]. intros ->. congruence.
Qed.

End Imports.

(** The names of [__all__] that cursor.py does not bind. *)
Definition unbound (m : module) : list string :=
  filter (fun n => assoc n (attrs m) = None) (default [] (all m)).

(** cursor.py loads, and the names main.py and execute_funcs.py take
    from it are the functions of cursor_module.py and
    keyboard_module.py. *)
Lemma cursor_loads :
  exists m,
    cursor_py = Ok m /\
    (forall n, n ∈ ["press_key"; "press_hotkey"; "type_text"] ->
               assoc n (attrs m) = Some (Callable "services.keyboard_module")) /\
    (forall n, n ∈ ["get_cursor_position"; "get_screen_dimensions";
                    "move_cursor_absolute"; "move_cursor_relative";
                    "click_mouse_button"; "double_click"; "drag_to";
                    "mouse_down"; "mouse_up"; "scroll"] ->
               assoc n (attrs m) = Some (Callable "services.cursor_module")).
Proof.
  eexists. split; [by vm_compute |].
  split; intros n Hn; repeat (apply elem_of_cons in Hn as [-> | Hn]; [by vm_compute |]);
    by apply elem_of_nil in Hn.
Qed.

Lemma imports_succeed :
  returned main_imports /\ returned execute_funcs_imports /\
  returned screenshot_module_imports /\ returned find_ui_imports.
Proof. by vm_compute. Qed.

(** [__all__] of cursor.py names five functions the module does not
    bind, so that [from services.cursor import *] raises
    [AttributeError] at the first of them; no module under src/ makes
    that import. *)
Lemma star_import_raises :
  (m <- cursor_py ;; import_star "services.cursor" m [])
  = Raise (Exception
             "module 'services.cursor' has no attribute 'move_cursor_to_element'") /\
  unbound <$> (match cursor_py with Ok m => Some m | Raise _ => None end)
  = Some ["move_cursor_to_element"; "move_cursor_to_element_by_index";
          "capture_cursor_area"; "save_screenshot"; "find_all_ui_elements"].
Proof. by vm_compute. Qed.

(** A star import from a module without [__all__] gives its public
    names: the thresholds of cache_module.py, not its cache. *)
Example star_import_of_cache_module :
  (fun ns => ns.*1) <$>
    (match import_star "services.cache_module" cache_module [] with
     | Ok ns => Some ns | Raise _ => None end)
  = Some ["MENU_MIN_SIZE"; "ICON_SIZE_RANGE"; "TEXTBOX_MAX_SIZE";
          "TEXTBOX_MIN_SIZE"; "BUTTON_MAX_SIZE"; "BUTTON_MIN_SIZE";
          "time"; "threading"].
Proof. by vm_compute. Qed.

(** ** The thresholds *)

(** The names two modules bind to different values. *)
Definition differing (m1 m2 : module) : list string :=
  (filter (fun kv => is_Some (assoc kv.1 (attrs m2)) /\
                     assoc kv.1 (attrs m2) <> Some kv.2)
     (attrs m1)).*1.

(** The thresholds are defined twice, and three of them differently;
    what cursor.py hands on are those of cache_module.py. *)
Lemma thresholds_differ :
  differing ui_detection_module cache_module
  = ["MENU_MIN_SIZE"; "TEXTBOX_MAX_SIZE"; "BUTTON_MIN_SIZE"] /\
  (m <- cursor_py ;; Ok (differing m cache_module)) = Ok [] /\
  (m <- cursor_py ;; Ok (assoc "BUTTON_MIN_SIZE" (attrs m))) = Ok (Some (Size 30 15)).
Proof. by vm_compute. Qed.
