(* ===== verification/Effects.v ===== *)
(** * Effects: computations that change a state and may raise

    The Python functions modelled in this development read and assign
    module-level variables, call into the desktop and raise exceptions.  A
    computation of type [ST S A] takes the state before, and gives either a
    value or the exception raised, with the state reached: a Python
    exception does not undo the assignments made before it.

    [try_catch] is [try: ... except: ...]; the laws of the section are the
    ones the components' proofs rewrite with. *)

From S2P Require Import Prelude PyValue.

Definition ST (S A : Type) : Type := S -> result A * S.

Section ST.
Context {S : Type}.

Definition ret {A} (a : A) : ST S A := fun st => (Ok a, st).

Definition raise {A} (e : exn) : ST S A := fun st => (Raise e, st).

Definition bindM {A B} (m : ST S A) (k : A -> ST S B) : ST S B :=
  fun st =>
    match m st with
    | (Ok a, st') => k a st'
    | (Raise e, st') => (Raise e, st')
    end.

(** A pure computation that may raise. *)
Definition lift {A} (r : result A) : ST S A := fun st => (r, st).

(** Reading and assigning the state. *)
Definition get : ST S S := fun st => (Ok st, st).

Definition modify (f : S -> S) : ST S unit := fun st => (Ok tt, f st).

(** [try: m except Exception as e: h e] *)
Definition try_catch {A} (m : ST S A) (h : exn -> ST S A) : ST S A :=
  fun st =>
    match m st with
    | (Ok a, st') => (Ok a, st')
    | (Raise e, st') => h e st'
    end.

(** The computation returns, whatever the state. *)
Definition returns {A} (m : ST S A) : Prop :=
  forall st, exists a st', m st = (Ok a, st').

End ST.

Declare Scope exec_scope.
Delimit Scope exec_scope with exec.
Notation "x <~ m ;; k" := (bindM m (fun x => k))
  (at level 100, m at next level, right associativity) : exec_scope.
Notation "m ;;; k" := (bindM m (fun _ => k))
  (at level 100, right associativity) : exec_scope.
#[local] Open Scope exec_scope.

(** ** Laws *)

Section Laws.
Context {S A B C : Type}.
Implicit Types (m : ST S A) (k : A -> ST S B) (st : S).

Lemma bindM_ret_l (a : A) k st : bindM (ret a) k st = k a st.
Proof. done. Qed.

Lemma bindM_ret_r m st : bindM m ret st = m st.
Proof. unfold bindM, ret. by destruct (m st) as [[] ?]. Qed.

Lemma bindM_assoc m k (l : B -> ST S C) st :
  bindM (bindM m k) l st = bindM m (fun a => bindM (k a) l) st.
Proof. unfold bindM. by destruct (m st) as [[] ?]. Qed.

Lemma bindM_raise (e : exn) k st : bindM (raise e) k st = (Raise e, st).
Proof. done. Qed.

Lemma bindM_lift_Ok (a : A) k st : bindM (lift (Ok a)) k st = k a st.
Proof. done. Qed.

Lemma bindM_lift_Raise (e : exn) k st :
  bindM (lift (Raise e)) k st = (Raise e, st).
Proof. done. Qed.

(** What a sequence that returns went through. *)
Lemma bindM_Ok m k st b st' :
  bindM m k st = (Ok b, st') <->
  exists a st1, m st = (Ok a, st1) /\ k a st1 = (Ok b, st').
Proof.
  unfold bindM. destruct (m st) as [[a | e] st1]; [| naive_solver].
  split; [by exists a, st1 | by intros (? & ? & [= <- <-] & ?)].
Qed.

(** A sequence raises in its first part or in what follows. *)
Lemma bindM_Raise m k st e st' :
  bindM m k st = (Raise e, st') <->
  m st = (Raise e, st') \/
  exists a st1, m st = (Ok a, st1) /\ k a st1 = (Raise e, st').
Proof.
  unfold bindM. destruct (m st) as [[a | e1] st1]; [| naive_solver].
  split; [right; by exists a, st1 | by intros [? | (? & ? & [= <- <-] & ?)]].
Qed.

Lemma try_catch_Ok m (h : exn -> ST S A) st a st' :
  m st = (Ok a, st') -> try_catch m h st = (Ok a, st').
Proof. unfold try_catch. by intros ->. Qed.

Lemma try_catch_Raise m (h : exn -> ST S A) st e st' :
  m st = (Raise e, st') -> try_catch m h st = h e st'.
Proof. unfold try_catch. by intros ->. Qed.

(** A handler that returns makes the whole [try] return. *)
Lemma try_catch_returns m (h : exn -> ST S A) :
  (forall e, returns (h e)) -> returns (try_catch m h).
Proof.
  intros Hh st. unfold try_catch. destruct (m st) as [[a | e] st1]; [by eauto |].
  apply Hh.
Qed.

Lemma returns_ret (a : A) : returns (S := S) (ret a).
Proof. intros st. by exists a, st. Qed.

Lemma returns_bind m k :
  returns m -> (forall a, returns (k a)) -> returns (bindM m k).
Proof.
  intros Hm Hk st. destruct (Hm st) as (a & st1 & Hst).
  unfold bindM. rewrite Hst. apply Hk.
Qed.

End Laws.

(** ** Computations that keep a relation *)

Section Preserves.
Context {S : Type} (R : relation S) `{!PreOrder R}.

(** Whatever [m] returns or raises, the state it leaves is related to the
    state it started in. *)
Definition preserves {A} (m : ST S A) : Prop := forall st, R st (m st).2.

Lemma preserves_ret {A} (a : A) : preserves (ret a).
Proof. intros st. reflexivity. Qed.

Lemma preserves_raise {A} (e : exn) : preserves (raise (A := A) e).
Proof. intros st. reflexivity. Qed.

Lemma preserves_lift {A} (r : result A) : preserves (lift r).
Proof. intros st. reflexivity. Qed.

Lemma preserves_get : preserves get.
Proof. intros st. reflexivity. Qed.

Lemma preserves_bind {A B} (m : ST S A) (k : A -> ST S B) :
  preserves m -> (forall a, preserves (k a)) -> preserves (bindM m k).
Proof.
  intros Hm Hk st. unfold bindM. specialize (Hm st).
  destruct (m st) as [[a | e] st1]; [| done].
  etrans; [done | apply Hk].
Qed.

Lemma preserves_try_catch {A} (m : ST S A) (h : exn -> ST S A) :
  preserves m -> (forall e, preserves (h e)) -> preserves (try_catch m h).
Proof.
  intros Hm Hh st. unfold try_catch. specialize (Hm st).
  destruct (m st) as [[a | e] st1]; [done |].
  etrans; [done | apply Hh].
Qed.

End Preserves.

#[export] Hint Resolve returns_ret returns_bind try_catch_returns : agent.
