(* ===== verification/Extract.v ===== *)
(** * Extract: the JSON command extractor

    [extract_json] of src/services/execute_funcs.py: one left-to-right scan
    of the model reply that counts braces, hands every span on which the
    count returns to zero to [json.loads], keeps what decoded and cuts
    those spans out of the text.

    The loop state is the record [scan], one field per Python local;
    [scan_step] is the body of the [for] loop and [extract_json] the whole
    function.  [json.loads] is the section variable [loads]: [None] stands
    for [JSONDecodeError], the one exception the code catches. *)

From S2P Require Import Prelude PyValue.
#[local] Open Scope char_scope.

(** ** Text helpers *)

(** [text.replace('\\_', '_')]: every backslash-underscore pair becomes an
    underscore, left to right, without overlap. *)
Fixpoint unescape (t : text) : text :=
  match t with
  | [] => []
  | c :: t' =>
      match t' with
      | d :: t'' =>
          if bool_decide (c = "\") && bool_decide (d = "_")
          then "_" :: unescape t''
          else c :: unescape t'
      | [] => [c]
      end
  end.

(** [c.isspace()] on the ASCII range. *)
Definition is_space (c : ascii) : bool :=
  let n := Ascii.N_of_ascii c in
  ((9 <=? n) && (n <=? 13) || (28 <=? n) && (n <=? 32))%N.

Fixpoint lstrip (t : text) : text :=
  match t with
  | c :: t' => if is_space c then lstrip t' else t
  | [] => []
  end.

(** [text.strip()] *)
Definition strip (t : text) : text := reverse (lstrip (reverse (lstrip t))).

(** ** The scanner *)

Record scan : Type := Scan {
  json_objects : list json;
  json_str : text;
  in_json : bool;
  brace_count : Z;
  start_pos : nat;
  json_positions : list (nat * nat);
}.

Definition scan_init : scan :=
  {| json_objects := []; json_str := []; in_json := false; brace_count := 0;
     start_pos := 0; json_positions := [] |}.

Section Extract.
Context (loads : text -> option json).

(** [if char == '{': ...] *)
Definition on_open (index : nat) (char : ascii) (s : scan) : scan :=
  if bool_decide (char = "{") then
    {| json_objects := json_objects s;
       json_str := json_str s;
       in_json := true;
       brace_count := brace_count s + 1;
       start_pos := if in_json s then start_pos s else index;
       json_positions := json_positions s |}
  else s.

(** [if in_json: json_str += char] *)
Definition on_char (char : ascii) (s : scan) : scan :=
  if in_json s then
    {| json_objects := json_objects s;
       json_str := json_str s ++ [char];
       in_json := in_json s;
       brace_count := brace_count s;
       start_pos := start_pos s;
       json_positions := json_positions s |}
  else s.

(** [if char == '}': ...]: the count goes down whatever the state; a span
    ends when it reaches zero inside an object. *)
Definition on_close (index : nat) (char : ascii) (s : scan) : scan :=
  if bool_decide (char = "}") then
    let count := (brace_count s - 1)%Z in
    if bool_decide (count = 0%Z) && in_json s then
      match loads (json_str s) with
      | Some json_obj =>
          {| json_objects := json_objects s ++ [json_obj];
             json_str := [];
             in_json := false;
             brace_count := count;
             start_pos := start_pos s;
             json_positions := json_positions s ++ [(start_pos s, S index)] |}
      | None =>
          {| json_objects := json_objects s;
             json_str := [];
             in_json := false;
             brace_count := count;
             start_pos := start_pos s;
             json_positions := json_positions s |}
      end
    else
      {| json_objects := json_objects s;
         json_str := json_str s;
         in_json := in_json s;
         brace_count := count;
         start_pos := start_pos s;
         json_positions := json_positions s |}
  else s.

(** One iteration of [for index, char in enumerate(text)]. *)
Definition scan_step (index : nat) (char : ascii) (s : scan) : scan :=
  on_close index char (on_char char (on_open index char s)).

(** The loop from position [index] on. *)
Fixpoint scan_from (index : nat) (t : text) (s : scan) : scan :=
  match t with
  | [] => s
  | char :: t' => scan_from (S index) t' (scan_step index char s)
  end.

(** [for start, end in reversed(json_positions): text = text[:start] +
    text[end:]] *)
Definition remove_spans (positions : list (nat * nat)) (t : text) : text :=
  foldl (fun t p => cut_span p.1 p.2 t) t (reverse positions).

Definition extract_json (reply : text) : list json * text :=
  let t := unescape reply in
  let s := scan_from 0 t scan_init in
  (json_objects s, strip (remove_spans (json_positions s) t)).

End Extract.

(** ** Shapes of text *)

(** Free of braces: what the scanner passes over. *)
Definition prose (t : text) : Prop := ("{" ∉ t) /\ ("}" ∉ t).

Definition brace_delta (c : ascii) : Z :=
  if bool_decide (c = "{") then 1 else if bool_decide (c = "}") then -1 else 0.

(** The brace depth after [t], entered at depth [n]. *)
Definition depth (n : Z) (t : text) : Z :=
  foldl (fun n c => n + brace_delta c)%Z n t.

(** Entered at depth [n], the depth stays positive all along [t]. *)
Fixpoint stays_open (n : Z) (t : text) : bool :=
  match t with
  | [] => true
  | c :: t' => (0 <? n + brace_delta c)%Z && stays_open (n + brace_delta c) t'
  end.

(** A top-level object: an opening brace, a body along which the depth
    stays positive and returns to one, the closing brace. *)
Definition is_object (o : text) : Prop :=
  exists body, o = "{" :: body ++ ["}"] /\
    stays_open 1 body = true /\ depth 1 body = 1%Z.

(** A reply cut into its top-level pieces: prose and object, alternating,
    then a tail. *)
Definition render (segs : list (text * text)) (tail : text) : text :=
  concat (map (fun seg => seg.1 ++ seg.2) segs) ++ tail.

Definition segs_ok (segs : list (text * text)) : Prop :=
  Forall (fun seg => prose seg.1 /\ is_object seg.2) segs.

#[export] Instance prose_dec t : Decision (prose t).
Proof. unfold prose. apply _. Defined.

Lemma prose_cons c t : prose (c :: t) <-> c <> "{" /\ c <> "}" /\ prose t.
Proof. unfold prose. rewrite !not_elem_of_cons. naive_solver. Qed.

Lemma prose_app t1 t2 : prose (t1 ++ t2) <-> prose t1 /\ prose t2.
Proof. unfold prose. rewrite !not_elem_of_app. naive_solver. Qed.

Lemma prose_nil : prose [].
Proof. split; apply not_elem_of_nil. Qed.

(** A stand-in decoder for examples: refuses the span [{bad}] and returns
    any other span as a string. *)
Definition demo_loads (t : text) : option json :=
  if bool_decide (t = text_of "{bad}") then None
  else Some (JStr (String.string_of_list_ascii t)).

Section ExtractSpec.
Context (loads : text -> option json).

(** What is left of a piece: its prose, and its object only when
    [json.loads] refused it. *)
Definition kept (seg : text * text) : text :=
  match loads seg.2 with
  | Some _ => seg.1
  | None => seg.1 ++ seg.2
  end.

(** The spans the scanner records for the pieces, the first one starting
    at [index]. *)
Fixpoint spans_of (index : nat) (segs : list (text * text)) : list (nat * nat) :=
  match segs with
  | [] => []
  | seg :: segs' =>
      let a := index + length seg.1 in
      let b := a + length seg.2 in
      match loads seg.2 with
      | Some _ => (a, b) :: spans_of b segs'
      | None => spans_of b segs'
      end
  end.

Definition decoded (segs : list (text * text)) : list json :=
  omap (fun seg => loads seg.2) segs.

End ExtractSpec.

(** ** The scanner on well-formed pieces *)

Section ScanLemmas.
Context (loads : text -> option json).
Implicit Types (s : scan) (t : text) (i : nat).

(** Outside an object, a character that is no brace leaves the state as
    it is. *)
Lemma scan_step_prose i c s :
  c <> "{" -> c <> "}" -> in_json s = false -> scan_step loads i c s = s.
Proof.
  intros Ho Hc Hin. unfold scan_step, on_open, on_char, on_close.
  rewrite !bool_decide_false by done. by rewrite Hin.
Qed.

Lemma scan_prose i t s :
  prose t -> in_json s = false -> scan_from loads i t s = s.
Proof.
  revert i. induction t as [| c t IH]; intros i Hp Hin; [done |].
  apply prose_cons in Hp as (? & ? & ?). simpl.
  rewrite scan_step_prose by done. auto.
Qed.

(** Inside an object, while the depth stays positive, the scanner only
    accumulates. *)
Lemma scan_step_inside i c objs js n sp poss :
  (0 < n + brace_delta c)%Z ->
  scan_step loads i c (Scan objs js true n sp poss) =
  Scan objs (js ++ [c]) true (n + brace_delta c) sp poss.
Proof.
  intros Hpos. unfold scan_step, on_open, on_char, on_close, brace_delta in *.
  simpl. repeat case_bool_decide; simplify_eq/=; try done; try lia.
  by rewrite Z.add_0_r.
Qed.

Lemma scan_inside i t objs js n sp poss :
  stays_open n t = true ->
  scan_from loads i t (Scan objs js true n sp poss) =
  Scan objs (js ++ t) true (depth n t) sp poss.
Proof.
  revert i js n. induction t as [| c t IH]; intros i js n Ht; simpl in *.
  { by rewrite app_nil_r. }
  apply andb_prop in Ht as [Hpos%Z.ltb_lt Ht].
  by rewrite scan_step_inside, IH, <- app_assoc.
Qed.

Lemma scan_from_app i t1 t2 s :
  scan_from loads i (t1 ++ t2) s =
  scan_from loads (i + length t1) t2 (scan_from loads i t1 s).
Proof.
  revert i s. induction t1 as [| c t1 IH]; intros i s; simpl.
  - by rewrite Nat.add_0_r.
  - rewrite IH. f_equal. lia.
Qed.

(** A whole object, met outside any object at depth zero, is handed to
    the decoder and the state is clean again. *)
Lemma scan_object i o objs sp poss :
  is_object o ->
  scan_from loads i o (Scan objs [] false 0 sp poss) =
  match loads o with
  | Some v => Scan (objs ++ [v]) [] false 0 i (poss ++ [(i, i + length o)])
  | None => Scan objs [] false 0 i poss
  end.
Proof.
  intros (body & -> & Hopen & Hdepth).
  change ("{" :: body ++ ["}"]) with (["{"] ++ body ++ ["}"]).
  rewrite !scan_from_app. simpl scan_from at 3.
  replace (scan_step loads i "{" (Scan objs [] false 0 sp poss))
    with (Scan objs ["{"] true 1 i poss) by done.
  rewrite scan_inside, Hdepth by done. simpl.
  unfold scan_step, on_open, on_char, on_close. simpl.
  destruct (loads _); [| done]. do 4 f_equal. len.
Qed.

End ScanLemmas.

(** ** Removing the recorded spans *)

Lemma remove_spans_foldr positions t :
  remove_spans positions t = foldr (fun p t => cut_span p.1 p.2 t) t positions.
Proof.
  unfold remove_spans. revert t.
  induction positions as [| p ps IH] using rev_ind; intros t; [done |].
  by rewrite reverse_snoc, foldr_app, <- IH.
Qed.

Lemma remove_spans_cons p positions t :
  remove_spans (p :: positions) t = cut_span p.1 p.2 (remove_spans positions t).
Proof. by rewrite !remove_spans_foldr. Qed.

Section Pieces.
Context (loads : text -> option json).

Definition tail_ok (tl : text) : Prop :=
  prose tl \/
  exists p body, tl = p ++ "{" :: body /\ prose p /\ stays_open 1 body = true.

Lemma render_cons seg segs tl :
  render (seg :: segs) tl = seg.1 ++ seg.2 ++ render segs tl.
Proof. unfold render. simpl. by rewrite <- !app_assoc. Qed.

(** Cutting the spans of the decoded pieces out of the reply leaves the
    prose, the refused objects and the tail, in order. *)
Lemma remove_spans_of pre segs tl :
  remove_spans (spans_of loads (length pre) segs) (pre ++ render segs tl) =
  pre ++ concat (map (kept loads) segs) ++ tl.
Proof.
  revert pre. induction segs as [| [p o] segs IH]; intros pre; [done |].
  rewrite render_cons. simpl. unfold kept at 1. simpl.
  specialize (IH (pre ++ p ++ o)). rewrite !length_app, Nat.add_assoc in IH.
  rewrite <- !app_assoc in IH.
  destruct (loads o); [| by rewrite IH, <- !app_assoc].
  rewrite remove_spans_cons, IH. simpl.
  rewrite (app_assoc pre p), <- length_app.
  by rewrite cut_span_app, <- !app_assoc.
Qed.

(** The scanner over the pieces: it decodes every object, in order, and
    records the span of each one it decoded. *)
Lemma scan_segs i segs objs sp poss :
  segs_ok segs ->
  exists sp',
    scan_from loads i (render segs []) (Scan objs [] false 0 sp poss) =
    Scan (objs ++ decoded loads segs) [] false 0 sp'
      (poss ++ spans_of loads i segs).
Proof.
  intros Hok. revert i objs sp poss.
  induction Hok as [| [p o] segs [Hp Ho] _ IH]; intros i objs sp poss.
  { exists sp. unfold render. simpl. by rewrite !app_nil_r. }
  rewrite render_cons, !scan_from_app. simpl in *.
  rewrite (scan_prose loads i p), scan_object by done.
  unfold decoded. simpl. fold (decoded loads segs).
  destruct (loads o) as [v |].
  - destruct (IH (i + length p + length o) (objs ++ [v]) (i + length p)
      (poss ++ [(i + length p, i + length p + length o)])) as [sp' ->].
    exists sp'. by rewrite <- !app_assoc.
  - apply IH.
Qed.

(** The tail adds nothing: prose is passed over, and an object that never
    closes is never decoded. *)
Lemma scan_tail i tl objs sp poss :
  tail_ok tl ->
  let s := scan_from loads i tl (Scan objs [] false 0 sp poss) in
  json_objects s = objs /\ json_positions s = poss.
Proof.
  intros [Hp | (p & body & -> & Hp & Hb)]; simpl.
  - by rewrite scan_prose.
  - rewrite scan_from_app, (scan_prose loads i p) by done. simpl.
    replace (scan_step loads (i + length p) "{" (Scan objs [] false 0 sp poss))
      with (Scan objs ["{"] true 1 (i + length p) poss) by done.
    by rewrite scan_inside.
Qed.

End Pieces.

(** ** Correctness on replies made of prose and top-level objects *)

Section ExtractCorrect.
Context (loads : text -> option json).

Lemma render_tail segs tl : render segs tl = render segs [] ++ tl.
Proof. unfold render. by rewrite app_nil_r. Qed.

(** The scan of such a reply: the decodings of the accepted objects and
    their spans. *)
Lemma scan_render segs tl :
  segs_ok segs -> tail_ok tl ->
  let s := scan_from loads 0 (render segs tl) scan_init in
  json_objects s = decoded loads segs /\
  json_positions s = spans_of loads 0 segs.
Proof.
  intros Hsegs Htl. unfold scan_init. cbv zeta.
  rewrite (render_tail segs tl), scan_from_app.
  destruct (scan_segs loads 0 segs [] 0 [] Hsegs) as [sp' ->].
  apply (scan_tail loads _ tl ([] ++ decoded loads segs) sp'
           ([] ++ spans_of loads 0 segs) Htl).
Qed.

(** Cutting the spans out of a whole reply. *)
Lemma remove_spans_render segs tl :
  remove_spans (spans_of loads 0 segs) (render segs tl) =
  concat (map (kept loads) segs) ++ tl.
Proof. apply (remove_spans_of loads [] segs tl). Qed.

(** When every object decodes, all of them are returned and none is
    kept. *)
Lemma decoded_all segs vs :
  Forall2 (fun seg v => loads seg.2 = Some v) segs vs ->
  decoded loads segs = vs /\ concat (map (kept loads) segs) = concat (map fst segs).
Proof.
  unfold decoded. induction 1 as [| seg v segs vs Hv _ [IH1 IH2]]; [done |].
  simpl. unfold kept at 1. rewrite Hv. simpl.
  split; f_equal; [apply IH1 | apply IH2].
Qed.

(** C1: on a reply that is prose interleaved with top-level objects and
    ends in prose or in an object that never closes, [extract_json] returns
    the decodings of the objects [json.loads] accepts, in order of
    appearance, and the text with exactly those objects cut out, stripped;
    refused objects stay in the text and the unclosed tail yields
    nothing. *)
Theorem extract_json_pieces reply segs tl :
  unescape reply = render segs tl -> segs_ok segs -> tail_ok tl ->
  extract_json loads reply =
  (decoded loads segs, strip (concat (map (kept loads) segs) ++ tl)).
Proof.
  intros Hreply Hsegs Htl. unfold extract_json. rewrite Hreply.
  destruct (scan_render segs tl Hsegs Htl) as [-> ->].
  by rewrite remove_spans_render.
Qed.

(** When every object decodes, the reply yields exactly the N decoded
    objects, left to right, and the remaining text is the prose alone. *)
Theorem extract_json_all_decoded reply segs tl vs :
  unescape reply = render segs tl -> segs_ok segs -> prose tl ->
  Forall2 (fun seg v => loads seg.2 = Some v) segs vs ->
  extract_json loads reply = (vs, strip (concat (map fst segs) ++ tl)).
Proof.
  intros Hreply Hsegs Htl Hvs. unfold extract_json. rewrite Hreply.
  destruct (scan_render segs tl Hsegs (or_introl Htl)) as [-> ->].
  rewrite remove_spans_render.
  destruct (decoded_all segs vs Hvs) as [Hd Hk]. by rewrite Hd, Hk.
Qed.

End ExtractCorrect.

Lemma extract_json_pieces_witness :
  extract_json demo_loads (text_of "Go {a} on {bad} then {{b}c} end {d") =
  ([JStr "{a}"; JStr "{{b}c}"], text_of "Go  on {bad} then  end {d").
Proof.
  apply (extract_json_pieces demo_loads _
    [(text_of "Go ", text_of "{a}"); (text_of " on ", text_of "{bad}");
     (text_of " then ", text_of "{{b}c}")] (text_of " end {d")).
  - reflexivity.
  - repeat apply Forall_cons_2; try apply Forall_nil_2; (split; [by_compute |]).
    + by exists (text_of "a").
    + by exists (text_of "bad").
    + by exists (text_of "{b}c").
  - right. exists (text_of " end "), (text_of "d"). split; [done |].
    split; [by_compute | done].
Defined.

Lemma extract_json_all_decoded_witness :
  extract_json demo_loads (text_of "Click it {a} and {b} done ") =
  ([JStr "{a}"; JStr "{b}"], text_of "Click it  and  done").
Proof.
  apply (extract_json_all_decoded demo_loads _
    [(text_of "Click it ", text_of "{a}"); (text_of " and ", text_of "{b}")]
    (text_of " done ")).
  - reflexivity.
  - repeat apply Forall_cons_2; try apply Forall_nil_2; (split; [by_compute |]).
    + by exists (text_of "a").
    + by exists (text_of "b").
  - by_compute.
  - by repeat constructor.
Defined.

(** ** What holds of every reply *)

(** Spans in increasing order, each one non-empty and starting at or
    after [lo]. *)
Fixpoint spans_sorted (lo : nat) (ps : list (nat * nat)) : Prop :=
  match ps with
  | [] => True
  | p :: ps' => lo <= p.1 < p.2 /\ spans_sorted p.2 ps'
  end.

(** Where the last span ends; [lo] when there is none. *)
Fixpoint last_end (lo : nat) (ps : list (nat * nat)) : nat :=
  match ps with
  | [] => lo
  | p :: ps' => last_end p.2 ps'
  end.

Lemma spans_sorted_snoc lo ps p :
  spans_sorted lo (ps ++ [p]) <->
  spans_sorted lo ps /\ last_end lo ps <= p.1 < p.2.
Proof.
  revert lo. induction ps as [| q ps IH]; intros lo; simpl; [| rewrite IH];
    tauto.
Qed.

Lemma last_end_snoc lo ps p : last_end lo (ps ++ [p]) = p.2.
Proof. revert lo. induction ps as [| q ps IH]; intros lo; simpl; auto. Qed.

Lemma spans_sorted_last_end lo ps : spans_sorted lo ps -> lo <= last_end lo ps.
Proof.
  revert lo. induction ps as [| q ps IH]; intros lo; simpl; [lia |].
  intros [? Hs]. apply IH in Hs. lia.
Qed.

Section Invariant.
Context (loads : text -> option json) (t : text).

(** The loop invariant at position [i] of the text [t]. *)
Record scan_inv (i : nat) (s : scan) : Prop := {
  inv_decoded :
    Forall2 (fun v p => loads (slice p.1 p.2 t) = Some v)
      (json_objects s) (json_positions s);
  inv_braces :
    Forall (fun p => t !! p.1 = Some "{" /\ t !! pred p.2 = Some "}")
      (json_positions s);
  inv_sorted : spans_sorted 0 (json_positions s);
  inv_last :
    last_end 0 (json_positions s) <= (if in_json s then start_pos s else i);
  inv_open :
    if in_json s then
      start_pos s <= i /\ t !! start_pos s = Some "{" /\
      json_str s = slice (start_pos s) i t
    else json_str s = [];
}.

Lemma scan_inv_init : scan_inv 0 scan_init.
Proof. by split; simpl; try constructor. Qed.

Lemma scan_step_inv i c s :
  t !! i = Some c -> scan_inv i s -> scan_inv (S i) (scan_step loads i c s).
Proof.
  intros Hc [Hdec Hbr Hsort Hlast Hopen].
  destruct s as [objs js inj n sp poss]; simpl in *.
  unfold scan_step, on_open, on_char, on_close; simpl.
  destruct inj; [destruct Hopen as (Hsp & Hbrace & ->) | subst js];
    repeat (case_bool_decide; simplify_eq/=);
    rewrite <- ?(slice_snoc sp i t) by done;
    try destruct (loads _) eqn:Hl; simpl;
    split; simpl; rewrite ?slice_empty, ?last_end_snoc; simpl;
    try done; try lia; try (split_and!; try done; lia).
  all: try (apply Forall2_app; [done | by repeat constructor]).
  all: try (apply Forall_app; split; [done | by repeat constructor]).
  all: try (apply spans_sorted_snoc; split; [done | simpl; lia]).
  split_and!; [lia | done |]. by rewrite (slice_snoc i i t "{"), slice_empty.
Qed.

End Invariant.

Section InvariantUse.
Context (loads : text -> option json).

Lemma scan_from_inv t todo i s :
  drop i t = todo -> i <= length t -> scan_inv loads t i s ->
  scan_inv loads t (length t) (scan_from loads i todo s).
Proof.
  revert i s. induction todo as [| c todo IH]; intros i s Hdrop Hi Hinv; simpl.
  - apply drop_nil_inv in Hdrop. by replace (length t) with i by lia.
  - apply drop_cons_inv in Hdrop as (Hc & Hdrop & Hlt).
    apply IH; [done | lia | by apply scan_step_inv].
Qed.

(** The invariant at the end of the scan of a whole text. *)
Lemma scan_inv_final t :
  scan_inv loads t (length t) (scan_from loads 0 t scan_init).
Proof. apply scan_from_inv; [done | lia | apply scan_inv_init]. Qed.

(** C4: whatever the reply and the decoder, every object [extract_json]
    returns is the decoding of a span of the unescaped reply that starts
    with an opening and ends with a closing brace, and the spans are
    disjoint, in the order of the objects. *)
Theorem extract_json_sound reply :
  let t := unescape reply in
  let s := scan_from loads 0 t scan_init in
  (extract_json loads reply).1 = json_objects s /\
  Forall2 (fun v p =>
      loads (slice p.1 p.2 t) = Some v /\
      t !! p.1 = Some "{" /\ t !! pred p.2 = Some "}")
    (json_objects s) (json_positions s) /\
  spans_sorted 0 (json_positions s) /\
  last_end 0 (json_positions s) <= length t.
Proof.
  intros t s. split; [done |].
  destruct (scan_inv_final t) as [Hdec Hbr Hsort Hlast Hopen].
  fold s in Hdec, Hbr, Hsort, Hlast, Hopen. split_and!; [| done |].
  - clear Hsort Hlast Hopen. induction Hdec; [constructor |].
    apply Forall_cons in Hbr as [? ?]. constructor; auto.
  - destruct (in_json s); [| done]. lia.
Qed.
End InvariantUse.

(** ** A closing brace outside any object *)

Section StrayClose.
Context (loads : text -> option json).

(** Inside an object the scanner accumulates prose without looking at
    it. *)
Lemma scan_prose_inside i t objs js n sp poss :
  prose t ->
  scan_from loads i t (Scan objs js true n sp poss) =
  Scan objs (js ++ t) true n sp poss.
Proof.
  revert i js. induction t as [| c t IH]; intros i js Hp; simpl.
  { by rewrite app_nil_r. }
  apply prose_cons in Hp as (Ho & Hc & Hp).
  replace (scan_step loads i c (Scan objs js true n sp poss))
    with (Scan objs (js ++ [c]) true n sp poss).
  - by rewrite IH, <- app_assoc.
  - unfold scan_step, on_open, on_char, on_close. simpl.
    by rewrite !bool_decide_false.
Qed.

(** The three steps around a stray closing brace. *)
Lemma scan_step_stray i objs n sp poss :
  scan_step loads i "}" (Scan objs [] false n sp poss) =
  Scan objs [] false (n - 1) sp poss.
Proof.
  unfold scan_step, on_open, on_char, on_close. cbn.
  by rewrite andb_false_r.
Qed.

Lemma scan_step_open i objs n sp poss :
  scan_step loads i "{" (Scan objs [] false n sp poss) =
  Scan objs ["{"] true (n + 1) i poss.
Proof. reflexivity. Qed.

Lemma scan_step_close_deep i objs js n sp poss :
  (n - 1)%Z <> 0%Z ->
  scan_step loads i "}" (Scan objs js true n sp poss) =
  Scan objs (js ++ ["}"]) true (n - 1) sp poss.
Proof.
  intros Hn. unfold scan_step, on_open, on_char, on_close.
  cbn [bool_decide decide_rel in_json brace_count json_str andb].
  rewrite (bool_decide_false ("}" = "{")) by done.
  rewrite (bool_decide_true ("}" = "}")) by done.
  cbn [in_json brace_count json_str json_objects start_pos json_positions].
  by rewrite (bool_decide_false _ Hn).
Qed.

(** The scanner over a flat object that follows a stray closing brace: it
    ends inside an object it will never close. *)
Lemma scan_stray_close i pre body post objs sp poss :
  prose pre -> prose body -> prose post ->
  exists js sp',
    scan_from loads i (pre ++ "}" :: "{" :: body ++ "}" :: post)
      (Scan objs [] false 0 sp poss) =
    Scan objs js true (-1) sp' poss.
Proof.
  intros Hpre Hbody Hpost. eexists _, _.
  rewrite scan_from_app, (scan_prose loads i pre) by done.
  cbn [scan_from]. rewrite scan_step_stray, scan_step_open.
  rewrite scan_from_app, scan_prose_inside by done.
  cbn [scan_from]. rewrite scan_step_close_deep by done.
  by rewrite scan_prose_inside.
Qed.

(** C33: a closing brace met outside any object takes the count below
    zero, and the object that follows it is then never handed to the
    decoder: nothing is extracted and nothing is removed, whatever the
    decoder accepts. *)
Theorem stray_close_hides_object reply pre body post :
  unescape reply = pre ++ "}" :: "{" :: body ++ "}" :: post ->
  prose pre -> prose body -> prose post ->
  extract_json loads reply = ([], strip (unescape reply)).
Proof.
  intros Hreply Hpre Hbody Hpost. unfold extract_json, scan_init. cbv zeta.
  rewrite Hreply.
  by destruct (scan_stray_close 0 pre body post [] 0 [] Hpre Hbody Hpost)
    as (js & sp' & ->).
Qed.

End StrayClose.

Lemma stray_close_hides_object_witness :
  extract_json demo_loads (text_of "ok}{a} done") =
  ([], text_of "ok}{a} done").
Proof.
  change (text_of "ok}{a} done") with (strip (unescape (text_of "ok}{a} done")))
    at 2.
  apply (stray_close_hides_object demo_loads _
    (text_of "ok") (text_of "a") (text_of " done"));
    [reflexivity | by_compute ..].
Defined.

(** ** The remaining text is never longer than the reply *)

Lemma unescape_length t : length (unescape t) <= length t.
Proof.
  assert (forall n t, length t <= n -> length (unescape t) <= length t) as Hn;
    [| by apply (Hn (length t))].
  clear t. induction n as [| n IH]; intros [| c [| d t]] Hlen; simpl in *;
    try lia.
  case_match; simpl.
  - pose proof (IH t). lia.
  - pose proof (IH (d :: t)). simpl in *. lia.
Qed.

Lemma lstrip_length t : length (lstrip t) <= length t.
Proof. induction t; simpl; [lia |]. case_match; simpl; lia. Qed.

Lemma strip_length t : length (strip t) <= length t.
Proof.
  unfold strip. rewrite length_reverse.
  etrans; [apply lstrip_length |]. rewrite length_reverse.
  apply lstrip_length.
Qed.

Lemma spans_sorted_nonempty lo ps :
  spans_sorted lo ps -> Forall (fun p => p.1 <= p.2) ps.
Proof.
  revert lo. induction ps as [| p ps IH]; intros lo; simpl; [done |].
  intros [? Hs]. constructor; [lia | eauto].
Qed.

Lemma remove_spans_length ps t :
  Forall (fun p => p.1 <= p.2) ps -> length (remove_spans ps t) <= length t.
Proof.
  induction 1 as [| p ps Hp _ IH]; [done |].
  rewrite remove_spans_cons. etrans; [by apply cut_span_length_le | done].
Qed.

(** For every reply and every decoder, the text [extract_json]
    returns is at most as long as the reply. *)
Theorem extract_json_text_length loads reply :
  length (extract_json loads reply).2 <= length reply.
Proof.
  unfold extract_json. simpl.
  destruct (scan_inv_final loads (unescape reply)) as [_ _ Hsort _ _].
  etrans; [apply strip_length |].
  etrans; [apply remove_spans_length; by eapply spans_sorted_nonempty |].
  apply unescape_length.
Qed.
