(* ===== verification/Executor.v ===== *)
(** * Executor: the command batch executor

    [process_commands] and [execute_batch_commands] of
    src/services/execute_funcs.py, with the module-level pause gate
    [listening] and its accessors.

    The desktop is the record [device]: what each call into
    src/services/cursor_module.py, keyboard_module.py, find_ui.py and
    [time.sleep] does (returns or raises) as a function of the calls made
    before it.  The state threaded through the executor is the pause gate
    and the trace of calls made so far, so that the order in which commands
    reach the desktop is part of every result.

    A computation is a function [state -> result A * state]: an exception
    keeps the state reached when it was raised, as in Python. *)

From S2P Require Import Prelude PyValue Effects.
From Stdlib Require Import QArith.
#[local] Close Scope Q_scope.
#[local] Open Scope string_scope.
#[local] Open Scope list_scope.
#[local] Open Scope py_scope.

(** ** The desktop *)

(** The calls the executor makes.  [Settle] is a [time.sleep] on a literal,
    which cannot raise; [Sleep] is [time.sleep(seconds)] on the value the
    model sent. *)
Inductive call : Type :=
| MoveCursorAbsolute (x y : json)
| MoveCursorRelative (dx dy : json)
| GetCursorPosition
| ClickMouseButton (button : json)
| MoveMouseToUiElement (name : json)
| DoubleClick (button : json)
| DragTo (x y button duration : json)
| MouseDown (button : json)
| MouseUp (button : json)
| PressKey (key : json)
| PressHotkey (keys : list json)
| TypeText (t : json)
| Scroll (clicks : json)
| Sleep (seconds : json)
| Settle (seconds : Q).

Record device : Type := Device {
  (** [None]: the call returns; [Some e]: it raises [e]. *)
  outcome : list call -> call -> option exn;
  (** What [get_cursor_position()] returns after these calls. *)
  cursor : list call -> json * json;
}.

(** ** State and computations *)

Record state : Type := State {
  listening : bool;
  trace : list call;
}.

Definition M (A : Type) : Type := ST state A.

#[local] Open Scope exec_scope.

(** [is_listening()] *)
Definition is_listening : M bool := fun st => (Ok (listening st), st).

(** [set_listening(value)] *)
Definition set_listening (value : bool) : M unit :=
  fun st => (Ok tt, {| listening := value; trace := trace st |}).

(** ** One result per attempted command *)

Record res : Type := Res {
  r_command : json;
  success : bool;
  message : string;
}.

(** How the dispatch of one command leaves the [try] block. *)
Inductive flow : Type :=
| Continue (msg : string)           (* falls through to [results.append] *)
| Return (appended : list res)      (* [return results] *)
| Break (r : res).                  (* [results.append(result); break] *)

Section Executor.
Context `{PyFormat} (dev : device).

(** A call into the desktop: recorded, then it returns or raises. *)
Definition do (c : call) : M unit :=
  fun st =>
    let st' := {| listening := listening st; trace := trace st ++ [c] |} in
    match outcome dev (trace st) c with
    | None => (Ok tt, st')
    | Some e => (Raise e, st')
    end.

(** [time.sleep] on a literal: recorded, never raises. *)
Definition settle (seconds : Q) : M unit :=
  fun st =>
    (Ok tt, {| listening := listening st;
               trace := trace st ++ [Settle seconds] |}).

(** [x, y = get_cursor_position()] *)
Definition call_get_cursor_position : M (json * json) :=
  fun st =>
    let st' := {| listening := listening st;
                  trace := trace st ++ [GetCursorPosition] |} in
    match outcome dev (trace st) GetCursorPosition with
    | None => (Ok (cursor dev (trace st)), st')
    | Some e => (Raise e, st')
    end.

Definition is_name (name : json) (s : string) : bool := py_eq name (JStr s).

(** The [if]/[elif] chain of [execute_batch_commands], inside its [try]. *)
Definition dispatch (command name : json) : M flow :=
  if is_name name "move_cursor_absolute" then
    x <~ lift (param command "x") ;;
    y <~ lift (param command "y") ;;
    do (MoveCursorAbsolute x y) ;;;
    ret (Continue ("Moved cursor to absolute position: " +:+ py_str x
                     +:+ ", " +:+ py_str y))
  else if is_name name "move_cursor_relative" then
    dx <~ lift (param command "dx") ;;
    dy <~ lift (param command "dy") ;;
    do (MoveCursorRelative dx dy) ;;;
    pos <~ call_get_cursor_position ;;
    ret (Continue ("Moved cursor by offset: " +:+ py_str dx +:+ ", "
                     +:+ py_str dy +:+ ". New position: " +:+ py_str pos.1
                     +:+ ", " +:+ py_str pos.2))
  else if is_name name "mouse_button" then
    button <~ lift (param command "button") ;;
    do (ClickMouseButton button) ;;;
    ret (Continue ("Clicked " +:+ py_str button +:+ " mouse button"))
  else if is_name name "move_cursor_to_element" then
    element <~ lift (param command "name") ;;
    do (MoveMouseToUiElement element) ;;;
    settle 5 ;;;
    ret (Continue ("Moved cursor to element " +:+ py_str element))
  else if is_name name "double_click" then
    button <~ lift (param_get command "button" (JStr "left")) ;;
    do (DoubleClick button) ;;;
    ret (Continue ("Double-clicked " +:+ py_str button +:+ " mouse button"))
  else if is_name name "drag_to" then
    x <~ lift (param command "x") ;;
    y <~ lift (param command "y") ;;
    button <~ lift (param_get command "button" (JStr "left")) ;;
    duration <~ lift (param_get command "duration" (JFloat 0.5)) ;;
    do (DragTo x y button duration) ;;;
    ret (Continue ("Dragged to position: " +:+ py_str x +:+ ", " +:+ py_str y))
  else if is_name name "mouse_down" then
    button <~ lift (param_get command "button" (JStr "left")) ;;
    do (MouseDown button) ;;;
    ret (Continue ("Pressed and held " +:+ py_str button +:+ " mouse button"))
  else if is_name name "mouse_up" then
    button <~ lift (param_get command "button" (JStr "left")) ;;
    do (MouseUp button) ;;;
    ret (Continue ("Released " +:+ py_str button +:+ " mouse button"))
  else if is_name name "press_key" then
    key <~ lift (param command "key") ;;
    do (PressKey key) ;;;
    ret (Continue ("Pressed key: " +:+ py_str key))
  else if is_name name "press_hotkey" then
    keys <~ lift (param command "keys") ;;
    unpacked <~ lift (join_items keys) ;;
    do (PressHotkey unpacked) ;;;
    joined <~ lift (py_join "+" keys) ;;
    ret (Continue ("Pressed hotkey combination: " +:+ joined))
  else if is_name name "enter_text" then
    t <~ lift (param command "text") ;;
    do (TypeText t) ;;;
    ret (Continue ("Typed text: " +:+ py_str t))
  else if is_name name "scroll" then
    clicks <~ lift (param command "clicks") ;;
    do (Scroll clicks) ;;;
    ret (Continue ("Scrolled by " +:+ py_str clicks +:+ " clicks"))
  else if is_name name "listen" then
    l <~ is_listening ;;
    if negb l then
      set_listening true ;;;
      ret (Return [Res name true "Waiting for user instructions..."])
    else ret (Return [])
  else if is_name name "listen" then
    set_listening true ;;;
    ret (Return [Res name true "<repeat>"])
  else
    ret (Break (Res name false ("Unknown command: " +:+ py_str name))).

(** The two handlers of [execute_batch_commands]: record the failure and
    clear the pause gate. *)
Definition failure (name : json) (e : exn) : res :=
  match e with
  | KeyError _ => Res name false ("Missing required parameter: " +:+ exn_str e)
  | Exception _ => Res name false ("Error executing command: " +:+ exn_str e)
  end.

(** The [for] loop of [execute_batch_commands], [results] being the list
    built so far. *)
Fixpoint execute_batch_loop (commands : list json) (results : list res)
  : M (list res) :=
  match commands with
  | [] => ret results
  | command :: rest =>
      name <~ lift (subscript command "command") ;;
      fun st =>
        match dispatch command name st with
        | (Ok (Continue msg), st') =>
            (settle 0.5 ;;;
             execute_batch_loop rest (results ++ [Res name true msg])) st'
        | (Ok (Return appended), st') => (Ok (results ++ appended), st')
        | (Ok (Break r), st') => (Ok (results ++ [r]), st')
        | (Raise e, st') =>
            (set_listening false ;;; ret (results ++ [failure name e])) st'
        end
  end.

Definition execute_batch_commands (commands : list json) : M (list res) :=
  execute_batch_loop commands [].

(** ** [process_commands] *)

(** The locals of [process_commands] that outlive an iteration. *)
Record pstate : Type := PState {
  results : list res;
  batch_commands : list json;
}.

(** [batch_results = execute_batch_commands(batch_commands);
    results.extend(batch_results); batch_commands = []] *)
Definition flush (ps : pstate) : M pstate :=
  batch_results <~ execute_batch_commands (batch_commands ps) ;;
  ret {| results := results ps ++ batch_results; batch_commands := [] |}.

(** The body of the inner [try]: the locals when it is left, and the
    exception that left it, if any. *)
Definition try_body (commands : list json) (command name : json)
  (ps : pstate) : state -> (pstate * option exn) * state :=
  fun st =>
    if py_in name [JStr "wait"] then
      let flushed :=
        if bool_decide (batch_commands ps = []) then (Ok ps, st)
        else flush ps st in
      match flushed with
      | (Raise e, st1) => ((ps, Some e), st1)
      | (Ok ps1, st1) =>
          match (seconds <~ lift (param command "seconds") ;;
                 do (Sleep seconds) ;;;
                 ret seconds) st1 with
          | (Raise e, st2) => ((ps1, Some e), st2)
          | (Ok seconds, st2) =>
              let result :=
                Res name true ("Waited for " +:+ py_str seconds +:+ " seconds") in
              (({| results := results ps1 ++ [result];
                   batch_commands := batch_commands ps1 |}, None), st2)
          end
      end
    else
      let ps1 := {| results := results ps;
                    batch_commands := batch_commands ps ++ [command] |} in
      if (3 <=? length (batch_commands ps1))%nat
         || from_option (py_eq command) false (last commands) then
        match flush ps1 st with
        | (Raise e, st1) => ((ps1, Some e), st1)
        | (Ok ps2, st1) => ((ps2, None), st1)
        end
      else ((ps1, None), st).

(** One iteration of [for command in commands]: the first line is outside
    the inner [try], so an exception there leaves the loop. *)
Definition process_step (commands : list json) (command : json) (ps : pstate)
  : state -> (pstate * option exn) * state :=
  fun st =>
    match subscript command "command" with
    | Raise e => ((ps, Some e), st)
    | Ok name =>
        match try_body commands command name ps st with
        | ((ps', Some e), st') =>
            (({| results := results ps' ++ [failure name e];
                 batch_commands := batch_commands ps' |}, None), st')
        | r => r
        end
    end.

(** The loop over [todo], a suffix of [commands]; [Some e] when an
    exception reached the outer handler. *)
Fixpoint process_loop (commands todo : list json) (ps : pstate)
  : state -> (pstate * option exn) * state :=
  fun st =>
    match todo with
    | [] => ((ps, None), st)
    | command :: todo' =>
        match process_step commands command ps st with
        | ((ps', None), st') => process_loop commands todo' ps' st'
        | r => r
        end
    end.

(** [process_commands(commands)]: the results, whatever happened. *)
Definition process_commands (commands : list json) : state -> list res * state :=
  fun st =>
    match process_loop commands commands (PState [] []) st with
    | ((ps, Some _), st') => (results ps, st')
    | ((ps, None), st') =>
        if bool_decide (batch_commands ps = []) then (results ps, st')
        else
          match flush ps st' with
          | (Ok ps', st'') => (results ps', st'')
          | (Raise _, st'') => (results ps, st'')
          end
    end.

End Executor.

(** ** Names *)

Section Names.
Context `{PyFormat}.

(** [command["command"]], when the subscript succeeds. *)
Definition name_opt (command : json) : option json :=
  match subscript command "command" with
  | Ok name => Some name
  | Raise _ => None
  end.

Definition names (commands : list json) : list json := omap name_opt commands.

Lemma name_opt_Some command name :
  name_opt command = Some name <-> subscript command "command" = Ok name.
Proof. unfold name_opt. destruct (subscript _ _); naive_solver. Qed.

Lemma names_app cs1 cs2 : names (cs1 ++ cs2) = names cs1 ++ names cs2.
Proof. apply omap_app. Qed.

Lemma names_length cs : length (names cs) <= length cs.
Proof.
  induction cs as [| c cs IH]; simpl; [done |].
  unfold names in *. simpl. destruct (name_opt c); simpl; lia.
Qed.

Lemma names_snoc cs c name :
  name_opt c = Some name -> names (cs ++ [c]) = names cs ++ [name].
Proof. intros Hn. rewrite names_app. unfold names at 2. simpl. by rewrite Hn. Qed.

End Names.

(** ** How one command leaves the dispatch *)

Section Dispatch.
Context `{PyFormat} (dev : device).

(** A computation that can only fall through to [results.append]. *)
Definition continues (m : M flow) : Prop :=
  forall st f st', m st = (Ok f, st') -> exists msg, f = Continue msg.

Lemma continues_ret msg : continues (ret (Continue msg)).
Proof. intros st f st' [= <- _]. eauto. Qed.

Lemma continues_bind {A} (m : M A) (k : A -> M flow) :
  (forall a, continues (k a)) -> continues (bindM m k).
Proof.
  intros Hk st f st'. unfold bindM. destruct (m st) as [[a | e] st1]; [| done].
  apply Hk.
Qed.

(** What [dispatch] hands back: a message, at most one result for the
    command itself on [return], a failed result for it on [break]. *)
Definition flow_ok (name : json) (f : flow) : Prop :=
  match f with
  | Continue _ => True
  | Return appended =>
      appended = [] \/ exists msg, appended = [Res name true msg]
  | Break r => r_command r = name /\ success r = false
  end.

Ltac solve_continues :=
  repeat first [apply continues_ret | apply continues_bind; intros ?].

Ltac continue_branch :=
  match goal with
  | |- ?m ?st = _ -> _ =>
      let Hc := fresh in let Hd := fresh in
      assert (continues m) as Hc by solve_continues;
      intros Hd; apply Hc in Hd as [? ->]; exact I
  end.

Ltac continue_branch' :=
  match goal with
  | |- ?m ?st = _ -> _ =>
      let Hc := fresh in let Hd := fresh in
      assert (continues m) as Hc by solve_continues;
      intros Hd; by apply Hc in Hd as [? ?]
  end.

Lemma dispatch_flow command name st f st' :
  dispatch dev command name st = (Ok f, st') -> flow_ok name f.
Proof.
  unfold dispatch.
  repeat (case_match; [continue_branch |]).
  unfold bindM, is_listening, set_listening, ret.
  destruct (is_name name "listen"), (listening st); simpl;
    intros [= <- _]; simpl; eauto.
Qed.

(** The second [elif command['command'] == 'listen'] can never be taken:
    [dispatch] never produces its message. *)
Lemma dispatch_no_repeat command name st appended st' :
  dispatch dev command name st = (Ok (Return appended), st') ->
  Forall (fun r => message r <> "<repeat>") appended.
Proof.
  unfold dispatch.
  repeat (case_match;
    [intros Hd; exfalso; revert Hd; continue_branch' |]).
  unfold bindM, is_listening, set_listening, ret.
  destruct (is_name name "listen"), (listening st); simpl;
    intros [= <- _]; by repeat constructor.
Qed.

End Dispatch.

(** ** The batch loop *)

Section Batch.
Context `{PyFormat} (dev : device).

(** What a batch adds to the results: results for a prefix of its
    commands, in order, a failure only in the last place. *)
Definition batch_out (commands : list json) (added : list res) : Prop :=
  map r_command added `prefix_of` names commands /\
  forall i r, added !! i = Some r -> success r = false -> S i = length added.

Lemma batch_out_nil commands : batch_out commands [].
Proof. split; [apply prefix_nil | by intros ?? [=]]. Qed.

Lemma batch_out_one c name r commands :
  name_opt c = Some name -> r_command r = name -> batch_out (c :: commands) [r].
Proof.
  intros Hn <-. split.
  - unfold names. simpl. rewrite Hn. apply prefix_cons, prefix_nil.
  - by intros [| i] r' [=].
Qed.

Lemma batch_out_cons c name msg commands added :
  name_opt c = Some name -> batch_out commands added ->
  batch_out (c :: commands) (Res name true msg :: added).
Proof.
  intros Hn [Hpre Hfail]. split.
  - unfold names. simpl. rewrite Hn. by apply prefix_cons.
  - intros [| i] r; simpl; [by intros [= <-] |].
    intros Hr Hs. f_equal. eauto.
Qed.

Lemma execute_batch_loop_cons command rest rs st :
  execute_batch_loop dev (command :: rest) rs st =
  match subscript command "command" with
  | Raise e => (Raise e, st)
  | Ok name =>
      match dispatch dev command name st with
      | (Ok (Continue msg), st') =>
          execute_batch_loop dev rest (rs ++ [Res name true msg])
            {| listening := listening st';
               trace := trace st' ++ [Settle 0.5] |}
      | (Ok (Return appended), st') => (Ok (rs ++ appended), st')
      | (Ok (Break r), st') => (Ok (rs ++ [r]), st')
      | (Raise e, st') =>
          (Ok (rs ++ [failure name e]),
           {| listening := false; trace := trace st' |})
      end
  end.
Proof.
  simpl. unfold bindM at 1, lift. destruct (subscript _ _) as [name |]; [| done].
  by destruct (dispatch dev command name st) as [[[] |] ?].
Qed.

Lemma failure_command name e : r_command (failure name e) = name.
Proof. by destruct e. Qed.

Lemma failure_success name e : success (failure name e) = false.
Proof. by destruct e. Qed.

(** A batch that returns has appended results for a prefix of its
    commands. *)
Lemma execute_batch_loop_Ok commands rs st rs' st' :
  execute_batch_loop dev commands rs st = (Ok rs', st') ->
  exists added, rs' = rs ++ added /\ batch_out commands added.
Proof.
  revert rs st. induction commands as [| c cs IH]; intros rs st.
  { intros [= <- _]. exists []. split; [by rewrite app_nil_r | apply batch_out_nil]. }
  rewrite execute_batch_loop_cons.
  destruct (subscript c "command") as [name |] eqn:Hname; [| done].
  apply name_opt_Some in Hname.
  destruct (dispatch dev c name st) as [[f | e] st1] eqn:Hd.
  - apply dispatch_flow in Hd. destruct f as [msg | appended | r]; simpl in Hd.
    + intros (added & -> & Hout)%IH. exists (Res name true msg :: added).
      split; [by rewrite <- app_assoc | by apply batch_out_cons].
    + intros [= <- _]. exists appended. split; [done |].
      destruct Hd as [-> | [msg ->]];
        [apply batch_out_nil | by eapply batch_out_one].
    + destruct Hd as [Hr _]. intros [= <- _]. exists [r].
      split; [done | by eapply batch_out_one].
  - intros [= <- _]. exists [failure name e]. split; [done |].
    eapply batch_out_one; [done | apply failure_command].
Qed.

(** The batch loop raises only on a command without a ["command"]
    entry. *)
Lemma execute_batch_loop_Raise commands rs st e st' :
  execute_batch_loop dev commands rs st = (Raise e, st') ->
  Exists (fun c => name_opt c = None) commands.
Proof.
  revert rs st. induction commands as [| c cs IH]; intros rs st; [done |].
  rewrite execute_batch_loop_cons.
  destruct (subscript c "command") as [name |] eqn:Hname.
  - destruct (dispatch dev c name st) as [[[] |] st1]; try done.
    intros ?%IH. by apply Exists_cons_tl.
  - intros _. apply Exists_cons_hd. unfold name_opt. by rewrite Hname.
Qed.

End Batch.

(** ** The loop of [process_commands] *)

Section Process.
Context `{PyFormat} (dev : device).

Lemma prefix_sublist {A} (l k : list A) : l `prefix_of` k -> l `sublist_of` k.
Proof. intros [m ->]. by apply sublist_inserts_r. Qed.

(** The loop invariant after the commands [done]: the pending commands
    all have a name, and the results followed by the pending commands are,
    by name, a subsequence of [done]. *)
Definition pinv (done : list json) (ps : pstate) : Prop :=
  Forall (fun c => is_Some (name_opt c)) (batch_commands ps) /\
  (map r_command (results ps) ++ names (batch_commands ps))
    `sublist_of` names done.

Lemma flush_Ok ps st ps' st' :
  flush dev ps st = (Ok ps', st') ->
  batch_commands ps' = [] /\
  exists added, results ps' = results ps ++ added /\
    batch_out (batch_commands ps) added.
Proof.
  unfold flush, bindM, execute_batch_commands.
  destruct (execute_batch_loop _ _ _ _) as [[rs |] st1] eqn:Hb; [| done].
  intros [= <- _]. split; [done |].
  apply execute_batch_loop_Ok in Hb as (added & -> & Hout). eauto.
Qed.

(** Under the invariant a flush never raises: every pending command has
    passed the subscript that could fail. *)
Lemma flush_never_raises ps done st e st' :
  pinv done ps -> flush dev ps st <> (Raise e, st').
Proof.
  intros [Hnamed _]. unfold flush, bindM, execute_batch_commands.
  destruct (execute_batch_loop _ _ _ _) as [[rs |] st1] eqn:Hb; [done |].
  apply execute_batch_loop_Raise in Hb.
  apply Exists_exists in Hb as (c & Hc & Hnone).
  rewrite Forall_forall in Hnamed. apply Hnamed in Hc as [? ?]. congruence.
Qed.

Lemma pinv_flush done ps st ps' st' :
  pinv done ps -> flush dev ps st = (Ok ps', st') -> pinv done ps'.
Proof.
  intros [Hnamed Hsub] (Hb & added & Hr & Hout & _)%flush_Ok.
  split; rewrite Hb; [done |]. rewrite Hr, app_nil_r, map_app.
  etrans; [| exact Hsub]. by apply sublist_app, prefix_sublist.
Qed.

Lemma pinv_push done ps c name :
  name_opt c = Some name -> pinv done ps ->
  pinv (done ++ [c])
    {| results := results ps; batch_commands := batch_commands ps ++ [c] |}.
Proof.
  intros Hn [Hnamed Hsub]. split; simpl.
  - apply Forall_app. split; [done |]. by repeat constructor.
  - rewrite !(names_snoc _ c name), app_assoc by done. by apply sublist_app.
Qed.

Lemma pinv_result done ps c r :
  name_opt c = Some (r_command r) -> batch_commands ps = [] -> pinv done ps ->
  pinv (done ++ [c])
    {| results := results ps ++ [r]; batch_commands := batch_commands ps |}.
Proof.
  intros Hn Hb [Hnamed Hsub]. split; simpl; [done |].
  rewrite Hb, app_nil_r in *. rewrite (names_snoc _ c (r_command r)) by done.
  rewrite map_app. by apply sublist_app.
Qed.

Lemma try_body_pinv commands c name ps st ps1 o st1 done :
  name_opt c = Some name -> pinv done ps ->
  try_body dev commands c name ps st = ((ps1, o), st1) ->
  match o with
  | None => pinv (done ++ [c]) ps1
  | Some _ => pinv done ps1 /\ batch_commands ps1 = []
  end.
Proof.
  intros Hn Hinv. unfold try_body. destruct (py_in name _).
  - assert (exists ps2 st2,
      (if bool_decide (batch_commands ps = []) then (Ok ps, st)
       else flush dev ps st) = (Ok ps2, st2) /\
      pinv done ps2 /\ batch_commands ps2 = []) as (ps2 & st2 & -> & Hinv2 & Hb).
    { case_bool_decide; [by eauto |].
      destruct (flush dev ps st) as [[ps2 | e] st2] eqn:Hf.
      - exists ps2, st2. split_and!; [done | by eapply pinv_flush |].
        by apply flush_Ok in Hf as [? _].
      - by apply flush_never_raises with (done := done) in Hf. }
    destruct (bindM _ _ st2) as [[seconds | e] st3]; intros [= <- <- <-];
      [by apply pinv_result | done].
  - pose proof (pinv_push done ps c name Hn Hinv) as Hpush.
    destruct (_ || _); [| by intros [= <- <- <-]].
    destruct (flush dev _ st) as [[ps2 | e] st2] eqn:Hf; intros [= <- <- <-].
    + by eapply pinv_flush.
    + by apply flush_never_raises with (done := done ++ [c]) in Hf.
Qed.

Lemma process_step_pinv commands c ps st ps' o st' done :
  pinv done ps -> process_step dev commands c ps st = ((ps', o), st') ->
  match o with
  | None => pinv (done ++ [c]) ps'
  | Some _ => ps' = ps /\ name_opt c = None
  end.
Proof.
  intros Hinv. unfold process_step, name_opt.
  destruct (subscript c "command") as [name |] eqn:Hname;
    [| by intros [= <- <- <-]].
  apply name_opt_Some in Hname.
  destruct (try_body dev commands c name ps st) as [[ps1 [e |]] st1] eqn:Ht;
    apply (try_body_pinv _ _ _ _ _ _ _ _ done) in Ht; try done;
    intros [= <- <- <-]; [| done].
  destruct Ht as [Hinv1 Hb]. apply pinv_result; [| done..].
  by rewrite failure_command.
Qed.

Lemma names_prefix cs1 cs2 : names cs1 `sublist_of` names (cs1 ++ cs2).
Proof. rewrite names_app. by apply sublist_inserts_r. Qed.

Lemma process_loop_pinv commands todo ps st ps' o st' done :
  pinv done ps -> process_loop dev commands todo ps st = ((ps', o), st') ->
  match o with
  | None => pinv (done ++ todo) ps'
  | Some _ =>
      map r_command (results ps') `sublist_of` names (done ++ todo) /\
      Exists (fun c => name_opt c = None) todo
  end.
Proof.
  revert ps st done. induction todo as [| c todo IH]; intros ps st done Hinv.
  { intros [= <- <- <-]. by rewrite app_nil_r. }
  simpl.
  destruct (process_step dev commands c ps st) as [[ps1 [e |]] st1] eqn:Hs;
    apply (process_step_pinv _ _ _ _ _ _ _ done) in Hs; try done.
  - intros [= <- <- <-]. destruct Hs as [-> Hnone], Hinv as [_ Hsub].
    split; [| by apply Exists_cons_hd].
    etrans; [| apply names_prefix]. etrans; [| exact Hsub].
    by apply sublist_inserts_r.
  - intros Hl. apply (IH _ _ (done ++ [c])) in Hl; [| done].
    rewrite <- app_assoc in Hl. destruct o; [| done].
    destruct Hl. split; [done | by apply Exists_cons_tl].
Qed.

Lemma process_results_sublist commands st :
  map r_command (process_commands dev commands st).1 `sublist_of` names commands.
Proof.
  unfold process_commands.
  destruct (process_loop dev commands commands (PState [] []) st)
    as [[ps [e |]] st1] eqn:Hl;
    apply (process_loop_pinv _ _ _ _ _ _ _ []) in Hl;
    try (split; [constructor | apply sublist_nil_l]); simpl in *;
    [by destruct Hl |].
  destruct Hl as [Hnamed Hsub].
  assert (map r_command (results ps) `sublist_of` names commands) as Hres.
  { etrans; [| exact Hsub]. by apply sublist_inserts_r. }
  case_bool_decide; [done |].
  destruct (flush dev ps st1) as [[ps2 | e] st2] eqn:Hf; [| done].
  pose proof (proj1 (flush_Ok _ _ _ _ Hf)) as Hb.
  eapply pinv_flush in Hf as [_ Hsub2]; [| done].
  by rewrite Hb, app_nil_r in Hsub2.
Qed.

(** C2: every result stands for one command of the input, and the results
    come in the order of the commands: by name, the results are a
    subsequence of the commands, whatever the desktop does. *)
Theorem process_commands_in_order commands st :
  map r_command (process_commands dev commands st).1 `sublist_of` names commands.
Proof. apply process_results_sublist. Qed.

(** [process_commands] returns at most one result per command. *)
Theorem process_commands_length commands st :
  length (process_commands dev commands st).1 <= length commands.
Proof.
  pose proof (sublist_length _ _ (process_results_sublist commands st)) as Hl.
  rewrite length_map in Hl. etrans; [exact Hl | apply names_length].
Qed.

(** The loop of [process_commands] reaches the outer handler, which
    drops the pending batch, only through a command that has no
    ["command"] entry; in particular [execute_batch_commands] never raises
    into it, and the two inner handlers never see a pending batch. *)
Theorem process_loop_aborts_only_unnamed commands st ps e st' :
  process_loop dev commands commands (PState [] []) st = ((ps, Some e), st') ->
  Exists (fun c => name_opt c = None) commands.
Proof.
  intros Hl. apply (process_loop_pinv _ _ _ _ _ _ _ []) in Hl; [by destruct Hl |].
  split; [constructor | apply sublist_nil_l].
Qed.

End Process.

(** ** The branches, one by one *)

Definition is_wait (name : json) : bool := py_in name [JStr "wait"].

Definition push (command : json) (ps : pstate) : pstate :=
  {| results := results ps; batch_commands := batch_commands ps ++ [command] |}.

(** Side conditions of the step equations on concrete commands. *)
Ltac side :=
  first [done | unfold push; simpl; lia | reflexivity | simpl; done].

Section Branches.
Context `{PyFormat} (dev : device).

(** The names [execute_batch_commands] knows. *)
Definition known_names : list string :=
  ["move_cursor_absolute"; "move_cursor_relative"; "mouse_button";
   "move_cursor_to_element"; "double_click"; "drag_to"; "mouse_down";
   "mouse_up"; "press_key"; "press_hotkey"; "enter_text"; "scroll"; "listen"].

Definition unknown (name : json) : Prop :=
  Forall (fun s => is_name name s = false) known_names.

#[export] Instance unknown_dec name : Decision (unknown name).
Proof. unfold unknown. apply _. Defined.

Lemma dispatch_unknown command name st :
  unknown name ->
  dispatch dev command name st =
  (Ok (Break (Res name false ("Unknown command: " +:+ py_str name))), st).
Proof.
  intros Hu. unfold unknown, known_names in Hu.
  repeat (apply Forall_cons in Hu as [? Hu]).
  unfold dispatch. by repeat (case_match; [congruence |]).
Qed.

Lemma dispatch_listen command st :
  dispatch dev command (JStr "listen") st =
  if listening st then (Ok (Return []), st)
  else (Ok (Return [Res (JStr "listen") true "Waiting for user instructions..."]),
        {| listening := true; trace := trace st |}).
Proof. unfold dispatch. simpl. unfold bindM, is_listening. by destruct st as [[] ?]. Qed.

(** An unknown command name is recorded as a failure and ends the
    batch at once: no call reaches the desktop, the pause gate is left as it
    is, and the commands after it in the batch are not attempted. *)
Theorem unknown_command_ends_batch command name rest rs st :
  subscript command "command" = Ok name -> unknown name ->
  execute_batch_loop dev (command :: rest) rs st =
  (Ok (rs ++ [Res name false ("Unknown command: " +:+ py_str name)]), st).
Proof.
  intros Hname Hu. by rewrite execute_batch_loop_cons, Hname, dispatch_unknown.
Qed.

(** [listen] ends the batch at once.  With the pause gate open it sets
    the gate and its result is the last one; with the gate already set
    nothing is appended, so the command leaves no result at all. *)
Theorem listen_ends_batch command rest rs st :
  subscript command "command" = Ok (JStr "listen") ->
  execute_batch_loop dev (command :: rest) rs st =
  if listening st then (Ok rs, st)
  else (Ok (rs ++ [Res (JStr "listen") true "Waiting for user instructions..."]),
        {| listening := true; trace := trace st |}).
Proof.
  intros Hname. rewrite execute_batch_loop_cons, Hname, dispatch_listen.
  destruct (listening st); by rewrite ?app_nil_r.
Qed.

(** C24: a command whose execution raises, because a parameter is
    missing or because the desktop rejects the call, is recorded as a
    failure carrying the text of the exception; the pause gate is cleared
    and the batch ends there, whatever follows. *)
Theorem raising_command_ends_batch command name rest rs st e st1 :
  subscript command "command" = Ok name ->
  dispatch dev command name st = (Raise e, st1) ->
  execute_batch_loop dev (command :: rest) rs st =
  (Ok (rs ++ [failure name e]), {| listening := false; trace := trace st1 |}).
Proof. intros Hname Hd. by rewrite execute_batch_loop_cons, Hname, Hd. Qed.

(** A click the desktop accepts: its result, the settle delay, and the
    batch goes on. *)
Lemma accepted_click_continues button rest rs st :
  outcome dev (trace st) (ClickMouseButton button) = None ->
  execute_batch_loop dev (cmd "mouse_button" [("button", button)] :: rest) rs st =
  execute_batch_loop dev rest
    (rs ++ [Res (JStr "mouse_button") true
              ("Clicked " +:+ py_str button +:+ " mouse button")])
    {| listening := listening st;
       trace := trace st ++ [ClickMouseButton button; Settle 0.5] |}.
Proof.
  intros Hout. rewrite execute_batch_loop_cons, subscript_cmd.
  assert (dispatch dev (cmd "mouse_button" [("button", button)])
            (JStr "mouse_button") st =
          (Ok (Continue ("Clicked " +:+ py_str button +:+ " mouse button")),
           {| listening := listening st;
              trace := trace st ++ [ClickMouseButton button] |})) as ->.
  { unfold dispatch. simpl. unfold bindM, lift, param, do. simpl.
    by rewrite Hout. }
  cbn [listening trace]. by rewrite <- app_assoc.
Qed.

(** ** The steps of [process_commands] *)

(** A command that only joins the pending batch. *)
Lemma process_step_queue commands command name ps st :
  subscript command "command" = Ok name -> is_wait name = false ->
  length (batch_commands ps) < 2 ->
  from_option (py_eq command) false (last commands) = false ->
  process_step dev commands command ps st = ((push command ps, None), st).
Proof.
  intros Hname Hw Hlen Hlast. unfold process_step. rewrite Hname.
  unfold try_body. fold (is_wait name). rewrite Hw, Hlast.
  cbn [batch_commands results]. rewrite orb_false_r.
  destruct (Nat.leb_spec 3 (length (batch_commands ps ++ [command])));
    [| done].
  rewrite length_app in *. simpl in *. lia.
Qed.

(** A command that completes a batch: the third one, or one equal to the
    last command of the input. *)
Lemma process_step_flush commands command name ps st ps' st' :
  subscript command "command" = Ok name -> is_wait name = false ->
  2 <= length (batch_commands ps) \/
    from_option (py_eq command) false (last commands) = true ->
  flush dev (push command ps) st = (Ok ps', st') ->
  process_step dev commands command ps st = ((ps', None), st').
Proof.
  intros Hname Hw Hcond Hf. unfold process_step. rewrite Hname.
  unfold try_body. fold (is_wait name). rewrite Hw. fold (push command ps).
  cbn [batch_commands results push].
  replace (_ || _) with true; [by rewrite Hf |].
  symmetry. apply orb_true_iff. destruct Hcond as [? | ->]; [left | by right].
  apply Nat.leb_le. rewrite length_app. simpl. lia.
Qed.

(** A [wait] on a pending batch: the batch first, then the sleep. *)
Lemma process_step_wait commands seconds ps st ps1 st1 :
  flush dev ps st = (Ok ps1, st1) ->
  batch_commands ps <> [] ->
  process_step dev commands (cmd "wait" [("seconds", seconds)]) ps st =
  (({| results := results ps1 ++
         [match outcome dev (trace st1) (Sleep seconds) with
          | None => Res (JStr "wait") true
                      ("Waited for " +:+ py_str seconds +:+ " seconds")
          | Some e => failure (JStr "wait") e
          end];
       batch_commands := batch_commands ps1 |}, None),
   {| listening := listening st1; trace := trace st1 ++ [Sleep seconds] |}).
Proof.
  intros Hf Hb. unfold process_step, try_body. simpl.
  rewrite bool_decide_false, Hf by done.
  unfold bindM, lift, param, do, ret. simpl.
  by destruct (outcome dev (trace st1) (Sleep seconds)).
Qed.

(** A [wait] that comes after two pending commands makes them run
    first: whatever they do to the desktop is in the trace before the
    sleep, on every desktop, and their results come before the result of
    the [wait]. *)
Theorem wait_runs_pending_first a b na nb seconds st rs st1 :
  let w := cmd "wait" [("seconds", seconds)] in
  subscript a "command" = Ok na -> is_wait na = false -> py_eq a w = false ->
  subscript b "command" = Ok nb -> is_wait nb = false -> py_eq b w = false ->
  execute_batch_commands dev [a; b] st = (Ok rs, st1) ->
  exists r,
    process_commands dev [a; b; w] st =
    (rs ++ [r],
     {| listening := listening st1; trace := trace st1 ++ [Sleep seconds] |}) /\
    r_command r = JStr "wait".
Proof.
  intros w Ha Hwa Hna Hb Hwb Hnb Hbatch. subst w. eexists.
  unfold process_commands.
  cbn [process_loop].
  rewrite (process_step_queue _ a na), (process_step_queue _ b nb)
    by side.
  assert (flush dev (push b (push a (PState [] []))) st =
          (Ok (PState rs []), st1)) as Hf.
  { unfold flush, bindM, push. cbn [batch_commands results app].
    by rewrite Hbatch. }
  rewrite (process_step_wait _ _ _ _ _ _ Hf) by done.
  cbn [process_loop batch_commands results]. rewrite bool_decide_true by done.
  split; [done |]. by destruct (outcome _ _ _) as [[] |].
Qed.

(** C15: the scenario [[A; B; C]] with [A] a click the desktop accepts and
    [B] an unknown command: two results, the second a failure, and [C] is
    never attempted: the only calls are the click and its settle delay. *)
Theorem unknown_in_the_middle button b nb c nc st :
  let a := cmd "mouse_button" [("button", button)] in
  outcome dev (trace st) (ClickMouseButton button) = None ->
  subscript b "command" = Ok nb -> unknown nb -> is_wait nb = false ->
  subscript c "command" = Ok nc -> is_wait nc = false ->
  py_eq a c = false -> py_eq b c = false ->
  process_commands dev [a; b; c] st =
  ([Res (JStr "mouse_button") true ("Clicked " +:+ py_str button +:+ " mouse button");
    Res nb false ("Unknown command: " +:+ py_str nb)],
   {| listening := listening st;
      trace := trace st ++ [ClickMouseButton button; Settle 0.5] |}).
Proof.
  intros a Hout Hb Hu Hwb Hc Hwc Hac Hbc. subst a. unfold process_commands.
  cbn [process_loop].
  rewrite (process_step_queue _ _ (JStr "mouse_button")) by side.
  rewrite (process_step_queue _ b nb) by side.
  match goal with |- _ = (?rs, ?st') =>
    rewrite (process_step_flush _ c nc _ _ (PState rs []) st')
  end; [by rewrite bool_decide_true | done | done | left; side |].
  unfold flush, bindM, push, execute_batch_commands.
  cbn [batch_commands results app].
  rewrite accepted_click_continues by done.
  by rewrite execute_batch_loop_cons, Hb, dispatch_unknown.
Qed.

(** C39: a command that has no ["command"] entry stops [process_commands]
    on the spot: the commands still pending are dropped without a call and
    without a result, and nothing after it is looked at. *)
Theorem unnamed_command_drops_pending a na c rest st :
  subscript a "command" = Ok na -> is_wait na = false ->
  from_option (py_eq a) false (last (a :: c :: rest)) = false ->
  name_opt c = None ->
  process_commands dev (a :: c :: rest) st = ([], st).
Proof.
  intros Ha Hwa Hlast Hc. unfold process_commands. cbn [process_loop].
  rewrite (process_step_queue _ a na) by side.
  unfold process_step, name_opt in *.
  by destruct (subscript c "command").
Qed.

End Branches.

(** ** Examples on a desktop that accepts every call *)

Definition demo_click : json := cmd "mouse_button" [("button", JStr "left")].
Definition demo_double : json := cmd "double_click" [].
Definition demo_move : json :=
  cmd "move_cursor_absolute" [("x", JInt 10); ("y", JInt 20)].
Definition demo_fly : json := cmd "fly" [].
Definition demo_listen : json := cmd "listen" [].

Section Findings.
Context `{PyFormat} (dev : device).

(** Setting the pause gate ends only the batch the [listen] is in.
    Here the second command equals the last one, so the batch is flushed
    after two commands, [listen] sets the gate and ends it, and the click
    and the move that follow are still sent to the desktop. *)
Theorem later_batch_runs_after_listen st :
  listening st = false ->
  outcome dev (trace st) (ClickMouseButton (JStr "left")) = None ->
  let out := process_commands dev
               [demo_listen; demo_move; demo_click; demo_move] st in
  head out.1 =
    Some (Res (JStr "listen") true "Waiting for user instructions...") /\
  trace st ++ [ClickMouseButton (JStr "left"); Settle 0.5;
               MoveCursorAbsolute (JInt 10) (JInt 20)] `prefix_of` trace out.2.
Proof.
  intros Hl Hout out. subst out. unfold process_commands. cbn [process_loop].
  rewrite (process_step_queue dev _ demo_listen (JStr "listen")) by side.
  rewrite (process_step_flush dev _ demo_move (JStr "move_cursor_absolute") _ _
    (PState [Res (JStr "listen") true "Waiting for user instructions..."] [])
    {| listening := true; trace := trace st |}); [| side | side | by right |].
  2:{ unfold flush, bindM, push, execute_batch_commands.
      cbn [batch_commands results app].
      rewrite execute_batch_loop_cons. unfold demo_listen.
      by rewrite subscript_cmd, dispatch_listen, Hl. }
  rewrite (process_step_queue dev _ demo_click (JStr "mouse_button")) by side.
  unfold process_step, demo_move, demo_click. rewrite subscript_cmd.
  unfold try_body, push. simpl.
  unfold flush, bindM, execute_batch_commands. cbn [batch_commands results].
  rewrite accepted_click_continues by done.
  rewrite execute_batch_loop_cons, subscript_cmd.
  unfold dispatch. simpl. unfold bindM, lift, param, do. simpl.
  destruct (outcome dev _ (MoveCursorAbsolute _ _)); simpl;
    (split; [done |]); rewrite <- !app_assoc; simpl; [done |].
  apply prefix_app, prefix_cons, prefix_cons, prefix_cons, prefix_nil.
Qed.

End Findings.

(** A desktop on which every call returns, the cursor at the origin. *)
Definition calm : device :=
  {| outcome _ _ := None; cursor _ := (JInt 0, JInt 0) |}.

Definition idle : state := {| listening := false; trace := [] |}.

(** A batch is flushed when the command equals the last command of
    the input, not when it is the last one.  The two inputs below differ in
    their first command only; in the first it equals the last command, the
    batches fall differently, and the final click is never attempted. *)
Theorem flush_is_by_value :
  let run := @process_commands demo_format calm in
  map success (run [demo_click; demo_fly; demo_move; demo_click] idle).1 =
    [true; false] /\
  map success (run [demo_double; demo_fly; demo_move; demo_click] idle).1 =
    [true; false; true].
Proof. split; reflexivity. Qed.

(** ** Witnesses *)

Lemma process_loop_aborts_only_unnamed_witness :
  Exists (fun c => @name_opt demo_format c = None) [demo_click; JObj []].
Proof.
  apply (@process_loop_aborts_only_unnamed demo_format calm
           [demo_click; JObj []] idle (PState [] [demo_click])
           (KeyError "command") idle).
  reflexivity.
Defined.

Lemma unknown_command_ends_batch_witness :
  @execute_batch_loop demo_format calm [demo_fly; demo_click] [] idle =
  (Ok [Res (JStr "fly") false "Unknown command: fly"], idle).
Proof.
  apply (@unknown_command_ends_batch demo_format calm demo_fly (JStr "fly")
           [demo_click] [] idle); [reflexivity | by_compute].
Defined.

Lemma listen_ends_batch_witness :
  @execute_batch_loop demo_format calm [demo_listen; demo_click] [] idle =
  (Ok [Res (JStr "listen") true "Waiting for user instructions..."],
   {| listening := true; trace := [] |}).
Proof.
  apply (@listen_ends_batch demo_format calm demo_listen [demo_click] [] idle).
  reflexivity.
Defined.

Lemma raising_command_ends_batch_witness :
  @execute_batch_loop demo_format calm
    [cmd "mouse_button" []; demo_click] [] {| listening := true; trace := [] |} =
  (Ok [Res (JStr "mouse_button") false "Missing required parameter: 'button'"],
   idle).
Proof.
  apply (@raising_command_ends_batch demo_format calm (cmd "mouse_button" [])
           (JStr "mouse_button") [demo_click] []
           {| listening := true; trace := [] |} (KeyError "button")
           {| listening := true; trace := [] |}); reflexivity.
Defined.

Lemma wait_runs_pending_first_witness :
  exists rs st1 r,
    @process_commands demo_format calm
      [demo_move; demo_click; cmd "wait" [("seconds", JInt 1)]] idle =
    (rs ++ [r],
     {| listening := listening st1; trace := trace st1 ++ [Sleep (JInt 1)] |}) /\
    r_command r = JStr "wait".
Proof.
  eexists _, _.
  eapply (@wait_runs_pending_first demo_format calm demo_move demo_click
            (JStr "move_cursor_absolute") (JStr "mouse_button") (JInt 1) idle);
    reflexivity.
Defined.

Lemma unknown_in_the_middle_witness :
  @process_commands demo_format calm [demo_click; demo_fly; demo_move] idle =
  ([Res (JStr "mouse_button") true "Clicked left mouse button";
    Res (JStr "fly") false "Unknown command: fly"],
   {| listening := false;
      trace := [ClickMouseButton (JStr "left"); Settle 0.5] |}).
Proof.
  apply (@unknown_in_the_middle demo_format calm (JStr "left") demo_fly
           (JStr "fly") demo_move (JStr "move_cursor_absolute") idle);
    first [reflexivity | by_compute].
Defined.

Lemma unnamed_command_drops_pending_witness :
  @process_commands demo_format calm [demo_click; JObj []; demo_move] idle =
  ([], idle).
Proof.
  apply (@unnamed_command_drops_pending demo_format calm demo_click
           (JStr "mouse_button") (JObj []) [demo_move] idle); reflexivity.
Defined.

Lemma later_batch_runs_after_listen_witness :
  let out := @process_commands demo_format calm
               [demo_listen; demo_move; demo_click; demo_move] idle in
  head out.1 =
    Some (Res (JStr "listen") true "Waiting for user instructions...") /\
  [] ++ [ClickMouseButton (JStr "left"); Settle 0.5;
         MoveCursorAbsolute (JInt 10) (JInt 20)] `prefix_of` trace out.2.
Proof.
  apply (@later_batch_runs_after_listen demo_format calm idle); reflexivity.
Defined.
