(* ===== verification/Calls.v ===== *)
(** * Calls: on whose behalf the executor calls the desktop

    Every call [process_commands] of src/services/execute_funcs.py makes
    into the desktop is made for a command of its input that carries the
    matching name: a click for a ["mouse_button"], a sleep for a ["wait"],
    and so on; the only calls made for no command are the delays between
    the commands of a batch.  The theorems hold for every desktop. *)

From S2P Require Import Prelude PyValue Effects Executor.
From Stdlib Require Import QArith.
#[local] Close Scope Q_scope.
#[local] Open Scope string_scope.
#[local] Open Scope list_scope.
#[local] Open Scope exec_scope.

(** The name of the command whose branch of [execute_batch_commands]
    makes the call; the delay after a command belongs to none. *)
Definition call_name (c : call) : option string :=
  match c with
  | MoveCursorAbsolute _ _ => Some "move_cursor_absolute"
  | MoveCursorRelative _ _ | GetCursorPosition => Some "move_cursor_relative"
  | ClickMouseButton _ => Some "mouse_button"
  | MoveMouseToUiElement _ => Some "move_cursor_to_element"
  | DoubleClick _ => Some "double_click"
  | DragTo _ _ _ _ => Some "drag_to"
  | MouseDown _ => Some "mouse_down"
  | MouseUp _ => Some "mouse_up"
  | PressKey _ => Some "press_key"
  | PressHotkey _ => Some "press_hotkey"
  | TypeText _ => Some "enter_text"
  | Scroll _ => Some "scroll"
  | Sleep _ => Some "wait"
  | Settle _ => None
  end.

(** The call is one that a command named in [ns] makes. *)
Definition called_for (ns : list json) (c : call) : Prop :=
  match call_name c with
  | Some s => JStr s ∈ ns
  | None => True
  end.

Lemma called_for_mono ns ns' c : ns ⊆ ns' -> called_for ns c -> called_for ns' c.
Proof. unfold called_for. destruct (call_name c); set_solver. Qed.

(** ** Computations that only add calls of a kind *)

Section Extends.
Context (P : call -> Prop).

(** [st'] is [st] after some more calls, all of them in [P]. *)
Definition extends (st st' : state) : Prop :=
  exists calls, trace st' = trace st ++ calls /\ Forall P calls.

Lemma extends_same st st' : trace st' = trace st -> extends st st'.
Proof. intros Ht. exists []. by rewrite app_nil_r. Qed.

Lemma extends_trans st1 st2 st3 :
  extends st1 st2 -> extends st2 st3 -> extends st1 st3.
Proof.
  intros (c1 & H1 & ?) (c2 & H2 & ?). exists (c1 ++ c2).
  split; [by rewrite H2, H1, app_assoc | by apply Forall_app].
Qed.

Lemma extends_call st st' c :
  P c -> trace st' = trace st ++ [c] -> extends st st'.
Proof. intros Hc Ht. exists [c]. split; [done | by constructor]. Qed.

Definition keeps {A} (m : M A) : Prop := forall st, extends st (m st).2.

Lemma keeps_ret {A} (a : A) : keeps (ret a).
Proof. intros st. by apply extends_same. Qed.

Lemma keeps_lift {A} (r : result A) : keeps (lift r).
Proof. intros st. by apply extends_same. Qed.

Lemma keeps_bind {A B} (m : M A) (k : A -> M B) :
  keeps m -> (forall a, keeps (k a)) -> keeps (bindM m k).
Proof.
  intros Hm Hk st. unfold bindM. specialize (Hm st).
  destruct (m st) as [[a | e] st1]; [| done].
  eapply extends_trans; [done | apply Hk].
Qed.

Lemma keeps_is_listening : keeps is_listening.
Proof. intros st. by apply extends_same. Qed.

Lemma keeps_set_listening b : keeps (set_listening b).
Proof. intros st. by apply extends_same. Qed.

Lemma keeps_settle q : P (Settle q) -> keeps (settle q).
Proof. intros Hq st. by eapply extends_call. Qed.

Lemma keeps_do dev c : P c -> keeps (do dev c).
Proof.
  intros Hc st. unfold do. eapply extends_call; [done |].
  by destruct (outcome dev (trace st) c).
Qed.

Lemma keeps_cursor dev : P GetCursorPosition -> keeps (call_get_cursor_position dev).
Proof.
  intros Hc st. unfold call_get_cursor_position. eapply extends_call; [done |].
  by destruct (outcome dev (trace st) GetCursorPosition).
Qed.

End Extends.

Lemma extends_mono (P Q : call -> Prop) st st' :
  (forall c, P c -> Q c) -> extends P st st' -> extends Q st st'.
Proof.
  intros HPQ (calls & Ht & Hc). exists calls. split; [done |].
  by eapply Forall_impl.
Qed.

(** Follows a computation built from the calls of the executor. *)
Ltac solve_keeps :=
  repeat first
    [ apply keeps_ret | apply keeps_lift | apply keeps_is_listening
    | apply keeps_set_listening
    | apply keeps_settle; exact I
    | apply keeps_do; apply list_elem_of_singleton; reflexivity
    | apply keeps_cursor; apply list_elem_of_singleton; reflexivity
    | apply keeps_bind; [| intros ?]
    | case_match ].

Section Commands.
Context `{PyFormat} (dev : device).

(** The calls of one command are those of its name. *)
Lemma dispatch_keeps command name :
  keeps (called_for [name]) (dispatch dev command name).
Proof.
  unfold dispatch, is_name.
  repeat lazymatch goal with
    | |- keeps _ (if py_eq name (JStr ?s) then _ else _) =>
        destruct (py_eq name (JStr s)) eqn:Hn;
          [apply py_eq_JStr_r in Hn as ->; solve_keeps | clear Hn]
    end.
  solve_keeps.
Qed.

Lemma names_subseteq (l k : list json) : l ⊆ k -> names l ⊆ names k.
Proof.
  intros Hlk name (c & Hc & Hn)%list_elem_of_omap.
  apply list_elem_of_omap. exists c. split; [by apply Hlk | done].
Qed.

Lemma names_cons c name cs :
  subscript c "command" = Ok name -> names (c :: cs) = name :: names cs.
Proof. intros Hn%name_opt_Some. unfold names. simpl. by rewrite Hn. Qed.

(** The calls of a batch are those of its commands, and the delays. *)
Lemma execute_batch_loop_keeps commands rs :
  keeps (called_for (names commands)) (execute_batch_loop dev commands rs).
Proof.
  revert rs. induction commands as [| c cs IH]; intros rs st.
  { by apply extends_same. }
  rewrite execute_batch_loop_cons.
  destruct (subscript c "command") as [name |] eqn:Hname;
    [| by apply extends_same].
  rewrite (names_cons c name cs Hname).
  pose proof (dispatch_keeps c name st) as Hd.
  apply (extends_mono _ (called_for (name :: names cs))) in Hd;
    [| intros ?; apply called_for_mono; set_solver].
  destruct (dispatch dev c name st) as [[[msg | appended | r] | e] st1];
    simpl in *; try done.
  eapply extends_trans; [exact Hd |].
  eapply extends_trans;
    [| eapply extends_mono; [| apply IH];
       intros ?; apply called_for_mono; set_solver].
  by apply (extends_call _ _ _ (Settle 0.5)).
Qed.

Lemma flush_keeps ps :
  keeps (called_for (names (batch_commands ps))) (flush dev ps).
Proof.
  unfold flush, execute_batch_commands.
  apply keeps_bind; [apply execute_batch_loop_keeps | intros ?; apply keeps_ret].
Qed.

(** ** The loop of [process_commands] *)

(** The pending commands are commands of the input. *)
Definition pending_in (commands : list json) (ps : pstate) : Prop :=
  batch_commands ps ⊆ commands.

Lemma flush_pending commands ps st :
  pending_in commands ps ->
  extends (called_for (names commands)) st (flush dev ps st).2 /\
  forall ps', (flush dev ps st).1 = Ok ps' -> pending_in commands ps'.
Proof.
  intros Hp. split.
  - eapply extends_mono; [| apply flush_keeps].
    intros ?. by apply called_for_mono, names_subseteq.
  - unfold flush, bindM. destruct (execute_batch_commands _ _ _) as [[? | ?] ?];
      [| done].
    intros ps' [= <-]. unfold pending_in. set_solver.
Qed.

Lemma try_body_keeps commands command name ps st :
  command ∈ commands -> subscript command "command" = Ok name ->
  pending_in commands ps ->
  let out := try_body dev commands command name ps st in
  extends (called_for (names commands)) st out.2 /\
  pending_in commands out.1.1.
Proof.
  intros Hin Hname Hp. unfold try_body.
  assert (pending_in commands
            {| results := results ps;
               batch_commands := batch_commands ps ++ [command] |}) as Hp1.
  { unfold pending_in in *. set_solver. }
  destruct (py_in name [JStr "wait"]) eqn:Hwait.
  - assert (name = JStr "wait") as ->.
    { unfold py_in in Hwait. simpl in Hwait. rewrite orb_false_r in Hwait.
      by apply py_eq_JStr_r. }
    assert (called_for (names commands) (Sleep (JStr ""))) as Hsleep.
    { apply list_elem_of_omap. exists command. by rewrite name_opt_Some. }
    assert (exists st1 ps1,
      (if bool_decide (batch_commands ps = []) then (Ok ps, st)
       else flush dev ps st) = (ps1, st1) /\
      extends (called_for (names commands)) st st1 /\
      (forall p, ps1 = Ok p -> pending_in commands p))
      as (st1 & r1 & -> & Hext & Hp') .
    { case_bool_decide.
      - eexists _, _. split; [done |].
        split; [by apply extends_same | by intros ? [= <-]].
      - destruct (flush_pending commands ps st Hp) as [? ?].
        destruct (flush dev ps st) as [r1 st1]. eauto. }
    destruct r1 as [ps1 | e]; [| done]. specialize (Hp' ps1 eq_refl).
    unfold bindM, lift. destruct (param command "seconds") as [seconds | e];
      [| done].
    unfold do. cbn [fst snd]. split.
    + eapply extends_trans; [exact Hext |].
      apply (extends_call _ _ _ (Sleep seconds)); [exact Hsleep |].
      by destruct (outcome dev (trace st1) (Sleep seconds)).
    + by destruct (outcome dev (trace st1) (Sleep seconds)).
  - case_match.
    + destruct (flush_pending commands _ st Hp1) as [? Hp2].
      destruct (flush dev _ st) as [[ps2 | e] st1]; [| done].
      split; [done | by apply Hp2].
    + split; [by apply extends_same | done].
Qed.

Lemma process_step_keeps commands command ps st :
  command ∈ commands -> pending_in commands ps ->
  let out := process_step dev commands command ps st in
  extends (called_for (names commands)) st out.2 /\
  pending_in commands out.1.1.
Proof.
  intros Hin Hp. unfold process_step.
  destruct (subscript command "command") as [name | e] eqn:Hname;
    [| by split; [apply extends_same |]].
  destruct (try_body_keeps commands command name ps st) as [Hext Hp'];
    [done.. |].
  by destruct (try_body dev commands command name ps st) as [[ps' [e |]] st'].
Qed.

Lemma process_loop_keeps commands todo ps st :
  todo ⊆ commands -> pending_in commands ps ->
  let out := process_loop dev commands todo ps st in
  extends (called_for (names commands)) st out.2 /\
  pending_in commands out.1.1.
Proof.
  revert ps st. induction todo as [| c todo IH]; intros ps st Htodo Hp.
  { by split; [apply extends_same |]. }
  cbn [process_loop].
  destruct (process_step_keeps commands c ps st) as [Hext Hp'];
    [set_solver | done |].
  destruct (process_step dev commands c ps st) as [[ps' [e |]] st']; [done |].
  destruct (IH ps' st') as [Hext' Hp'']; [set_solver | done |].
  split; [by eapply extends_trans | done].
Qed.

(** What [process_commands] adds to the trace. *)
Lemma process_commands_trace commands st :
  extends (called_for (names commands)) st (process_commands dev commands st).2.
Proof.
  unfold process_commands.
  destruct (process_loop_keeps commands commands (PState [] []) st)
    as [Hext Hp]; [done | unfold pending_in; set_solver |].
  destruct (process_loop dev commands commands (PState [] []) st)
    as [[ps [e |]] st1]; [done |]. cbn [fst snd] in *.
  case_bool_decide; [done |].
  destruct (flush_pending commands ps st1 Hp) as [Hext' _].
  destruct (flush dev ps st1) as [[ps' | e] st2];
    by eapply extends_trans.
Qed.

(** C8: whatever the commands and whatever the desktop does,
    [process_commands] only adds calls to the trace, and each call it
    adds is the call of a command of the input with the matching name, or
    the delay after a command; in particular the pending batch that is
    dropped on an exception makes no call. *)
Theorem process_commands_calls commands st :
  exists calls,
    trace (process_commands dev commands st).2 = trace st ++ calls /\
    Forall (called_for (names commands)) calls.
Proof. apply process_commands_trace. Qed.

(** A command name that is not in the input: none of its calls is
    made. *)
Theorem process_commands_no_call commands st s :
  JStr s ∉ names commands ->
  exists calls,
    trace (process_commands dev commands st).2 = trace st ++ calls /\
    Forall (fun c => call_name c <> Some s) calls.
Proof.
  intros Hs. destruct (process_commands_trace commands st) as (calls & Ht & Hc).
  exists calls. split; [done |]. eapply Forall_impl; [exact Hc |].
  unfold called_for. intros c Hcall Hname. by rewrite Hname in Hcall.
Qed.

End Commands.

(** The batch of the examples of [Executor]: the calls are a click, the
    delay, and nothing for the unknown command and what follows it. *)
Example calls_of_a_batch :
  trace (@process_commands demo_format calm [demo_click; demo_fly; demo_move]
           idle).2 =
  [ClickMouseButton (JStr "left"); Settle 0.5].
Proof. vm_compute. reflexivity. Qed.
