(* ===== verification/Cursor.v ===== *)
(** * Cursor: the pointer and keyboard primitives

    src/services/cursor_module.py and src/services/keyboard_module.py: the
    functions the executor calls to move the pointer, press buttons and
    keys, and paste text.  They are thin wrappers around pyautogui,
    screeninfo and pyperclip; what they add is the clamping of coordinates
    to the primary monitor, the switch that turns pyautogui's fail-safe
    off, and the clipboard dance of [type_text].

    The libraries are the state [gui]: the monitors, the pointer, the
    fail-safe switch, the clipboard, the restore threads not yet run, and
    the log of the calls that were accepted.  Whether a library call is
    refused (an invalid button name, the fail-safe corner, a missing
    clipboard tool) is the parameter [refuses] of the section: every
    theorem holds for every such behaviour. *)

From S2P Require Import Prelude PyValue Effects.
From Stdlib Require Import QArith.
#[local] Close Scope Q_scope.
#[local] Open Scope string_scope.
#[local] Open Scope list_scope.
#[local] Open Scope Z_scope.
#[local] Open Scope py_scope.
#[local] Open Scope exec_scope.

(** ** The libraries *)

(** The calls into pyautogui and pyperclip. *)
Inductive gui_call : Type :=
| GuiMoveTo (x y : json) (duration : Q)
| GuiClick (button : json)
| GuiDoubleClick (button : json)
| GuiDragTo (x y button duration : json)
| GuiMouseDown (button : json)
| GuiMouseUp (button : json)
| GuiScroll (clicks : json)
| GuiPress (key : json)
| GuiHotkey (keys : list json)
| ClipPaste
| ClipCopy (t : json).

Record gui : Type := Gui {
  monitors : list (Z * Z);      (* [screeninfo.get_monitors()]: width, height *)
  size : Z * Z;                 (* [pyautogui.size()] *)
  position : Z * Z;             (* [pyautogui.position()] *)
  failsafe : bool;              (* [pyautogui.FAILSAFE] *)
  clipboard : json;             (* what [pyperclip.paste()] returns *)
  restores : list json;         (* [restore_clipboard] threads started *)
  sent : list gui_call;         (* the calls accepted so far *)
}.

(** The pixel a coordinate handed to pyautogui denotes: [int(x)]; the
    pointer stays where it is on anything that is not a number. *)
Definition pixel (old : Z) (v : json) : Z := default old (py_int v).

(** What an accepted call does to the state, its entry in [sent] apart. *)
Definition effect (c : gui_call) (g : gui) : gui :=
  match c with
  | GuiMoveTo x y _ | GuiDragTo x y _ _ =>
      {| monitors := monitors g; size := size g;
         position := (pixel (position g).1 x, pixel (position g).2 y);
         failsafe := failsafe g; clipboard := clipboard g;
         restores := restores g; sent := sent g |}
  | ClipCopy t =>
      {| monitors := monitors g; size := size g; position := position g;
         failsafe := failsafe g; clipboard := t;
         restores := restores g; sent := sent g |}
  | _ => g
  end.

Definition record (c : gui_call) (g : gui) : gui :=
  {| monitors := monitors g; size := size g; position := position g;
     failsafe := failsafe g; clipboard := clipboard g;
     restores := restores g; sent := sent g ++ [c] |}.

Section Cursor.
Context `{PyFormat} (refuses : gui -> gui_call -> option exn).

(** A call into a library: refused with an exception, or carried out. *)
Definition send (c : gui_call) : ST gui unit :=
  fun g =>
    match refuses g c with
    | Some e => (Raise e, g)
    | None => (Ok tt, record c (effect c g))
    end.

(** ** cursor_module.py *)

Definition get_cursor_position : ST gui (Z * Z) :=
  fun g => (Ok (position g), g).

Definition get_screen_dimensions : ST gui (Z * Z) :=
  fun g =>
    match monitors g with
    | m :: _ => (Ok m, g)
    | [] => (Ok (size g), g)
    end.

(** [max(0, min(x, limit - 1))] *)
Definition clamp_coord (x : json) (limit : Z) : result json :=
  m <- py_min x (JInt (limit - 1)) ;; py_max (JInt 0) m.

(** [pyautogui.FAILSAFE = False] *)
Definition failsafe_off : ST gui unit :=
  modify (fun g =>
    {| monitors := monitors g; size := size g; position := position g;
       failsafe := false; clipboard := clipboard g;
       restores := restores g; sent := sent g |}).

Definition move_cursor_absolute (x y : json) : ST gui unit :=
  dims <~ get_screen_dimensions ;;
  x <~ lift (clamp_coord x dims.1) ;;
  y <~ lift (clamp_coord y dims.2) ;;
  failsafe_off ;;;
  send (GuiMoveTo x y 0.1).

Definition move_cursor_relative (dx dy : json) : ST gui unit :=
  current <~ get_cursor_position ;;
  dims <~ get_screen_dimensions ;;
  sx <~ lift (py_add (JInt current.1) dx) ;;
  new_x <~ lift (clamp_coord sx dims.1) ;;
  sy <~ lift (py_add (JInt current.2) dy) ;;
  new_y <~ lift (clamp_coord sy dims.2) ;;
  failsafe_off ;;;
  send (GuiMoveTo new_x new_y 0.1).

Definition click_mouse_button (button : json) : ST gui bool :=
  send (GuiClick button) ;;; ret true.

Definition double_click (button : json) : ST gui bool :=
  send (GuiDoubleClick button) ;;; ret true.

Definition drag_to (x y button duration : json) : ST gui bool :=
  dims <~ get_screen_dimensions ;;
  x <~ lift (clamp_coord x dims.1) ;;
  y <~ lift (clamp_coord y dims.2) ;;
  send (GuiDragTo x y button duration) ;;;
  ret true.

Definition mouse_down (button : json) : ST gui bool :=
  send (GuiMouseDown button) ;;; ret true.

Definition mouse_up (button : json) : ST gui bool :=
  send (GuiMouseUp button) ;;; ret true.

Definition scroll (clicks : json) : ST gui bool :=
  send (GuiScroll clicks) ;;; ret true.

(** ** keyboard_module.py *)

Definition press_key (key : json) : ST gui bool :=
  send (GuiPress key) ;;; ret true.

Definition press_hotkey (keys : list json) : ST gui bool :=
  send (GuiHotkey keys) ;;; ret true.

(** The [finally] clause of [type_text]: a thread is started that will
    put [original] back on the clipboard. *)
Definition start_restore (original : json) : ST gui unit :=
  modify (fun g =>
    {| monitors := monitors g; size := size g; position := position g;
       failsafe := failsafe g; clipboard := clipboard g;
       restores := restores g ++ [original]; sent := sent g |}).

Definition type_text (t : json) : ST gui bool :=
  send ClipPaste ;;;
  original <~ (fun g => (Ok (clipboard g), g)) ;;
  r <~ try_catch
         (send (ClipCopy t) ;;;
          send (GuiHotkey [JStr "ctrl"; JStr "v"]) ;;;
          ret true)
         (fun _ => ret false) ;;
  start_restore original ;;;
  ret r.

End Cursor.

(** The oldest restore thread runs: [pyperclip.copy(original_clipboard)].
    Nothing happens to an exception in a daemon thread. *)
Definition restore_clipboard (g : gui) : gui :=
  match restores g with
  | [] => g
  | original :: rest =>
      {| monitors := monitors g; size := size g; position := position g;
         failsafe := failsafe g; clipboard := original;
         restores := rest; sent := sent g ++ [ClipCopy original] |}
  end.

(** A pyautogui that refuses nothing but a button it does not know, and
    every call made with the fail-safe on and the pointer in the corner. *)
Definition known_button (b : json) : bool :=
  py_in b [JStr "left"; JStr "middle"; JStr "right"; JStr "primary";
           JStr "secondary"; JInt 1; JInt 2; JInt 3].

Definition button_of (c : gui_call) : option json :=
  match c with
  | GuiClick b | GuiDoubleClick b | GuiDragTo _ _ b _ | GuiMouseDown b
  | GuiMouseUp b => Some b
  | _ => None
  end.

Definition strict (g : gui) (c : gui_call) : option exn :=
  match c with
  | ClipPaste | ClipCopy _ => None
  | _ =>
      if failsafe g && bool_decide (position g = (0, 0)) then
        Some (Exception "FailSafeException")
      else
        match button_of c with
        | Some b =>
            if known_button b then None
            else Some (Exception "PyAutoGUIException")
        | None => None
        end
  end.

(** A 1920 x 1080 monitor, the pointer in its middle. *)
Definition desk : gui :=
  {| monitors := [(1920, 1080)]; size := (1920, 1080); position := (960, 540);
     failsafe := true; clipboard := JStr "kept"; restores := []; sent := [] |}.

(** ** Clamping *)

Section Clamp.
Context `{PyFormat}.

Lemma clamp_coord_int n limit :
  clamp_coord (JInt n) limit = Ok (JInt (clamp 0 (limit - 1) n)).
Proof. unfold clamp_coord. rewrite py_min_int. simpl. by rewrite py_max_int. Qed.

(** A clamped coordinate is a number, never negative, and below [limit]
    as soon as the monitor has a pixel. *)
Lemma clamp_coord_Ok x limit v :
  clamp_coord x limit = Ok v ->
  exists q, num_of v = Some q /\ (0 <= q)%Q /\
    (1 <= limit -> (q <= inject_Z (limit - 1))%Q).
Proof.
  unfold clamp_coord. intros Hc.
  destruct (num_of x) as [qx |] eqn:Hx.
  - destruct (py_min_num x (JInt (limit - 1)) qx (inject_Z (limit - 1)))
      as (m & qm & Hm & Hqm & _ & Hhi & _); [done.. |].
    rewrite Hm in Hc. simpl in Hc.
    destruct (py_max_num (JInt 0) m (inject_Z 0) qm)
      as (w & qw & Hw & Hqw & Hlo & _ & Hor); [done.. |].
    rewrite Hw in Hc. injection Hc as <-. exists qw. split_and!; try done.
    destruct Hor as [-> | ->].
    + injection Hqw as <-. intros ?. unfold Qle. simpl. lia.
    + intros _. congruence.
  - destruct (proj2 (py_lt_Raise (JInt (limit - 1)) x)) as [e He]; [by right |].
    unfold py_min in Hc. by rewrite He in Hc.
Qed.

(** Clamping raises exactly on what is not a number. *)
Lemma clamp_coord_Raise x limit :
  (exists e, clamp_coord x limit = Raise e) <-> num_of x = None.
Proof.
  split.
  - intros [e He]. destruct (num_of x) as [qx |] eqn:Hx; [| done].
    destruct (py_min_num x (JInt (limit - 1)) qx (inject_Z (limit - 1)))
      as (m & qm & Hm & Hqm & _); [done.. |].
    destruct (py_max_num (JInt 0) m (inject_Z 0) qm)
      as (w & qw & Hw & _); [done.. |].
    unfold clamp_coord in He. rewrite Hm in He. simpl in He. by rewrite Hw in He.
  - intros Hx.
    destruct (proj2 (py_lt_Raise (JInt (limit - 1)) x)) as [e He]; [by right |].
    exists e. unfold clamp_coord, py_min. by rewrite He.
Qed.

(** The pixel of a clamped coordinate is on the monitor. *)
Lemma clamp_coord_pixel x limit v old :
  clamp_coord x limit = Ok v -> 1 <= limit -> 0 <= pixel old v < limit.
Proof.
  intros (q & Hq & Hlo & Hhi)%clamp_coord_Ok Hlimit.
  destruct (py_int_between v q (limit - 1)) as (n & Hn & ?); auto.
  unfold pixel. rewrite Hn. simpl. lia.
Qed.

End Clamp.

(** ** The pointer stays on the monitor *)

(** What [get_screen_dimensions] returns. *)
Definition dims (g : gui) : Z * Z :=
  match monitors g with
  | m :: _ => m
  | [] => size g
  end.

Definition in_screen (g : gui) : Prop :=
  (0 <= (position g).1 < (dims g).1) /\ (0 <= (position g).2 < (dims g).2).

#[export] Instance in_screen_dec g : Decision (in_screen g).
Proof. unfold in_screen. apply _. Defined.

(** Where a call sends the pointer. *)
Definition target (c : gui_call) : option (json * json) :=
  match c with
  | GuiMoveTo x y _ | GuiDragTo x y _ _ => Some (x, y)
  | _ => None
  end.

(** Follows a computation through its sequence of calls. *)
Ltac st_cases :=
  repeat (simplify_eq/=;
          match goal with
          | H : context [match ?x with _ => _ end] |- _ => destruct x eqn:?
          end);
  simplify_eq/=.

Section Pointer.
Context `{PyFormat} (refuses : gui -> gui_call -> option exn).

Lemma get_screen_dimensions_eq g : get_screen_dimensions g = (Ok (dims g), g).
Proof. unfold get_screen_dimensions, dims. by destruct (monitors g). Qed.

Lemma dims_record c g : dims (record c g) = dims g.
Proof. done. Qed.

Lemma dims_effect c g : dims (effect c g) = dims g.
Proof. by destruct c. Qed.

(** A call whose target was clamped leaves the pointer on the monitor,
    accepted or not. *)
Lemma send_in_screen c g r g' :
  in_screen g ->
  (forall x y, target c = Some (x, y) ->
     exists x0 y0, clamp_coord x0 (dims g).1 = Ok x /\
                   clamp_coord y0 (dims g).2 = Ok y) ->
  send refuses c g = (r, g') -> in_screen g' /\ dims g' = dims g.
Proof.
  intros Hin Ht. unfold send. destruct (refuses g c); intros [= <- <-]; [done |].
  assert (Hd : dims (record c (effect c g)) = dims g)
    by (by rewrite dims_record, dims_effect).
  split; [| done]. unfold in_screen. rewrite Hd. destruct Hin as [Hx Hy].
  destruct c; try done;
    destruct (Ht _ _ eq_refl) as (x0 & y0 & Hx0 & Hy0);
    split; cbn [effect record position fst snd];
    (eapply clamp_coord_pixel; [eassumption | lia]).
Qed.

Lemma move_cursor_absolute_in_screen x y g r g' :
  in_screen g -> move_cursor_absolute refuses x y g = (r, g') ->
  in_screen g' /\ dims g' = dims g.
Proof.
  intros Hin. unfold move_cursor_absolute, bindM, lift, failsafe_off, modify.
  rewrite get_screen_dimensions_eq. intros Hrun. st_cases; try done.
  eapply send_in_screen in Hrun; eauto. intros ? ? [= <- <-]. eauto.
Qed.

Lemma move_cursor_relative_in_screen dx dy g r g' :
  in_screen g -> move_cursor_relative refuses dx dy g = (r, g') ->
  in_screen g' /\ dims g' = dims g.
Proof.
  intros Hin. unfold move_cursor_relative, bindM, lift, failsafe_off, modify,
    get_cursor_position.
  rewrite get_screen_dimensions_eq. intros Hrun. st_cases; try done.
  eapply send_in_screen in Hrun; eauto. intros ? ? [= <- <-]. eauto.
Qed.

Lemma drag_to_in_screen x y button duration g r g' :
  in_screen g -> drag_to refuses x y button duration g = (r, g') ->
  in_screen g' /\ dims g' = dims g.
Proof.
  intros Hin. unfold drag_to, bindM, lift, ret.
  rewrite get_screen_dimensions_eq. intros Hrun. st_cases; try done;
    (eapply send_in_screen; [done | | done]); intros ? ? [= <- <-]; eauto.
Qed.

End Pointer.

(** ** What each primitive does *)

Section Moves.
Context `{PyFormat} (refuses : gui -> gui_call -> option exn).

(** The state in which [pyautogui.moveTo] is called. *)
Definition unguarded (g : gui) : gui :=
  {| monitors := monitors g; size := size g; position := position g;
     failsafe := false; clipboard := clipboard g;
     restores := restores g; sent := sent g |}.

Lemma move_cursor_absolute_clamped x y x' y' g :
  clamp_coord x (dims g).1 = Ok x' -> clamp_coord y (dims g).2 = Ok y' ->
  move_cursor_absolute refuses x y g =
  send refuses (GuiMoveTo x' y' 0.1) (unguarded g).
Proof.
  intros Hx Hy. unfold move_cursor_absolute, bindM, lift.
  by rewrite get_screen_dimensions_eq, Hx, Hy.
Qed.

(** C28: on integer coordinates [move_cursor_absolute] asks pyautogui for
    the nearest pixel of the primary monitor, with the fail-safe switched
    off; when pyautogui accepts, the pointer is there. *)
Theorem move_cursor_absolute_int (x y : Z) g :
  let x' := clamp 0 ((dims g).1 - 1) x in
  let y' := clamp 0 ((dims g).2 - 1) y in
  refuses (unguarded g) (GuiMoveTo (JInt x') (JInt y') 0.1) = None ->
  exists g', move_cursor_absolute refuses (JInt x) (JInt y) g = (Ok tt, g') /\
    position g' = (x', y') /\ failsafe g' = false /\
    sent g' = sent g ++ [GuiMoveTo (JInt x') (JInt y') 0.1].
Proof.
  intros x' y' Hacc.
  rewrite (move_cursor_absolute_clamped _ _ (JInt x') (JInt y'))
    by apply clamp_coord_int.
  unfold send. rewrite Hacc. eexists; split; [done |].
  cbn [record effect position failsafe sent unguarded]. unfold pixel.
  by rewrite !py_int_int.
Qed.

(** A coordinate that is not a number makes [move_cursor_absolute]
    raise before anything is sent to pyautogui: the pointer, the fail-safe
    switch and the log are as before. *)
Theorem move_cursor_absolute_not_a_number x y g :
  num_of x = None \/ num_of y = None ->
  exists e, move_cursor_absolute refuses x y g = (Raise e, g).
Proof.
  intros Hnum. unfold move_cursor_absolute, bindM, lift.
  rewrite get_screen_dimensions_eq.
  destruct (clamp_coord x _) as [x' | e] eqn:Hx; [| by eauto].
  destruct (clamp_coord y _) as [y' | e] eqn:Hy; [| by eauto].
  destruct Hnum as [Hn | Hn].
  - apply (clamp_coord_Raise x (dims g).1) in Hn as [e He]. congruence.
  - apply (clamp_coord_Raise y (dims g).2) in Hn as [e He]. congruence.
Qed.

(** [move_cursor_relative] by integer offsets asks for the pixel of
    the monitor nearest to the current position plus the offset. *)
Theorem move_cursor_relative_int (dx dy : Z) g :
  let x' := clamp 0 ((dims g).1 - 1) ((position g).1 + dx) in
  let y' := clamp 0 ((dims g).2 - 1) ((position g).2 + dy) in
  refuses (unguarded g) (GuiMoveTo (JInt x') (JInt y') 0.1) = None ->
  exists g', move_cursor_relative refuses (JInt dx) (JInt dy) g = (Ok tt, g') /\
    position g' = (x', y') /\ failsafe g' = false.
Proof.
  intros x' y' Hacc.
  unfold move_cursor_relative, bindM, lift, get_cursor_position.
  rewrite get_screen_dimensions_eq, !py_add_int, !clamp_coord_int.
  unfold failsafe_off, modify, send. fold (unguarded g). fold x' y'.
  rewrite Hacc. eexists; split; [done |].
  cbn [record effect position failsafe sent unguarded]. unfold pixel.
  by rewrite !py_int_int.
Qed.

(** [drag_to] leaves the fail-safe switch as it finds it. *)
Lemma drag_to_failsafe x y button duration g r g' :
  drag_to refuses x y button duration g = (r, g') -> failsafe g' = failsafe g.
Proof.
  unfold drag_to, bindM, lift, ret, send. rewrite get_screen_dimensions_eq.
  intros Hrun. st_cases; try done.
Qed.

End Moves.

(** ** Typing through the clipboard *)

Section TypeText.
Context `{PyFormat} (refuses : gui -> gui_call -> option exn).

(** Once [pyperclip.paste()] has returned, [type_text] returns
    whatever pyautogui and pyperclip do, and a thread is started that will
    put the clipboard back; its result is [True] exactly when the copy and
    the paste key were both accepted. *)
Theorem type_text_returns t g :
  refuses g ClipPaste = None ->
  exists b g', type_text refuses t g = (Ok b, g') /\
    restores g' = restores g ++ [clipboard g] /\
    position g' = position g /\
    (b = true <->
     refuses (record ClipPaste g) (ClipCopy t) = None /\
     refuses (record (ClipCopy t) (effect (ClipCopy t) (record ClipPaste g)))
       (GuiHotkey [JStr "ctrl"; JStr "v"]) = None).
Proof.
  intros Hpaste. unfold type_text, bindM, try_catch, send at 1.
  rewrite Hpaste. simpl. unfold send, ret, start_restore, modify.
  destruct (refuses (record ClipPaste g) (ClipCopy t)) eqn:Hcopy; simpl.
  { eexists _, _. split; [done |]. naive_solver. }
  destruct (refuses (record (ClipCopy t) _) (GuiHotkey _)) eqn:Hkey; simpl;
    eexists _, _; (split; [done |]); naive_solver.
Qed.

(** When no other restore is pending, the thread [type_text] starts
    puts back on the clipboard what was there before the call. *)
Theorem type_text_restores t g b g' :
  restores g = [] -> type_text refuses t g = (Ok b, g') ->
  clipboard (restore_clipboard g') = clipboard g /\
  restores (restore_clipboard g') = [].
Proof.
  intros Hnone. unfold type_text, bindM, try_catch, send, ret, start_restore,
    modify, restore_clipboard.
  intros Hrun. st_cases; rewrite Hnone; done.
Qed.

(** A second [type_text] that runs before the restore thread of the
    first takes the first text for the original clipboard: once both
    threads have run, the clipboard holds the first text, not what the
    user had there. *)
Theorem type_text_overlap t1 t2 g g1 g2 :
  restores g = [] ->
  type_text refuses t1 g = (Ok true, g1) ->
  type_text refuses t2 g1 = (Ok true, g2) ->
  clipboard (restore_clipboard (restore_clipboard g2)) = t1.
Proof.
  intros Hnone. unfold type_text, bindM, try_catch, send, ret, start_restore,
    modify, restore_clipboard.
  intros Hrun1 Hrun2. st_cases; rewrite Hnone; done.
Qed.

End TypeText.

(** ** Witnesses *)

Lemma move_cursor_absolute_int_witness :
  exists g',
    @move_cursor_absolute demo_format strict (JInt 5000) (JInt (-3)) desk =
      (Ok tt, g') /\
    position g' = (1919, 0) /\ failsafe g' = false /\
    sent g' = sent desk ++ [GuiMoveTo (JInt 1919) (JInt 0) 0.1].
Proof.
  apply (@move_cursor_absolute_int demo_format strict 5000 (-3) desk).
  reflexivity.
Defined.

Lemma move_cursor_absolute_not_a_number_witness :
  exists e,
    @move_cursor_absolute demo_format strict (JStr "100") (JInt 5) desk =
      (Raise e, desk).
Proof.
  apply (@move_cursor_absolute_not_a_number demo_format strict).
  left. reflexivity.
Defined.

Lemma move_cursor_relative_int_witness :
  exists g',
    @move_cursor_relative demo_format strict (JInt (-2000)) (JInt 10) desk =
      (Ok tt, g') /\
    position g' = (0, 550) /\ failsafe g' = false.
Proof.
  apply (@move_cursor_relative_int demo_format strict (-2000) 10 desk).
  reflexivity.
Defined.

Lemma type_text_returns_witness :
  exists b g', type_text strict (JStr "hello") desk = (Ok b, g') /\
    restores g' = restores desk ++ [clipboard desk] /\
    position g' = position desk /\
    (b = true <->
     strict (record ClipPaste desk) (ClipCopy (JStr "hello")) = None /\
     strict (record (ClipCopy (JStr "hello"))
               (effect (ClipCopy (JStr "hello")) (record ClipPaste desk)))
       (GuiHotkey [JStr "ctrl"; JStr "v"]) = None).
Proof. apply (type_text_returns strict (JStr "hello") desk). reflexivity. Defined.

Lemma type_text_restores_witness :
  clipboard (restore_clipboard (type_text strict (JStr "hello") desk).2) =
    JStr "kept" /\
  restores (restore_clipboard (type_text strict (JStr "hello") desk).2) = [].
Proof.
  apply (type_text_restores strict (JStr "hello") desk true
           (type_text strict (JStr "hello") desk).2); reflexivity.
Defined.

Lemma type_text_overlap_witness :
  clipboard
    (restore_clipboard
       (restore_clipboard
          (type_text strict (JStr "two")
             (type_text strict (JStr "one") desk).2).2)) = JStr "one".
Proof.
  apply (type_text_overlap strict (JStr "one") (JStr "two") desk
           (type_text strict (JStr "one") desk).2); vm_compute; reflexivity.
Defined.
