(* ===== verification/Grid.v ===== *)
(** * Grid: the numbered grid over the screenshot

    [save_screenshot_with_grid] of src/services/screenshot_module.py: the
    choice of the numbers of rows and columns, the cells it stores in the
    cache, and the search for the cell under the pointer; with the two
    lookups by cell number, [get_cell_center_coordinates] of
    src/services/find_ui.py and the search of [move_cursor_to_cell].

    Pixels and counts are integers.  The three floating-point operations
    of the source (the aspect ratio, the square root, the product) are
    exact rational arithmetic here; the theorems on the loop that follows
    them hold for every starting pair of counts, so they do not depend on
    how the floats round.  Drawing and saving the pictures is not
    modelled. *)

From S2P Require Import Prelude PyValue.
From Stdlib Require Import QArith Qround.
#[local] Close Scope Q_scope.
#[local] Open Scope Z_scope.

(** ** The numbers of rows and columns *)

(** [width / height] *)
Definition aspect_ratio (width height : Z) : Q :=
  (inject_Z width / inject_Z height)%Q.

(** [int(np.sqrt(num_cells / aspect_ratio))]: the square root of a
    rational, rounded down, is the integer square root of its floor. *)
Definition initial_rows (num_cells width height : Z) : Z :=
  Z.sqrt (Qfloor (inject_Z num_cells / aspect_ratio width height)%Q).

(** [int(num_rows * aspect_ratio)] *)
Definition initial_cols (num_rows width height : Z) : Z :=
  Qfloor (inject_Z num_rows * aspect_ratio width height)%Q.

(** The floor the loop enforces on the number of cells. *)
Definition min_cells : Z := 500.

(** [while num_rows * num_cols < 500: num_rows += 1; num_cols += 1], run
    for at most [fuel] iterations. *)
Fixpoint grow (fuel : nat) (num_rows num_cols : Z) : option (Z * Z) :=
  if num_rows * num_cols <? min_cells then
    match fuel with
    | O => None
    | S fuel' => grow fuel' (num_rows + 1) (num_cols + 1)
    end
  else Some (num_rows, num_cols).

(** Iterations that are always enough: see [grow_terminates]. *)
Definition grow_fuel : nat := 23.

(** ** The cells *)

Record cell : Type := Cell {
  index : Z;
  x : Z;
  y : Z;
  width : Z;
  height : Z;
  center_x : Z;
  center_y : Z;
}.

#[export] Instance cell_eq_dec : EqDecision cell.
Proof. solve_decision. Defined.

(** The dictionary appended to [grid_info] for one cell. *)
Definition make_cell (cell_index row col cell_width cell_height : Z) : cell :=
  let x1 := col * cell_width in
  let y1 := row * cell_height in
  {| index := cell_index; x := x1; y := y1;
     width := cell_width; height := cell_height;
     center_x := x1 + cell_width / 2; center_y := y1 + cell_height / 2 |}.

(** The loop variables that outlive an iteration. *)
Record loop : Type := Loop {
  grid_info : list cell;
  cell_index : Z;
}.

(** The body of the inner [for]. *)
Definition col_step (cell_width cell_height row : Z) (st : loop) (col : Z)
  : loop :=
  {| grid_info :=
       grid_info st ++ [make_cell (cell_index st) row col cell_width cell_height];
     cell_index := cell_index st + 1 |}.

(** [for col in range(num_cols)] *)
Definition row_step (num_cols cell_width cell_height : Z) (st : loop) (row : Z)
  : loop :=
  foldl (col_step cell_width cell_height row) st (seqZ 0 num_cols).

(** [for row in range(num_rows)], from [grid_info = []] and
    [cell_index = 1]. *)
Definition grid_cells (num_rows num_cols cell_width cell_height : Z)
  : list cell :=
  grid_info
    (foldl (row_step num_cols cell_width cell_height) (Loop [] 1)
       (seqZ 0 num_rows)).

(** What [save_screenshot_with_grid] leaves in the cache. *)
Record grid : Type := Grid {
  num_rows : Z;
  num_cols : Z;
  cell_width : Z;
  cell_height : Z;
  cells : list cell;
}.

(** The computation of the grid for a screenshot of [width] x [height]
    pixels.  A screenshot without a pixel makes the divisions raise, a
    negative [num_cells] the conversion of the square root. *)
Definition make_grid (num_cells width height : Z) : result grid :=
  if (height =? 0) || (width =? 0) then Raise (Exception "ZeroDivisionError")
  else if num_cells <? 0 then Raise (Exception "ValueError")
  else
    let rows0 := initial_rows num_cells width height in
    let cols0 := initial_cols rows0 width height in
    match grow grow_fuel rows0 cols0 with
    | None => Raise (Exception "no grid")
    | Some (rows, cols) =>
        let cw := width / cols in
        let ch := height / rows in
        Ok {| num_rows := rows; num_cols := cols;
              cell_width := cw; cell_height := ch;
              cells := grid_cells rows cols cw ch |}
    end.

(** ** Looking cells up *)

(** [cell['x'] <= px < cell['x'] + cell['width'] and
     cell['y'] <= py < cell['y'] + cell['height']] *)
Definition contains (c : cell) (px py : Z) : bool :=
  (x c <=? px) && (px <? x c + width c) &&
  (y c <=? py) && (py <? y c + height c).

(** The search for the cell under the pointer: the first that contains
    it. *)
Fixpoint cursor_cell (grid_info : list cell) (cursor_x cursor_y : Z)
  : option cell :=
  match grid_info with
  | [] => None
  | c :: rest =>
      if contains c cursor_x cursor_y then Some c
      else cursor_cell rest cursor_x cursor_y
  end.

(** The search of [move_cursor_to_cell]: the first cell with that
    index. *)
Fixpoint target_cell (grid_cells : list cell) (cell_index : Z) : option cell :=
  match grid_cells with
  | [] => None
  | c :: rest =>
      if index c =? cell_index then Some c else target_cell rest cell_index
  end.

(** [get_cell_center_coordinates(cell_number)] of find_ui.py. *)
Definition get_cell_center_coordinates (grid_cells : list cell)
  (cell_number : Z) : option (Z * Z) :=
  c ← target_cell grid_cells cell_number; Some (center_x c, center_y c).

(** ** The loop on the counts terminates *)

Lemma grow_enough fuel r c :
  0 <= r -> 0 <= c -> 23 <= Z.of_nat fuel + Z.min r c ->
  exists k, grow fuel r c = Some (r + k, c + k) /\ 0 <= k /\
    min_cells <= (r + k) * (c + k) /\
    (k = 0 \/ (r + k - 1) * (c + k - 1) < min_cells).
Proof.
  unfold min_cells. revert r c.
  induction fuel as [| fuel IH]; intros r c Hr Hc Hfuel; simpl;
    unfold min_cells; destruct (Z.ltb_spec (r * c) 500) as [Hlt | Hge].
  - nia.
  - exists 0. rewrite !Z.add_0_r. auto with lia.
  - destruct (IH (r + 1) (c + 1)) as (k & Hk & ? & ? & Hmin); [lia.. |].
    exists (k + 1). rewrite Hk.
    replace (r + (k + 1)) with (r + 1 + k) by lia.
    replace (c + (k + 1)) with (c + 1 + k) by lia.
    split_and!; [done | lia | done |]. right.
    destruct Hmin as [-> | Hmin]; [| done].
    by replace ((r + 1 + 0 - 1) * (c + 1 + 0 - 1)) with (r * c) by lia.
  - exists 0. rewrite !Z.add_0_r. auto with lia.
Qed.

(** More fuel does not change the result. *)
Lemma grow_fuel_mono fuel fuel' r c p :
  (fuel <= fuel')%nat -> grow fuel r c = Some p -> grow fuel' r c = Some p.
Proof.
  revert fuel' r c. induction fuel as [| fuel IH]; intros fuel' r c Hle;
    simpl; destruct fuel'; simpl; try lia;
    destruct (r * c <? min_cells); try done.
  apply IH. lia.
Qed.

(** From any two counts that are not negative, the loop ends within
    23 iterations, with at least 500 cells, both counts raised by the same
    amount, and that amount the least that gives 500 cells. *)
Theorem grow_terminates r c :
  0 <= r -> 0 <= c ->
  exists k, grow grow_fuel r c = Some (r + k, c + k) /\ 0 <= k <= 23 /\
    min_cells <= (r + k) * (c + k) /\
    (k = 0 \/ (r + k - 1) * (c + k - 1) < min_cells).
Proof.
  intros Hr Hc.
  destruct (grow_enough grow_fuel r c) as (k & Hk & ? & ? & Hmin);
    [done | done | unfold grow_fuel; lia |].
  exists k. split_and!; try done.
  destruct Hmin as [-> | Hmin]; [lia |]. unfold min_cells in *. nia.
Qed.

(** ** The cells, one by one *)

(** The cell stored at position [k] of the list, counting from 0: row
    [k / num_cols], column [k mod num_cols], numbered [k + 1]. *)
Definition cell_at (num_cols cell_width cell_height k : Z) : cell :=
  make_cell (k + 1) (k / num_cols) (k mod num_cols) cell_width cell_height.

Section Cells.
Context (num_cols cell_width cell_height : Z) (Hcols : 0 < num_cols).

#[local] Abbreviation row_step := (row_step num_cols cell_width cell_height).
#[local] Abbreviation cell_at := (cell_at num_cols cell_width cell_height).

Lemma col_loop row st n :
  0 <= n ->
  foldl (col_step cell_width cell_height row) st (seqZ 0 n) =
  {| grid_info :=
       grid_info st ++
       ((fun col => make_cell (cell_index st + col) row col
                        cell_width cell_height) <$> seqZ 0 n);
     cell_index := cell_index st + n |}.
Proof.
  revert n. apply natlike_ind.
  - destruct st. simpl. by rewrite app_nil_r, Z.add_0_r.
  - intros n Hn IH. rewrite seqZ_succ by done.
    rewrite foldl_snoc, IH, fmap_app. unfold col_step. simpl.
    rewrite <- app_assoc, Z.add_0_l. f_equal. lia.
Qed.

(** The cells of one row are the next [num_cols] cells. *)
Lemma row_cells row :
  0 <= row ->
  (fun col => make_cell (row * num_cols + 1 + col) row col
                cell_width cell_height) <$> seqZ 0 num_cols =
  cell_at <$> seqZ (row * num_cols) num_cols.
Proof.
  intros Hrow.
  trans (cell_at <$> (Z.add (row * num_cols) <$> seqZ 0 num_cols));
    [| by rewrite fmap_add_seqZ, Z.add_0_r].
  rewrite <- list_fmap_compose.
  apply seqZ_fmap_ext. intros col Hcol. unfold cell_at, compose.
  rewrite div_row_col, mod_row_col by lia. f_equal; lia.
Qed.

Lemma row_loop n :
  0 <= n ->
  foldl row_step (Loop [] 1) (seqZ 0 n) =
  {| grid_info := cell_at <$> seqZ 0 (n * num_cols);
     cell_index := n * num_cols + 1 |}.
Proof.
  revert n. apply natlike_ind; [done |].
  intros n Hn IH. rewrite seqZ_succ, foldl_snoc, IH, Z.add_0_l by done.
  unfold row_step at 1. rewrite col_loop by lia. cbn [grid_info cell_index].
  rewrite (row_cells n) by done. rewrite <- fmap_app, <- seqZ_app by nia.
  f_equal; [do 2 f_equal |]; lia.
Qed.

(** The two loops store the cells row by row, numbered from 1. *)
Lemma grid_cells_spec num_rows :
  0 <= num_rows ->
  grid_cells num_rows num_cols cell_width cell_height =
  cell_at <$> seqZ 0 (num_rows * num_cols).
Proof. intros Hrows. unfold grid_cells. by rewrite row_loop. Qed.

End Cells.

(** ** Searching the list of cells *)

Lemma cursor_cell_Some l px py c :
  cursor_cell l px py = Some c -> c ∈ l /\ contains c px py = true.
Proof.
  induction l as [| d l IH]; simpl; [done |].
  destruct (contains d px py) eqn:Hd.
  - intros [= <-]. split; [left | done].
  - intros [? ?]%IH. split; [by right | done].
Qed.

Lemma cursor_cell_None l px py :
  cursor_cell l px py = None <-> Forall (fun c => contains c px py = false) l.
Proof.
  induction l as [| d l IH]; simpl; [by split; [constructor |] |].
  rewrite Forall_cons_iff, <- IH. destruct (contains d px py); naive_solver.
Qed.

(** When one cell of the list at most contains the point, the search
    finds it. *)
Lemma cursor_cell_unique l px py c :
  c ∈ l -> contains c px py = true ->
  (forall d, d ∈ l -> contains d px py = true -> d = c) ->
  cursor_cell l px py = Some c.
Proof.
  intros Hin Hc Huniq.
  destruct (cursor_cell l px py) as [d |] eqn:Hfind.
  - apply cursor_cell_Some in Hfind as [? ?]. f_equal. by apply Huniq.
  - rewrite cursor_cell_None, Forall_forall in Hfind.
    apply Hfind in Hin. congruence.
Qed.

Section Lookup.
Context (num_rows num_cols cell_width cell_height : Z).
Context (Hrows : 0 <= num_rows) (Hcols : 0 < num_cols).

#[local] Abbreviation cell_at := (cell_at num_cols cell_width cell_height).
#[local] Abbreviation the_cells :=
  (grid_cells num_rows num_cols cell_width cell_height).

Lemma elem_of_grid_cells c :
  c ∈ the_cells <-> exists k, 0 <= k < num_rows * num_cols /\ c = cell_at k.
Proof.
  rewrite grid_cells_spec, list_elem_of_fmap by done.
  setoid_rewrite elem_of_seqZ. naive_solver lia.
Qed.

Lemma grid_cells_lookup k :
  0 <= k < num_rows * num_cols -> the_cells !! Z.to_nat k = Some (cell_at k).
Proof. intros Hk. rewrite grid_cells_spec by done. by apply seqZ_fmap_lookup. Qed.

Lemma grid_cells_length : Z.of_nat (length the_cells) = num_rows * num_cols.
Proof. rewrite grid_cells_spec, length_fmap, length_seqZ by done. nia. Qed.

(** The search by number, on a stretch of consecutive cells. *)
Lemma target_cell_seqZ m len n :
  0 <= len ->
  target_cell (cell_at <$> seqZ m len) n =
  if decide (m + 1 <= n <= m + len) then Some (cell_at (n - 1)) else None.
Proof.
  intros Hlen. revert m. pattern len. apply natlike_ind; [| | done].
  - intros m. simpl. case_decide; [lia | done].
  - intros len' Hlen' IH m. rewrite seqZ_cons by lia. simpl.
    replace (Z.pred (Z.succ len')) with len' by lia. rewrite IH.
    destruct (Z.eqb_spec (m + 1) n) as [<- | Hne].
    + rewrite decide_True by lia. do 2 f_equal. lia.
    + repeat case_decide; try done; lia.
Qed.

End Lookup.

(** ** The geometry of the cells *)

(** The sum of the areas of the cells. *)
Definition total_area (l : list cell) : Z :=
  foldr (fun c acc => width c * height c + acc) 0 l.

Lemma total_area_const (f : Z -> cell) a m n :
  0 <= n -> (forall k, width (f k) * height (f k) = a) ->
  total_area (f <$> seqZ m n) = n * a.
Proof.
  intros Hn Hf. revert m. pattern n. apply natlike_ind; [done | | done].
  intros n' Hn' IH m. rewrite seqZ_cons by lia. simpl.
  replace (Z.pred (Z.succ n')) with n' by lia. rewrite IH, Hf. lia.
Qed.

Section Geometry.
Context (num_rows num_cols cell_width cell_height : Z).
Context (Hrows : 0 <= num_rows) (Hcols : 0 < num_cols).
Context (Hcw : 0 < cell_width) (Hch : 0 < cell_height).

#[local] Abbreviation cell_at := (cell_at num_cols cell_width cell_height).
#[local] Abbreviation the_cells :=
  (grid_cells num_rows num_cols cell_width cell_height).

(** A cell contains a point exactly when the point's column and row are
    the cell's. *)
Lemma contains_cell_at k px py :
  contains (cell_at k) px py = true <->
  px / cell_width = k mod num_cols /\ py / cell_height = k / num_cols.
Proof.
  unfold contains, cell_at, make_cell. simpl.
  rewrite !andb_true_iff, !Z.leb_le, !Z.ltb_lt.
  rewrite <- !div_cell by done. tauto.
Qed.

Lemma contains_cell_at_inj k1 k2 px py :
  contains (cell_at k1) px py = true -> contains (cell_at k2) px py = true ->
  k1 = k2.
Proof.
  intros [Hx1 Hy1]%contains_cell_at [Hx2 Hy2]%contains_cell_at.
  rewrite (row_col_eq k1 num_cols), (row_col_eq k2 num_cols) by done.
  congruence.
Qed.

(** The position in the list of the cell under a point. *)
Definition position_of (px py : Z) : Z :=
  py / cell_height * num_cols + px / cell_width.

Lemma position_of_contains px py :
  0 <= px < num_cols * cell_width ->
  contains (cell_at (position_of px py)) px py = true.
Proof.
  intros Hpx. apply contains_cell_at. unfold position_of.
  assert (0 <= px / cell_width < num_cols).
  { split; [apply Z.div_pos; lia | apply Z.div_lt_upper_bound; lia]. }
  by rewrite div_row_col, mod_row_col.
Qed.

Lemma position_of_range px py :
  0 <= px < num_cols * cell_width -> 0 <= py < num_rows * cell_height ->
  0 <= position_of px py < num_rows * num_cols.
Proof.
  intros Hpx Hpy. unfold position_of.
  assert (0 <= px / cell_width < num_cols).
  { split; [apply Z.div_pos; lia | apply Z.div_lt_upper_bound; lia]. }
  assert (0 <= py / cell_height < num_rows).
  { split; [apply Z.div_pos; lia | apply Z.div_lt_upper_bound; lia]. }
  nia.
Qed.

(** A point in a cell of the grid is in the covered rectangle. *)
Lemma contains_covered k px py :
  0 <= k < num_rows * num_cols -> contains (cell_at k) px py = true ->
  0 <= px < num_cols * cell_width /\ 0 <= py < num_rows * cell_height.
Proof.
  intros Hk [Hx Hy]%contains_cell_at.
  apply div_cell in Hx, Hy; [| done..].
  pose proof (Z.mod_pos_bound k num_cols Hcols).
  assert (0 <= k / num_cols < num_rows).
  { split; [apply Z.div_pos; lia | apply Z.div_lt_upper_bound; lia]. }
  nia.
Qed.

End Geometry.

(** ** What the grid guarantees *)

Section Guarantees.
Context (num_rows num_cols cell_width cell_height : Z).
Context (Hrows : 0 <= num_rows) (Hcols : 0 < num_cols).

#[local] Abbreviation cell_at := (cell_at num_cols cell_width cell_height).
#[local] Abbreviation the_cells :=
  (grid_cells num_rows num_cols cell_width cell_height).

Lemma grid_cells_elem c :
  c ∈ the_cells -> exists k, 0 <= k < num_rows * num_cols /\ c = cell_at k.
Proof. by apply elem_of_grid_cells. Qed.

(** The cells are numbered 1, 2, ... in the order in which they are
    stored, row by row, and there are [num_rows * num_cols] of them. *)
Theorem grid_cells_numbered :
  index <$> grid_cells num_rows num_cols cell_width cell_height =
  seqZ 1 (num_rows * num_cols).
Proof.
  rewrite grid_cells_spec, <- list_fmap_compose by done.
  rewrite <- (Z.add_0_r 1) at 1. rewrite <- (fmap_add_seqZ 1 0).
  apply seqZ_fmap_ext. intros k _. unfold compose. simpl. lia.
Qed.

(** The search by number in the cells of a grid. *)
Lemma target_cell_grid n :
  target_cell the_cells n =
  if decide (1 <= n <= num_rows * num_cols) then Some (cell_at (n - 1))
  else None.
Proof. by rewrite grid_cells_spec, target_cell_seqZ, !Z.add_0_l by nia. Qed.

(** Looking a cell up by its number gives the centre of that very
    cell for the numbers 1 to [num_rows * num_cols], and nothing for any
    other number. *)
Theorem get_cell_center_coordinates_grid n :
  get_cell_center_coordinates the_cells n =
  if decide (1 <= n <= num_rows * num_cols) then
    Some (center_x (cell_at (n - 1)), center_y (cell_at (n - 1)))
  else None.
Proof.
  unfold get_cell_center_coordinates. rewrite target_cell_grid.
  by case_decide.
Qed.

Context (Hcw : 0 < cell_width) (Hch : 0 < cell_height).

(** No two cells overlap: a point lies in one cell at most. *)
Theorem grid_cells_disjoint c d px py :
  c ∈ the_cells -> d ∈ the_cells ->
  contains c px py = true -> contains d px py = true -> c = d.
Proof.
  intros (k1 & _ & ->)%grid_cells_elem (k2 & _ & ->)%grid_cells_elem.
  intros H1 H2. f_equal.
  by apply (contains_cell_at_inj num_cols cell_width cell_height) with px py.
Qed.

(** A point outside the rectangle the cells cover is in no cell. *)
Lemma cursor_cell_outside px py :
  ~ (0 <= px < num_cols * cell_width /\ 0 <= py < num_rows * cell_height) ->
  cursor_cell the_cells px py = None.
Proof.
  intros Hout. apply cursor_cell_None, Forall_forall.
  intros c (k & Hk & ->)%grid_cells_elem.
  destruct (contains _ px py) eqn:Hc; [| done].
  by apply contains_covered with (num_rows := num_rows) in Hc.
Qed.

(** The search for the cell under the pointer finds the cell in
    row [y // cell_height] and column [x // cell_width] when the pointer
    is in the rectangle the cells cover, which is [num_cols * cell_width]
    wide and [num_rows * cell_height] high, and finds nothing when it is
    outside. *)
Theorem cursor_cell_grid px py :
  cursor_cell the_cells px py =
  if decide (0 <= px < num_cols * cell_width /\
             0 <= py < num_rows * cell_height)
  then Some (cell_at (position_of num_cols cell_width cell_height px py))
  else None.
Proof.
  case_decide as Hcov.
  - destruct Hcov as [Hpx Hpy]. apply cursor_cell_unique.
    + apply elem_of_grid_cells; [done.. |]. eexists. split; [| done].
      by apply position_of_range.
    + by apply position_of_contains.
    + intros d (k & _ & ->)%grid_cells_elem Hd.
      f_equal.
      apply (contains_cell_at_inj num_cols cell_width cell_height) with px py;
        [done.. |].
      by apply position_of_contains.
  - by apply cursor_cell_outside.
Qed.

(** The centre stored with a cell lies in the cell. *)
Theorem center_in_cell c :
  c ∈ the_cells -> contains c (center_x c) (center_y c) = true.
Proof.
  intros (k & _ & ->)%grid_cells_elem.
  unfold contains, cell_at, make_cell. simpl.
  rewrite !andb_true_iff, !Z.leb_le, !Z.ltb_lt.
  pose proof (Z.div_pos cell_width 2). pose proof (Z.div_pos cell_height 2).
  pose proof (Z.div_lt cell_width 2). pose proof (Z.div_lt cell_height 2).
  lia.
Qed.

(** C22: from a number to a pixel and back.  The pixel
    [get_cell_center_coordinates] gives for a number is one under which
    the search of [cursor_cell] finds the cell that carries this very
    number. *)
Theorem center_round_trip n px py :
  get_cell_center_coordinates the_cells n = Some (px, py) ->
  index <$> cursor_cell the_cells px py = Some n.
Proof.
  rewrite get_cell_center_coordinates_grid. case_decide as Hn; [| done].
  intros [= <- <-].
  assert (cell_at (n - 1) ∈ the_cells) as Hin.
  { apply elem_of_grid_cells; [done.. |]. exists (n - 1). split; [lia | done]. }
  rewrite (cursor_cell_unique _ _ _ (cell_at (n - 1)));
    [simpl; f_equal; lia | done | by apply center_in_cell |].
  intros d (k & _ & ->)%grid_cells_elem Hd. f_equal.
  apply (contains_cell_at_inj num_cols cell_width cell_height) with
    (center_x (cell_at (n - 1))) (center_y (cell_at (n - 1))); [done.. |].
  by apply center_in_cell.
Qed.

(** The areas of the cells add up to the area of the covered
    rectangle. *)
Theorem total_area_grid :
  total_area the_cells =
  (num_cols * cell_width) * (num_rows * cell_height).
Proof.
  rewrite grid_cells_spec by done.
  rewrite (total_area_const _ (cell_width * cell_height)) by (done || nia).
  lia.
Qed.

End Guarantees.

(** ** The grid of a screenshot *)

Lemma aspect_ratio_nonneg width height :
  0 < width -> 0 < height -> (0 <= aspect_ratio width height)%Q.
Proof.
  intros Hw Hh. unfold aspect_ratio, Qdiv.
  apply Qmult_le_0_compat; [| apply Qinv_le_0_compat];
    unfold Qle; simpl; lia.
Qed.

Lemma initial_cols_nonneg rows width height :
  0 <= rows -> 0 < width -> 0 < height -> 0 <= initial_cols rows width height.
Proof.
  intros Hr Hw Hh. unfold initial_cols.
  change 0 with (Qfloor 0). apply Qfloor_resp_le.
  apply Qmult_le_0_compat; [| by apply aspect_ratio_nonneg].
  unfold Qle. simpl. lia.
Qed.

(** The grid of a screenshot with at least one pixel: the counts the loop
    ends with, the size of a cell by floor division, and the cells of
    these counts and this size. *)
Lemma make_grid_Ok num_cells width height :
  0 <= num_cells -> 0 < width -> 0 < height ->
  exists rows cols,
    make_grid num_cells width height =
    Ok (Grid rows cols (width / cols) (height / rows)
          (grid_cells rows cols (width / cols) (height / rows))) /\
    0 < rows /\ 0 < cols /\ min_cells <= rows * cols.
Proof.
  intros Hn Hw Hh. unfold make_grid.
  destruct (Z.eqb_spec height 0), (Z.eqb_spec width 0); try lia. cbn [orb].
  destruct (Z.ltb_spec num_cells 0); [lia |].
  set (rows0 := initial_rows num_cells width height).
  assert (0 <= rows0) by apply Z.sqrt_nonneg.
  set (cols0 := initial_cols rows0 width height).
  assert (0 <= cols0) by by apply initial_cols_nonneg.
  destruct (grow_enough grow_fuel rows0 cols0) as (k & -> & Hk & Hmin & _);
    [done | done | unfold grow_fuel; lia |].
  exists (rows0 + k), (cols0 + k). split; [done |].
  unfold min_cells in *. split_and!; nia.
Qed.

(** C17: for a screenshot with at least one pixel, the computation of the
    grid returns: the loop on the counts has fuel enough, there are at
    least 500 cells, one per pair of a row and a column, of the size
    [width // num_cols] by [height // num_rows], and what they leave
    uncovered on the right and at the bottom is narrower than the number
    of columns and lower than the number of rows. *)
Theorem make_grid_ok num_cells width height :
  0 <= num_cells -> 0 < width -> 0 < height ->
  exists g, make_grid num_cells width height = Ok g /\
    min_cells <= num_rows g * num_cols g /\
    0 < num_rows g /\ 0 < num_cols g /\
    cells g = grid_cells (num_rows g) (num_cols g) (width / num_cols g)
                (height / num_rows g) /\
    Z.of_nat (length (cells g)) = num_rows g * num_cols g /\
    width - num_cols g < num_cols g * cell_width g <= width /\
    height - num_rows g < num_rows g * cell_height g <= height.
Proof.
  intros Hn Hw Hh.
  destruct (make_grid_Ok num_cells width height)
    as (rows & cols & -> & ? & ? & ?); [done.. |].
  eexists. split; [done |]. cbn [num_rows num_cols cell_width cell_height cells].
  do 4 (split; [done |]).
  split; [by rewrite grid_cells_length by lia |].
  pose proof (Z.mod_pos_bound width cols). pose proof (Z.div_mod width cols).
  pose proof (Z.mod_pos_bound height rows). pose proof (Z.div_mod height rows).
  lia.
Qed.

(** C38: the cells cover the rectangle [num_cols * (width // num_cols)] by
    [num_rows * (height // num_rows)]: whenever a count does not divide
    its side of the screenshot, the pixels beyond are in no cell and the
    areas of the cells add up to less than the screenshot. *)
Theorem grid_leaves_margin rows cols width height px py :
  0 < rows -> 0 < cols -> cols <= width -> rows <= height ->
  width mod cols <> 0 \/ height mod rows <> 0 ->
  width - width mod cols <= px \/ height - height mod rows <= py ->
  let l := grid_cells rows cols (width / cols) (height / rows) in
  cursor_cell l px py = None /\ total_area l < width * height.
Proof.
  intros Hr Hc Hcw Hrh Hmod Hout l. subst l.
  assert (0 < width / cols) by (apply Z.div_str_pos; lia).
  assert (0 < height / rows) by (apply Z.div_str_pos; lia).
  pose proof (Z.div_mod width cols). pose proof (Z.div_mod height rows).
  pose proof (Z.mod_pos_bound width cols). pose proof (Z.mod_pos_bound height rows).
  split.
  - apply cursor_cell_outside; lia.
  - rewrite total_area_grid by lia. nia.
Qed.

(** ** Witnesses

    A 1920 x 1080 screenshot gets 18 rows of 30 cells of 64 x 60 pixels,
    which tile it; a 1366 x 768 screenshot gets 18 rows of 30 cells of
    45 x 42 pixels, which leave 16 columns and 12 rows of pixels out. *)

Lemma grow_terminates_witness :
  exists k, grow grow_fuel 16 28 = Some (16 + k, 28 + k) /\ 0 <= k <= 23 /\
    min_cells <= (16 + k) * (28 + k) /\
    (k = 0 \/ (16 + k - 1) * (28 + k - 1) < min_cells).
Proof. apply (grow_terminates 16 28); lia. Defined.

Lemma grid_cells_numbered_witness :
  index <$> grid_cells 2 3 10 20 = seqZ 1 (2 * 3).
Proof. apply (grid_cells_numbered 2 3 10 20); lia. Defined.

Lemma get_cell_center_coordinates_grid_witness :
  get_cell_center_coordinates (grid_cells 2 3 10 20) 5 =
  if decide (1 <= 5 <= 2 * 3) then
    Some (center_x (cell_at 3 10 20 (5 - 1)), center_y (cell_at 3 10 20 (5 - 1)))
  else None.
Proof. apply (get_cell_center_coordinates_grid 2 3 10 20); lia. Defined.

Lemma grid_cells_disjoint_witness :
  cell_at 3 10 20 4 = cell_at 3 10 20 4.
Proof.
  apply (grid_cells_disjoint 2 3 10 20) with 15 25; try lia; try reflexivity;
    by_compute.
Defined.

Lemma cursor_cell_grid_witness :
  cursor_cell (grid_cells 2 3 10 20) 15 25 =
  if decide (0 <= 15 < 3 * 10 /\ 0 <= 25 < 2 * 20)
  then Some (cell_at 3 10 20 (position_of 3 10 20 15 25))
  else None.
Proof. apply (cursor_cell_grid 2 3 10 20); lia. Defined.

Lemma center_in_cell_witness :
  contains (cell_at 3 10 20 4) (center_x (cell_at 3 10 20 4))
    (center_y (cell_at 3 10 20 4)) = true.
Proof. apply (center_in_cell 2 3 10 20); try lia. by_compute. Defined.

Lemma center_round_trip_witness :
  index <$> cursor_cell (grid_cells 2 3 10 20) 15 30 = Some 5.
Proof. apply (center_round_trip 2 3 10 20); try lia. by vm_compute. Defined.

Lemma total_area_grid_witness :
  total_area (grid_cells 2 3 10 20) = (3 * 10) * (2 * 20).
Proof. apply (total_area_grid 2 3 10 20); lia. Defined.

Lemma make_grid_ok_witness :
  exists g, make_grid 500 1920 1080 = Ok g /\
    min_cells <= num_rows g * num_cols g /\
    0 < num_rows g /\ 0 < num_cols g /\
    cells g = grid_cells (num_rows g) (num_cols g) (1920 / num_cols g)
                (1080 / num_rows g) /\
    Z.of_nat (length (cells g)) = num_rows g * num_cols g /\
    1920 - num_cols g < num_cols g * cell_width g <= 1920 /\
    1080 - num_rows g < num_rows g * cell_height g <= 1080.
Proof. apply (make_grid_ok 500 1920 1080); lia. Defined.

Lemma grid_leaves_margin_witness :
  cursor_cell (grid_cells 18 30 (1366 / 30) (768 / 18)) 1365 767 = None /\
  total_area (grid_cells 18 30 (1366 / 30) (768 / 18)) < 1366 * 768.
Proof.
  apply (grid_leaves_margin 18 30 1366 768 1365 767); try lia.
  - left. by_compute.
  - left. vm_compute. discriminate.
Defined.

(** The grids of the two screenshots, computed. *)
Example grid_1920_1080 :
  (fun g => (num_rows g, num_cols g, cell_width g, cell_height g))
    <$> (match make_grid 500 1920 1080 with Ok g => Some g | _ => None end)
  = Some (18, 30, 64, 60).
Proof. by vm_compute. Qed.

Example grid_1366_768 :
  (fun g => (num_rows g, num_cols g, cell_width g, cell_height g,
             cursor_cell (cells g) 1365 767, total_area (cells g)))
    <$> (match make_grid 500 1366 768 with Ok g => Some g | _ => None end)
  = Some (18, 30, 45, 42, None, 1350 * 756).
Proof. by vm_compute. Qed.

(** ** Centres are pixels of the screenshot *)

Lemma center_bound i n size limit :
  0 <= i < n -> 0 <= size -> n * size <= limit -> 0 < limit ->
  0 <= i * size + size / 2 < limit.
Proof.
  intros Hi Hsize Hn Hlimit.
  assert (0 <= size / 2) by (apply Z.div_pos; lia).
  destruct (decide (size = 0)) as [-> | Hpos].
  { rewrite Z.mul_0_r. change (0 / 2) with 0. lia. }
  assert (size / 2 < size) by (apply Z.div_lt; lia).
  assert (i * size + size <= limit) by nia.
  assert (0 <= i * size) by nia. lia.
Qed.

(** The centre of a cell of the grid of a [width] x [height] screenshot is
    a pixel of the screenshot, also when the cells are empty because the
    screenshot has fewer pixels in a row than the grid has columns. *)
Lemma center_in_screenshot rows cols width height k :
  0 < rows -> 0 < cols -> 0 < width -> 0 < height ->
  0 <= k < rows * cols ->
  let c := cell_at cols (width / cols) (height / rows) k in
  0 <= center_x c < width /\ 0 <= center_y c < height.
Proof.
  intros Hr Hc Hw Hh Hk c. subst c. unfold cell_at, make_cell. simpl.
  pose proof (Z.mod_pos_bound k cols Hc).
  assert (0 <= k / cols < rows).
  { split; [apply Z.div_pos; lia | apply Z.div_lt_upper_bound; lia]. }
  split.
  - apply center_bound with (n := cols);
      [done | apply Z.div_pos; lia | by apply Z.mul_div_le | done].
  - apply center_bound with (n := rows);
      [done | apply Z.div_pos; lia | by apply Z.mul_div_le | done].
Qed.
