(* ===== verification/Cache.v ===== *)
(** * Cache: the screen state cache

    The dictionary [_screenshot_cache] of src/services/cache_module.py and
    the functions of src/services/screenshot_module.py that read and write
    it: [capture_cursor_area], [save_screenshots], the cache update of
    [save_screenshot_with_grid], [get_grid_cells] and
    [move_cursor_to_cell].

    What the functions read from the machine (the pointer, the screen, the
    clock, whether a screenshot can be taken) is the record [readings]
    they are given.  A picture is known by the region it shows and by the
    time at which it was asked for; that time is not in the program, it is
    what the theorems on freshness speak about.  The lock [_cache_lock] is
    held for each access: the model runs one function at a time. *)

From S2P Require Import Prelude PyValue Effects Grid.
From Stdlib Require Import QArith Lqa.
#[local] Close Scope Q_scope.
#[local] Open Scope Z_scope.

(** ** Pictures and readings *)

Inductive image : Type :=
| Screenshot (region : option (Z * Z * Z * Z)) (taken : Q)
| Blank (w h : Z).

Record readings : Type := Readings {
  r_cursor : Z * Z;            (* [get_cursor_position()] *)
  r_screen : Z * Z;            (* [get_screen_dimensions()] *)
  r_now : Q;                   (* the first [time.time()] *)
  r_later : Q;                 (* [time.time()] after the capture *)
  r_shot : option (Z * Z);     (* the size of the screenshot, if one is had *)
}.

(** ** The cache *)

Record cache : Type := Cache {
  last_capture_time : Q;
  cache_ttl : Q;
  cursor_area : option image;
  cursor_pos : Z * Z;
  cached_cells : option (list cell);      (* the key ['grid_cells'] *)
}.

(** The dictionary of cache_module.py when the module is loaded. *)
Definition initial_cache : cache :=
  {| last_capture_time := 0; cache_ttl := 0.3; cursor_area := None;
     cursor_pos := (0, 0); cached_cells := None |}.

(** [_screenshot_cache.get('grid_cells', [])] *)
Definition get_grid_cells (c : cache) : list cell :=
  default [] (cached_cells c).

(** ** [capture_cursor_area] *)

(** The test under the lock: a picture is there, it is younger than the
    time to live, and the pointer has not moved. *)
Definition cache_hit (r : readings) (c : cache) : bool :=
  match cursor_area c with
  | None => false
  | Some _ =>
      negb (Qle_bool (cache_ttl c) (r_now r - last_capture_time c)%Q)
      && bool_decide (cursor_pos c = r_cursor r)
  end.

(** Where the area starts along one axis: centred on the pointer, pushed
    back into the screen. *)
Definition area_start (pointer area_size screen : Z) : Z :=
  let start := Z.max 0 (pointer - Z.quot area_size 2) in
  let start := if start + area_size >? screen then screen - area_size
               else start in
  Z.max 0 start.

Definition capture_cursor_area (area_size : Z) (r : readings) (c : cache)
  : image * cache :=
  let '(x, y) := r_cursor r in
  match (if cache_hit r c then cursor_area c else None) with
  | Some cached => (cached, c)
  | None =>
      let x_start := area_start x area_size (r_screen r).1 in
      let y_start := area_start y area_size (r_screen r).2 in
      match r_shot r with
      | Some _ =>
          let screenshot :=
            Screenshot (Some (x_start, y_start, area_size, area_size))
              (r_now r) in
          (screenshot,
           {| last_capture_time := r_later r; cache_ttl := cache_ttl c;
              cursor_area := Some screenshot; cursor_pos := (x, y);
              cached_cells := cached_cells c |})
      | None => (Blank area_size area_size, c)
      end
  end.

(** ** [save_screenshot_with_grid] and [save_screenshots] *)

(** The part of [save_screenshot_with_grid] that touches the cache: no
    screenshot, no change; otherwise the cells of the new grid and the
    time.  [files] tells whether the pictures could then be written. *)
Definition save_screenshot_with_grid (num_cells : Z) (files : option exn)
  (r : readings) (c : cache) : result unit * cache :=
  match r_shot r with
  | None => (Ok tt, c)
  | Some (width, height) =>
      match make_grid num_cells width height with
      | Raise e => (Raise e, c)
      | Ok g =>
          let c' :=
            {| last_capture_time := r_later r; cache_ttl := cache_ttl c;
               cursor_area := cursor_area c; cursor_pos := cursor_pos c;
               cached_cells := Some (cells g) |} in
          match files with
          | None => (Ok tt, c')
          | Some e => (Raise e, c')
          end
      end
  end.

(** [save_screenshots]: the time is reset, then the grid is saved, and
    whatever that raises is printed. *)
Definition save_screenshots (num_cells : Z) (files : option exn)
  (r : readings) (c : cache) : cache :=
  let c0 :=
    {| last_capture_time := 0; cache_ttl := cache_ttl c;
       cursor_area := cursor_area c; cursor_pos := cursor_pos c;
       cached_cells := cached_cells c |} in
  (save_screenshot_with_grid num_cells files r c0).2.

(** ** [move_cursor_to_cell] *)

(** [Some (x, y)]: [pyautogui.moveTo(x, y, duration=0.2)] is called;
    [accepted] tells whether it returns.  The result is what the function
    returns. *)
Definition move_cursor_to_cell (cell_index : Z) (accepted : bool) (c : cache)
  : bool * option (Z * Z) :=
  match target_cell (get_grid_cells c) cell_index with
  | Some target => (accepted, Some (center_x target, center_y target))
  | None => (false, None)
  end.

(** ** The area around the pointer *)

(** When the area fits on the screen, the region asked of pyautogui
    lies on the screen, and a pointer that is on the screen is in it. *)
Theorem area_start_bounds pointer area_size screen :
  0 < area_size <= screen ->
  let start := area_start pointer area_size screen in
  0 <= start /\ start + area_size <= screen /\
  (0 <= pointer < screen -> start <= pointer < start + area_size).
Proof.
  intros Hsize start. subst start. unfold area_start.
  pose proof (Z.quot_pos area_size 2). pose proof (Z.quot_lt area_size 2).
  destruct (Z.gtb_spec (Z.max 0 (pointer - area_size ÷ 2) + area_size) screen);
    lia.
Qed.

(** An area larger than the screen starts at the origin and sticks out. *)
Lemma area_start_too_large pointer area_size screen :
  0 <= screen < area_size -> area_start pointer area_size screen = 0.
Proof.
  intros Hsize. unfold area_start.
  destruct (Z.gtb_spec (Z.max 0 (pointer - area_size ÷ 2) + area_size) screen);
    lia.
Qed.

(** ** Hits and misses *)

Lemma cache_hit_true r c :
  cache_hit r c = true <->
  (exists img, cursor_area c = Some img) /\
  (r_now r - last_capture_time c < cache_ttl c)%Q /\
  cursor_pos c = r_cursor r.
Proof.
  unfold cache_hit. destruct (cursor_area c) as [img |]; [| naive_solver].
  rewrite andb_true_iff, negb_true_iff, bool_decide_eq_true. split.
  - intros [Hle Hpos]. split_and!; [by eauto | | done].
    apply Qnot_le_lt. intros Hq%Qle_bool_iff. congruence.
  - intros (_ & Hlt & Hpos). split; [| done].
    apply not_true_is_false. intros Hq%Qle_bool_iff.
    by apply Qlt_not_le in Hlt.
Qed.

(** A hit returns the cached picture and leaves the cache alone. *)
Lemma capture_cursor_area_hit area_size r c :
  cache_hit r c = true ->
  exists img, cursor_area c = Some img /\
    capture_cursor_area area_size r c = (img, c).
Proof.
  intros Hhit. pose proof Hhit as ([img Himg] & _)%cache_hit_true.
  exists img. split; [done |]. unfold capture_cursor_area.
  destruct (r_cursor r). by rewrite Hhit, Himg.
Qed.

(** A miss that gets its screenshot caches it with the pointer and the
    time. *)
Lemma capture_cursor_area_miss area_size r c size :
  cache_hit r c = false -> r_shot r = Some size ->
  exists region,
    capture_cursor_area area_size r c =
    (Screenshot region (r_now r),
     {| last_capture_time := r_later r; cache_ttl := cache_ttl c;
        cursor_area := Some (Screenshot region (r_now r));
        cursor_pos := r_cursor r; cached_cells := cached_cells c |}).
Proof.
  intros Hmiss Hshot. unfold capture_cursor_area.
  destruct (r_cursor r). rewrite Hmiss, Hshot. by eexists.
Qed.

(** [capture_cursor_area] returns the cached picture, and leaves the
    cache alone, exactly when a picture is cached, the time since
    [last_capture_time] is below the time to live and the pointer is
    where it was; otherwise it asks for a screenshot of the area, and
    caches it with the pointer and the time when it gets one, or returns
    a blank picture and leaves the cache alone when it gets none.  It
    never raises. *)
Theorem capture_cursor_area_cases area_size r c :
  let region :=
    (area_start (r_cursor r).1 area_size (r_screen r).1,
     area_start (r_cursor r).2 area_size (r_screen r).2,
     area_size, area_size) in
  capture_cursor_area area_size r c =
  if cache_hit r c then (default (Blank 0 0) (cursor_area c), c)
  else if r_shot r is Some _ then
    (Screenshot (Some region) (r_now r),
     {| last_capture_time := r_later r; cache_ttl := cache_ttl c;
        cursor_area := Some (Screenshot (Some region) (r_now r));
        cursor_pos := r_cursor r; cached_cells := cached_cells c |})
  else (Blank area_size area_size, c).
Proof.
  intros region. subst region. unfold capture_cursor_area.
  destruct (r_cursor r) as [x y]. simpl.
  destruct (cache_hit r c) eqn:Hhit.
  - apply cache_hit_true in Hhit as ([img Himg] & _). by rewrite Himg.
  - by destruct (r_shot r).
Qed.

(** ** One time for two pictures *)

(** The cache is the same whether the pictures could be written or
    not. *)
Lemma written_or_not {A} (x : A) (files : option exn) :
  (match files with None => (Ok tt, x) | Some e => (Raise e, x) end).2 = x.
Proof. by destruct files. Qed.

(** C36: [last_capture_time] is written by the capture of the area around
    the pointer and by the capture of the grid alike.  A picture of the
    area taken at any time in the past is therefore served again as fresh
    when the grid has been captured less than the time to live ago and
    the pointer is where it was, however old the picture is. *)
Theorem stale_cursor_area_served area_size num_cells r0 r1 r2 c size1 g :
  cache_hit r0 c = false -> is_Some (r_shot r0) ->
  r_shot r1 = Some size1 -> make_grid num_cells size1.1 size1.2 = Ok g ->
  r_cursor r2 = r_cursor r0 ->
  (r_now r2 - r_later r1 < cache_ttl c)%Q ->
  let c0 := (capture_cursor_area area_size r0 c).2 in
  let c1 := (save_screenshot_with_grid num_cells None r1 c0).2 in
  (capture_cursor_area area_size r2 c1).1 =
  (capture_cursor_area area_size r0 c).1 /\
  exists region, (capture_cursor_area area_size r0 c).1 =
                 Screenshot region (r_now r0).
Proof.
  intros Hmiss [s0 Hs0] Hs1 Hg Hpos Hfresh c0 c1. subst c0 c1.
  destruct (capture_cursor_area_miss area_size r0 c s0) as [region ->];
    [done.. |].
  cbn [fst snd]. unfold save_screenshot_with_grid.
  rewrite Hs1. destruct size1 as [w h]. simpl in Hg. rewrite Hg. cbn [snd].
  edestruct capture_cursor_area_hit as (img & Himg & ->).
  { apply cache_hit_true.
    cbn [cursor_area last_capture_time cache_ttl cursor_pos]. eauto. }
  cbn [cursor_area fst] in *. split; [congruence | by eauto].
Qed.

(** ** The cells in the cache *)

(** What [save_screenshot_with_grid] leaves in the cache once the grid is
    computed. *)
Lemma save_screenshot_with_grid_Ok num_cells files r c width height g :
  r_shot r = Some (width, height) ->
  make_grid num_cells width height = Ok g ->
  (save_screenshot_with_grid num_cells files r c).2 =
  {| last_capture_time := r_later r; cache_ttl := cache_ttl c;
     cursor_area := cursor_area c; cursor_pos := cursor_pos c;
     cached_cells := Some (cells g) |}.
Proof.
  intros Hshot Hg. unfold save_screenshot_with_grid.
  by rewrite Hshot, Hg, written_or_not.
Qed.

(** After [save_screenshot_with_grid] has had its screenshot, the
    cells in the cache are those of the grid of that screenshot and the
    time is the time of the capture, whether the pictures could be
    written to disk or not; a lookup by number then resolves in this
    grid, and a number beyond it resolves to nothing. *)
Theorem save_screenshot_with_grid_cells num_cells files r c width height n :
  r_shot r = Some (width, height) ->
  0 <= num_cells -> 0 < width -> 0 < height ->
  let c' := (save_screenshot_with_grid num_cells files r c).2 in
  exists g, make_grid num_cells width height = Ok g /\
    get_grid_cells c' = cells g /\
    last_capture_time c' = r_later r /\
    cursor_area c' = cursor_area c /\
    get_cell_center_coordinates (get_grid_cells c') n =
    if decide (1 <= n <= num_rows g * num_cols g) then
      Some (center_x (cell_at (num_cols g) (width / num_cols g)
                        (height / num_rows g) (n - 1)),
            center_y (cell_at (num_cols g) (width / num_cols g)
                        (height / num_rows g) (n - 1)))
    else None.
Proof.
  intros Hshot Hn Hw Hh c'. subst c'.
  destruct (make_grid_Ok num_cells width height) as
    (rows & cols & Hg & Hrows & Hcols & _); [done.. |].
  eexists. split; [done |].
  rewrite (save_screenshot_with_grid_Ok _ _ _ _ _ _ _ Hshot Hg).
  unfold get_grid_cells, get_cell_center_coordinates.
  cbn [cached_cells last_capture_time cursor_area default id cells
       num_rows num_cols].
  split_and!; try done.
  rewrite target_cell_grid by lia. by case_decide.
Qed.

(** [move_cursor_to_cell] on the cached grid of a screenshot moves
    the pointer for the numbers of the grid only, and then to a pixel of
    the screenshot; for any other number it returns [False] and nothing
    moves. *)
Theorem move_cursor_to_cell_grid num_cells files r c width height n accepted :
  r_shot r = Some (width, height) ->
  0 <= num_cells -> 0 < width -> 0 < height ->
  let c' := (save_screenshot_with_grid num_cells files r c).2 in
  match move_cursor_to_cell n accepted c' with
  | (b, Some (px, py)) =>
      b = accepted /\ 0 <= px < width /\ 0 <= py < height /\
      exists cell, cell ∈ get_grid_cells c' /\ index cell = n /\
                   (px, py) = (center_x cell, center_y cell)
  | (b, None) =>
      b = false /\ Forall (fun cell => index cell <> n) (get_grid_cells c')
  end.
Proof.
  intros Hshot Hn Hw Hh c'.
  destruct (make_grid_Ok num_cells width height) as
    (rows & cols & Hg & Hrows & Hcols & _); [done.. |].
  subst c'. rewrite (save_screenshot_with_grid_Ok _ _ _ _ _ _ _ Hshot Hg).
  unfold move_cursor_to_cell, get_grid_cells.
  cbn [cached_cells default id cells].
  rewrite grid_cells_spec, target_cell_seqZ, !Z.add_0_l by nia.
  case_decide as Hrange.
  - split; [done |].
    destruct (center_in_screenshot rows cols width height
                (n - 1)) as [? ?]; [lia.. |].
    do 2 (split; [done |]). eexists. split; [| split; [| done]].
    + apply list_elem_of_fmap. exists (n - 1). split; [done |].
      apply elem_of_seqZ. lia.
    + simpl. lia.
  - split; [done |]. apply Forall_fmap, Forall_seqZ. intros k Hk. simpl. lia.
Qed.

(** ** Witnesses *)

(** Readings on a 1920 x 1080 screen, the pointer at (100, 100). *)
Definition reading (now later : Q) : readings :=
  {| r_cursor := (100, 100); r_screen := (1920, 1080);
     r_now := now; r_later := later; r_shot := Some (1920, 1080) |}.

Lemma area_start_bounds_witness :
  0 <= area_start 1900 128 1920 /\ area_start 1900 128 1920 + 128 <= 1920 /\
  (0 <= 1900 < 1920 ->
   area_start 1900 128 1920 <= 1900 < area_start 1900 128 1920 + 128).
Proof. apply (area_start_bounds 1900 128 1920). lia. Defined.

(** The picture taken at time 0 is served at time 100.3: the grid was
    captured at time 100.2. *)
Lemma stale_cursor_area_served_witness :
  let c0 := (capture_cursor_area 128 (reading 0 0.05) initial_cache).2 in
  let c1 :=
    (save_screenshot_with_grid 500 None (reading 100 100.2) c0).2 in
  (capture_cursor_area 128 (reading 100.3 100.4) c1).1 =
  (capture_cursor_area 128 (reading 0 0.05) initial_cache).1 /\
  exists region, (capture_cursor_area 128 (reading 0 0.05) initial_cache).1 =
                 Screenshot region 0.
Proof.
  destruct (make_grid 500 1920 1080) as [g |] eqn:Hg; [| by vm_compute in Hg].
  apply (stale_cursor_area_served 128 500 (reading 0 0.05) (reading 100 100.2)
           (reading 100.3 100.4) initial_cache (1920, 1080) g);
    try reflexivity; try done.
Defined.

Lemma save_screenshot_with_grid_cells_witness :
  let c' := (save_screenshot_with_grid 500 None (reading 100 100.2)
               initial_cache).2 in
  exists g, make_grid 500 1920 1080 = Ok g /\
    get_grid_cells c' = cells g /\
    last_capture_time c' = 100.2%Q /\
    cursor_area c' = cursor_area initial_cache /\
    get_cell_center_coordinates (get_grid_cells c') 541 =
    if decide (1 <= 541 <= num_rows g * num_cols g) then
      Some (center_x (cell_at (num_cols g) (1920 / num_cols g)
                        (1080 / num_rows g) (541 - 1)),
            center_y (cell_at (num_cols g) (1920 / num_cols g)
                        (1080 / num_rows g) (541 - 1)))
    else None.
Proof.
  apply (save_screenshot_with_grid_cells 500 None (reading 100 100.2)
           initial_cache 1920 1080 541); [reflexivity | lia..].
Defined.

Lemma move_cursor_to_cell_grid_witness :
  let c' := (save_screenshot_with_grid 500 None (reading 100 100.2)
               initial_cache).2 in
  match move_cursor_to_cell 31 true c' with
  | (b, Some (px, py)) =>
      b = true /\ 0 <= px < 1920 /\ 0 <= py < 1080 /\
      exists cell, cell ∈ get_grid_cells c' /\ index cell = 31 /\
                   (px, py) = (center_x cell, center_y cell)
  | (b, None) =>
      b = false /\ Forall (fun cell => index cell <> 31) (get_grid_cells c')
  end.
Proof.
  apply (move_cursor_to_cell_grid 500 None (reading 100 100.2) initial_cache
           1920 1080 31 true); [reflexivity | lia..].
Defined.

(** Cell 31 is the first of the second row: its centre is (32, 90). *)
Example move_cursor_to_cell_31 :
  move_cursor_to_cell 31 true
    (save_screenshot_with_grid 500 None (reading 100 100.2) initial_cache).2 =
  (true, Some (32, 90)).
Proof. by vm_compute. Qed.
