(* ===== verification/FindUi.v ===== *)
(** * FindUi: targeting an element by its description

    src/services/find_ui.py: the remote model is shown the screenshot with
    its numbered grid and asked for the cell that holds the element;
    [extract_cell_number_from_llm_response] reads a number out of the
    answer, [get_cell_center_coordinates] looks the cell up in the cache,
    and when that gives nothing [fallback_llm_coordinate_detection] asks
    for coordinates and reads two numbers out of the answer;
    [move_mouse_to_ui_element] sends the pointer there.

    The regular expressions of the source are the functions of the first
    part, on texts of ASCII characters: [\d] is a decimal digit and [\s]
    the ASCII white space.  The answers of the model, the state of the
    files and the readings of the machine are the record [env]. *)

From S2P Require Import Prelude PyValue Effects Cursor Grid Cache.
From Stdlib Require Import QArith.
#[local] Close Scope Q_scope.
#[local] Open Scope char_scope.
#[local] Open Scope list_scope.
#[local] Open Scope Z_scope.

(** ** Digits *)

(** [\d] *)
Definition is_digit (c : ascii) : bool :=
  (48 <=? nat_of_ascii c)%nat && (nat_of_ascii c <=? 57)%nat.

Definition digit_value (c : ascii) : Z := Z.of_nat (nat_of_ascii c) - 48.

(** [int(s)] on a text of digits. *)
Definition int_of_digits (ds : text) : Z :=
  foldl (fun n c => 10 * n + digit_value c) 0 ds.

(** [\d*] at the head of a text: the longest run of digits, and what
    follows it. *)
Fixpoint span_digits (t : text) : text * text :=
  match t with
  | c :: t' =>
      if is_digit c then let '(ds, rest) := span_digits t' in (c :: ds, rest)
      else ([], t)
  | [] => ([], [])
  end.

(** ** [extract_cell_number_from_llm_response] *)

(** [re.search(r'#(\d+)', response)]: the group of the leftmost match. *)
Fixpoint search_cell (response : text) : option text :=
  match response with
  | [] => None
  | c :: t =>
      if bool_decide (c = "#") then
        match span_digits t with
        | ([], _) => search_cell t
        | (ds, _) => Some ds
        end
      else search_cell t
  end.

(** [re.findall(r'\d+', response)], [run] being the digits of the match in
    progress. *)
Fixpoint findall_from (run : text) (response : text) : list text :=
  match response with
  | [] => if run is [] then [] else [run]
  | c :: t =>
      if is_digit c then findall_from (run ++ [c]) t
      else (if run is [] then [] else [run]) ++ findall_from [] t
  end.

Definition findall_digits (response : text) : list text :=
  findall_from [] response.

Definition extract_cell_number_from_llm_response (response : text) : option Z :=
  match search_cell response with
  | Some ds => Some (int_of_digits ds)
  | None =>
      match findall_digits response with
      | ds :: _ => Some (int_of_digits ds)
      | [] => None
      end
  end.

(** ** The coordinates in an answer *)

(** [\s] *)
Definition re_space (c : ascii) : bool :=
  bool_decide (c ∈ [" "; "009"; "010"; "011"; "012"; "013"]).

(** [\s*] at the head of a text: what follows the white space. *)
Fixpoint skip_spaces (t : text) : text :=
  match t with
  | c :: t' => if re_space c then skip_spaces t' else t
  | [] => []
  end.

(** [(\d+(?:\.\d+)?)] at the head of a text: the digits before the point,
    those after it, and what follows the match. *)
Definition span_number (t : text) : option (text * text * text) :=
  match span_digits t with
  | ([], _) => None
  | (whole, "." :: t') =>
      match span_digits t' with
      | ([], _) => Some (whole, [], "." :: t')
      | (frac, rest) => Some (whole, frac, rest)
      end
  | (whole, rest) => Some (whole, [], rest)
  end.

(** [int(float(s))] on a match of [\d+(?:\.\d+)?]: the digits after the
    point are dropped. *)
Definition int_of_number (n : text * text * text) : Z := int_of_digits n.1.1.

(** A letter, whatever its case ([re.IGNORECASE]). *)
Definition is_letter (lower upper c : ascii) : bool :=
  bool_decide (c = lower) || bool_decide (c = upper).

(** [x:\s*(\d+(?:\.\d+)?),\s*y:\s*(\d+(?:\.\d+)?)] at the head of a
    text. *)
Definition match_coordinates (t : text) : option (Z * Z) :=
  match t with
  | cx :: ":" :: t1 =>
      if is_letter "x" "X" cx then
        nx ← span_number (skip_spaces t1);
        match nx.2 with
        | "," :: t2 =>
            match skip_spaces t2 with
            | cy :: ":" :: t3 =>
                if is_letter "y" "Y" cy then
                  ny ← span_number (skip_spaces t3);
                  Some (int_of_number nx, int_of_number ny)
                else None
            | _ => None
            end
        | _ => None
        end
      else None
  | _ => None
  end.

(** [re.search] of that pattern: the leftmost match. *)
Fixpoint search_coordinates (result : text) : option (Z * Z) :=
  match match_coordinates result with
  | Some xy => Some xy
  | None =>
      match result with
      | [] => None
      | _ :: t => search_coordinates t
      end
  end.

(** [re.findall(r'\d+(?:\.\d+)?', result)]: a match is followed by the
    search in what it leaves, so the recursion takes fuel; the length of
    the text is enough. *)
Fixpoint findall_numbers_fuel (fuel : nat) (result : text)
  : list (text * text * text) :=
  match fuel with
  | O => []
  | S fuel' =>
      match span_number result with
      | Some n => n :: findall_numbers_fuel fuel' n.2
      | None =>
          match result with
          | [] => []
          | _ :: t => findall_numbers_fuel fuel' t
          end
      end
  end.

Definition findall_numbers (result : text) : list (text * text * text) :=
  findall_numbers_fuel (S (length result)) result.

(** The part of [fallback_llm_coordinate_detection] that reads the
    answer. *)
Definition read_coordinates (result : text) : option (Z * Z) :=
  match search_coordinates result with
  | Some xy => Some xy
  | None =>
      let numbers := findall_numbers result in
      if (2 <=? length numbers)%nat then
        match py_last_n 2 numbers with
        | [nx; ny] => Some (int_of_number nx, int_of_number ny)
        | _ => None
        end
      else None
  end.

(** ** The machine around a search *)

(** The libraries and the cache, which a search reads and writes. *)
Record world : Type := World {
  w_gui : gui;
  w_cache : cache;
}.

(** What one search gets from outside the program. *)
Record env : Type := Env {
  (** a picture of the grid is missing or more than 5 s old *)
  e_stale : bool;
  (** writing the pictures raises *)
  e_files : option exn;
  (** what [save_screenshot_with_grid] reads from the machine *)
  e_readings : readings;
  (** [llm_choose_best_grid_cell]: the answer, or what opening the
      pictures raised *)
  e_cell_answer : result text;
  (** the answer in [fallback_llm_coordinate_detection] *)
  e_coordinates_answer : result text;
}.

#[local] Open Scope exec_scope.

Definition on_gui {A} (m : ST gui A) : ST world A :=
  fun w => let '(r, g) := m (w_gui w) in (r, {| w_gui := g; w_cache := w_cache w |}).

Definition on_cache {A} (m : cache -> result A * cache) : ST world A :=
  fun w => let '(r, c) := m (w_cache w) in (r, {| w_gui := w_gui w; w_cache := c |}).

Section FindUi.
Context (refuses : gui -> gui_call -> option exn) (NUM_CELLS : Z).

(** [get_cell_center_coordinates(cell_number)] on the cache of the
    moment. *)
Definition cell_center (cell_number : Z) : ST world (option (Z * Z)) :=
  fun w =>
    (Ok (get_cell_center_coordinates (get_grid_cells (w_cache w)) cell_number),
     w).

Definition ensure_grid_screenshot_exists (e : env) : ST world unit :=
  if e_stale e then
    on_cache (save_screenshot_with_grid NUM_CELLS (e_files e) (e_readings e))
  else ret tt.

Definition fallback_llm_coordinate_detection (e : env)
  : ST world (option (Z * Z)) :=
  result <~ lift (e_coordinates_answer e) ;;
  ret (read_coordinates result).

(** [if cell_number:] holds of a number that is not zero. *)
Definition get_ui_element_coordinates (screenshot_path : option string)
  (e : env) : ST world (option (Z * Z)) :=
  ensure_grid_screenshot_exists e ;;;
  (if screenshot_path is Some _ then
     on_cache (save_screenshot_with_grid NUM_CELLS (e_files e) (e_readings e))
   else ret tt) ;;;
  llm_response <~ lift (e_cell_answer e) ;;
  coordinates <~
    match extract_cell_number_from_llm_response llm_response with
    | Some cell_number =>
        if cell_number =? 0 then ret None else cell_center cell_number
    | None => ret None
    end ;;
  match coordinates with
  | Some xy => ret (Some xy)
  | None => fallback_llm_coordinate_detection e
  end.

(** [pyautogui.moveTo(x, y, duration=0.5)]: the coordinates go to the
    library as they are. *)
Definition move_to (xy : Z * Z) : ST world unit :=
  on_gui (send refuses (GuiMoveTo (JInt xy.1) (JInt xy.2) 0.5)).

Definition move_mouse_to_ui_element (screenshot_path : option string)
  (e : env) : ST world (option (Z * Z)) :=
  coordinates <~ get_ui_element_coordinates screenshot_path e ;;
  match coordinates with
  | Some xy => move_to xy ;;; ret (Some xy)
  | None => ret None
  end.

Definition move_mouse_to_grid_cell (cell_number : Z)
  : ST world (option (Z * Z)) :=
  coordinates <~ cell_center cell_number ;;
  match coordinates with
  | Some xy => move_to xy ;;; ret (Some xy)
  | None => ret None
  end.

End FindUi.

(** ** Runs of digits *)

(** A text of digits, and a text that does not go on with a digit. *)
Definition digits (ds : text) : Prop := Forall (fun c => is_digit c = true) ds.
Definition stops (rest : text) : Prop :=
  from_option is_digit false (head rest) = false.

#[export] Instance digits_dec ds : Decision (digits ds).
Proof. unfold digits. apply _. Defined.
#[export] Instance stops_dec rest : Decision (stops rest).
Proof. unfold stops. apply _. Defined.

Lemma span_digits_spec t :
  t = (span_digits t).1 ++ (span_digits t).2 /\
  digits (span_digits t).1 /\ stops (span_digits t).2.
Proof.
  induction t as [| c t (IH1 & IH2 & IH3)]; simpl; [by repeat constructor |].
  destruct (is_digit c) eqn:Hc; [| by split_and!; [| constructor | unfold stops; simpl]].
  destruct (span_digits t) as [ds rest]. simpl in *.
  split_and!; [by f_equal | by constructor | done].
Qed.

Lemma span_digits_app ds rest :
  digits ds -> stops rest -> span_digits (ds ++ rest) = (ds, rest).
Proof.
  intros Hds Hrest. induction Hds as [| c ds Hc _ IH]; simpl.
  - destruct rest as [| c rest]; [done |]. unfold stops in Hrest. simpl in *.
    by rewrite Hrest.
  - by rewrite Hc, IH.
Qed.

Lemma digit_value_range c : is_digit c = true -> 0 <= digit_value c <= 9.
Proof.
  unfold is_digit, digit_value.
  rewrite andb_true_iff, !Nat.leb_le. lia.
Qed.

Lemma int_of_digits_snoc ds c :
  int_of_digits (ds ++ [c]) = 10 * int_of_digits ds + digit_value c.
Proof. unfold int_of_digits. by rewrite foldl_app. Qed.

Lemma int_of_digits_nonneg ds : digits ds -> 0 <= int_of_digits ds.
Proof.
  induction ds as [| c ds IH] using rev_ind; [done |].
  intros [Hds Hc%Forall_inv]%Forall_app. rewrite int_of_digits_snoc.
  apply digit_value_range in Hc. specialize (IH Hds). lia.
Qed.

(** ** The searches of [extract_cell_number_from_llm_response] *)

Lemma search_cell_skip pre t :
  "#" ∉ pre -> search_cell (pre ++ t) = search_cell t.
Proof.
  induction pre as [| c pre IH]; [done |].
  intros [Hc Hpre]%not_elem_of_cons. simpl.
  rewrite bool_decide_false by done. auto.
Qed.

Lemma search_cell_hit ds rest :
  ds <> [] -> digits ds -> stops rest ->
  search_cell ("#" :: ds ++ rest) = Some ds.
Proof.
  intros Hne Hds Hrest. simpl. rewrite span_digits_app by done.
  by destruct ds.
Qed.

Lemma search_cell_None t : "#" ∉ t -> search_cell t = None.
Proof.
  intros Ht. rewrite <- (app_nil_r t). by rewrite search_cell_skip.
Qed.

(** What the search returns is a run of digits that follows a ["#"]. *)
Lemma search_cell_Some t ds :
  search_cell t = Some ds ->
  ds <> [] /\ digits ds /\
  exists pre rest, t = pre ++ "#" :: ds ++ rest /\ stops rest.
Proof.
  induction t as [| c t IH]; [done |]. simpl.
  assert (search_cell t = Some ds ->
          ds <> [] /\ digits ds /\
          exists pre rest, c :: t = pre ++ "#" :: ds ++ rest /\ stops rest) as Hrec.
  { intros (? & ? & pre & rest & -> & ?)%IH. split_and!; [done.. |].
    by exists (c :: pre), rest. }
  case_bool_decide as Hc; [subst c | done].
  pose proof (span_digits_spec t) as (Ht & Hds & Hrest).
  destruct (span_digits t) as [[| d ds'] rest]; [done |].
  intros [= <-]. simpl in *. split_and!; [done.. |].
  exists [], rest. split; [simpl; congruence | done].
Qed.

Lemma findall_from_run run ds rest :
  run ++ ds <> [] -> digits ds -> stops rest ->
  findall_from run (ds ++ rest) = (run ++ ds) :: findall_from [] rest.
Proof.
  intros Hne Hds Hrest. revert run Hne.
  induction Hds as [| c ds Hc _ IH]; intros run Hne; simpl.
  - rewrite app_nil_r in *. destruct rest as [| c rest]; [by destruct run |].
    unfold stops in Hrest. simpl in *. rewrite Hrest. by destruct run.
  - rewrite Hc, IH, <- app_assoc; [done |]. by destruct run.
Qed.

Lemma findall_from_skip pre t :
  Forall (fun c => is_digit c = false) pre ->
  findall_from [] (pre ++ t) = findall_from [] t.
Proof. induction 1 as [| c pre Hc _ IH]; simpl; [done |]. by rewrite Hc. Qed.

Lemma findall_digits_nil t :
  findall_digits t = [] <-> Forall (fun c => is_digit c = false) t.
Proof.
  unfold findall_digits. split.
  - induction t as [| c t IH]; [constructor |]. simpl.
    destruct (is_digit c) eqn:Hc; [| by constructor; auto].
    pose proof (span_digits_spec t) as (Ht & Hds & Hrest).
    rewrite Ht, (findall_from_run [c]) by done. done.
  - intros Ht. rewrite <- (app_nil_r t). by rewrite findall_from_skip.
Qed.

(** The first match of [\d+] is a run of digits of the text. *)
Lemma findall_digits_head t ds l :
  findall_digits t = ds :: l ->
  ds <> [] /\ digits ds /\ exists pre rest, t = pre ++ ds ++ rest.
Proof.
  unfold findall_digits. induction t as [| c t IH]; [done |]. simpl.
  destruct (is_digit c) eqn:Hc.
  - pose proof (span_digits_spec t) as (Ht & Hds & Hrest).
    rewrite Ht at 1. rewrite (findall_from_run [c]) by done.
    intros [= <- _]. split_and!; [done | by constructor |].
    exists [], (span_digits t).2. simpl. by f_equal.
  - intros (? & ? & pre & rest & ->)%IH. split_and!; [done.. |].
    by exists (c :: pre), rest.
Qed.

(** ** The number read out of an answer *)

(** A number that follows a ["#"] is the cell, whatever numbers stand
    before it: the answer ["in row 3, cell #137."] gives 137. *)
Theorem extract_cell_number_marked pre ds rest :
  "#" ∉ pre -> ds <> [] -> digits ds -> stops rest ->
  extract_cell_number_from_llm_response (pre ++ "#" :: ds ++ rest) =
  Some (int_of_digits ds).
Proof.
  intros Hpre Hne Hds Hrest. unfold extract_cell_number_from_llm_response.
  by rewrite search_cell_skip, search_cell_hit.
Qed.

(** Without a ["#"] the first number of the answer is the cell. *)
Theorem extract_cell_number_plain pre ds rest :
  Forall (fun c => is_digit c = false) pre -> ds <> [] -> digits ds ->
  stops rest -> "#" ∉ pre ++ ds ++ rest ->
  extract_cell_number_from_llm_response (pre ++ ds ++ rest) =
  Some (int_of_digits ds).
Proof.
  intros Hpre Hne Hds Hrest Hhash. unfold extract_cell_number_from_llm_response.
  rewrite search_cell_None by done. unfold findall_digits.
  rewrite findall_from_skip by done.
  by rewrite (findall_from_run []) by done.
Qed.

(** Whatever the answer, a number that is read out of it is the value
    of a run of digits of the answer, so it is never negative; and none
    is read exactly when the answer has no digit. *)
Theorem extract_cell_number_sound response :
  match extract_cell_number_from_llm_response response with
  | Some n =>
      0 <= n /\
      exists pre ds rest, response = pre ++ ds ++ rest /\ ds <> [] /\
        digits ds /\ n = int_of_digits ds
  | None => Forall (fun c => is_digit c = false) response
  end.
Proof.
  unfold extract_cell_number_from_llm_response.
  destruct (search_cell response) as [ds |] eqn:Hs.
  - apply search_cell_Some in Hs as (Hne & Hds & pre & rest & -> & _).
    split; [by apply int_of_digits_nonneg |].
    exists (pre ++ ["#"]), ds, rest. by rewrite <- app_assoc.
  - destruct (findall_digits response) as [| ds l] eqn:Hf.
    + by apply findall_digits_nil.
    + apply findall_digits_head in Hf as (Hne & Hds & pre & rest & ->).
      split; [by apply int_of_digits_nonneg |]. by exists pre, ds, rest.
Qed.

(** ** Reading coordinates *)

Lemma skip_spaces_stop t :
  from_option re_space false (head t) = false -> skip_spaces t = t.
Proof. destruct t as [| c t]; simpl; [done |]. by intros ->. Qed.

Lemma skip_spaces_app sp t :
  Forall (fun c => re_space c = true) sp -> skip_spaces (sp ++ t) = skip_spaces t.
Proof. induction 1 as [| c sp Hc _ IH]; simpl; [done |]. by rewrite Hc. Qed.

(** A digit is no white space. *)
Lemma digits_no_space ds rest :
  ds <> [] -> digits ds -> skip_spaces (ds ++ rest) = ds ++ rest.
Proof.
  intros Hne Hds. apply skip_spaces_stop.
  destruct Hds as [| c ds Hc _]; [done |]. simpl.
  unfold is_digit in Hc. apply andb_true_iff in Hc as [H1%Nat.leb_le H2].
  unfold re_space. apply bool_decide_eq_false. intros Hin.
  repeat (apply elem_of_cons in Hin as [-> | Hin]; [vm_compute in H1; lia |]).
  by apply elem_of_nil in Hin.
Qed.

(** A whole number, followed by something that is neither a digit nor a
    point. *)
Lemma span_number_whole ds rest :
  ds <> [] -> digits ds -> stops rest -> head rest <> Some "." ->
  span_number (ds ++ rest) = Some (ds, [], rest).
Proof.
  intros Hne Hds Hrest Hpoint. unfold span_number.
  rewrite span_digits_app by done. destruct ds as [| d ds]; [done |].
  destruct rest as [| c rest]; [done |].
  destruct (decide (c = ".")) as [-> | ?]; [done |].
  destruct c as [[] [] [] [] [] [] [] []]; done.
Qed.

(** A number with a point and digits after it. *)
Lemma span_number_frac ds fs rest :
  ds <> [] -> digits ds -> fs <> [] -> digits fs -> stops rest ->
  span_number (ds ++ "." :: fs ++ rest) = Some (ds, fs, rest).
Proof.
  intros Hne Hds Hnf Hfs Hrest. unfold span_number.
  rewrite span_digits_app by done. destruct ds as [| d ds]; [done |].
  rewrite span_digits_app by done. by destruct fs.
Qed.

(** What a match of a number leaves is shorter than the text. *)
Lemma span_number_shorter t n :
  span_number t = Some n -> (length n.2 < length t)%nat.
Proof.
  unfold span_number. pose proof (span_digits_spec t) as (Ht & _ & _).
  destruct (span_digits t) as [[| d ds] rest]; [done |]. simpl in Ht.
  assert (length rest < length t)%nat by (rewrite Ht; len).
  destruct rest as [| c rest']; [by intros [= <-] |].
  pose proof (span_digits_spec rest') as (Hr & _ & _).
  destruct c as [[] [] [] [] [] [] [] []]; try by intros [= <-].
  destruct (span_digits rest') as [[| f fs] rest'']; intros [= <-]; [done |].
  simpl in *. rewrite Hr in H. len.
Qed.

(** The search through the numbers of a text ends: more fuel than the
    text has characters changes nothing. *)
Lemma findall_numbers_fuel_enough fuel t :
  (length t < fuel)%nat -> findall_numbers_fuel fuel t = findall_numbers t.
Proof.
  unfold findall_numbers. remember (S (length t)) as k eqn:Hk.
  assert (length t < k)%nat as Hlt by lia. clear Hk.
  revert t fuel Hlt. induction k as [| k IH]; intros t fuel Hlt Hfuel; [lia |].
  destruct fuel as [| fuel]; [lia |]. simpl.
  destruct (span_number t) as [n |] eqn:Hn.
  - apply span_number_shorter in Hn. f_equal. apply IH; lia.
  - destruct t as [| c t]; [done |]. simpl in *. apply IH; lia.
Qed.

(** An answer in the format the prompt asks for. *)
Theorem read_coordinates_asked dx dy rest :
  dx <> [] -> digits dx -> dy <> [] -> digits dy ->
  stops rest -> head rest <> Some "." ->
  read_coordinates (text_of "x: " ++ dx ++ text_of ", y: " ++ dy ++ rest) =
  Some (int_of_digits dx, int_of_digits dy).
Proof.
  intros Hnx Hdx Hny Hdy Hrest Hpoint. unfold read_coordinates.
  assert (match_coordinates
            (text_of "x: " ++ dx ++ text_of ", y: " ++ dy ++ rest) =
          Some (int_of_digits dx, int_of_digits dy)) as Hm.
  { assert (forall t, skip_spaces (" " :: t) = skip_spaces t) as Hsp by done.
    assert (forall t, skip_spaces ("y" :: t) = "y" :: t) as Hy by done.
    cbn [text_of String.list_ascii_of_string app match_coordinates].
    change (is_letter "x" "X" "x") with true. cbv iota.
    rewrite Hsp, digits_no_space, (span_number_whole dx) by done.
    cbn [mbind option_bind snd]. rewrite Hsp, Hy.
    change (is_letter "y" "Y" "y") with true. cbv iota.
    by rewrite Hsp, digits_no_space, (span_number_whole dy) by done. }
  cbn [text_of String.list_ascii_of_string app] in *.
  cbn [search_coordinates]. by rewrite Hm.
Qed.

(** ** Searches *)

Section Searches.
Context (refuses : gui -> gui_call -> option exn) (NUM_CELLS : Z).

(** The call [move_to] makes, and the libraries after it. *)
Definition moved (xy : Z * Z) (g : gui) : gui :=
  let c := GuiMoveTo (JInt xy.1) (JInt xy.2) 0.5 in record c (effect c g).

Lemma move_to_accepted xy w :
  refuses (w_gui w) (GuiMoveTo (JInt xy.1) (JInt xy.2) 0.5) = None ->
  move_to refuses xy w =
  (Ok tt, {| w_gui := moved xy (w_gui w); w_cache := w_cache w |}).
Proof. intros Hr. unfold move_to, on_gui, send. by rewrite Hr. Qed.




(** When the model names no cell of the cached grid, the coordinates are
    asked of the model. *)
Lemma get_ui_element_coordinates_no_cell e w answer :
  e_stale e = false -> e_cell_answer e = Ok answer ->
  match extract_cell_number_from_llm_response answer with
  | Some n => n = 0 \/ target_cell (get_grid_cells (w_cache w)) n = None
  | None => True
  end ->
  get_ui_element_coordinates NUM_CELLS None e w =
  fallback_llm_coordinate_detection e w.
Proof.
  intros Hstale Hanswer Hcell.
  unfold get_ui_element_coordinates, bindM, ensure_grid_screenshot_exists.
  rewrite Hstale, Hanswer. cbn [ret lift].
  destruct (extract_cell_number_from_llm_response answer) as [n |]; [| done].
  destruct (Z.eqb_spec n 0) as [-> | Hn]; [done |].
  destruct Hcell as [? | Hnone]; [done |].
  unfold cell_center, get_cell_center_coordinates. by rewrite Hnone.
Qed.

(** C37: when the model names no cell of the cached grid (no number, the
    number 0, a number beyond the grid), the coordinates are asked of
    the model, and whatever two numbers its answer holds in the format
    asked for are sent to pyautogui as they are, with no regard to the
    size of the screen. *)
Theorem move_mouse_to_ui_element_fallback e w answer dx dy :
  e_stale e = false -> e_cell_answer e = Ok answer ->
  match extract_cell_number_from_llm_response answer with
  | Some n => n = 0 \/ target_cell (get_grid_cells (w_cache w)) n = None
  | None => True
  end ->
  dx <> [] -> digits dx -> dy <> [] -> digits dy ->
  e_coordinates_answer e =
    Ok (text_of "x: " ++ dx ++ text_of ", y: " ++ dy) ->
  (forall g c, refuses g c = None) ->
  let xy := (int_of_digits dx, int_of_digits dy) in
  move_mouse_to_ui_element refuses NUM_CELLS None e w =
  (Ok (Some xy), {| w_gui := moved xy (w_gui w); w_cache := w_cache w |}).
Proof.
  intros Hstale Hanswer Hcell Hnx Hdx Hny Hdy Hcoord Hacc xy.
  unfold move_mouse_to_ui_element, bindM.
  rewrite (get_ui_element_coordinates_no_cell e w answer) by done.
  unfold fallback_llm_coordinate_detection, bindM. rewrite Hcoord.
  cbn [lift ret].
  pose proof (read_coordinates_asked dx dy [] Hnx Hdx Hny Hdy) as Hread.
  rewrite app_nil_r in Hread. rewrite Hread by done.
  by rewrite move_to_accepted by done.
Qed.

(** The model that names no element at all: nothing moves, and nothing
    is raised. *)
Lemma move_mouse_to_ui_element_nothing e w answer result :
  e_stale e = false -> e_cell_answer e = Ok answer ->
  extract_cell_number_from_llm_response answer = None ->
  e_coordinates_answer e = Ok result -> read_coordinates result = None ->
  move_mouse_to_ui_element refuses NUM_CELLS None e w = (Ok None, w).
Proof.
  intros Hstale Hanswer Hcell Hcoord Hread.
  unfold move_mouse_to_ui_element, bindM.
  rewrite (get_ui_element_coordinates_no_cell e w answer) by (done || by rewrite Hcell).
  unfold fallback_llm_coordinate_detection, bindM. rewrite Hcoord.
  cbn [lift ret]. by rewrite Hread.
Qed.

End Searches.

(** ** Witnesses *)

(** Libraries that accept every call. *)
Definition willing (g : gui) (c : gui_call) : option exn := None.

(** A search made when the pictures are old, on a 1920 x 1080 screen:
    the model names cell 31, the first of the second row. *)
Definition names_cell : env :=
  {| e_stale := true; e_files := None;
     e_readings :=
       {| r_cursor := (960, 540); r_screen := (1920, 1080); r_now := 10;
          r_later := 10.2; r_shot := Some (1920, 1080) |};
     e_cell_answer := Ok (text_of "The element is in cell #31.");
     e_coordinates_answer := Ok [] |}.

(** A search in which the model names no cell and then answers with
    coordinates far outside the screen. *)
Definition names_pixels : env :=
  {| e_stale := false; e_files := None;
     e_readings :=
       {| r_cursor := (960, 540); r_screen := (1920, 1080); r_now := 10;
          r_later := 10.2; r_shot := Some (1920, 1080) |};
     e_cell_answer := Ok (text_of "I cannot see it.");
     e_coordinates_answer := Ok (text_of "x: 5000, y: 4000") |}.

Definition at_rest : world := {| w_gui := desk; w_cache := initial_cache |}.

Lemma extract_cell_number_marked_witness :
  extract_cell_number_from_llm_response (text_of "in row 3, cell #137.") =
  Some 137.
Proof.
  apply (extract_cell_number_marked (text_of "in row 3, cell ") (text_of "137")
           (text_of ".")); by_compute.
Defined.


Lemma move_mouse_to_ui_element_fallback_witness :
  move_mouse_to_ui_element willing 500 None names_pixels at_rest =
  (Ok (Some (5000, 4000)),
   {| w_gui := moved (5000, 4000) desk; w_cache := initial_cache |}).
Proof.
  apply (move_mouse_to_ui_element_fallback willing 500
           names_pixels at_rest (text_of "I cannot see it.")
           (text_of "5000") (text_of "4000"));
    first [reflexivity | by_compute | done].
Defined.

(** The cell the model named is the first of the second row of the
    18 x 30 grid: its centre is the pixel (32, 90). *)
Example names_cell_31 :
  (move_mouse_to_ui_element willing 500 None names_cell at_rest).1 =
  Ok (Some (32, 90)).
Proof. vm_compute. reflexivity. Qed.

(** The number 0 is no cell number for [if cell_number:], and the first
    number of an answer without ["#"] is taken for one. *)
Example reads_first_number :
  extract_cell_number_from_llm_response (text_of "between 12 and 15") = Some 12 /\
  extract_cell_number_from_llm_response (text_of "no such element") = None /\
  read_coordinates (text_of "about 1.5 or 2.25 then 300") = Some (2, 300).
Proof. vm_compute. done. Qed.
