(* ===== verification/Desktop.v ===== *)
(** * Desktop: the desktop the executor drives

    [Executor] is proved for every [device]; this file is the device the
    program runs against: each call of the executor is the function of
    src/services/cursor_module.py, keyboard_module.py or find_ui.py that
    execute_funcs.py calls, run on the libraries and the cache, and
    [time.sleep].  The executor drops what these functions return, so the
    device tells it only whether a call returned or raised.

    What reaches the machine from outside between two calls is a function
    of the calls made so far: the answers and readings a search gets
    ([envs]), and how many of the threads started by [type_text] have put
    the clipboard back ([restored]).  The theorems hold for all of
    them. *)

From S2P Require Import Prelude PyValue Effects Executor Calls.
From S2P Require Import Cursor Grid Cache FindUi.
From Stdlib Require Import QArith.
#[local] Close Scope Q_scope.
#[local] Open Scope string_scope.
#[local] Open Scope list_scope.
#[local] Open Scope Z_scope.
#[local] Open Scope exec_scope.

Section Machine.
Context `{PyFormat} (refuses : gui -> gui_call -> option exn) (NUM_CELLS : Z).
Context (envs : list call -> json -> env) (restored : list call -> nat).

(** [time.sleep(seconds)] *)
Definition sleep (seconds : json) : ST world unit :=
  match num_of seconds with
  | Some q =>
      if Qle_bool 0 q then ret tt
      else raise (Exception "sleep length must be non-negative")
  | None => raise (Exception (err_text (BadArgument "sleep" seconds)))
  end.

(** The function behind each call, its result dropped.  [tr] is the
    calls made before. *)
Definition perform (tr : list call) (c : call) : ST world unit :=
  match c with
  | MoveCursorAbsolute x y => on_gui (move_cursor_absolute refuses x y)
  | MoveCursorRelative dx dy => on_gui (move_cursor_relative refuses dx dy)
  | GetCursorPosition => on_gui get_cursor_position ;;; ret tt
  | ClickMouseButton button =>
      on_gui (click_mouse_button refuses button) ;;; ret tt
  | MoveMouseToUiElement name =>
      move_mouse_to_ui_element refuses NUM_CELLS None (envs tr name) ;;; ret tt
  | DoubleClick button => on_gui (double_click refuses button) ;;; ret tt
  | DragTo x y button duration =>
      on_gui (drag_to refuses x y button duration) ;;; ret tt
  | MouseDown button => on_gui (mouse_down refuses button) ;;; ret tt
  | MouseUp button => on_gui (mouse_up refuses button) ;;; ret tt
  | PressKey key => on_gui (press_key refuses key) ;;; ret tt
  | PressHotkey keys => on_gui (press_hotkey refuses keys) ;;; ret tt
  | TypeText t => on_gui (type_text refuses t) ;;; ret tt
  | Scroll clicks => on_gui (scroll refuses clicks) ;;; ret tt
  | Sleep seconds => sleep seconds
  | Settle _ => ret tt
  end.

(** The restore threads that have run in the meantime. *)
Definition threads (n : nat) (w : world) : world :=
  {| w_gui := Nat.iter n restore_clipboard (w_gui w); w_cache := w_cache w |}.

(** One call, after the calls [tr]. *)
Definition step (tr : list call) (c : call) (w : world) : result unit * world :=
  perform tr c (threads (restored tr) w).

(** The machine after the calls [todo], made after the calls [done]. *)
Fixpoint run_from (done todo : list call) (w : world) : world :=
  match todo with
  | [] => w
  | c :: todo' => run_from (done ++ [c]) todo' (step done c w).2
  end.

Definition run (tr : list call) (w0 : world) : world := run_from [] tr w0.

(** The device: the machine started as [w0]. *)
Definition desktop (w0 : world) : device :=
  {| outcome tr c :=
       match (step tr c (run tr w0)).1 with
       | Ok _ => None
       | Raise e => Some e
       end;
     cursor tr :=
       let g := w_gui (threads (restored tr) (run tr w0)) in
       (JInt (position g).1, JInt (position g).2) |}.

End Machine.

(** ** Calls that leave the pointer alone *)

(** The pointer and the monitors are the same. *)
Definition same_screen (g g' : gui) : Prop :=
  position g' = position g /\ monitors g' = monitors g /\ size g' = size g.

Lemma same_screen_refl g : same_screen g g.
Proof. done. Qed.

Lemma same_screen_trans g1 g2 g3 :
  same_screen g1 g2 -> same_screen g2 g3 -> same_screen g1 g3.
Proof. unfold same_screen. naive_solver congruence. Qed.

Lemma same_screen_in_screen g g' : same_screen g g' -> in_screen g -> in_screen g'.
Proof.
  intros (Hp & Hm & Hs). unfold in_screen, dims. by rewrite Hp, Hm, Hs.
Qed.

Lemma restore_clipboard_same g : same_screen g (restore_clipboard g).
Proof. unfold restore_clipboard. by destruct (restores g). Qed.

Lemma threads_same n w : same_screen (w_gui w) (w_gui (threads n w)).
Proof.
  unfold threads. simpl. induction n as [| n IH]; simpl; [done |].
  eapply same_screen_trans; [exact IH | apply restore_clipboard_same].
Qed.

(** ** The machine follows the trace *)

Section Run.
Context `{PyFormat} (refuses : gui -> gui_call -> option exn) (NUM_CELLS : Z).
Context (envs : list call -> json -> env) (restored : list call -> nat).

#[local] Abbreviation step := (step refuses NUM_CELLS envs restored).
#[local] Abbreviation run := (run refuses NUM_CELLS envs restored).
#[local] Abbreviation desktop := (desktop refuses NUM_CELLS envs restored).

Lemma run_from_app done t1 t2 w :
  run_from refuses NUM_CELLS envs restored done (t1 ++ t2) w =
  run_from refuses NUM_CELLS envs restored (done ++ t1) t2
    (run_from refuses NUM_CELLS envs restored done t1 w).
Proof.
  revert done w. induction t1 as [| c t1 IH]; intros done w; simpl.
  - by rewrite app_nil_r.
  - by rewrite IH, <- app_assoc.
Qed.

Lemma run_snoc tr c w0 : run (tr ++ [c]) w0 = (step tr c (run tr w0)).2.
Proof. unfold Desktop.run. by rewrite run_from_app. Qed.

(** A property of the machine that every call of a kind preserves holds
    after any calls of that kind. *)
Lemma run_invariant (I : world -> Prop) (P : call -> Prop) tr calls w0 :
  (forall tr c w, P c -> I w -> I (step tr c w).2) ->
  I (run tr w0) -> Forall P calls -> I (run (tr ++ calls) w0).
Proof.
  intros Hstep Htr. induction calls as [| c calls IH] using rev_ind;
    intros Hcalls.
  - by rewrite app_nil_r.
  - apply Forall_app in Hcalls as [Hcalls Hc%Forall_inv].
    rewrite app_assoc, run_snoc. apply Hstep; auto.
Qed.

(** A call that names no target. *)
Lemma send_same c g r g' :
  target c = None -> send refuses c g = (r, g') -> same_screen g g'.
Proof.
  intros Ht. unfold send. destruct (refuses g c); intros [= <- <-]; [done |].
  by destruct c.
Qed.

(** Unfolds a primitive into its calls. *)
Ltac primitive :=
  unfold click_mouse_button, double_click, mouse_down, mouse_up, scroll,
    press_key, press_hotkey, type_text, get_cursor_position, try_catch,
    start_restore, modify, bindM, ret.

Lemma type_text_same t g r g' :
  type_text refuses t g = (r, g') -> same_screen g g'.
Proof.
  primitive. unfold send. intros Hrun. st_cases; done.
Qed.

(** [type_text] raises only what reading the clipboard raises. *)
Lemma type_text_Ok t g :
  refuses g ClipPaste = None -> exists b g', type_text refuses t g = (Ok b, g').
Proof.
  intros Hpaste. primitive. unfold send at 1. rewrite Hpaste.
  destruct (send refuses (ClipCopy t) _) as [[[] | e] g1]; [| by eauto].
  destruct (send refuses (GuiHotkey _) g1) as [[[] | e] g2]; by eauto.
Qed.

(** The pointer is on the monitor after a primitive, result dropped. *)
Lemma on_gui_in_screen {A} (m : ST gui A) w :
  (forall g r g', m g = (r, g') -> in_screen g -> in_screen g') ->
  in_screen (w_gui w) ->
  in_screen (w_gui ((on_gui m ;;; ret tt) w).2).
Proof.
  intros Hm Hw. unfold bindM, on_gui, ret.
  destruct (m (w_gui w)) as [[a | e] g'] eqn:Hrun; simpl; eauto.
Qed.

Lemma on_gui_same {A} (m : ST gui A) w :
  (forall g r g', m g = (r, g') -> same_screen g g') ->
  in_screen (w_gui w) ->
  in_screen (w_gui ((on_gui m ;;; ret tt) w).2).
Proof.
  intros Hm. apply on_gui_in_screen. intros g r g' Hrun.
  eapply same_screen_in_screen; eauto.
Qed.

(** A primitive that sends calls without a target. *)
Ltac no_target :=
  intros g r g'; primitive; try unfold send; intros Hrun; st_cases;
    unfold same_screen; simpl; auto.

(** Every call but the search for an element leaves the pointer on
    the primary monitor, whatever its arguments and whatever the
    libraries refuse. *)
Lemma step_in_screen tr c w :
  call_name c <> Some "move_cursor_to_element" ->
  in_screen (w_gui w) -> in_screen (w_gui (step tr c w).2).
Proof.
  intros Hc Hw. unfold Desktop.step.
  assert (in_screen (w_gui (threads (restored tr) w))) as Hw1
    by (eapply same_screen_in_screen; [apply threads_same | done]).
  revert Hw1. generalize (threads (restored tr) w). clear Hw. intros w1 Hw1.
  destruct c; cbn [perform]; try done.
  - unfold on_gui.
    destruct (move_cursor_absolute refuses x y (w_gui w1)) as [r g'] eqn:Hrun.
    by eapply move_cursor_absolute_in_screen in Hrun as [? _].
  - unfold on_gui.
    destruct (move_cursor_relative refuses dx dy (w_gui w1)) as [r g'] eqn:Hrun.
    by eapply move_cursor_relative_in_screen in Hrun as [? _].
  - apply on_gui_same; [no_target | done].
  - apply on_gui_same; [no_target | done].
  - apply on_gui_in_screen; [| done]. intros g r g' Hrun Hg.
    by eapply drag_to_in_screen in Hrun as [? _].
  - apply on_gui_same; [no_target | done].
  - apply on_gui_same; [no_target | done].
  - apply on_gui_same; [no_target | done].
  - apply on_gui_same; [no_target | done].
  - apply on_gui_same; [no_target | done].
  - apply on_gui_same; [no_target | done].
  - unfold sleep. by repeat case_match.
Qed.

End Run.

(** ** What the executor reports *)

Section Reports.
Context `{PyFormat} (dev : device).

(** A text the desktop accepts: its result, and the delay. *)
Lemma accepted_text_continues t rest rs st :
  outcome dev (trace st) (TypeText t) = None ->
  execute_batch_loop dev (cmd "enter_text" [("text", t)] :: rest) rs st =
  execute_batch_loop dev rest
    (rs ++ [Res (JStr "enter_text") true ("Typed text: " +:+ py_str t)])
    {| listening := listening st;
       trace := trace st ++ [TypeText t; Settle 0.5] |}.
Proof.
  intros Hout. rewrite execute_batch_loop_cons, subscript_cmd.
  assert (dispatch dev (cmd "enter_text" [("text", t)]) (JStr "enter_text") st =
          (Ok (Continue ("Typed text: " +:+ py_str t)),
           {| listening := listening st;
              trace := trace st ++ [TypeText t] |})) as ->.
  { unfold dispatch. simpl. unfold bindM, lift, param, do. simpl.
    by rewrite Hout. }
  cbn [listening trace]. by rewrite <- app_assoc.
Qed.

(** A search the desktop accepts: its result, and the two delays. *)
Lemma accepted_search_continues name rest rs st :
  outcome dev (trace st) (MoveMouseToUiElement name) = None ->
  execute_batch_loop dev (cmd "move_cursor_to_element" [("name", name)] :: rest)
    rs st =
  execute_batch_loop dev rest
    (rs ++ [Res (JStr "move_cursor_to_element") true
              ("Moved cursor to element " +:+ py_str name)])
    {| listening := listening st;
       trace := trace st ++ [MoveMouseToUiElement name; Settle 5; Settle 0.5] |}.
Proof.
  intros Hout. rewrite execute_batch_loop_cons, subscript_cmd.
  assert (dispatch dev (cmd "move_cursor_to_element" [("name", name)])
            (JStr "move_cursor_to_element") st =
          (Ok (Continue ("Moved cursor to element " +:+ py_str name)),
           {| listening := listening st;
              trace := trace st ++ [MoveMouseToUiElement name; Settle 5] |}))
    as ->.
  { unfold dispatch. simpl. unfold bindM, lift, param, do, settle. simpl.
    rewrite Hout. simpl. by rewrite <- app_assoc. }
  cbn [listening trace]. by rewrite <- app_assoc.
Qed.

End Reports.

Section Guarantees.
Context `{PyFormat} (refuses : gui -> gui_call -> option exn) (NUM_CELLS : Z).
Context (envs : list call -> json -> env) (restored : list call -> nat).

#[local] Abbreviation step := (step refuses NUM_CELLS envs restored).
#[local] Abbreviation run := (run refuses NUM_CELLS envs restored).
#[local] Abbreviation desktop := (desktop refuses NUM_CELLS envs restored).

(** C6: whatever commands the model sends, as long as none of them is a
    search for an element, and whatever their parameters are, the
    pointer is on the primary monitor after [process_commands] if it was
    before: every target is clamped on its way to pyautogui. *)
Theorem process_commands_on_monitor commands st w0 :
  in_screen (w_gui (Desktop.run refuses NUM_CELLS envs restored (trace st) w0)) ->
  JStr "move_cursor_to_element" ∉ names commands ->
  in_screen
    (w_gui (Desktop.run refuses NUM_CELLS envs restored
              (trace (process_commands (desktop w0) commands st).2) w0)).
Proof.
  intros Hin Hno.
  destruct (process_commands_no_call (desktop w0) commands st _ Hno)
    as (calls & -> & Hcalls).
  apply (run_invariant refuses NUM_CELLS envs restored
           (fun w => in_screen (w_gui w))
           (fun c => call_name c <> Some "move_cursor_to_element"));
    [| done | done].
  intros tr c w. apply step_in_screen.
Qed.

(** The paste key has not been sent. *)
Definition no_key (g : gui) : Prop :=
  GuiHotkey [JStr "ctrl"; JStr "v"] ∉ sent g.

Lemma threads_no_key n w : no_key (w_gui w) -> no_key (w_gui (threads n w)).
Proof.
  intros Hw. unfold threads. simpl. induction n as [| n IH]; simpl; [done |].
  unfold restore_clipboard. destruct (restores _); [done |].
  unfold no_key in *. simpl. set_solver.
Qed.

(** When pyperclip refuses the text, [type_text] sends no key. *)
Lemma type_text_refused_no_key t g r g' :
  (forall g, is_Some (refuses g (ClipCopy t))) ->
  type_text refuses t g = (r, g') -> no_key g -> no_key g'.
Proof.
  intros Hcopy. unfold type_text, try_catch, start_restore, modify, bindM, ret,
    send.
  destruct (refuses g ClipPaste); [by intros [= _ <-] |].
  destruct (Hcopy (record ClipPaste (effect ClipPaste g))) as [e ->].
  intros [= _ <-]. unfold no_key. simpl. set_solver.
Qed.

(** C32: [type_text] catches what the clipboard and the keyboard raise
    and returns [False], and [execute_batch_commands] drops what it
    returns: when the text cannot even be copied, the command is still
    reported as a success with the message that the text was typed,
    while no paste key has reached the keyboard. *)
Theorem failed_typing_reported_typed t st w0 :
  (forall g, refuses g ClipPaste = None) ->
  (forall g, is_Some (refuses g (ClipCopy t))) ->
  let out :=
    execute_batch_commands (desktop w0) [cmd "enter_text" [("text", t)]] st in
  out.1 = Ok [Res (JStr "enter_text") true ("Typed text: " +:+ py_str t)] /\
  (no_key (w_gui (Desktop.run refuses NUM_CELLS envs restored (trace st) w0)) ->
   no_key (w_gui (Desktop.run refuses NUM_CELLS envs restored (trace out.2) w0))).
Proof.
  intros Hpaste Hcopy out. subst out. unfold execute_batch_commands.
  rewrite accepted_text_continues.
  2:{ cbn [outcome Desktop.desktop]. unfold Desktop.step. cbn [perform].
      unfold bindM, on_gui.
      destruct (type_text_Ok refuses t (w_gui (threads (restored (trace st))
        (run (trace st) w0))) (Hpaste _)) as (b & g' & ->). done. }
  cbn [execute_batch_loop ret fst snd trace app]. split; [done |].
  intros Hkey.
  replace (trace st ++ [TypeText t; Settle 0.5])
    with ((trace st ++ [TypeText t]) ++ [Settle 0.5]) by by rewrite <- app_assoc.
  rewrite !run_snoc. unfold Desktop.step at 1. cbn [perform ret snd].
  apply threads_no_key. unfold Desktop.step. cbn [perform].
  unfold bindM, on_gui.
  destruct (type_text refuses t _) as [[b | e] g'] eqn:Hrun; cbn [snd w_gui ret];
    (eapply type_text_refused_no_key; [done | exact Hrun |]);
    by apply threads_no_key.
Qed.

(** [move_mouse_to_ui_element] returns [None] when the answers of
    the model hold no number, and [execute_batch_commands] drops what it
    returns: the command is reported as a success, with the message that
    the pointer was moved to the element, and the pointer is where it
    was. *)
Theorem missed_element_reported_moved name answer result st w0 :
  (forall tr,
     e_stale (envs tr name) = false /\
     e_cell_answer (envs tr name) = Ok answer /\
     e_coordinates_answer (envs tr name) = Ok result) ->
  extract_cell_number_from_llm_response answer = None ->
  read_coordinates result = None ->
  let out :=
    execute_batch_commands (desktop w0)
      [cmd "move_cursor_to_element" [("name", name)]] st in
  out.1 = Ok [Res (JStr "move_cursor_to_element") true
                ("Moved cursor to element " +:+ py_str name)] /\
  position (w_gui (Desktop.run refuses NUM_CELLS envs restored (trace out.2) w0)) =
  position (w_gui (Desktop.run refuses NUM_CELLS envs restored (trace st) w0)).
Proof.
  intros Henv Hcell Hread out. subst out. unfold execute_batch_commands.
  assert (forall tr w,
    Desktop.step refuses NUM_CELLS envs restored tr (MoveMouseToUiElement name) w =
    (Ok tt, threads (restored tr) w)) as Hstep.
  { intros tr w. destruct (Henv tr) as (Hs & Ha & Hc).
    unfold Desktop.step. cbn [perform]. unfold bindM.
    by rewrite (move_mouse_to_ui_element_nothing refuses NUM_CELLS _ _ answer
                  result). }
  rewrite accepted_search_continues
    by (cbn [outcome Desktop.desktop]; by rewrite Hstep).
  cbn [execute_batch_loop ret fst snd trace app]. split; [done |].
  replace (trace st ++ [MoveMouseToUiElement name; Settle 5; Settle 0.5])
    with (((trace st ++ [MoveMouseToUiElement name]) ++ [Settle 5])
            ++ [Settle 0.5]) by by rewrite <- !app_assoc.
  rewrite !run_snoc, Hstep. unfold Desktop.step. cbn [perform ret snd].
  pose proof threads_same as Hsame. unfold same_screen in Hsame.
  by rewrite !(proj1 (Hsame _ _)).
Qed.

End Guarantees.

(** ** Witnesses *)

(** No answer reaches the machine and no thread runs. *)
Definition quiet : env :=
  {| e_stale := false; e_files := None;
     e_readings :=
       {| r_cursor := (960, 540); r_screen := (1920, 1080); r_now := 10;
          r_later := 10.2; r_shot := Some (1920, 1080) |};
     e_cell_answer := Ok (text_of "I cannot see it.");
     e_coordinates_answer := Ok (text_of "I cannot see it.") |}.

Definition always_quiet (tr : list call) (name : json) : env := quiet.
Definition none_restored (tr : list call) : nat := 0%nat.

(** A machine without a clipboard tool: pyperclip reads an empty
    clipboard and refuses to copy. *)
Definition no_clipboard (g : gui) (c : gui_call) : option exn :=
  match c with
  | ClipCopy _ => Some (Exception "PyperclipException")
  | _ => None
  end.

(** The machine of the examples, and where it is after some calls. *)
Definition demo_desktop (refuses : gui -> gui_call -> option exn) : device :=
  @desktop demo_format refuses 500 always_quiet none_restored at_rest.

Definition demo_run (refuses : gui -> gui_call -> option exn)
  (tr : list call) : gui :=
  w_gui (@run demo_format refuses 500 always_quiet none_restored tr at_rest).

(** A move far outside the monitor, a drag to a corner, a click. *)
Definition far_away : list json :=
  [cmd "move_cursor_absolute" [("x", JInt 5000); ("y", JInt (-3))];
   cmd "drag_to" [("x", JInt (-7)); ("y", JInt 4000)];
   demo_click].

Lemma process_commands_on_monitor_witness :
  in_screen
    (demo_run strict
       (trace (@process_commands demo_format (demo_desktop strict) far_away
                 idle).2)).
Proof.
  apply (@process_commands_on_monitor demo_format strict 500 always_quiet
           none_restored far_away idle at_rest).
  - by_compute.
  - intros Hin. vm_compute in Hin.
    repeat (apply elem_of_cons in Hin as [[=] | Hin]).
    by apply elem_of_nil in Hin.
Defined.

Lemma failed_typing_reported_typed_witness :
  let out :=
    @execute_batch_commands demo_format
      (demo_desktop no_clipboard)
      [cmd "enter_text" [("text", JStr "hello")]] idle in
  out.1 = Ok [Res (JStr "enter_text") true "Typed text: hello"] /\
  (no_key (demo_run no_clipboard (trace idle)) ->
   no_key (demo_run no_clipboard (trace out.2))).
Proof.
  apply (@failed_typing_reported_typed demo_format no_clipboard 500
           always_quiet none_restored (JStr "hello") idle at_rest).
  - done.
  - intros g. by eexists.
Defined.

Lemma missed_element_reported_moved_witness :
  let out :=
    @execute_batch_commands demo_format
      (demo_desktop strict)
      [cmd "move_cursor_to_element" [("name", JStr "the OK button")]] idle in
  out.1 = Ok [Res (JStr "move_cursor_to_element") true
                "Moved cursor to element the OK button"] /\
  position (demo_run strict (trace out.2)) =
  position (demo_run strict (trace idle)).
Proof.
  apply (@missed_element_reported_moved demo_format strict 500 always_quiet
           none_restored (JStr "the OK button") (text_of "I cannot see it.")
           (text_of "I cannot see it.") idle at_rest).
  - done.
  - reflexivity.
  - reflexivity.
Defined.

(** The three commands of [far_away] on the strict desktop: both targets
    are clamped to the 1920 x 1080 monitor, and all three succeed. *)
Example far_away_is_clamped :
  let out :=
    @process_commands demo_format
      (demo_desktop strict)
      far_away idle in
  map success out.1 = [true; true; true] /\
  sent (demo_run strict (trace out.2)) =
  [GuiMoveTo (JInt 1919) (JInt 0) 0.1;
   GuiDragTo (JInt 0) (JInt 1079) (JStr "left") (JFloat 0.5);
   GuiClick (JStr "left")].
Proof. vm_compute. done. Qed.
