(* ===== verification/Vad.v ===== *)
(** * Vad: the detection of speech in the audio stream

    [VoiceInputProcessor.audio_callback] of src/services/voice_input.py,
    which sounddevice calls with every block of audio: it accumulates the
    samples, follows the energy of the signal through the two states
    "silent" and "recording", and puts a finished recording on the queue of
    the transcription thread.

    Samples and times are rationals; the clock reading of each call is an
    argument.  The fields of the processor that the callback reads and
    writes are the record [vad]; the thresholds set in [__init__] are the
    record [settings]. *)

From S2P Require Import Prelude.
From Stdlib Require Import QArith Qabs Lqa.
#[local] Close Scope Q_scope.

(** ** The processor *)

Record settings : Type := Settings {
  vad_threshold : Q;
  silence_duration : Q;
  max_record_duration : Q;
  min_speech_duration : Q;
}.

(** The values [__init__] gives them. *)
Definition init_settings (vad_threshold : Q) : settings :=
  {| vad_threshold := vad_threshold; silence_duration := 0.3;
     max_record_duration := 3.0; min_speech_duration := 0.2 |}.

Record vad : Type := Vad {
  audio_buffer : list Q;
  last_speech_time : Q;
  recording_start_time : Q;
  is_recording : bool;
  audio_queue : list (list Q);        (* oldest first *)
  processing_indicator : bool;
}.

(** The fields as [__init__] leaves them. *)
Definition init_vad : vad :=
  {| audio_buffer := []; last_speech_time := 0; recording_start_time := 0;
     is_recording := false; audio_queue := []; processing_indicator := false |}.

(** ** A block of audio *)

(** A two-dimensional array: [shape[1]] channels, one row per frame. *)
Record block : Type := Block {
  channels : nat;
  rows : list (list Q);
}.

Definition Qsum (l : list Q) : Q := foldr Qplus 0%Q l.

(** [np.mean(l)] of a list that is not empty. *)
Definition mean (l : list Q) : Q := (Qsum l / inject_Z (Z.of_nat (length l)))%Q.

(** [np.mean(audio_data, axis=1)] for several channels, [flatten()] for
    one. *)
Definition mono (indata : block) : list Q :=
  if (1 <? channels indata)%nat then map mean (rows indata)
  else concat (rows indata).

(** [energy > self.vad_threshold], where [energy] is the mean of the
    absolute values; the mean of no sample is not a number and exceeds
    nothing. *)
Definition loud (cfg : settings) (audio_data : list Q) : bool :=
  match audio_data with
  | [] => false
  | _ => negb (Qle_bool (mean (map Qabs audio_data)) (vad_threshold cfg))
  end.

(** ** The callback *)

(** [if energy > self.vad_threshold: ...] *)
Definition on_energy (cfg : settings) (audio_data : list Q) (current_time : Q)
  (s : vad) : vad :=
  if loud cfg audio_data then
    {| audio_buffer := audio_buffer s;
       last_speech_time := current_time;
       recording_start_time :=
         if is_recording s then recording_start_time s else current_time;
       is_recording := true;
       audio_queue := audio_queue s;
       processing_indicator := processing_indicator s |}
  else s.

(** The recording is to end: too long a silence or too long a
    recording. *)
Definition finished (cfg : settings) (current_time : Q) (s : vad) : bool :=
  Qle_bool (silence_duration cfg) (current_time - last_speech_time s)%Q
  || Qle_bool (max_record_duration cfg) (current_time - recording_start_time s)%Q.

(** [if self.is_recording: ...] *)
Definition on_recording (cfg : settings) (current_time : Q) (s : vad) : vad :=
  if is_recording s && finished cfg current_time s then
    if Qle_bool (min_speech_duration cfg)
         (current_time - recording_start_time s)%Q
    then
      {| audio_buffer := []; last_speech_time := last_speech_time s;
         recording_start_time := recording_start_time s;
         is_recording := false;
         audio_queue := audio_queue s ++ [audio_buffer s];
         processing_indicator := true |}
    else
      {| audio_buffer := []; last_speech_time := last_speech_time s;
         recording_start_time := recording_start_time s;
         is_recording := false;
         audio_queue := audio_queue s;
         processing_indicator := processing_indicator s |}
  else s.

(** [self.audio_buffer.extend(audio_data.tolist())] *)
Definition extend (audio_data : list Q) (s : vad) : vad :=
  {| audio_buffer := audio_buffer s ++ audio_data;
     last_speech_time := last_speech_time s;
     recording_start_time := recording_start_time s;
     is_recording := is_recording s;
     audio_queue := audio_queue s;
     processing_indicator := processing_indicator s |}.

Definition audio_callback (cfg : settings) (indata : block) (current_time : Q)
  (s : vad) : vad :=
  let audio_data := mono indata in
  on_recording cfg current_time
    (on_energy cfg audio_data current_time (extend audio_data s)).

(** The callback on a sequence of blocks, each with the time at which it
    is delivered. *)
Definition feed (cfg : settings) (blocks : list (block * Q)) (s : vad) : vad :=
  foldl (fun s b => audio_callback cfg b.1 b.2 s) s blocks.

(** ** Order tests *)

Lemma Qle_bool_false x y : Qle_bool x y = false <-> (y < x)%Q.
Proof.
  rewrite <- not_true_iff_false, Qle_bool_iff. split.
  - apply Qnot_le_lt.
  - apply Qlt_not_le.
Qed.

(** Turns the order tests of the goal and of the hypotheses into
    inequalities. *)
Ltac q_tests :=
  repeat match goal with
  | H : Qle_bool _ _ = true |- _ => apply Qle_bool_iff in H
  | H : Qle_bool _ _ = false |- _ => apply Qle_bool_false in H
  | |- Qle_bool _ _ = true => apply Qle_bool_iff
  | |- Qle_bool _ _ = false => apply Qle_bool_false
  end.

(** Evaluates the fields of a state written out. *)
Ltac fields :=
  cbn [audio_buffer last_speech_time recording_start_time is_recording
       audio_queue processing_indicator andb orb negb fst snd] in *.

(** ** One call *)

Section Callback.
Context (cfg : settings).

(** The recording in progress began before the last speech, which is not
    in the future. *)
Definition vad_inv (now : Q) (s : vad) : Prop :=
  is_recording s = true ->
  (recording_start_time s <= last_speech_time s)%Q /\
  (last_speech_time s <= now)%Q.

(** A recording that goes on after a call is within both limits. *)
Definition within_limits (now : Q) (s : vad) : Prop :=
  is_recording s = true ->
  (now - last_speech_time s < silence_duration cfg)%Q /\
  (now - recording_start_time s < max_record_duration cfg)%Q.

Lemma vad_inv_init now : vad_inv now init_vad.
Proof. by intros ?. Qed.

Lemma vad_inv_mono t now s : (t <= now)%Q -> vad_inv t s -> vad_inv now s.
Proof. intros Ht Hinv Hrec. destruct (Hinv Hrec). split; [done | lra]. Qed.

(** After every call, a recording that is still going on began
    before the last speech was heard, has been silent for less than
    [silence_duration] and has lasted less than [max_record_duration]. *)
Theorem audio_callback_inv indata t now s :
  vad_inv t s -> (t <= now)%Q ->
  vad_inv now (audio_callback cfg indata now s) /\
  within_limits now (audio_callback cfg indata now s).
Proof.
  intros Hinv Ht. apply (vad_inv_mono t now) in Hinv; [| done].
  unfold audio_callback, on_recording, on_energy, finished, vad_inv,
    within_limits in *.
  unfold extend. fields.
  destruct (loud cfg (mono indata)), (is_recording s) eqn:Hrec; fields;
    try (split; intros; done).
  all: destruct (Qle_bool (silence_duration cfg) _) eqn:Hsil; fields;
    [destruct (Qle_bool (min_speech_duration cfg) _); fields;
       split; intros; done |].
  all: destruct (Qle_bool (max_record_duration cfg) _) eqn:Hmax; fields;
    [destruct (Qle_bool (min_speech_duration cfg) _); fields;
       split; intros; done |].
  all: q_tests; try destruct (Hinv eq_refl); split; intros _; split; lra.
Qed.

(** What one call does when the recording goes on or nothing is being
    recorded: the samples are added to the buffer. *)
Lemma audio_callback_going indata now s :
  is_recording (audio_callback cfg indata now s) = true ->
  audio_buffer (audio_callback cfg indata now s) =
    audio_buffer s ++ mono indata /\
  audio_queue (audio_callback cfg indata now s) = audio_queue s /\
  processing_indicator (audio_callback cfg indata now s) =
    processing_indicator s.
Proof.
  unfold audio_callback, on_recording, on_energy, extend. fields.
  destruct (loud cfg (mono indata)), (is_recording s); fields;
    try destruct (finished _ _ _); fields;
    try destruct (Qle_bool (min_speech_duration cfg) _); fields; done.
Qed.

(** While nothing is being recorded and the blocks are not loud, the
    callback keeps adding their samples to the buffer and changes nothing
    else: the buffer grows with the silence, and the silence will be the
    beginning of the next recording. *)
Theorem silence_accumulates blocks s :
  is_recording s = false ->
  Forall (fun b => loud cfg (mono b.1) = false) blocks ->
  feed cfg blocks s =
  {| audio_buffer := audio_buffer s ++ concat (map (fun b => mono b.1) blocks);
     last_speech_time := last_speech_time s;
     recording_start_time := recording_start_time s;
     is_recording := false;
     audio_queue := audio_queue s;
     processing_indicator := processing_indicator s |}.
Proof.
  intros Hrec Hquiet. revert s Hrec.
  induction Hquiet as [| b blocks Hb _ IH]; intros s Hrec.
  - destruct s. fields. cbn [feed foldl map concat]. by rewrite app_nil_r, Hrec.
  - assert (audio_callback cfg b.1 b.2 s = extend (mono b.1) s) as Hstep.
    { unfold audio_callback, on_energy, on_recording. rewrite Hb.
      unfold extend. fields. by rewrite Hrec. }
    unfold feed in *. cbn [foldl map concat]. rewrite Hstep, IH by done.
    unfold extend. fields. by rewrite <- app_assoc.
Qed.

End Callback.

(** ** The end of a recording *)

Section Ending.
Context (cfg : settings).
Context (Hmin_sil : (min_speech_duration cfg <= silence_duration cfg)%Q).
Context (Hmin_max : (min_speech_duration cfg <= max_record_duration cfg)%Q).

(** C35: with a [min_speech_duration] that is not above the two limits,
    as [__init__] sets it, a recording that ends is always put on the
    queue together with everything the buffer held: by the time the
    silence has lasted [silence_duration] the recording has lasted as
    long, so the branch that discards a recording as too short is never
    taken. *)
Theorem ended_recording_is_queued indata t now s :
  vad_inv t s -> (t <= now)%Q ->
  is_recording s = true \/ loud cfg (mono indata) = true ->
  is_recording (audio_callback cfg indata now s) = false ->
  audio_queue (audio_callback cfg indata now s) =
    audio_queue s ++ [audio_buffer s ++ mono indata] /\
  audio_buffer (audio_callback cfg indata now s) = [] /\
  processing_indicator (audio_callback cfg indata now s) = true.
Proof.
  intros Hinv Ht Hon. apply (vad_inv_mono t now) in Hinv; [| done].
  unfold audio_callback, on_recording, on_energy, finished, vad_inv, extend
    in *.
  fields.
  destruct (loud cfg (mono indata)), (is_recording s) eqn:Hrec; fields;
    try (by destruct Hon); try destruct (Hinv eq_refl) as [? ?].
  all: destruct (Qle_bool (silence_duration cfg) _) eqn:Hsil; fields;
    [| destruct (Qle_bool (max_record_duration cfg) _) eqn:Hmax; fields;
       [| done]].
  all: destruct (Qle_bool (min_speech_duration cfg) _) eqn:Hdur; fields;
    [done |]; q_tests; lra.
Qed.

End Ending.

(** ** A burst of speech *)

Section Burst.
Context (cfg : settings).

(** When speech was last heard, after the block [b]. *)
Definition heard (last : Q) (b : block * Q) : Q :=
  if loud cfg (mono b.1) then b.2 else last.

(** The recording begun at [start], with speech last heard at [last],
    goes on through all the [blocks]: at each of them the silence and the
    recording are below their limits. *)
Fixpoint goes_on (start last : Q) (blocks : list (block * Q)) : bool :=
  match blocks with
  | [] => true
  | b :: bs =>
      negb (Qle_bool (silence_duration cfg) (b.2 - heard last b)%Q)
      && negb (Qle_bool (max_record_duration cfg) (b.2 - start)%Q)
      && goes_on start (heard last b) bs
  end.

(** Speech last heard after all the [blocks]. *)
Definition heard_all (last : Q) (blocks : list (block * Q)) : Q :=
  foldl heard last blocks.

Definition samples (blocks : list (block * Q)) : list Q :=
  concat (map (fun b => mono b.1) blocks).

Lemma samples_cons b blocks : samples (b :: blocks) = mono b.1 ++ samples blocks.
Proof. done. Qed.

Lemma samples_app l k : samples (l ++ k) = samples l ++ samples k.
Proof. unfold samples. by rewrite map_app, concat_app. Qed.

(** A block during a recording that goes on. *)
Lemma audio_callback_goes_on b s :
  is_recording s = true ->
  goes_on (recording_start_time s) (last_speech_time s) [b] = true ->
  audio_callback cfg b.1 b.2 s =
  {| audio_buffer := audio_buffer s ++ mono b.1;
     last_speech_time := heard (last_speech_time s) b;
     recording_start_time := recording_start_time s;
     is_recording := true;
     audio_queue := audio_queue s;
     processing_indicator := processing_indicator s |}.
Proof.
  intros Hrec. cbn [goes_on]. rewrite andb_true_r, andb_true_iff, !negb_true_iff.
  intros [Hsil Hmax].
  unfold audio_callback, on_recording, on_energy, finished, heard, extend in *.
  fields. rewrite Hrec. destruct (loud cfg (mono b.1)); fields;
    rewrite ?Hrec, Hsil, Hmax; fields; by rewrite ?Hrec.
Qed.

Lemma feed_goes_on blocks s :
  is_recording s = true ->
  goes_on (recording_start_time s) (last_speech_time s) blocks = true ->
  feed cfg blocks s =
  {| audio_buffer := audio_buffer s ++ samples blocks;
     last_speech_time := heard_all (last_speech_time s) blocks;
     recording_start_time := recording_start_time s;
     is_recording := true;
     audio_queue := audio_queue s;
     processing_indicator := processing_indicator s |}.
Proof.
  revert s. induction blocks as [| b blocks IH]; intros s Hrec Hgo.
  - destruct s. fields. cbn. by rewrite app_nil_r, Hrec.
  - cbn [goes_on] in Hgo. apply andb_true_iff in Hgo as [Hb Hgo].
    unfold feed in *. cbn [foldl]. rewrite audio_callback_goes_on;
      [| done | by cbn [goes_on]; rewrite Hb].
    rewrite IH; fields; [| done..].
    by rewrite samples_cons, app_assoc.
Qed.

End Burst.

Section Segment.
Context (cfg : settings).
Context (Hmin_sil : (min_speech_duration cfg <= silence_duration cfg)%Q).
Context (Hmin_max : (min_speech_duration cfg <= max_record_duration cfg)%Q).
Context (Hsil : (0 < silence_duration cfg)%Q).
Context (Hmax : (0 < max_record_duration cfg)%Q).

(** The times of the blocks do not decrease, from [t] on. *)
Fixpoint ordered (t : Q) (blocks : list (block * Q)) : Prop :=
  match blocks with
  | [] => True
  | b :: bs => (t <= b.2)%Q /\ ordered b.2 bs
  end.

(** The time of the last block. *)
Definition end_time (t : Q) (blocks : list (block * Q)) : Q :=
  foldl (fun _ b => b.2) t blocks.

Lemma heard_all_bounds t0 last t blocks :
  (t0 <= last)%Q -> (last <= t)%Q -> ordered t blocks ->
  (t0 <= heard_all cfg last blocks)%Q /\
  (heard_all cfg last blocks <= end_time t blocks)%Q.
Proof.
  revert last t. induction blocks as [| b blocks IH]; intros last t H0 Ht Hord.
  - done.
  - destruct Hord as [Hb Hord]. unfold heard_all, end_time in *. cbn [foldl].
    apply IH; [| | done]; unfold heard; destruct (loud _ _); lra.
Qed.

(** The first loud block after a silence starts a recording. *)
Lemma audio_callback_starts b s :
  is_recording s = false -> loud cfg (mono b.1) = true ->
  audio_callback cfg b.1 b.2 s =
  {| audio_buffer := audio_buffer s ++ mono b.1;
     last_speech_time := b.2;
     recording_start_time := b.2;
     is_recording := true;
     audio_queue := audio_queue s;
     processing_indicator := processing_indicator s |}.
Proof.
  intros Hrec Hloud.
  unfold audio_callback, on_recording, on_energy, finished, extend.
  rewrite Hloud. fields. rewrite Hrec.
  assert (Qle_bool (silence_duration cfg) (b.2 - b.2) = false) as ->
    by (q_tests; lra).
  assert (Qle_bool (max_record_duration cfg) (b.2 - b.2) = false) as ->
    by (q_tests; lra).
  done.
Qed.

(** The block at which a recording that has lasted long enough ends. *)
Lemma audio_callback_ends b s :
  is_recording s = true ->
  (silence_duration cfg <= b.2 - heard cfg (last_speech_time s) b)%Q \/
  (max_record_duration cfg <= b.2 - recording_start_time s)%Q ->
  (min_speech_duration cfg <= b.2 - recording_start_time s)%Q ->
  audio_callback cfg b.1 b.2 s =
  {| audio_buffer := [];
     last_speech_time := heard cfg (last_speech_time s) b;
     recording_start_time := recording_start_time s;
     is_recording := false;
     audio_queue := audio_queue s ++ [audio_buffer s ++ mono b.1];
     processing_indicator := true |}.
Proof.
  intros Hrec Hend Hlong.
  unfold audio_callback, on_recording, on_energy, finished, heard, extend in *.
  fields. rewrite Hrec.
  assert (Qle_bool (min_speech_duration cfg) (b.2 - recording_start_time s)
          = true) as Hdur by (q_tests; lra).
  destruct (loud cfg (mono b.1)); fields; rewrite ?Hrec; fields;
    rewrite Hdur;
    (destruct Hend as [He | He]; apply Qle_bool_iff in He; rewrite He);
    by rewrite ?orb_true_r.
Qed.

(** C18: a loud block after a silence, blocks during which the silence
    and the recording stay below their limits, and a block at which one
    of them reaches its limit: exactly one recording is put on the queue,
    made of everything the buffer held before and of the samples of all
    these blocks; the buffer is empty again and nothing is being
    recorded. *)
Theorem speech_then_silence first body final s :
  is_recording s = false ->
  loud cfg (mono first.1) = true ->
  goes_on cfg first.2 first.2 body = true ->
  ordered first.2 (body ++ [final]) ->
  (silence_duration cfg <= final.2 - heard cfg (heard_all cfg first.2 body) final)%Q
  \/ (max_record_duration cfg <= final.2 - first.2)%Q ->
  feed cfg (first :: body ++ [final]) s =
  {| audio_buffer := [];
     last_speech_time := heard cfg (heard_all cfg first.2 body) final;
     recording_start_time := first.2;
     is_recording := false;
     audio_queue :=
       audio_queue s ++ [audio_buffer s ++ samples (first :: body ++ [final])];
     processing_indicator := true |}.
Proof.
  intros Hrec Hloud Hgo Hord Hend.
  unfold feed. cbn [foldl]. rewrite foldl_snoc.
  rewrite (audio_callback_starts first s) by done.
  match goal with
  | |- context [foldl ?f ?st body] => change (foldl f st body) with (feed cfg body st)
  end.
  rewrite feed_goes_on by done. fields.
  assert (first.2 <= heard cfg (heard_all cfg first.2 body) final <= final.2)%Q
    as [Hlo Hhi].
  { change (heard cfg (heard_all cfg first.2 body) final)
      with (foldl (heard cfg) (foldl (heard cfg) first.2 body) [final]).
    rewrite <- foldl_app. fold (heard_all cfg first.2 (body ++ [final])).
    destruct (heard_all_bounds first.2 first.2 first.2 (body ++ [final]))
      as [? Hle]; [lra | lra | done |].
    split; [done |]. unfold end_time in Hle. by rewrite foldl_snoc in Hle. }
  rewrite audio_callback_ends; fields; [| done | done | destruct Hend; lra].
  rewrite samples_cons, samples_app, (samples_cons final []).
  unfold samples at 2. cbn [map concat]. by rewrite app_nil_r, <- !app_assoc.
Qed.

End Segment.

(** ** Witnesses

    One channel, blocks of two samples, the threshold 0.05 of the
    constructor's default. *)

Definition cfg0 : settings := init_settings 0.05.

Definition speech : block := {| channels := 1; rows := [[0.5%Q]; [(-0.5)%Q]] |}.

Definition hush : block := {| channels := 1; rows := [[0.01%Q]; [(-0.01)%Q]] |}.

(** The state after one loud block at time 0 and a quiet one at 0.2. *)
Definition after_noise : vad := feed cfg0 [(speech, 0%Q); (hush, 0.2%Q)] init_vad.

Lemma audio_callback_inv_witness :
  vad_inv 0.2 (audio_callback cfg0 speech 0.2 init_vad) /\
  within_limits cfg0 0.2 (audio_callback cfg0 speech 0.2 init_vad).
Proof.
  apply (audio_callback_inv cfg0 speech 0 0.2 init_vad);
    [apply vad_inv_init | lra].
Defined.

Lemma silence_accumulates_witness :
  feed cfg0 [(hush, 0%Q); (hush, 0.2%Q)] init_vad =
  {| audio_buffer := [] ++ concat (map (fun b => mono b.1)
                                     [(hush, 0%Q); (hush, 0.2%Q)]);
     last_speech_time := 0; recording_start_time := 0;
     is_recording := false; audio_queue := [];
     processing_indicator := false |}.
Proof.
  apply (silence_accumulates cfg0 [(hush, 0%Q); (hush, 0.2%Q)] init_vad);
    [reflexivity | by repeat constructor].
Defined.

(** A single loud block, 0.2 s of audio at most, is put on the queue with
    the silence that follows it. *)
Lemma ended_recording_is_queued_witness :
  audio_queue (audio_callback cfg0 hush 0.4 after_noise) =
    audio_queue after_noise ++ [audio_buffer after_noise ++ mono hush] /\
  audio_buffer (audio_callback cfg0 hush 0.4 after_noise) = [] /\
  processing_indicator (audio_callback cfg0 hush 0.4 after_noise) = true.
Proof.
  apply (ended_recording_is_queued cfg0) with (t := 0.2%Q);
    [simpl; lra | simpl; lra | | lra | by left | by vm_compute].
  intros _. vm_compute. split; discriminate.
Defined.

Lemma speech_then_silence_witness :
  feed cfg0 ((speech, 0%Q) :: [(speech, 0.2%Q); (hush, 0.4%Q)] ++ [(hush, 0.6%Q)])
    init_vad =
  {| audio_buffer := [];
     last_speech_time :=
       heard cfg0 (heard_all cfg0 0 [(speech, 0.2%Q); (hush, 0.4%Q)])
         (hush, 0.6%Q);
     recording_start_time := 0;
     is_recording := false;
     audio_queue :=
       [] ++ [[] ++ samples ((speech, 0%Q) ::
                [(speech, 0.2%Q); (hush, 0.4%Q)] ++ [(hush, 0.6%Q)])];
     processing_indicator := true |}.
Proof.
  apply (speech_then_silence cfg0);
    [simpl; lra | simpl; lra | simpl; lra | simpl; lra
    | reflexivity | by vm_compute | by vm_compute | | ].
  - cbn [ordered app snd]. repeat split; lra.
  - left. vm_compute. discriminate.
Defined.

(** Two seconds of speech in blocks of 200 ms, then silence: one
    recording of twelve blocks, the two quiet ones included, is queued at
    time 2.2. *)
Example two_seconds_of_speech :
  let times := [0; 0.2; 0.4; 0.6; 0.8; 1; 1.2; 1.4; 1.6; 1.8]%Q in
  let s := feed cfg0 (map (pair speech) times ++ [(hush, 2%Q); (hush, 2.2%Q)])
             init_vad in
  map length (audio_queue s) = [24] /\ is_recording s = false /\
  audio_buffer s = [].
Proof. by vm_compute. Qed.
