(* ===== verification/Transcribe.v ===== *)
(** * Transcribe: the threads of the voice processor

    The rest of [VoiceInputProcessor] of src/services/voice_input.py: the
    constructor, with the imports that look for Whisper; the thread of
    [process_audio_queue], which takes the recordings that
    [audio_callback] (file Vad) has queued and hands each one to a pool of
    two workers; the workers, which run [_transcribe_audio]; and the
    methods the agent calls ([start], [stop], [get_transcription],
    [get_all_transcriptions], [is_processing]).

    The processor is a record; every thread acts on it by atomic steps,
    named by a [label]: one pass of the loop of [process_audio_queue] is
    the step [Take] followed by [Collect], or the step [Empty] when the
    queue has nothing; a worker acts by [Work] (it takes the next item of
    the pool) and [Finish] (its call of [_transcribe_audio] returns or
    raises).  An execution is a list of labels, [acts] applies it and
    gathers what the agent was handed.  Whisper is the parameter
    [transcribe].

    The pool is [concurrent.futures.ThreadPoolExecutor(max_workers=2)]:
    the futures it was given, oldest first, each [Pending], [Running],
    [Finished] or [Cancelled]; [self.futures] holds indices into it.
    [Future.cancel()] cancels a pending future and leaves any other as it
    is; [Future.result()] of a cancelled future raises [CancelledError],
    which is an [Exception]. *)

From S2P Require Import Prelude PyValue Extract Vad.
From Stdlib Require Import QArith Qabs.
#[local] Close Scope Q_scope.

(** ** The pool and its futures *)

Inductive status : Type :=
| Pending
| Running
| Finished (r : result (option text))
| Cancelled.

Record future : Type := Future {
  audio : list Q;
  state_of : status;
}.

(** [future.done()] *)
Definition done (f : future) : bool :=
  match state_of f with
  | Finished _ | Cancelled => true
  | Pending | Running => false
  end.

(** [future.cancel()] *)
Definition cancel (f : future) : future :=
  match state_of f with
  | Pending => {| audio := audio f; state_of := Cancelled |}
  | _ => f
  end.

(** [for future in self.futures: future.cancel()]; the test
    [if not future.done()] of line 152 changes nothing, a future that is
    done stays as it is. *)
Definition cancel_all (ids : list nat) (pool : list future) : list future :=
  foldr (fun id pool => alter cancel id pool) pool ids.

(** [future.result()] of a future that is done. *)
Definition result_of (f : future) : result (option text) :=
  match state_of f with
  | Finished r => r
  | _ => Raise (Exception "CancelledError")
  end.

(** What the loop passes on for a future that is done: the value of
    [future.result()] when it is a string that is not empty. *)
Definition transcript (f : future) : option text :=
  match result_of f with
  | Ok (Some transcription) =>
      if bool_decide (transcription = []) then None else Some transcription
  | _ => None
  end.

(** The workers that are busy, and the next item of the work queue. *)
Definition running (f : future) : bool :=
  match state_of f with
  | Running => true
  | _ => false
  end.

Definition busy (pool : list future) : nat :=
  length (filter (fun f => running f) pool).

Fixpoint next_item (pool : list future) : option nat :=
  match pool with
  | [] => None
  | f :: pool =>
      match state_of f with
      | Pending => Some 0
      | _ => S <$> next_item pool
      end
  end.

Definition max_workers : nat := 2.

(** ** The processor *)

(** Where the thread of [process_audio_queue] is: not started or ended,
    at [self.audio_queue.get], or before the collection of lines
    158-172. *)
Inductive pc : Type := NoThread | AtGet | AtCollect.

#[export] Instance pc_eq_dec : EqDecision pc.
Proof. solve_decision. Defined.

Record processor : Type := Processor {
  mic : vad;                    (* the fields [audio_callback] works on *)
  is_running : bool;
  stream : bool;                (* the input stream is started *)
  thread : pc;
  shut : bool;                  (* [self.executor.shutdown] was called *)
  pool : list future;
  futures : list nat;
  text_queue : list text;       (* oldest first *)
  callback : bool;              (* a callback was given *)
  callback_calls : list text;
}.

(** [__init__], lines 50-71. *)
Definition init_processor (callback : bool) : processor :=
  {| mic := init_vad; is_running := false; stream := false;
     thread := NoThread; shut := false; pool := []; futures := [];
     text_queue := []; callback := callback; callback_calls := [] |}.

(** What the machine has of Whisper and of PyTorch. *)
Record whisper_env : Type := WhisperEnv {
  (* [import openai.whisper], [from openai import whisper], [import whisper]:
     whether each succeeds *)
  whisper_imports : bool * bool * bool;
  cuda_is_available : bool;        (* [torch.cuda.is_available()] *)
  (* what [whisper.load_model(model_name, device=device)] raises *)
  load_model : string -> string -> option exn;
}.

(** Lines 11-21: the module that is bound to [whisper], the first of the
    three that can be imported, or [None]. *)
Definition whisper_module (w : whisper_env) : option string :=
  let '(first, second, third) := whisper_imports w in
  if first : bool then Some "openai.whisper"%string
  else if second : bool then Some "openai.whisper"%string
  else if third : bool then Some "whisper"%string
  else None.

(** Lines 39-43: what [__init__] keeps of its arguments. *)
Record voice_settings : Type := VoiceSettings {
  vs_model_name : string;
  vs_language : string;
  vs_sample_rate : Z;
  vs_device : string;
  vs_use_fp16 : bool;
}.

(** Line 42: the device that was asked for, or CUDA when it is there. *)
Definition device_for (w : whisper_env) (device : option string) : string :=
  match device with
  | Some (String _ _ as device) => device
  | _ => (if cuda_is_available w then "cuda" else "cpu")%string
  end.

(** [VoiceInputProcessor(model_name, language, sample_rate, device,
    callback=callback)], lines 24-71: without Whisper an [ImportError];
    else the model is loaded, and the processor is that of
    [init_processor]. *)
Definition VoiceInputProcessor (w : whisper_env) (model_name language : string)
  (sample_rate : Z) (device : option string) (callback : bool)
  : result (voice_settings * processor) :=
  match whisper_module w with
  | None =>
      Raise (Exception "Модуль Whisper не найден. Голосовой ввод отключён.")
  | Some _ =>
      let device := device_for w device in
      match load_model w model_name device with
      | Some e => Raise e
      | None =>
          Ok ({| vs_model_name := model_name; vs_language := language;
                 vs_sample_rate := sample_rate; vs_device := device;
                 vs_use_fp16 := bool_decide (device = "cuda"%string) |},
              init_processor callback)
      end
  end.

Definition on_mic (f : vad -> vad) (p : processor) : processor :=
  {| mic := f (mic p); is_running := is_running p; stream := stream p;
     thread := thread p; shut := shut p; pool := pool p;
     futures := futures p; text_queue := text_queue p;
     callback := callback p; callback_calls := callback_calls p |}.

Definition at_pc (t : pc) (p : processor) : processor :=
  {| mic := mic p; is_running := is_running p; stream := stream p;
     thread := t; shut := shut p; pool := pool p; futures := futures p;
     text_queue := text_queue p; callback := callback p;
     callback_calls := callback_calls p |}.

Definition with_work (pool : list future) (futures : list nat)
  (p : processor) : processor :=
  {| mic := mic p; is_running := is_running p; stream := stream p;
     thread := thread p; shut := shut p; pool := pool; futures := futures;
     text_queue := text_queue p; callback := callback p;
     callback_calls := callback_calls p |}.

(** [self.text_queue.put(transcription)] and the call of the callback,
    for each text. *)
Definition put (texts : list text) (p : processor) : processor :=
  {| mic := mic p; is_running := is_running p; stream := stream p;
     thread := thread p; shut := shut p; pool := pool p;
     futures := futures p; text_queue := text_queue p ++ texts;
     callback := callback p;
     callback_calls :=
       if callback p then callback_calls p ++ texts else callback_calls p |}.

(** [self.audio_queue.get()] took the first recording. *)
Definition pop_audio (s : vad) : vad :=
  {| audio_buffer := audio_buffer s; last_speech_time := last_speech_time s;
     recording_start_time := recording_start_time s;
     is_recording := is_recording s; audio_queue := tail (audio_queue s);
     processing_indicator := processing_indicator s |}.

(** [self.processing_indicator = False] *)
Definition clear_indicator (s : vad) : vad :=
  {| audio_buffer := audio_buffer s; last_speech_time := last_speech_time s;
     recording_start_time := recording_start_time s;
     is_recording := is_recording s; audio_queue := audio_queue s;
     processing_indicator := false |}.

(** ** The loop of [process_audio_queue] *)

(** [np.max(np.abs(audio_data))]; numpy raises on an empty array. *)
Definition peak (audio_data : list Q) : result Q :=
  match audio_data with
  | [] =>
      Raise (Exception
        "zero-size array to reduction operation maximum which has no identity")
  | x :: l => Ok (foldl (fun m y => if Qle_bool m (Qabs y) then Qabs y else m)
                        (Qabs x) l)
  end.

(** Lines 146-147. *)
Definition normalise (audio_data : list Q) : result (list Q) :=
  match peak audio_data with
  | Ok m =>
      Ok (if Qle_bool m 0 then audio_data
          else map (fun x => (x / m)%Q) audio_data)
  | Raise e => Raise e
  end.

(** Lines 141-156: a recording is taken from the queue; what is still
    pending is cancelled, the recording is submitted, and its future is
    the only one kept.  When something raises, the handler of line 191
    prints it and the loop goes round; [submit] raises once the pool has
    been shut down. *)
Definition take_recording (p : processor) : option processor :=
  match audio_queue (mic p) with
  | [] => None
  | audio_data :: _ =>
      let p := on_mic pop_audio p in
      match normalise audio_data with
      | Raise _ => Some (at_pc AtGet p)
      | Ok audio_data =>
          let pool := cancel_all (futures p) (pool p) in
          if shut p then Some (at_pc AtGet (with_work pool (futures p) p))
          else
            Some (at_pc AtCollect
                    (with_work (pool ++ [Future audio_data Pending])
                       [length pool] p))
      end
  end.

Definition is_done (pool : list future) (id : nat) : bool :=
  match pool !! id with
  | Some f => done f
  | None => false
  end.

(** Lines 158-171, and again 176-189: the futures that are done are
    passed on and dropped. *)
Definition collect (p : processor) : processor :=
  let completed_futures := filter (fun id => is_done (pool p) id) (futures p) in
  let texts := omap (fun id => pool p !! id ≫= transcript) completed_futures in
  put texts
    (with_work (pool p)
       (filter (fun id => id ∉ completed_futures) (futures p)) p).

(** ** The workers *)

Section Workers.
Context (model_name : string).
Context (transcribe : option Z -> list Q -> result text).

(** Lines 119-128: the small models are run with [beam_size=3]. *)
Definition beam_size : option Z :=
  if bool_decide (model_name ∈ ["tiny"; "base"]) then Some 3%Z else None.

(** [_transcribe_audio]: the text Whisper gives, stripped, or [None]
    when nothing is left of it.  The indicator is switched off on the way
    out, unless Whisper raised. *)
Definition transcribe_audio (audio_data : list Q)
  : vad -> result (option text) * vad :=
  fun s =>
    match transcribe beam_size audio_data with
    | Ok result_text =>
        let transcription := strip result_text in
        (Ok (if bool_decide (transcription = []) then None
             else Some transcription),
         clear_indicator s)
    | Raise e => (Raise e, s)
    end.

(** A worker takes the next item, if one of the two is free. *)
Definition work (p : processor) : option processor :=
  if bool_decide (busy (pool p) < max_workers) then
    id ← next_item (pool p);
    f ← pool p !! id;
    Some (with_work (<[id := Future (audio f) Running]> (pool p)) (futures p) p)
  else None.

(** The call of [_transcribe_audio] for future [id] ends. *)
Definition finish (id : nat) (p : processor) : option processor :=
  f ← pool p !! id;
  match state_of f with
  | Running =>
      let '(r, s) := transcribe_audio (audio f) (mic p) in
      Some (on_mic (fun _ => s)
              (with_work (<[id := Future (audio f) (Finished r)]> (pool p))
                 (futures p) p))
  | _ => None
  end.

(** ** The methods *)

(** [start()] *)
Definition start (p : processor) : processor :=
  if is_running p then p
  else
    {| mic := mic p; is_running := true; stream := true; thread := AtGet;
       shut := shut p; pool := pool p; futures := [];
       text_queue := text_queue p; callback := callback p;
       callback_calls := callback_calls p |}.

(** [stop()] *)
Definition stop (p : processor) : processor :=
  if is_running p then
    {| mic := mic p; is_running := false; stream := false;
       thread := thread p; shut := true;
       pool := cancel_all (futures p) (pool p); futures := futures p;
       text_queue := text_queue p; callback := callback p;
       callback_calls := callback_calls p |}
  else p.

(** [get_transcription()], without blocking. *)
Definition get_transcription (p : processor) : option text * processor :=
  match text_queue p with
  | [] => (None, p)
  | t :: rest =>
      (Some t,
       {| mic := mic p; is_running := is_running p; stream := stream p;
          thread := thread p; shut := shut p; pool := pool p;
          futures := futures p; text_queue := rest;
          callback := callback p; callback_calls := callback_calls p |})
  end.

(** [get_all_transcriptions()] *)
Definition get_all_transcriptions (p : processor) : list text * processor :=
  (text_queue p,
   {| mic := mic p; is_running := is_running p; stream := stream p;
      thread := thread p; shut := shut p; pool := pool p;
      futures := futures p; text_queue := [];
      callback := callback p; callback_calls := callback_calls p |}).

(** [is_processing()] *)
Definition is_processing (p : processor) : bool :=
  processing_indicator (mic p).

(** ** Steps and executions *)

Inductive label : Type :=
| Hear (cfg : settings) (indata : block) (current_time : Q)
| Take
| Collect
| Empty
| Exit
| Work
| Finish (id : nat)
| CallStart
| CallStop
| GetOne
| GetAll.

(** The step a label names, when the processor is where the step can be
    made.  A new thread is started only when the previous one has
    ended. *)
Definition act (l : label) (p : processor) : option processor :=
  match l with
  | Hear cfg indata current_time =>
      if stream p then Some (on_mic (audio_callback cfg indata current_time) p)
      else None
  | Take =>
      match thread p with
      | AtGet => if is_running p then take_recording p else None
      | _ => None
      end
  | Empty =>
      match thread p, audio_queue (mic p) with
      | AtGet, [] => if is_running p then Some (collect p) else None
      | _, _ => None
      end
  | Collect =>
      match thread p with
      | AtCollect => Some (at_pc AtGet (collect p))
      | _ => None
      end
  | Exit =>
      match thread p with
      | AtGet => if is_running p then None else Some (at_pc NoThread p)
      | _ => None
      end
  | Work => work p
  | Finish id => finish id p
  | CallStart =>
      if is_running p || bool_decide (thread p = NoThread) then Some (start p)
      else None
  | CallStop => Some (stop p)
  | GetOne => Some (get_transcription p).2
  | GetAll => Some (get_all_transcriptions p).2
  end.

(** What the step hands to the caller. *)
Definition emits (l : label) (p : processor) : list text :=
  match l with
  | GetOne => option_list (get_transcription p).1
  | GetAll => (get_all_transcriptions p).1
  | _ => []
  end.

(** An execution: the texts handed out, and the processor it leaves. *)
Fixpoint acts (ls : list label) (p : processor)
  : option (list text * processor) :=
  match ls with
  | [] => Some ([], p)
  | l :: ls =>
      p' ← act l p;
      '(out, q) ← acts ls p';
      Some (emits l p ++ out, q)
  end.

(** The steps of [ls] that can be made, in their order; a step that
    cannot be made where the processor is, is left out. *)
Definition drive (ls : list label) (p : processor) : processor :=
  foldl (fun p l => default p (act l p)) p ls.

End Workers.

(** * Properties *)

(** ** The constructor *)

(** The constructor raises when Whisper could not be imported, and when
    the model cannot be loaded; in no other case. *)
Lemma VoiceInputProcessor_Raise w model_name language sample_rate device
  callback e :
  VoiceInputProcessor w model_name language sample_rate device callback
  = Raise e <->
  whisper_module w = None /\
    e = Exception "Модуль Whisper не найден. Голосовой ввод отключён." \/
  is_Some (whisper_module w) /\
    load_model w model_name (device_for w device) = Some e.
Proof.
  unfold VoiceInputProcessor. destruct (whisper_module w) as [m |].
  - destruct (load_model w model_name (device_for w device)); split.
    + intros [= <-]. right. eauto.
    + by intros [[? _] | [_ [= <-]]].
    + done.
    + by intros [[? _] | [_ ?]].
  - split; [intros [= <-]; by left |]. intros [[_ ->] | [[? ?] _]]; done.
Qed.

(** Whisper is found when one of the three imports succeeds. *)
Lemma whisper_module_None w :
  whisper_module w = None <-> whisper_imports w = (false, false, false).
Proof.
  unfold whisper_module. destruct (whisper_imports w) as [[[] []] []];
    split; done.
Qed.

(** Half precision is used on CUDA alone, and the device is CUDA when
    none was asked for and CUDA is there. *)
Lemma VoiceInputProcessor_Ok w model_name language sample_rate device
  callback settings p :
  VoiceInputProcessor w model_name language sample_rate device callback
  = Ok (settings, p) ->
  p = init_processor callback /\
  vs_device settings = device_for w device /\
  (vs_use_fp16 settings = true <-> vs_device settings = "cuda"%string) /\
  (device = None -> cuda_is_available w = true ->
   vs_device settings = "cuda"%string).
Proof.
  unfold VoiceInputProcessor. destruct (whisper_module w); [| done].
  destruct (load_model _ _ _); [done |]. intros [= <- <-]. simpl.
  split_and!; [done | done | apply bool_decide_eq_true |].
  intros -> Hc. unfold device_for. by rewrite Hc.
Qed.

(** ** Stripped texts *)

Definition rstrip (t : text) : text := reverse (lstrip (reverse t)).

(** What the text queue holds: a text that is not empty and has no white
    space at its ends. *)
Definition clean (t : text) : Prop := t <> [] /\ strip t = t.

Lemma lstrip_cons c t : is_space c = false -> lstrip (c :: t) = c :: t.
Proof. intros Hc. simpl. by rewrite Hc. Qed.

Lemma lstrip_head t : lstrip t = [] \/ exists c u, lstrip t = c :: u /\ is_space c = false.
Proof.
  induction t as [| c t IH]; simpl; [by left |].
  destruct (is_space c) eqn:Hc; [done | right; eauto].
Qed.

Lemma lstrip_snoc t c : is_space c = false -> lstrip (t ++ [c]) = lstrip t ++ [c].
Proof.
  intros Hc. induction t as [| d t IH]; simpl; [by rewrite Hc |].
  by destruct (is_space d).
Qed.

Lemma rstrip_cons c t : is_space c = false -> rstrip (c :: t) = c :: rstrip t.
Proof.
  intros Hc. unfold rstrip. rewrite reverse_cons, lstrip_snoc by done.
  by rewrite reverse_app.
Qed.

Lemma lstrip_idem t : lstrip (lstrip t) = lstrip t.
Proof.
  destruct (lstrip_head t) as [-> | (c & u & -> & Hc)]; [done |].
  by apply lstrip_cons.
Qed.

Lemma rstrip_idem t : rstrip (rstrip t) = rstrip t.
Proof. unfold rstrip. by rewrite reverse_involutive, lstrip_idem. Qed.

Lemma strip_rstrip t : strip t = rstrip (lstrip t).
Proof. done. Qed.

Lemma strip_idem t : strip (strip t) = strip t.
Proof.
  rewrite !strip_rstrip.
  destruct (lstrip_head t) as [-> | (c & u & -> & Hc)]; [done |].
  rewrite rstrip_cons, lstrip_cons, rstrip_cons by done.
  by rewrite rstrip_idem.
Qed.

Lemma clean_strip t : strip t <> [] -> clean (strip t).
Proof. intros. split; [done | apply strip_idem]. Qed.

(** ** How the pool changes *)

(** The transcripts of a pool, oldest first. *)
Definition transcripts (pool : list future) : list text := omap transcript pool.

(** A future goes on: a transcript it has stays. *)
Definition advances (f f' : future) : Prop :=
  transcript f = None \/ transcript f' = transcript f.

Definition ages : relation (list future) := Forall2 advances.

#[export] Instance advances_refl : Reflexive advances.
Proof. intros f. by right. Qed.

#[export] Instance advances_trans : Transitive advances.
Proof. intros f g h [? | Hg] [Hh | Hh]; unfold advances in *; intuition congruence. Qed.

#[export] Instance ages_refl : Reflexive ages.
Proof. intros l. apply Forall_Forall2_diag, Forall_forall. intros; reflexivity. Qed.

#[export] Instance ages_trans : Transitive ages.
Proof. apply _. Qed.

Lemma ages_alter g i l : (forall f, advances f (g f)) -> ages l (alter g i l).
Proof.
  intros Hg. apply Forall2_alter_r; [reflexivity |].
  intros f f' ? ? ?. by etrans.
Qed.

Lemma ages_insert i f f' l :
  l !! i = Some f -> advances f f' -> ages l (<[i:=f']> l).
Proof.
  intros Hi Hf. rewrite list_insert_alter. apply Forall2_alter_r; [reflexivity |].
  intros x y Hx _ _. by simplify_eq.
Qed.

Lemma transcript_cancel f : transcript (cancel f) = transcript f.
Proof. unfold cancel, transcript, result_of. by destruct (state_of f) eqn:E; simpl; rewrite ?E. Qed.

Lemma running_cancel f : running (cancel f) = running f.
Proof. unfold cancel, running. by destruct (state_of f) eqn:E; simpl; rewrite ?E. Qed.

Lemma ages_cancel_all ids l : ages l (cancel_all ids l).
Proof.
  induction ids as [| id ids IH]; simpl; [reflexivity |].
  etrans; [apply IH |]. apply ages_alter. intros f. right. apply transcript_cancel.
Qed.

Lemma length_cancel_all ids l : length (cancel_all ids l) = length l.
Proof. induction ids; simpl; [done |]. by rewrite length_alter. Qed.

Lemma sublist_omap {A B} (f : A -> option B) l k :
  l `sublist_of` k -> omap f l `sublist_of` omap f k.
Proof.
  induction 1 as [| x l k _ IH | x l k _ IH]; simpl; [done | |];
    destruct (f x); try done; by constructor.
Qed.

Lemma ages_transcripts l l' : ages l l' -> transcripts l `sublist_of` transcripts l'.
Proof.
  unfold transcripts.
  induction 1 as [| f f' l l' [Hf | Hf] _ IH]; simpl; [done | |].
  - rewrite Hf. destruct (transcript f'); [by constructor | done].
  - rewrite Hf. destruct (transcript f); [by constructor | done].
Qed.

Lemma transcripts_take_le a b l :
  a <= b -> transcripts (take a l) `sublist_of` transcripts (take b l).
Proof.
  intros. apply sublist_omap.
  replace (take a l) with (take a (take b l)) by (rewrite take_take; f_equal; lia).
  apply sublist_take.
Qed.

(** ** The workers that are busy *)

Definition b2n (b : bool) : nat := if b then 1 else 0.

Lemma busy_cons f l : busy (f :: l) = b2n (running f) + busy l.
Proof. unfold busy. rewrite filter_cons. by destruct (running f). Qed.

Lemma busy_snoc l f : busy (l ++ [f]) = busy l + b2n (running f).
Proof.
  unfold busy. rewrite filter_app, length_app. f_equal.
  rewrite filter_cons. by destruct (running f).
Qed.

Lemma busy_insert i l f f' :
  l !! i = Some f -> busy (<[i:=f']> l) + b2n (running f) = busy l + b2n (running f').
Proof.
  revert i. induction l as [| g l IH]; intros [| i] Hi; simplify_eq/=.
  - rewrite !busy_cons. lia.
  - rewrite !busy_cons. specialize (IH _ Hi). lia.
Qed.

Lemma busy_alter_cancel i l : busy (alter cancel i l) = busy l.
Proof.
  revert i. induction l as [| g l IH]; intros [| i]; simpl; try done.
  - by rewrite !busy_cons, running_cancel.
  - rewrite !busy_cons. f_equal. apply IH.
Qed.

Lemma busy_cancel_all ids l : busy (cancel_all ids l) = busy l.
Proof. induction ids as [| id ids IH]; simpl; [done |]. by rewrite busy_alter_cancel. Qed.

Lemma next_item_Some l i :
  next_item l = Some i -> exists f, l !! i = Some f /\ state_of f = Pending.
Proof.
  revert i. induction l as [| g l IH]; intros i Hi; simplify_eq/=.
  destruct (state_of g) eqn:E; simplify_eq/=; eauto;
    destruct (next_item l) as [j |]; simplify_eq/=; eauto.
Qed.

(** ** The shape of the processor *)

(** [self.futures] holds at most the future submitted last. *)
Definition newest (p : processor) : Prop :=
  futures p = [] \/ exists id, futures p = [id] /\ S id = length (pool p).

Definition has_clean (f : future) : Prop :=
  forall t, transcript f = Some t -> clean t.

(** The invariant of the processor: [self.futures] holds at most the
    newest future, at most two workers are busy, and every text that is
    passed on is clean. *)
Record orderly (p : processor) : Prop := Orderly {
  o_newest : newest p;
  o_busy : busy (pool p) <= max_workers;
  o_queue : Forall clean (text_queue p);
  o_pool : Forall has_clean (pool p);
}.

Lemma put_nil p : put [] p = p.
Proof. destruct p as [? ? ? ? ? ? ? ? []]; unfold put; simpl; by rewrite !app_nil_r. Qed.

Lemma with_work_same p l : futures p = l -> with_work (pool p) l p = p.
Proof. intros <-. by destruct p. Qed.

(** What the collection does, future by future. *)
Lemma collect_none p : futures p = [] -> collect p = p.
Proof.
  intros Hf. unfold collect. rewrite Hf. simpl. rewrite put_nil.
  by apply with_work_same.
Qed.

Lemma collect_waiting p id :
  futures p = [id] -> is_done (pool p) id = false -> collect p = p.
Proof.
  intros Hf Hd. unfold collect. rewrite Hf.
  rewrite !filter_cons, !filter_nil, Hd. simpl.
  rewrite put_nil. by apply with_work_same.
Qed.

Lemma collect_done p id f :
  futures p = [id] -> pool p !! id = Some f -> done f = true ->
  collect p = put (option_list (transcript f)) (with_work (pool p) [] p).
Proof.
  intros Hf Hi Hd. unfold collect, is_done. rewrite Hf.
  rewrite !filter_cons, !filter_nil, Hi, Hd. simpl.
  rewrite decide_False by set_solver. rewrite Hi. simpl.
  by destruct (transcript f).
Qed.

(** The three cases of a collection. *)
Lemma collect_cases p :
  newest p ->
  collect p = p \/
  exists id f, futures p = [id] /\ pool p !! id = Some f /\ done f = true /\
    S id = length (pool p) /\
    collect p = put (option_list (transcript f)) (with_work (pool p) [] p).
Proof.
  intros [Hf | (id & Hf & Hlen)]; [left; by apply collect_none |].
  destruct (pool p !! id) as [f |] eqn:Hi;
    [| apply lookup_ge_None in Hi; lia].
  destruct (done f) eqn:Hd.
  - right. exists id, f. split_and!; eauto using collect_done.
  - left. apply (collect_waiting p id); [done |]. unfold is_done. by rewrite Hi.
Qed.

Lemma has_clean_cancel_all ids l :
  Forall has_clean l -> Forall has_clean (cancel_all ids l).
Proof.
  intros Hl. induction ids as [| id ids IH]; simpl; [done |].
  apply Forall_alter; [done |]. intros f _ Hf t. rewrite transcript_cancel. apply Hf.
Qed.

Section Orderly.
Context (model_name : string) (transcribe : option Z -> list Q -> result text).

#[local] Abbreviation act := (act model_name transcribe).
#[local] Abbreviation acts := (acts model_name transcribe).
#[local] Abbreviation finish := (finish model_name transcribe).

Lemma orderly_init callback : orderly (init_processor callback).
Proof. split; simpl; [by left | unfold busy; simpl; lia | done | done]. Qed.

Lemma orderly_frame p p' :
  pool p' = pool p -> futures p' = futures p -> text_queue p' = text_queue p ->
  orderly p -> orderly p'.
Proof.
  intros Hp Hf Hq [H1 H2 H3 H4]. split; unfold newest; by rewrite ?Hp, ?Hf, ?Hq.
Qed.

Lemma orderly_take_recording p p' :
  orderly p -> take_recording p = Some p' -> orderly p'.
Proof.
  intros Ho. unfold take_recording.
  destruct (audio_queue (mic p)) as [| a rest]; [done |].
  assert (orderly (on_mic pop_audio p)) as [H1 H2 H3 H4]
    by (by apply (orderly_frame p)). simpl in *.
  destruct (normalise a) as [a' |]; [| intros [= <-]; by split].
  destruct (shut p); intros [= <-]; split; simpl;
    rewrite ?length_app, ?length_cancel_all, ?busy_snoc, ?busy_cancel_all;
    simpl; try done; try lia.
  - unfold newest. simpl. by rewrite length_cancel_all.
  - auto using has_clean_cancel_all.
  - right. eexists. split; [done |]. simpl. rewrite length_app, length_cancel_all. simpl. lia.
  - apply Forall_app. split; [auto using has_clean_cancel_all |].
    by repeat constructor.
Qed.

Lemma orderly_collect p : orderly p -> orderly (collect p).
Proof.
  intros Ho.
  destruct (collect_cases p (o_newest _ Ho))
    as [-> | (id & f & Hf & Hi & Hd & _ & ->)]; [done |].
  destruct Ho as [H1 H2 H3 H4]. split; simpl; [by left | done | | done].
  apply Forall_app. split; [done |].
  pose proof (Forall_lookup_1 _ _ _ _ H4 Hi) as Hc.
  destruct (transcript f) as [t |] eqn:Ht; simpl; [| done].
  constructor; [by apply Hc | done].
Qed.

Lemma orderly_work p p' : orderly p -> work p = Some p' -> orderly p'.
Proof.
  intros [H1 H2 H3 H4]. unfold work. case_bool_decide as Hb; [| done].
  destruct (next_item (pool p)) as [id |] eqn:Hn; [| done]. simpl.
  destruct (next_item_Some _ _ Hn) as (f & Hi & Hs). rewrite Hi. simpl.
  intros [= <-]. split; simpl; unfold newest; simpl; rewrite ?length_insert; try done.
  - pose proof (busy_insert id (pool p) f (Future (audio f) Running) Hi) as Hbusy.
    unfold running in Hbusy at 1 2. rewrite Hs in Hbusy. simpl in *. lia.
  - apply Forall_insert; [done |]. by intros t.
Qed.

Lemma orderly_finish id p p' : orderly p -> finish id p = Some p' -> orderly p'.
Proof.
  intros [H1 H2 H3 H4]. unfold Transcribe.finish.
  destruct (pool p !! id) as [f |] eqn:Hi; [| done]. simpl.
  destruct (state_of f) eqn:Hs; try done.
  destruct (transcribe_audio _ _ _ _) as [r s] eqn:Ht. intros [= <-].
  split; simpl; unfold newest; simpl; rewrite ?length_insert; try done.
  - pose proof (busy_insert id (pool p) f (Future (audio f) (Finished r)) Hi) as Hb.
    simpl in *. lia.
  - apply Forall_insert; [done |]. intros t. unfold transcribe_audio in Ht.
    destruct (transcribe _ _) as [raw |]; simplify_eq; [| done].
    unfold transcript. simpl. repeat case_bool_decide; intros; simplify_eq.
    by apply clean_strip.
Qed.

Lemma orderly_start p : orderly p -> orderly (start p).
Proof.
  intros [H1 H2 H3 H4]. unfold start. destruct (is_running p); [done |].
  split; simpl; [by left | done..].
Qed.

Lemma orderly_stop p : orderly p -> orderly (stop p).
Proof.
  intros [H1 H2 H3 H4]. unfold stop. destruct (is_running p); [| done].
  split; simpl; unfold newest; simpl;
    rewrite ?length_cancel_all, ?busy_cancel_all; auto using has_clean_cancel_all.
Qed.

Lemma orderly_get_transcription p : orderly p -> orderly (get_transcription p).2.
Proof.
  intros Ho. unfold get_transcription.
  destruct (text_queue p) as [| t rest] eqn:Hq; simpl; [done |].
  destruct Ho as [H1 H2 H3 H4]. split; simpl; try done.
  rewrite Hq in H3. by inversion H3.
Qed.

(** Every step keeps the processor orderly. *)
Lemma step_keeps_orderly l p p' : orderly p -> act l p = Some p' -> orderly p'.
Proof.
  intros Ho Hs. destruct l; simpl in Hs; repeat case_match; simplify_eq;
    eauto using orderly_take_recording, orderly_collect, orderly_work,
      orderly_finish, orderly_start, orderly_stop, orderly_get_transcription;
    try (by apply (orderly_frame p));
    try (apply (orderly_frame (collect p)); [done.. |]; by apply orderly_collect).
  by destruct Ho.
Qed.

Lemma run_keeps_orderly ls p out q : orderly p -> acts ls p = Some (out, q) -> orderly q.
Proof.
  revert p out. induction ls as [| l ls IH]; intros p out Ho; simpl.
  - by intros [= _ <-].
  - destruct (act l p) as [p' |] eqn:Hs; [| done]. simpl.
    destruct (acts ls p') as [[out' q'] |] eqn:Hr; [| done]. simpl.
    intros [= _ <-]. eauto using step_keeps_orderly.
Qed.

Lemma drive_keeps_orderly ls p : orderly p -> orderly (drive model_name transcribe ls p).
Proof.
  revert p. induction ls as [| l ls IH]; intros p Ho; simpl; [done |].
  apply IH. destruct (act l p) as [p' |] eqn:Hs; simpl; [| done].
  by eapply step_keeps_orderly.
Qed.

End Orderly.

(** ** What is passed on *)

(** The futures the loop no longer holds. *)
Definition front (p : processor) : nat := length (pool p) - length (futures p).

(** The transcripts of the futures from [k] on that the loop has let go
    of: passed on, or dropped. *)
Definition let_go (k : nat) (p : processor) : list text :=
  transcripts (take (front p - k) (drop k (pool p))).

(** A step from [p] to [p'] that hands out [e] keeps what was handed out
    and what is queued within [base] and the transcripts let go of, in
    their order. *)
Definition delivers (k : nat) (p : processor) (e : list text) (p' : processor)
  : Prop :=
  k <= front p ->
  k <= front p' /\
  forall pre base,
    pre ++ text_queue p `sublist_of` base ++ let_go k p ->
    (pre ++ e) ++ text_queue p' `sublist_of` base ++ let_go k p'.

Lemma let_go_grows k p p' more :
  ages (pool p) (take (length (pool p)) (pool p')) ->
  pool p' = take (length (pool p)) (pool p') ++ more ->
  front p <= front p' ->
  let_go k p `sublist_of` let_go k p'.
Proof.
  intros Hages Hpool Hfront. unfold let_go.
  etrans; [| by apply transcripts_take_le with (a := front p - k); lia].
  set (old := take _ (pool p')) in *. rewrite Hpool.
  assert (length old = length (pool p)) as Hlen
    by (symmetry; by eapply Forall2_length).
  rewrite drop_app, take_app_le by (rewrite length_drop; unfold front; lia).
  by apply ages_transcripts, Forall2_take, Forall2_drop.
Qed.

(** A step that changes the pool in place and passes nothing on. *)
Lemma delivers_frame k p p' :
  ages (pool p) (pool p') -> front p <= front p' ->
  text_queue p' = text_queue p ->
  delivers k p [] p'.
Proof.
  intros Hages Hfront Hq Hk. split; [lia |]. intros pre base Hsub.
  rewrite app_nil_r, Hq. etrans; [done |].
  apply sublist_app; [done |]. apply (let_go_grows k p p' []); [| | done].
  - by rewrite (Forall2_length _ _ _ Hages), firstn_all.
  - by rewrite (Forall2_length _ _ _ Hages), firstn_all, app_nil_r.
Qed.

(** The submission of a recording. *)
Lemma delivers_submit k p p' pool' f :
  ages (pool p) pool' -> pool p' = pool' ++ [f] ->
  futures p' = [length pool'] -> text_queue p' = text_queue p ->
  delivers k p [] p'.
Proof.
  intros Hages Hpool Hf Hq Hk. pose proof (Forall2_length _ _ _ Hages) as Hlen.
  assert (front p <= front p') as Hfront
    by (unfold front; rewrite Hpool, Hf, length_app; simpl; lia).
  split; [lia |]. intros pre base Hsub.
  rewrite app_nil_r, Hq. etrans; [done |].
  apply sublist_app; [done |].
  apply (let_go_grows k p p' [f]); rewrite ?Hpool, ?Hlen, ?take_app_length; done.
Qed.

(** The future that is done is passed on. *)
Lemma let_go_collect k p id f :
  futures p = [id] -> pool p !! id = Some f -> S id = length (pool p) ->
  k <= front p ->
  let_go k (put (option_list (transcript f)) (with_work (pool p) [] p))
  = let_go k p ++ option_list (transcript f).
Proof.
  intros Hf Hi Hlen Hk. unfold let_go, front in *. simpl. rewrite Hf in *.
  simpl in *. replace (length (pool p) - 0 - k) with (S (id - k)) by lia.
  replace (length (pool p) - 1 - k) with (id - k) by lia.
  rewrite (take_S_r _ _ f) by (rewrite lookup_drop, <- Hi; f_equal; lia).
  unfold transcripts. rewrite omap_app. simpl. by destruct (transcript f).
Qed.

Lemma delivers_collect k p : newest p -> delivers k p [] (collect p).
Proof.
  intros Hn.
  destruct (collect_cases p Hn) as [-> | (id & f & Hf & Hi & Hd & Hlen & ->)].
  { by apply delivers_frame. }
  intros Hk. split; [unfold front in *; simpl; rewrite Hf in *; simpl in *; lia |].
  intros pre base Hsub. rewrite (let_go_collect k p id f) by done. simpl.
  rewrite app_nil_r, !app_assoc. by apply sublist_app.
Qed.

Lemma delivers_at_pc k t p e p' : delivers k p e p' -> delivers k p e (at_pc t p').
Proof. done. Qed.

Lemma delivers_on_mic k f p : delivers k p [] (on_mic f p).
Proof. by apply delivers_frame. Qed.

Section Delivery.
Context (model_name : string) (transcribe : option Z -> list Q -> result text).

#[local] Abbreviation act := (act model_name transcribe).
#[local] Abbreviation acts := (acts model_name transcribe).
#[local] Abbreviation finish := (finish model_name transcribe).

Lemma delivers_take_recording k p p' :
  take_recording p = Some p' -> delivers k p [] p'.
Proof.
  unfold take_recording. destruct (audio_queue (mic p)) as [| a rest]; [done |].
  destruct (normalise a) as [a' |]; [| intros [= <-]; by apply delivers_frame].
  simpl. destruct (shut p); intros [= <-].
  - apply delivers_frame; simpl; [apply ages_cancel_all | | done].
    unfold front. simpl. by rewrite length_cancel_all.
  - eapply delivers_submit; simpl; [apply ages_cancel_all | done..].
Qed.

Lemma delivers_work k p p' : work p = Some p' -> delivers k p [] p'.
Proof.
  unfold work. case_bool_decide; [| done].
  destruct (next_item (pool p)) as [id |] eqn:Hn; [| done]. simpl.
  destruct (next_item_Some _ _ Hn) as (f & Hi & Hs). rewrite Hi. simpl.
  intros [= <-]. apply delivers_frame; simpl; [| | done].
  - apply (ages_insert id f); [done |]. left. unfold transcript, result_of. by rewrite Hs.
  - unfold front. simpl. by rewrite length_insert.
Qed.

Lemma delivers_finish k id p p' : finish id p = Some p' -> delivers k p [] p'.
Proof.
  unfold Transcribe.finish. destruct (pool p !! id) as [f |] eqn:Hi; [| done]. simpl.
  destruct (state_of f) eqn:Hs; try done.
  destruct (transcribe_audio _ _ _ _) as [r s]. intros [= <-].
  apply delivers_frame; simpl; [| | done].
  - apply (ages_insert id f); [done |]. left. unfold transcript, result_of. by rewrite Hs.
  - unfold front. simpl. by rewrite length_insert.
Qed.

Lemma delivers_start k p : delivers k p [] (start p).
Proof.
  unfold start. destruct (is_running p); apply delivers_frame; simpl; try done.
  unfold front. simpl. lia.
Qed.

Lemma delivers_stop k p : delivers k p [] (stop p).
Proof.
  unfold stop. destruct (is_running p); apply delivers_frame; simpl; try done.
  - apply ages_cancel_all.
  - unfold front. simpl. by rewrite length_cancel_all.
Qed.

Lemma delivers_get_transcription k p :
  delivers k p (option_list (get_transcription p).1) (get_transcription p).2.
Proof.
  intros Hk. unfold get_transcription.
  destruct (text_queue p) as [| t rest] eqn:Hq; simpl.
  - split; [done |]. intros pre base. by rewrite Hq, !app_nil_r.
  - split; [done |]. intros pre base. by rewrite <- app_assoc.
Qed.

Lemma delivers_get_all_transcriptions k p :
  delivers k p (get_all_transcriptions p).1 (get_all_transcriptions p).2.
Proof. intros Hk. split; [done |]. intros pre base. simpl. by rewrite app_nil_r. Qed.

(** Every step delivers. *)
Lemma step_delivers k l p p' :
  newest p -> act l p = Some p' -> delivers k p (emits l p) p'.
Proof.
  intros Hn Hs. destruct l; simpl in Hs; repeat case_match; simplify_eq;
    eauto using delivers_take_recording, delivers_work, delivers_finish,
      delivers_start, delivers_stop, delivers_get_transcription,
      delivers_get_all_transcriptions, delivers_collect, delivers_on_mic,
      delivers_at_pc.
  all: by apply delivers_frame.
Qed.

(** An execution: what was handed out before it, what it hands out and
    what it leaves on the queue are among [base] and the transcripts let
    go of, in their order. *)
Lemma run_delivers k base ls : forall pre p out q,
  orderly p -> k <= front p ->
  pre ++ text_queue p `sublist_of` base ++ let_go k p ->
  acts ls p = Some (out, q) ->
  (pre ++ out) ++ text_queue q `sublist_of` base ++ let_go k q.
Proof.
  induction ls as [| l ls IH]; intros pre p out q Ho Hk Hsub; simpl.
  { intros [= <- <-]. by rewrite app_nil_r. }
  destruct (act l p) as [p' |] eqn:Hs; [| done]. simpl.
  destruct (acts ls p') as [[out' q'] |] eqn:Hr; [| done]. simpl.
  intros [= <- <-].
  destruct (step_delivers k l p p' (o_newest _ Ho) Hs Hk) as [Hk' Hd].
  rewrite app_assoc. apply (IH _ p'); [| done | by apply Hd | done].
  by eapply step_keeps_orderly.
Qed.

Lemma let_go_all k p : let_go k p `sublist_of` transcripts (drop k (pool p)).
Proof. apply sublist_omap, sublist_take. Qed.

End Delivery.

(** ** Executions *)

Section Executions.
Context (model_name : string) (transcribe : option Z -> list Q -> result text).

#[local] Abbreviation act := (act model_name transcribe).
#[local] Abbreviation acts := (acts model_name transcribe).
#[local] Abbreviation finish := (finish model_name transcribe).
#[local] Abbreviation beam_size := (beam_size model_name).

Lemma run_app ls1 ls2 p out1 p1 :
  acts ls1 p = Some (out1, p1) ->
  acts (ls1 ++ ls2) p
  = '(out2, q) ← acts ls2 p1; Some (out1 ++ out2, q).
Proof.
  revert p out1. induction ls1 as [| l ls1 IH]; intros p out1; simpl.
  { intros [= <- <-]. by destruct (acts ls2 p) as [[] |]. }
  destruct (act l p) as [p' |]; [| done]. simpl.
  destruct (acts ls1 p') as [[o q] |] eqn:Hr; [| done]. simpl. intros [= <- <-].
  rewrite (IH _ _ Hr). destruct (acts ls2 q) as [[] |]; simpl; [| done].
  by rewrite app_assoc.
Qed.

(** C20: whatever the threads of the voice processor do, in whatever
    order, the processor stays orderly: [self.futures] holds nothing or
    the future submitted last, at most two transcriptions run at a time,
    and every text that reaches the text queue is a transcription that is
    not empty and has no white space at its ends. *)
Theorem run_orderly callback ls out q :
  acts ls (init_processor callback) = Some (out, q) -> orderly q.
Proof. apply run_keeps_orderly, orderly_init. Qed.

(** C3: the texts handed to the agent, followed by those still on the
    text queue, are transcripts of recordings that were submitted, in the
    order of their submission, each at most once. *)
Theorem transcriptions_in_order callback ls out q :
  acts ls (init_processor callback) = Some (out, q) ->
  out ++ text_queue q `sublist_of` transcripts (pool q).
Proof.
  intros Hr.
  pose proof (run_delivers model_name transcribe 0 [] ls [] _ _ _
                (orderly_init callback) (Nat.le_0_l _) (sublist_nil_l _) Hr) as H.
  etrans; [exact H |]. apply (let_go_all 0).
Qed.

(** What a submission leaves. *)
Lemma take_recording_submits p p1 :
  take_recording p = Some p1 -> length (pool p1) = S (length (pool p)) ->
  futures p1 = [length (pool p)] /\ text_queue p1 = text_queue p.
Proof.
  unfold take_recording. destruct (audio_queue (mic p)) as [| a rest]; [done |].
  destruct (normalise a) as [a' |]; [| intros [= <-]; simpl; lia].
  simpl. destruct (shut p); intros [= <-]; simpl;
    rewrite ?length_app, length_cancel_all; [lia | done].
Qed.

(** C13: once the loop has submitted a recording, nothing of the
    recordings submitted before it is passed on any more: what the agent
    is handed from then on, and what the text queue holds in the end, was
    on the queue already or is a transcript of this recording or of a
    later one.  A transcription that was running when the next recording
    arrived, or that had finished and was not collected yet, is lost. *)
Theorem replaced_future_is_dropped p p1 ls out q :
  orderly p ->
  act Take p = Some p1 -> length (pool p1) = S (length (pool p)) ->
  acts ls p1 = Some (out, q) ->
  out ++ text_queue q
    `sublist_of` text_queue p ++ transcripts (drop (length (pool p)) (pool q)).
Proof.
  intros Ho Hs Hlen Hr.
  assert (take_recording p = Some p1) as Ht
    by (simpl in Hs; by repeat case_match).
  destruct (take_recording_submits _ _ Ht Hlen) as [Hf Hq].
  pose proof (run_delivers model_name transcribe (length (pool p))
                (text_queue p) ls [] p1 out q) as H.
  etrans; [apply H |]; [by eapply step_keeps_orderly | | | done |].
  - unfold front. rewrite Hlen, Hf. simpl. lia.
  - rewrite Hq. apply sublist_inserts_r. reflexivity.
  - apply sublist_app; [done | apply let_go_all].
Qed.

(** *** A transcription that fails *)

(** Whisper raises on this recording. *)
Definition fails (audio_data : list Q) : Prop :=
  exists e, transcribe beam_size audio_data = Raise e.

(** The indicator is on, and no recording that is waiting or being
    transcribed will be transcribed. *)
Record doomed (p : processor) : Prop := Doomed {
  d_indicator : is_processing p = true;
  d_pool : Forall (fun f => done f = false -> fails (audio f)) (pool p);
  d_queue : Forall (fun a => forall a', normalise a = Ok a' -> fails a')
              (audio_queue (mic p));
}.

(** The steps of the processor itself and the calls of the agent, as
    opposed to a new block of audio. *)
Definition no_hear (l : label) : bool :=
  match l with
  | Hear _ _ _ => false
  | _ => true
  end.

Lemma doomed_frame p p' :
  mic p' = mic p -> pool p' = pool p -> doomed p -> doomed p'.
Proof. intros Hm Hp [H1 H2 H3]. split; unfold is_processing; by rewrite ?Hm, ?Hp. Qed.

Lemma doomed_cancel_all ids l :
  Forall (fun f => done f = false -> fails (audio f)) l ->
  Forall (fun f => done f = false -> fails (audio f)) (cancel_all ids l).
Proof.
  intros Hl. induction ids as [| id ids IH]; simpl; [done |].
  apply Forall_alter; [done |]. intros f _ Hf. unfold cancel.
  destruct (state_of f) eqn:E; simpl; rewrite ?E; auto. done.
Qed.

Lemma doomed_take_recording p p' : doomed p -> take_recording p = Some p' -> doomed p'.
Proof.
  intros [H1 H2 H3]. unfold take_recording.
  destruct (audio_queue (mic p)) as [| a rest] eqn:Hq; [done |].
  apply Forall_cons in H3 as [Ha H3].
  assert (doomed (on_mic pop_audio p)) as Hd
    by (split; simpl; [done.. | by rewrite Hq]).
  destruct (normalise a) as [a' |]; [| intros [= <-]; by destruct Hd].
  simpl. destruct Hd as [? ? ?].
  destruct (shut p); intros [= <-]; split; simpl; auto using doomed_cancel_all.
  apply Forall_app. split; [auto using doomed_cancel_all |].
  repeat constructor. auto.
Qed.

Lemma doomed_work p p' : doomed p -> work p = Some p' -> doomed p'.
Proof.
  intros [H1 H2 H3]. unfold work. case_bool_decide; [| done].
  destruct (next_item (pool p)) as [id |] eqn:Hn; [| done]. simpl.
  destruct (next_item_Some _ _ Hn) as (f & Hi & Hs). rewrite Hi. simpl.
  intros [= <-]. split; simpl; try done.
  apply Forall_insert; [done |]. simpl. intros _.
  apply (Forall_lookup_1 _ _ _ _ H2 Hi). unfold done. by rewrite Hs.
Qed.

Lemma doomed_finish id p p' : doomed p -> finish id p = Some p' -> doomed p'.
Proof.
  intros [H1 H2 H3]. unfold Transcribe.finish.
  destruct (pool p !! id) as [f |] eqn:Hi; [| done]. simpl.
  destruct (state_of f) eqn:Hs; try done.
  destruct (Forall_lookup_1 _ _ _ _ H2 Hi) as [e He];
    [unfold done; by rewrite Hs |].
  unfold transcribe_audio. rewrite He. intros [= <-].
  split; simpl; try done. by apply Forall_insert.
Qed.

Lemma doomed_step l p p' :
  no_hear l = true -> doomed p -> act l p = Some p' -> doomed p'.
Proof.
  intros Hl Hd Hs. destruct l; simpl in Hs; try done;
    repeat case_match; simplify_eq;
    eauto using doomed_take_recording, doomed_work, doomed_finish;
    try (by apply (doomed_frame p)).
  all: unfold stop, start, get_transcription; repeat case_match; try done.
  all: destruct Hd; split; simpl; auto using doomed_cancel_all.
Qed.

Lemma doomed_drive ls p :
  forallb no_hear ls = true -> doomed p -> doomed (drive model_name transcribe ls p).
Proof.
  revert p. induction ls as [| l ls IH]; intros p Hq Hd; simpl; [done |].
  simpl in Hq. apply andb_prop in Hq as [Hl Hq]. apply IH; [done |].
  destruct (act l p) as [p' |] eqn:Hs; simpl; [| done].
  by eapply doomed_step.
Qed.

(** When Whisper raises on every recording that is waiting, queued
    or being transcribed, the indicator of [is_processing] stays on
    through everything the processor and the agent do, until a new
    recording is heard: [_transcribe_audio] switches it off on its last
    line only. *)
Theorem failed_transcription_keeps_indicator ls p out q :
  doomed p -> forallb no_hear ls = true -> acts ls p = Some (out, q) ->
  is_processing q = true.
Proof.
  revert p out. induction ls as [| l ls IH]; intros p out Hd Hq; simpl.
  { intros [= _ <-]. by destruct Hd. }
  simpl in Hq. apply andb_prop in Hq as [Hl Hq].
  destruct (act l p) as [p' |] eqn:Hs; [| done]. simpl.
  destruct (acts ls p') as [[out' q'] |] eqn:Hr; [| done]. simpl.
  intros [= _ <-]. eauto using doomed_step.
Qed.

End Executions.

(** ** A recording on its own is delivered *)

(** The steps the threads of the processor make by themselves. *)
Definition internal (l : label) : bool :=
  match l with
  | Take | Collect | Empty | Work | Finish _ => true
  | _ => false
  end.

Definition settled (pool : list future) : Prop :=
  Forall (fun f => done f = true) pool.

Lemma settled_next_item l : settled l -> next_item l = None.
Proof.
  induction 1 as [| f l Hf _ IH]; simpl; [done |]. rewrite IH.
  unfold done in Hf. by destruct (state_of f).
Qed.

Lemma settled_next_item_snoc l f :
  settled l ->
  next_item (l ++ [f])
  = match state_of f with Pending => Some (length l) | _ => None end.
Proof.
  induction 1 as [| g l Hg _ IH]; simpl; [by destruct (state_of f) |].
  rewrite IH. unfold done in Hg.
  by destruct (state_of g); try done; destruct (state_of f).
Qed.

Lemma settled_busy l : settled l -> busy l = 0.
Proof.
  induction 1 as [| f l Hf _ IH]; [done |]. rewrite busy_cons, IH.
  unfold done, running in *. by destruct (state_of f).
Qed.

Lemma settled_not_running l id f :
  settled l -> l !! id = Some f -> state_of f <> Running.
Proof.
  intros Hl Hi. pose proof (Forall_lookup_1 _ _ _ _ Hl Hi) as Hd.
  unfold done in Hd. by destruct (state_of f).
Qed.

Lemma settled_cancel_all ids l : settled l -> settled (cancel_all ids l).
Proof.
  intros Hl. induction ids as [| id ids IH]; simpl; [done |].
  apply Forall_alter; [done |]. intros f _ Hf. unfold cancel, done in *.
  by destruct (state_of f) eqn:E; simpl; rewrite ?E.
Qed.

Section Lone.
Context (model_name : string) (transcribe : option Z -> list Q -> result text).

#[local] Abbreviation act := (act model_name transcribe).
#[local] Abbreviation finish := (finish model_name transcribe).
#[local] Abbreviation beam_size := (beam_size model_name).

(** A thread of the processor makes a step that changes something. *)
Definition moves (p q : processor) : Prop :=
  exists l, internal l = true /\ act l p = Some q /\ q <> p.

Context (b : processor) (old : list future) (a : list Q) (raw : text).
Context (Hrun : is_running b = true) (Hsettled : settled old).
Context (Hraw : transcribe beam_size a = Ok raw) (Hne : strip raw <> []).

(** The processor while the recording [a] is with the pool: where the
    loop is, what has become of the future, and the fields of the
    callback. *)
Definition stage (th : pc) (st : status) (m : vad) : processor :=
  at_pc th (with_work (old ++ [Future a st]) [length old] (on_mic (fun _ => m) b)).

Definition transcribed : status := Finished (Ok (Some (strip raw))).

(** It has been passed on. *)
Definition passed_on (q : processor) : Prop :=
  text_queue q = text_queue b ++ [strip raw] /\ is_processing q = false /\
  futures q = [].

Lemma stage_lookup th st m :
  pool (stage th st m) !! length old = Some (Future a st).
Proof. simpl. by rewrite list_lookup_middle. Qed.

Lemma stage_collect_waiting th st m :
  done (Future a st) = false -> collect (stage th st m) = stage th st m.
Proof.
  intros Hd. apply (collect_waiting _ (length old)); [done |].
  unfold is_done. by rewrite stage_lookup.
Qed.

Lemma stage_collect_done th m :
  processing_indicator m = false ->
  passed_on (at_pc AtGet (collect (stage th transcribed m))) /\
  passed_on (collect (stage th transcribed m)).
Proof.
  intros Hm.
  rewrite (collect_done _ (length old) (Future a transcribed));
    [| done | apply stage_lookup | done].
  unfold passed_on, is_processing, transcript. simpl.
  by rewrite bool_decide_eq_false_2.
Qed.

Lemma stage_work th st m :
  work (stage th st m)
  = match st with Pending => Some (stage th Running m) | _ => None end.
Proof.
  unfold work. simpl. rewrite busy_snoc, settled_busy, settled_next_item_snoc by done.
  destruct st; simpl; try done.
  rewrite list_lookup_middle by done. simpl. unfold stage. do 3 f_equal.
  by rewrite insert_app_r_alt, Nat.sub_diag by done.
Qed.

Lemma stage_finish th st m id :
  finish id (stage th st m)
  = match st with
    | Running =>
        if decide (id = length old)
        then Some (stage th transcribed (clear_indicator m)) else None
    | _ => None
    end.
Proof.
  unfold Transcribe.finish. simpl.
  destruct (decide (id = length old)) as [-> | Hid].
  - rewrite list_lookup_middle by done. simpl. destruct st; try done.
    unfold transcribe_audio. rewrite Hraw, bool_decide_eq_false_2 by done.
    unfold stage, transcribed. do 3 f_equal.
    by rewrite insert_app_r_alt, Nat.sub_diag by done.
  - destruct ((old ++ [Future a st]) !! id) as [f |] eqn:Hi; simpl;
      [| by destruct st].
    apply lookup_app_Some in Hi as [Hi | [Hge Hi]].
    + pose proof (settled_not_running _ _ _ Hsettled Hi).
      by destruct (state_of f); destruct st.
    + destruct (id - length old) eqn:E; [lia | done].
Qed.

Lemma stage_take th st m : audio_queue m = [] -> act Take (stage th st m) = None.
Proof. intros Hm. simpl. unfold take_recording. simpl. rewrite Hm. by destruct th, (is_running b). Qed.

Lemma step_Work p : act Work p = work p.
Proof. done. Qed.

Lemma step_Finish id p : act (Finish id) p = finish id p.
Proof. done. Qed.

Ltac stage_moves Hm :=
  let q := fresh "q" in let l := fresh "l" in
  let Hs := fresh "Hs" in let Hq := fresh "Hq" in let Hl := fresh "Hl" in
  intros q (l & Hl & Hs & Hq); destruct l; simpl in Hl; try discriminate Hl;
  clear Hl;
  lazymatch type of Hs with
  | Transcribe.act _ _ Take _ = _ => by rewrite stage_take in Hs
  | Transcribe.act _ _ Collect _ = _ => simpl in Hs; simplify_eq
  | Transcribe.act _ _ Empty _ = _ =>
      simpl in Hs; rewrite ?Hm, ?Hrun in Hs; simplify_eq
  | Transcribe.act _ _ Work _ = _ =>
      rewrite step_Work, stage_work in Hs; simplify_eq
  | Transcribe.act _ _ (Finish _) _ = _ =>
      rewrite step_Finish, stage_finish in Hs; try case_decide; simplify_eq
  end.

Lemma finished_at_get m :
  audio_queue m = [] -> processing_indicator m = false ->
  eventually moves passed_on (stage AtGet transcribed m).
Proof.
  intros Hm Hp. apply eventually_step.
  - exists (collect (stage AtGet transcribed m)), Empty.
    split; [done |]. split; [simpl; by rewrite Hm, Hrun |].
    intros Heq. pose proof (stage_collect_done AtGet m Hp) as [_ [_ [_ Hf]]].
    by rewrite Heq in Hf.
  - stage_moves Hm. apply eventually_now. by apply stage_collect_done.
Qed.

Lemma finished_at_collect m :
  audio_queue m = [] -> processing_indicator m = false ->
  eventually moves passed_on (stage AtCollect transcribed m).
Proof.
  intros Hm Hp. apply eventually_step.
  - exists (at_pc AtGet (collect (stage AtCollect transcribed m))), Collect.
    split; [done |]. split; [done |]. intros Heq. by apply (f_equal thread) in Heq.
  - stage_moves Hm. apply eventually_now. by apply stage_collect_done.
Qed.

Lemma running_at_get m :
  audio_queue m = [] -> eventually moves passed_on (stage AtGet Running m).
Proof.
  intros Hm. apply eventually_step.
  - exists (stage AtGet transcribed (clear_indicator m)), (Finish (length old)).
    split; [done |]. split; [| intros Heq; by apply (f_equal pool), app_inv_head in Heq].
    by rewrite step_Finish, stage_finish, decide_True.
  - stage_moves Hm.
    + by rewrite stage_collect_waiting in Hq.
    + by apply finished_at_get.
Qed.

Lemma running_at_collect m :
  audio_queue m = [] -> eventually moves passed_on (stage AtCollect Running m).
Proof.
  intros Hm. apply eventually_step.
  - exists (at_pc AtGet (collect (stage AtCollect Running m))), Collect.
    split; [done |]. split; [done |]. intros Heq. by apply (f_equal thread) in Heq.
  - stage_moves Hm.
    + rewrite stage_collect_waiting by done. by apply running_at_get.
    + by apply finished_at_collect.
Qed.

Lemma pending_at_get m :
  audio_queue m = [] -> eventually moves passed_on (stage AtGet Pending m).
Proof.
  intros Hm. apply eventually_step.
  - exists (stage AtGet Running m), Work.
    split; [done |]. split; [| intros Heq; by apply (f_equal pool), app_inv_head in Heq].
    by rewrite step_Work, stage_work.
  - stage_moves Hm.
    + by rewrite stage_collect_waiting in Hq.
    + by apply running_at_get.
Qed.

Lemma pending_at_collect m :
  audio_queue m = [] -> eventually moves passed_on (stage AtCollect Pending m).
Proof.
  intros Hm. apply eventually_step.
  - exists (at_pc AtGet (collect (stage AtCollect Pending m))), Collect.
    split; [done |]. split; [done |]. intros Heq. by apply (f_equal thread) in Heq.
  - stage_moves Hm.
    + rewrite stage_collect_waiting by done. by apply pending_at_get.
    + by apply running_at_collect.
Qed.

End Lone.

Section Alone.
Context (model_name : string) (transcribe : option Z -> list Q -> result text).

#[local] Abbreviation act := (act model_name transcribe).
#[local] Abbreviation moves := (moves model_name transcribe).
#[local] Abbreviation beam_size := (beam_size model_name).

(** The first step of a processor that holds one recording is the
    submission of it. *)
Lemma first_move p a a' q :
  thread p = AtGet -> is_running p = true -> shut p = false ->
  audio_queue (mic p) = [a] -> settled (pool p) -> normalise a = Ok a' ->
  moves p q ->
  q = stage p (cancel_all (futures p) (pool p)) a' AtCollect Pending
        (pop_audio (mic p)).
Proof.
  intros Hth Hrun Hshut Hqueue Hsettled Hnorm (l & Hl & Hs & _).
  destruct l; try discriminate Hl; simpl in Hs; rewrite ?Hth, ?Hrun, ?Hqueue in Hs;
    try done.
  - unfold take_recording in Hs. rewrite Hqueue, Hnorm in Hs. simpl in Hs.
    rewrite Hshut in Hs. simplify_eq. unfold stage. simpl.
    by rewrite length_cancel_all.
  - unfold work in Hs. rewrite settled_next_item in Hs by done. by case_bool_decide.
  - unfold finish in Hs. destruct (pool p !! id) as [f |] eqn:Hi; [| done].
    pose proof (settled_not_running _ _ _ Hsettled Hi). simpl in Hs.
    by destruct (state_of f).
Qed.

(** C7: a recording that is alone reaches the agent.  When the loop waits
    at the queue, the queue holds one recording, no transcription is under
    way and Whisper gives a text for the recording, then along every
    execution of the threads of the processor (no new audio, no call of
    the agent, every step changing something) the stripped text comes to
    be the last of the text queue, with the indicator of [is_processing]
    off and [self.futures] empty. *)
Theorem lone_recording_is_delivered p a a' raw :
  thread p = AtGet -> is_running p = true -> shut p = false ->
  audio_queue (mic p) = [a] -> settled (pool p) ->
  normalise a = Ok a' -> transcribe beam_size a' = Ok raw -> strip raw <> [] ->
  eventually moves
    (fun q => text_queue q = text_queue p ++ [strip raw] /\
              is_processing q = false /\ futures q = []) p.
Proof.
  intros Hth Hrun Hshut Hqueue Hsettled Hnorm Hraw Hne.
  assert (audio_queue (pop_audio (mic p)) = []) as Hm by (simpl; by rewrite Hqueue).
  pose proof (pending_at_collect model_name transcribe p _ a' raw Hrun
                (settled_cancel_all (futures p) _ Hsettled) Hraw Hne _ Hm) as Hev.
  apply eventually_step.
  - eexists. exists Take. split; [done |]. simpl. rewrite Hth, Hrun.
    unfold take_recording. rewrite Hqueue, Hnorm. simpl. rewrite Hshut.
    split; [done |]. intros Heq. apply (f_equal thread) in Heq. simpl in Heq. congruence.
  - intros q Hq. by rewrite (first_move p a a' q).
Qed.

End Alone.

(** * Executions that are computed *)

(** A Whisper of three answers, by the first sample of the recording. *)
Definition whisper : option Z -> list Q -> result text :=
  fun _ audio_data =>
    match audio_data with
    | x :: _ =>
        if Qle_bool x 0 then
          if Qle_bool 0 x then Raise (Exception "no speech")
          else Ok (text_of "стоп ")
        else Ok (text_of " open the browser")
    | [] => Raise (Exception "no audio")
    end.

Definition shout : block := {| channels := 1; rows := [[(-0.5)%Q]; [0.5%Q]] |}.

Definition hum : block := {| channels := 1; rows := [[0%Q]; [1%Q]] |}.

(** The processor after an execution that can be made. *)
Definition after (ls : list label) (p : processor) : processor :=
  match acts "tiny" whisper ls p with
  | Some (_, q) => q
  | None => p
  end.

Definition handed (ls : list label) (p : processor) : list text :=
  match acts "tiny" whisper ls p with
  | Some (out, _) => out
  | None => []
  end.

Lemma run_after ls p :
  is_Some (acts "tiny" whisper ls p) ->
  acts "tiny" whisper ls p = Some (handed ls p, after ls p).
Proof. unfold handed, after. by intros [[out q] ->]. Qed.

(** One phrase is heard, transcribed and handed to the agent. *)
Definition one_phrase : list label :=
  [CallStart; Hear cfg0 speech 0%Q; Hear cfg0 hush 0.4%Q].

Definition served : list label := [Take; Collect; Work; Finish 0; Empty; GetAll].

(** Two phrases; the second is submitted when the first has just been
    transcribed. *)
Definition two_phrases : list label :=
  one_phrase ++ [Hear cfg0 shout 1%Q; Hear cfg0 hush 1.4%Q; Take; Collect; Work; Finish 0].

Definition second_served : list label := [Collect; Work; Finish 1; Empty; GetAll].

(** A phrase Whisper raises on. *)
Definition humming : list label :=
  [CallStart; Hear cfg0 hum 0%Q; Hear cfg0 hush 0.4%Q].

(** The processor with two phrases heard and the first transcribed, and
    the one with one phrase queued. *)
Definition backlog : processor := after two_phrases (init_processor true).

Definition waiting : processor := after one_phrase (init_processor true).

Ltac by_run := apply run_after; vm_compute; eauto.

Lemma run_orderly_witness :
  orderly (after (one_phrase ++ served) (init_processor true)).
Proof.
  apply (run_orderly "tiny" whisper true (one_phrase ++ served)
           (handed (one_phrase ++ served) (init_processor true))).
  by_run.
Defined.

Lemma transcriptions_in_order_witness :
  handed (one_phrase ++ served) (init_processor true)
    ++ text_queue (after (one_phrase ++ served) (init_processor true))
  `sublist_of` transcripts (pool (after (one_phrase ++ served) (init_processor true))).
Proof. apply (transcriptions_in_order "tiny" whisper true (one_phrase ++ served)). by_run. Defined.

Lemma replaced_future_is_dropped_witness :
  handed second_served (after [Take] backlog)
    ++ text_queue (after second_served (after [Take] backlog))
  `sublist_of`
    text_queue backlog
    ++ transcripts (drop (length (pool backlog))
                      (pool (after second_served (after [Take] backlog)))).
Proof.
  apply (replaced_future_is_dropped "tiny" whisper backlog
           (after [Take] backlog) second_served).
  - apply (run_keeps_orderly "tiny" whisper two_phrases (init_processor true)
             (handed two_phrases (init_processor true)));
      [apply orderly_init | by_run].
  - by vm_compute.
  - by vm_compute.
  - by_run.
Defined.

(** The first phrase was transcribed, and the agent is handed the second
    alone. *)
Example backlog_loses_first :
  transcripts (pool backlog) = [text_of "open the browser"] /\
  text_queue backlog = [] /\
  handed second_served (after [Take] backlog) = [text_of "стоп"].
Proof. by vm_compute. Qed.

Lemma humming_doomed : doomed "tiny" whisper (after humming (init_processor true)).
Proof.
  split; [by vm_compute | by vm_compute |].
  assert (audio_queue (mic (after humming (init_processor true)))
          = [[0; 1; 0.01; -0.01]%Q]) as -> by (by vm_compute).
  repeat constructor. intros a' [= <-]. by eexists.
Qed.

Lemma failed_transcription_keeps_indicator_witness :
  is_processing (after served (after humming (init_processor true))) = true.
Proof.
  apply (failed_transcription_keeps_indicator "tiny" whisper served
           (after humming (init_processor true))
           (handed served (after humming (init_processor true)))).
  - apply humming_doomed.
  - done.
  - by_run.
Defined.

Lemma lone_recording_is_delivered_witness :
  eventually (moves "tiny" whisper)
    (fun q => text_queue q = text_queue waiting ++ [text_of "open the browser"] /\
              is_processing q = false /\ futures q = []) waiting.
Proof.
  apply (lone_recording_is_delivered "tiny" whisper waiting
           [0.5; -0.5; 0.01; -0.01]%Q [(50 # 50); (-50 # 50); (10 # 500); (-10 # 500)]%Q
           (text_of " open the browser")); by vm_compute.
Defined.
