(* ===== verification/History.v ===== *)
(** * History: the conversation kept by the agent loop

    The list [messages] of [run_desktop_agent] in src/main.py and what one
    iteration does to it: the screenshot is attached for the request, a
    marker is left in the history, the results of the commands are
    recorded, the list is cut when it is longer than 15; with the cut that
    [generate] of src/services/openrouter_api.py applies to the request.

    A message is a Python dictionary that several lists can hold:
    [temp_messages = list(messages)] copies the list, not the
    dictionaries.  The model keeps the dictionaries in a [heap] and the
    lists as lists of addresses, so that a change made through one list is
    seen through the other, as in the program. *)

From S2P Require Import Prelude PyValue Effects.
#[local] Open Scope string_scope.
#[local] Open Scope list_scope.
#[local] Open Scope exec_scope.

(** ** Messages *)

Inductive role : Type := User | Assistant.

#[export] Instance role_eq_dec : EqDecision role.
Proof. solve_decision. Defined.

(** The parts of a message's content.  The last two are what lines 350
    and 379 of main.py build: a whole message where a part is expected,
    and a text part whose text is itself a part. *)
#[warnings="-register-all"]
Inductive part : Type :=
| Text (t : string)
| ImageUrl (url : string)
| MessagePart (r : role) (content : list part)
| TextOfPart (p : part).

Record message : Type := Message {
  role_of : role;
  content : list part;
}.

(** The dictionaries, by address, and the list [messages]. *)
Record memory : Type := Memory {
  heap : list message;
  messages : list nat;
}.

(** [messages = [{'role': 'user', 'content': [text "New task: ..."]}]] *)
Definition initial_memory (task : string) : memory :=
  {| heap := [Message User [Text ("New task: " +:+ task)]]; messages := [0] |}.

(** The messages a list of addresses stands for. *)
Definition deref (h : list message) (l : list nat) : list message :=
  omap (fun a => h !! a) l.

(** ** Working on the heap *)

Definition index_error : exn := Exception "list index out of range".

(** A new dictionary. *)
Definition new_message (m : message) : ST memory nat :=
  fun s => (Ok (length (heap s)),
            {| heap := heap s ++ [m]; messages := messages s |}).

(** [l[-1]] *)
Definition last_ref (l : list nat) : ST memory nat :=
  match last l with
  | Some a => ret a
  | None => raise index_error
  end.

(** [d['role']] for the dictionary at [a]. *)
Definition role_at (a : nat) : ST memory role :=
  fun s =>
    match heap s !! a with
    | Some m => (Ok (role_of m), s)
    | None => (Raise index_error, s)
    end.

(** [d['content'].extend(parts)] for the dictionary at [a]; [append] is
    the case of one part. *)
Definition content_extend (a : nat) (parts : list part) : ST memory unit :=
  modify (fun s =>
    {| heap := alter (fun m => Message (role_of m) (content m ++ parts)) a
                 (heap s);
       messages := messages s |}).

Definition get_messages : ST memory (list nat) :=
  fun s => (Ok (messages s), s).

Definition set_messages (l : list nat) : ST memory unit :=
  modify (fun s => {| heap := heap s; messages := l |}).

(** ** One iteration *)

Definition hidden : string := "'*Screenshots hidden by system*'".

(** A string counts as true when it is not empty. *)
Definition truthy_text (o : option string) : option string :=
  match o with
  | Some "" => None
  | o => o
  end.

(** Lines 330-337: the screenshot, and the voice feedback if any. *)
Definition message_content (fullscreen_img : string)
  (voice_feedback : option string) : list part :=
  [Text "Fullscreen screenshot:";
   ImageUrl ("data:image/jpeg;base64," +:+ fullscreen_img)]
  ++ match truthy_text voice_feedback with
     | Some v => [Text ("Voice feedback: " +:+ v)]
     | None => []
     end.

(** Lines 340-344: [temp_messages], with the screenshot attached. *)
Definition attach (parts : list part) : ST memory (list nat) :=
  temp_messages <~ get_messages ;;
  a <~ last_ref temp_messages ;;
  r <~ role_at a ;;
  match r with
  | User => content_extend a parts ;;; ret temp_messages
  | Assistant =>
      b <~ new_message (Message User parts) ;;
      ret (temp_messages ++ [b])
  end.

(** Lines 347-350: the marker left in [messages]. *)
Definition hide : ST memory unit :=
  ms <~ get_messages ;;
  a <~ last_ref ms ;;
  r <~ role_at a ;;
  match r with
  | User => content_extend a [Text hidden]
  | Assistant =>
      b <~ new_message (Message User [MessagePart User [Text hidden]]) ;;
      set_messages (ms ++ [b])
  end.

(** [list(temp_messages)] as [generate] receives it. *)
Definition request (temp_messages : list nat) : ST memory (list message) :=
  fun s => (Ok (deref (heap s) temp_messages), s).

(** Lines 375-379: the results of the commands go into the history. *)
Definition record_results (results_text : string) : ST memory unit :=
  let feedback_message := Text results_text in
  ms <~ get_messages ;;
  a <~ last_ref ms ;;
  r <~ role_at a ;;
  match r with
  | User =>
      b <~ new_message (Message Assistant [feedback_message]) ;;
      set_messages (ms ++ [b])
  | Assistant => content_extend a [TextOfPart feedback_message]
  end.

(** The bound on the length of the history. *)
Definition max_messages : nat := 15.

(** Lines 382-385: [messages = [messages[0]] + messages[-14:]]. *)
Definition truncate : ST memory unit :=
  ms <~ get_messages ;;
  if (max_messages <? length ms)%nat then
    match ms with
    | system_message :: _ =>
        set_messages ([system_message] ++ py_last_n 14 ms)
    | [] => raise index_error
    end
  else ret tt.

(** Lines 340-354 and 375-385 of one iteration: the request sent to the
    model, then, when the reply held commands, their results and the
    cut.  [reply] gives, for the request, the text of the results of the
    commands of the reply, if it held any. *)
Definition exchange (parts : list part)
  (reply : list message -> option string) : ST memory (list message) :=
  temp_messages <~ attach parts ;;
  hide ;;;
  sent <~ request temp_messages ;;
  match reply sent with
  | Some results_text => record_results results_text ;;; truncate ;;; ret sent
  | None => ret sent
  end.

(** ** [generate]: the cut of the request *)

(** Lines 38-43 of openrouter_api.py: the first message and the last
    nine when there are more than ten, behind the system prompt. *)
Definition limit_context (msgs : list message) : list message :=
  if (10 <? length msgs)%nat then
    match msgs with
    | first :: _ => [first] ++ py_last_n 9 msgs
    | [] => []
    end
  else msgs.

(** What is sent to the API.  The system prompt is a message of its own
    kind; here it is the text alone. *)
Definition system_content (system_message : string) (msgs : list message)
  : string * list message :=
  (system_message, limit_context msgs).

(** [generate]: the answer of the API, or the fixed text when the call
    raises. *)
Definition generate (api : string * list message -> option string)
  (system_message : string) (msgs : list message) : string :=
  match api (system_content system_message msgs) with
  | Some generated_text => generated_text
  | None => "Error generating response. Please try again."
  end.

(** ** Addresses and what they stand for *)

Lemma deref_nil h : deref h [] = [].
Proof. done. Qed.

Lemma deref_cons h a l :
  deref h (a :: l) =
  match h !! a with Some m => m :: deref h l | None => deref h l end.
Proof. done. Qed.

Lemma deref_app h l k : deref h (l ++ k) = deref h l ++ deref h k.
Proof. unfold deref. apply omap_app. Qed.

Lemma deref_one h a m : h !! a = Some m -> deref h [a] = [m].
Proof. rewrite deref_cons. by intros ->. Qed.

(** Addresses in use are not disturbed by a new dictionary. *)
Lemma deref_alloc h m l :
  Forall (fun a => a < length h) l -> deref (h ++ [m]) l = deref h l.
Proof.
  induction 1 as [| a l Ha _ IH]; [done |].
  by rewrite !deref_cons, lookup_app_l, IH.
Qed.

Lemma lookup_alloc (h : list message) m : (h ++ [m]) !! length h = Some m.
Proof. by rewrite lookup_app_r, Nat.sub_diag. Qed.

(** A change at one address is not seen through the others. *)
Lemma deref_alter_others h f a l :
  a ∉ l -> deref (alter f a h) l = deref h l.
Proof.
  induction l as [| b l IH]; [done |].
  rewrite not_elem_of_cons. intros [Hne Hl].
  by rewrite !deref_cons, list_lookup_alter_ne, IH.
Qed.

Lemma deref_length h l :
  Forall (fun a => a < length h) l -> length (deref h l) = length l.
Proof.
  induction 1 as [| a l Ha _ IH]; [done |].
  rewrite deref_cons. apply lookup_lt_is_Some in Ha as [m ->].
  simpl. by rewrite IH.
Qed.

(** ** Well-formed memories *)

(** The history is not empty, its addresses are in the heap, and no
    dictionary is in it twice. *)
Record wf (s : memory) : Prop := {
  wf_nonempty : messages s <> [];
  wf_bound : Forall (fun a => a < length (heap s)) (messages s);
  wf_nodup : NoDup (messages s);
}.

Lemma wf_initial task : wf (initial_memory task).
Proof.
  split; simpl; [done | by repeat constructor |].
  apply NoDup_singleton.
Qed.

(** The history of a well-formed memory: its messages but the last, the
    address of the last, and the last. *)
Lemma wf_last s :
  wf s ->
  exists l a m, messages s = l ++ [a] /\ heap s !! a = Some m /\ (a ∉ l) /\
    Forall (fun b => b < length (heap s)) l /\
    deref (heap s) (messages s) = deref (heap s) l ++ [m].
Proof.
  intros [Hne Hb Hnd].
  destruct (exists_last Hne) as (l & a & Hms). rewrite Hms in *.
  apply Forall_app in Hb as [Hl Ha].
  apply Forall_singleton, lookup_lt_is_Some in Ha as [m Hm].
  apply NoDup_app in Hnd as (_ & Hnot & _).
  exists l, a, m. split_and!; try done.
  - intros Hin. apply (Hnot _ Hin). left.
  - by rewrite deref_app, (deref_one _ _ m).
Qed.

(** What the history is: the messages the list [messages] stands for. *)
Definition history (s : memory) : list message :=
  deref (heap s) (messages s).

(** The heap after [d['content'].extend(parts)] at [a]. *)
Definition extend_at (a : nat) (parts : list part) (h : list message)
  : list message :=
  alter (fun m => Message (role_of m) (content m ++ parts)) a h.

Lemma extend_at_lookup a parts h m :
  h !! a = Some m ->
  extend_at a parts h !! a = Some (Message (role_of m) (content m ++ parts)).
Proof.
  intros Hm. unfold extend_at.
  by rewrite list_lookup_alter, decide_True, Hm by done.
Qed.

Lemma extend_at_length a parts h : length (extend_at a parts h) = length h.
Proof. apply length_alter. Qed.

Lemma deref_extend_last h a parts l m :
  h !! a = Some m -> a ∉ l ->
  deref (extend_at a parts h) (l ++ [a]) =
  deref h l ++ [Message (role_of m) (content m ++ parts)].
Proof.
  intros Hm Hl. rewrite deref_app. unfold extend_at at 1.
  rewrite deref_alter_others by done.
  by rewrite (deref_one _ _ _ (extend_at_lookup a parts h m Hm)).
Qed.

(** ** The steps, run *)

Lemma last_ref_snoc l a s : last_ref (l ++ [a]) s = (Ok a, s).
Proof. unfold last_ref. by rewrite last_snoc. Qed.

Lemma role_at_Ok a s m :
  heap s !! a = Some m -> role_at a s = (Ok (role_of m), s).
Proof. unfold role_at. by intros ->. Qed.

Section Steps.
Context (s : memory) (l : list nat) (a : nat) (c : list part).
Context (Hms : messages s = l ++ [a]).

(** Runs the first three lines of a step: the list, its last address,
    the role found there. *)
Ltac run_step Hm :=
  unfold bindM, get_messages;
  rewrite Hms, last_ref_snoc, (role_at_Ok a s _ Hm);
  destruct s; simpl in *; subst.

(** The last message is the user's: the parts go into the dictionary the
    history holds. *)
Lemma attach_user parts :
  heap s !! a = Some (Message User c) ->
  attach parts s =
  (Ok (l ++ [a]),
   {| heap := extend_at a parts (heap s); messages := l ++ [a] |}).
Proof. intros Hm. unfold attach. by run_step Hm. Qed.

(** The last message is the assistant's: a new dictionary, which only
    [temp_messages] holds. *)
Lemma attach_assistant parts :
  heap s !! a = Some (Message Assistant c) ->
  attach parts s =
  (Ok ((l ++ [a]) ++ [length (heap s)]),
   {| heap := heap s ++ [Message User parts]; messages := l ++ [a] |}).
Proof. intros Hm. unfold attach. by run_step Hm. Qed.

Lemma hide_user :
  heap s !! a = Some (Message User c) ->
  hide s =
  (Ok tt, {| heap := extend_at a [Text hidden] (heap s); messages := l ++ [a] |}).
Proof. intros Hm. unfold hide. by run_step Hm. Qed.

Lemma hide_assistant :
  heap s !! a = Some (Message Assistant c) ->
  hide s =
  (Ok tt,
   {| heap := heap s ++ [Message User [MessagePart User [Text hidden]]];
      messages := (l ++ [a]) ++ [length (heap s)] |}).
Proof. intros Hm. unfold hide. by run_step Hm. Qed.

Lemma record_results_user results_text :
  heap s !! a = Some (Message User c) ->
  record_results results_text s =
  (Ok tt,
   {| heap := heap s ++ [Message Assistant [Text results_text]];
      messages := (l ++ [a]) ++ [length (heap s)] |}).
Proof. intros Hm. unfold record_results. by run_step Hm. Qed.

End Steps.

(** ** What an iteration does, on values

    The specification of [exchange]: what is sent to the model and what
    the history becomes, as functions of the history, without heap. *)

(** The cut of lines 382-385. *)
Definition cut (msgs : list message) : list message :=
  if (max_messages <? length msgs)%nat then
    match msgs with
    | first :: _ => first :: py_last_n 14 msgs
    | [] => []
    end
  else msgs.

(** What is sent and what is kept when the screenshot [parts] is shown to
    the model. *)
Definition shown (parts : list part) (hist : list message)
  : list message * list message :=
  match last hist with
  | Some (Message User c) =>
      let now := Message User (c ++ parts ++ [Text hidden]) in
      (removelast hist ++ [now], removelast hist ++ [now])
  | _ =>
      (hist ++ [Message User parts],
       hist ++ [Message User [MessagePart User [Text hidden]]])
  end.

Definition exchange_spec (parts : list part)
  (reply : list message -> option string) (hist : list message)
  : list message * list message :=
  let '(sent, kept) := shown parts hist in
  match reply sent with
  | Some results_text =>
      (sent, cut (kept ++ [Message Assistant [Text results_text]]))
  | None => (sent, kept)
  end.

(** ** The cut *)

Lemma deref_drop h n l :
  Forall (fun a => a < length h) l -> deref h (drop n l) = drop n (deref h l).
Proof.
  intros Hl. revert n. induction Hl as [| a l Ha _ IH]; intros n.
  - by destruct n.
  - destruct n as [| n]; [done |].
    rewrite deref_cons. apply lookup_lt_is_Some in Ha as [m ->]. simpl.
    apply IH.
Qed.

Lemma deref_py_last_n h n l :
  Forall (fun a => a < length h) l ->
  deref h (py_last_n n l) = py_last_n n (deref h l).
Proof.
  intros Hl. unfold py_last_n. by rewrite deref_drop, deref_length.
Qed.

Lemma wf_cut s first rest :
  wf s -> messages s = first :: rest -> max_messages < length (first :: rest) ->
  wf {| heap := heap s; messages := [first] ++ py_last_n 14 (first :: rest) |}.
Proof.
  intros [Hne Hb Hnd] Hms Hlen. rewrite Hms in *. simpl in Hlen.
  unfold max_messages in Hlen. unfold py_last_n. simpl length.
  replace (S (length rest) - 14) with (S (length rest - 14)) by lia.
  simpl drop. apply NoDup_cons in Hnd as [Hnot Hnd].
  apply Forall_cons in Hb as [Hfirst Hb].
  split; cbn [heap messages app]; [done | |].
  - constructor; [done |]. by apply Forall_drop.
  - constructor.
    + intros Hin. apply Hnot. eapply elem_of_sublist; [done |].
      apply sublist_drop.
    + eapply sublist_NoDup; [done | apply sublist_drop].
Qed.

(** [truncate], run: the history is cut, the memory stays well formed. *)
Lemma truncate_run s :
  wf s ->
  exists s', truncate s = (Ok tt, s') /\ history s' = cut (history s) /\ wf s'.
Proof.
  intros Hwf. pose proof Hwf as [Hne Hb Hnd].
  unfold truncate, bindM, get_messages, history, cut.
  rewrite deref_length by done.
  destruct (Nat.ltb_spec max_messages (length (messages s))) as [Hlen | Hlen].
  - destruct (messages s) as [| first rest] eqn:Hms; [done |].
    eexists. split; [done |]. split; [| by eapply wf_cut].
    cbn [set_messages modify heap messages app].
    rewrite deref_cons, (deref_py_last_n _ _ (first :: rest)) by done.
    apply Forall_cons in Hb as [Hfirst Hb'].
    apply lookup_lt_is_Some in Hfirst as [m Hm]. by rewrite !deref_cons, Hm.
  - exists s. by destruct s.
Qed.


(** ** The heap implements the specification *)

(** The three steps before the reply: attach, hide, build the request. *)
Definition show (parts : list part) : ST memory (list message) :=
  temp_messages <~ attach parts ;; hide ;;; request temp_messages.

(** A memory whose history ends with a message of the user. *)
Definition ends_with_user (s : memory) : Prop :=
  exists l a c, messages s = l ++ [a] /\ heap s !! a = Some (Message User c).

Lemma wf_same_length s h :
  wf s -> length h = length (heap s) ->
  wf {| heap := h; messages := messages s |}.
Proof. intros [? ? ?] Hlen. split; simpl; [done | by rewrite Hlen | done]. Qed.

(** A new dictionary that the history does not hold, and one that it
    holds at its end. *)
Lemma wf_grow s m :
  wf s -> wf {| heap := heap s ++ [m]; messages := messages s |}.
Proof.
  intros [Hne Hb Hnd]. split; simpl; [done | | done].
  apply (Forall_impl _ _ _ Hb). intros b ?. rewrite length_app. simpl. lia.
Qed.

Lemma wf_alloc s m :
  wf s ->
  wf {| heap := heap s ++ [m]; messages := messages s ++ [length (heap s)] |}.
Proof.
  intros Hwf. pose proof (wf_grow s m Hwf) as [_ Hb' _].
  destruct Hwf as [Hne Hb Hnd]. split; simpl in *.
  - by destruct (messages s).
  - apply Forall_app. split; [done |].
    apply Forall_singleton. rewrite length_app. simpl. lia.
  - apply NoDup_app. split_and!; [done | | apply NoDup_singleton].
    intros b Hin ->%list_elem_of_singleton.
    rewrite Forall_forall in Hb. apply Hb in Hin. lia.
Qed.

Lemma show_user s l a parts c :
  wf s -> messages s = l ++ [a] -> heap s !! a = Some (Message User c) ->
  a ∉ l ->
  let now := Message User (c ++ parts ++ [Text hidden]) in
  exists s1, show parts s = (Ok (deref (heap s) l ++ [now]), s1) /\
    history s1 = deref (heap s) l ++ [now] /\ wf s1 /\ ends_with_user s1.
Proof.
  intros Hwf Hms Hm Hl now. unfold show, bindM.
  rewrite (attach_user s l a c Hms) by done.
  pose proof (extend_at_lookup a parts _ _ Hm) as Hm1. simpl in Hm1.
  erewrite hide_user; [| done | done]. cbn [heap messages].
  pose proof (extend_at_lookup a [Text hidden] _ _ Hm1) as Hm2. simpl in Hm2.
  assert (deref (extend_at a [Text hidden] (extend_at a parts (heap s)))
            (l ++ [a]) = deref (heap s) l ++ [now]) as Hsent.
  { rewrite (deref_extend_last _ _ _ _ _ Hm1) by done. simpl.
    unfold extend_at. rewrite deref_alter_others by done.
    subst now. by rewrite <- app_assoc. }
  eexists. split; [unfold request; cbn [heap]; by rewrite Hsent |].
  split; [done |]. split.
  - rewrite <- Hms. apply wf_same_length; [done |].
    by rewrite !extend_at_length.
  - by exists l, a, ((c ++ parts) ++ [Text hidden]).
Qed.

Lemma deref_alloc2 h m1 m2 l :
  Forall (fun a => a < length h) l ->
  deref ((h ++ [m1]) ++ [m2]) l = deref h l.
Proof.
  intros Hl. rewrite !deref_alloc; [done | done |].
  apply (Forall_impl _ _ _ Hl). intros b ?. rewrite length_app. simpl. lia.
Qed.

Lemma show_assistant s l a parts c :
  wf s -> messages s = l ++ [a] -> heap s !! a = Some (Message Assistant c) ->
  let marker := Message User [MessagePart User [Text hidden]] in
  exists s1, show parts s = (Ok (history s ++ [Message User parts]), s1) /\
    history s1 = history s ++ [marker] /\ wf s1 /\ ends_with_user s1.
Proof.
  intros Hwf Hms Hm marker. unfold show, bindM.
  rewrite (attach_assistant s l a c Hms) by done.
  set (s' := {| heap := heap s ++ [Message User parts]; messages := l ++ [a] |}).
  assert (heap s' !! a = Some (Message Assistant c)) as Hm'.
  { simpl. rewrite lookup_app_l; [done |]. by eapply lookup_lt_Some. }
  rewrite (hide_assistant s' l a c eq_refl Hm'). subst s'. cbn [heap messages].
  pose proof Hwf as [_ Hb _]. unfold history. rewrite Hms in *.
  eexists. split_and!.
  - unfold request. cbn [heap]. do 2 f_equal.
    rewrite deref_app, deref_alloc2 by done. f_equal. apply deref_one.
    rewrite lookup_app_l by (rewrite length_app; simpl; lia).
    apply lookup_alloc.
  - cbn [heap messages]. rewrite deref_app, deref_alloc2 by done.
    f_equal. apply deref_one, lookup_alloc.
  - rewrite <- Hms.
    apply (wf_alloc {| heap := heap s ++ [Message User parts];
                       messages := messages s |}), wf_grow, Hwf.
  - eexists _, _, _. split; [done |]. cbn [heap]. apply lookup_alloc.
Qed.

(** [exchange] is [show], then the reply. *)
Lemma exchange_show parts reply s :
  exchange parts reply s =
  bindM (show parts) (fun sent =>
    match reply sent with
    | Some results_text =>
        record_results results_text ;;; truncate ;;; ret sent
    | None => ret sent
    end) s.
Proof.
  unfold exchange, show, bindM.
  destruct (attach parts s) as [[temp | e] s0]; [| done].
  by destruct (hide s0) as [[[] | e] s1].
Qed.

(** The three steps on any well-formed memory. *)
Lemma show_run parts s :
  wf s ->
  exists s1, show parts s = (Ok (shown parts (history s)).1, s1) /\
    history s1 = (shown parts (history s)).2 /\ wf s1 /\ ends_with_user s1.
Proof.
  intros Hwf. destruct (wf_last s Hwf) as (l & a & m & Hms & Hm & Hl & _ & Hh).
  fold (history s) in Hh.
  unfold shown. rewrite Hh, last_snoc, removelast_last. destruct m as [[] c].
  - by apply (show_user s l a parts c).
  - rewrite <- Hh. by apply (show_assistant s l a parts c).
Qed.

(** The results after a message of the user. *)
Lemma record_results_run s1 results_text :
  wf s1 -> ends_with_user s1 ->
  exists s2, record_results results_text s1 = (Ok tt, s2) /\
    history s2 = history s1 ++ [Message Assistant [Text results_text]] /\
    wf s2.
Proof.
  intros Hwf1 (l1 & a1 & c1 & Hms1 & Hm1).
  rewrite (record_results_user s1 l1 a1 c1 Hms1 results_text Hm1).
  rewrite <- Hms1. eexists. split; [done |].
  split; [| by apply wf_alloc]. unfold history. cbn [heap messages].
  pose proof Hwf1 as [_ Hb1 _].
  by rewrite deref_app, deref_alloc, (deref_one _ _ _ (lookup_alloc _ _)).
Qed.

(** [exchange] on a well-formed memory never raises, keeps the memory
    well formed, and sends and keeps what [exchange_spec] computes from
    the history. *)
Lemma exchange_run parts reply s :
  wf s ->
  exists s', exchange parts reply s =
               (Ok (exchange_spec parts reply (history s)).1, s') /\
    history s' = (exchange_spec parts reply (history s)).2 /\ wf s'.
Proof.
  intros Hwf.
  destruct (show_run parts s Hwf) as (s1 & Hshow & Hh1 & Hwf1 & Hu).
  unfold exchange_spec. destruct (shown parts (history s)) as [sent kept].
  simpl in *. rewrite exchange_show. unfold bindM at 1.
  rewrite Hshow. destruct (reply sent) as [txt |]; simpl; [| by exists s1].
  destruct (record_results_run s1 txt Hwf1 Hu) as (s2 & Hrec & Hh2 & Hwf2).
  destruct (truncate_run s2 Hwf2) as (s3 & Htr & Hh3 & Hwf3).
  exists s3. unfold bindM. rewrite Hrec, Htr.
  split; [done |]. split; [| done]. by rewrite Hh3, Hh2, Hh1.
Qed.

(** ** Runs of several iterations *)

(** An iteration is given by the screenshot it attaches and by what the
    model and the executor answer to the request. *)
Definition turn : Type := list part * (list message -> option string).

(** The requests sent by a sequence of iterations: those iterations of the
    loop that reach line 330.  An iteration that leaves the loop body
    earlier (speech being transcribed, waiting for the user) does not touch
    [messages]. *)
Fixpoint exchanges (turns : list turn) : ST memory (list (list message)) :=
  match turns with
  | [] => ret []
  | t :: turns' =>
      sent <~ exchange t.1 t.2 ;;
      rest <~ exchanges turns' ;;
      ret (sent :: rest)
  end.

Fixpoint exchanges_spec (turns : list turn) (hist : list message)
  : list (list message) * list message :=
  match turns with
  | [] => ([], hist)
  | t :: turns' =>
      let '(sent, kept) := exchange_spec t.1 t.2 hist in
      let '(rest, final) := exchanges_spec turns' kept in
      (sent :: rest, final)
  end.

(** C10: a run of any number of iterations from a well-formed memory
    never raises: the history is never empty and no address dangles; and
    the requests sent and the history left are those of the
    specification on values, in which a message is a value and nothing is
    shared. *)
Theorem exchanges_refine turns s :
  wf s ->
  exists s', exchanges turns s = (Ok (exchanges_spec turns (history s)).1, s') /\
    history s' = (exchanges_spec turns (history s)).2 /\ wf s'.
Proof.
  revert s. induction turns as [| t turns IH]; intros s Hwf.
  - by exists s.
  - destruct (exchange_run t.1 t.2 s Hwf) as (s1 & Hrun & Hh1 & Hwf1).
    destruct (IH s1 Hwf1) as (s2 & Hrest & Hh2 & Hwf2).
    exists s2. cbn [exchanges exchanges_spec]. unfold bindM.
    rewrite Hrun, Hrest. rewrite Hh1 in *.
    destruct (exchange_spec t.1 t.2 (history s)) as [sent kept].
    cbn [fst snd] in *. by destruct (exchanges_spec turns kept) as [rest final].
Qed.

(** ** The cut *)

Lemma cut_short msgs : length msgs <= max_messages -> cut msgs = msgs.
Proof.
  intros Hlen. unfold cut.
  by destruct (Nat.ltb_spec max_messages (length msgs)); [lia |].
Qed.

Lemma cut_long first rest :
  max_messages < length (first :: rest) ->
  cut (first :: rest) = first :: py_last_n 14 (first :: rest).
Proof.
  intros Hlen. unfold cut.
  by destruct (Nat.ltb_spec max_messages (length (first :: rest))); [| lia].
Qed.

Lemma cut_length msgs : length (cut msgs) <= max_messages.
Proof.
  unfold cut. destruct (Nat.ltb_spec max_messages (length msgs)); [| done].
  destruct msgs as [| first rest]; [simpl; lia |].
  simpl length at 1. rewrite py_last_n_length. unfold max_messages in *. lia.
Qed.

(** When the history is longer than 15 messages, [truncate] leaves
    exactly 15: the first message and the last 14, unchanged and in their
    order; a history of at most 15 messages is left as it is. *)
Theorem truncate_exact s :
  wf s ->
  exists s', truncate s = (Ok tt, s') /\ wf s' /\
    if decide (length (history s) <= max_messages) then
      history s' = history s
    else
      length (history s') = max_messages /\
      head (history s') = head (history s) /\
      py_last_n 14 (history s') = py_last_n 14 (history s).
Proof.
  intros Hwf. destruct (truncate_run s Hwf) as (s' & Hrun & Hh & Hwf').
  exists s'. split; [done |]. split; [done |]. rewrite Hh.
  case_decide as Hlen; [by apply cut_short |].
  destruct (history s) as [| first rest]; [simpl in Hlen; lia |].
  rewrite cut_long by lia. split_and!; [| done |].
  - cbn [length] in *. rewrite py_last_n_length. cbn [length].
    unfold max_messages in *. lia.
  - unfold max_messages in *. cbn [length] in Hlen.
    rewrite py_last_n_cons by (rewrite py_last_n_length; cbn [length]; lia).
    apply py_last_n_all. rewrite py_last_n_length. cbn [length]. lia.
Qed.

(** ** What the sharing does *)

Lemma shown_user parts before c :
  shown parts (before ++ [Message User c]) =
  (before ++ [Message User (c ++ parts ++ [Text hidden])],
   before ++ [Message User (c ++ parts ++ [Text hidden])]).
Proof. unfold shown. by rewrite last_snoc, removelast_last. Qed.

Lemma shown_assistant parts before c :
  shown parts (before ++ [Message Assistant c]) =
  ((before ++ [Message Assistant c]) ++ [Message User parts],
   (before ++ [Message Assistant c])
   ++ [Message User [MessagePart User [Text hidden]]]).
Proof. unfold shown. by rewrite last_snoc. Qed.

(** C34: when the history ends with a message of the user, the screenshot
    is put into that very message: the request carries it, followed by
    the marker that says it is hidden, and the history keeps both.  The
    copy [temp_messages] shares its dictionaries with [messages]. *)
Theorem screenshot_stays_in_history parts reply s before c :
  wf s -> history s = before ++ [Message User c] ->
  let now := Message User (c ++ parts ++ [Text hidden]) in
  reply (before ++ [now]) = None ->
  exists s', exchange parts reply s = (Ok (before ++ [now]), s') /\
    history s' = before ++ [now].
Proof.
  intros Hwf Hh now Hreply.
  destruct (exchange_run parts reply s Hwf) as (s' & Hrun & Hh' & _).
  exists s'. unfold exchange_spec in *. rewrite Hh, shown_user in *.
  fold now in Hrun, Hh'. by rewrite Hreply in *.
Qed.

(** When the history ends with a message of the assistant, the
    request is the history with a new message that holds the screenshot,
    and the history gets another message, which holds the marker inside
    a message where a part is expected. *)
Theorem screenshot_after_assistant parts reply s before c :
  wf s -> history s = before ++ [Message Assistant c] ->
  reply (history s ++ [Message User parts]) = None ->
  exists s', exchange parts reply s =
               (Ok (history s ++ [Message User parts]), s') /\
    history s' =
      history s ++ [Message User [MessagePart User [Text hidden]]].
Proof.
  intros Hwf Hh Hreply.
  destruct (exchange_run parts reply s Hwf) as (s' & Hrun & Hh' & _).
  exists s'. unfold exchange_spec in *. rewrite Hh, shown_assistant in *.
  by rewrite Hreply in *.
Qed.

(** Iterations whose replies hold no command leave the history as
    long as it is and pile their screenshots up in its last message: after
    them that message holds the parts of every one of them, each followed
    by the marker. *)
Theorem idle_iterations_pile_up turns s before c :
  wf s -> history s = before ++ [Message User c] ->
  Forall (fun t : turn => forall sent, t.2 sent = None) turns ->
  exists sents s', exchanges turns s = (Ok sents, s') /\ wf s' /\
    history s' =
      before ++
      [Message User (c ++ concat (map (fun t : turn => t.1 ++ [Text hidden]) turns))].
Proof.
  intros Hwf Hh Hidle. revert s c Hwf Hh.
  induction Hidle as [| t turns Ht _ IH]; intros s c Hwf Hh.
  - exists [], s. simpl. by rewrite app_nil_r.
  - destruct (exchange_run t.1 t.2 s Hwf) as (s1 & Hrun & Hh1 & Hwf1).
    unfold exchange_spec in *. rewrite Hh, shown_user, Ht in *. simpl in Hh1.
    destruct (IH s1 _ Hwf1 Hh1) as (sents & s' & Hrest & Hwf' & Hh').
    eexists _, s'. cbn [exchanges]. unfold bindM. rewrite Hrun, Hrest.
    split; [done |]. split; [done |]. rewrite Hh'. simpl.
    by rewrite <- !app_assoc.
Qed.

(** After the screenshot has been shown the history always ends with
    a message of the user, so the results of the commands always go into
    a new message of the assistant; the branch that would add them to an
    existing message is never taken. *)
Theorem results_get_their_own_message parts s :
  wf s ->
  exists sent s1, show parts s = (Ok sent, s1) /\
    forall results_text, exists s2,
      record_results results_text s1 = (Ok tt, s2) /\
      history s2 = history s1 ++ [Message Assistant [Text results_text]].
Proof.
  intros Hwf. destruct (show_run parts s Hwf) as (s1 & Hshow & _ & Hwf1 & Hu).
  eexists _, s1. split; [done |]. intros txt.
  destruct (record_results_run s1 txt Hwf1 Hu) as (s2 & Hrec & Hh2 & _).
  by exists s2.
Qed.

(** ** The length of the history *)

(** At most 15 messages, or 16 of which the last is the user's: what
    holds between two iterations. *)
Definition bounded (hist : list message) : Prop :=
  length hist <= max_messages \/
  (length hist = S max_messages /\ exists c, last hist = Some (Message User c)).

Lemma shown_bounded parts hist : bounded hist -> bounded (shown parts hist).2.
Proof.
  unfold bounded, max_messages. intros Hb.
  destruct (last hist) as [[[] c] |] eqn:Hlast.
  - apply last_Some in Hlast as [before ->]. rewrite shown_user. cbn [snd].
    rewrite last_snoc, !length_app in *. cbn [length] in *.
    destruct Hb as [Hb | [Hb _]]; [by left | right]. eauto.
  - apply last_Some in Hlast as [before ->]. rewrite shown_assistant.
    cbn [snd]. rewrite last_snoc, !length_app in *. cbn [length] in *.
    destruct Hb as [Hb | [_ [c' Hc']]]; [| done].
    destruct (decide (length before + 1 + 1 <= 15)); [by left | right].
    split; [lia | eauto].
  - apply last_None in Hlast as ->. left. simpl. lia.
Qed.

(** C40: between two iterations the history has at most 16 messages, and
    16 only when the last one is the user's; after an iteration whose
    reply held commands it has at most 15. *)
Theorem history_bounded parts reply s :
  wf s -> bounded (history s) ->
  exists sent s', exchange parts reply s = (Ok sent, s') /\
    bounded (history s') /\
    (is_Some (reply sent) -> length (history s') <= max_messages).
Proof.
  intros Hwf Hb.
  destruct (exchange_run parts reply s Hwf) as (s' & Hrun & Hh' & _).
  eexists _, s'. split; [done |]. rewrite Hh'. unfold exchange_spec.
  pose proof (shown_bounded parts _ Hb) as Hkept.
  destruct (shown parts (history s)) as [sent kept]. simpl in *.
  destruct (reply sent) as [txt |] eqn:Hreply; simpl.
  - split; [left |]; intros; apply cut_length.
  - split; [done |]. rewrite Hreply. by intros [? ?].
Qed.

(** ** The cut of the request *)

(** [generate] sends at most ten messages of the request behind the
    system prompt: the request itself when it has no more than ten, else
    its first message and its last nine. *)
Theorem limit_context_keeps msgs :
  length (limit_context msgs) <= 10 /\
  head (limit_context msgs) = head msgs /\
  py_last_n 9 (limit_context msgs) = py_last_n 9 msgs /\
  (length msgs <= 10 -> limit_context msgs = msgs).
Proof.
  unfold limit_context.
  destruct (Nat.ltb_spec 10 (length msgs)) as [Hlen | Hlen]; [| done].
  destruct msgs as [| first rest]; [simpl in Hlen; lia |].
  cbn [length app] in *. rewrite py_last_n_length. cbn [length].
  split_and!; [lia | done | | lia].
  rewrite py_last_n_cons by (rewrite py_last_n_length; cbn [length]; lia).
  apply py_last_n_all. rewrite py_last_n_length. cbn [length]. lia.
Qed.

(** ** Witnesses *)

Definition shot : list part := message_content "IMG" None.

Definition no_commands : list message -> option string := fun _ => None.

Definition some_commands : list message -> option string :=
  fun _ => Some "+ mouse_button: Clicked left mouse button".

(** The memory after the first iteration, whose reply held commands: the
    history ends with the message of the assistant. *)
Definition after_commands : memory :=
  {| heap := [Message User [Text "New task: t"]; Message Assistant [Text "+"]];
     messages := [0; 1] |}.

(** Seventeen messages. *)
Definition long_memory : memory :=
  {| heap := map (fun n => Message User [Text "m"]) (seq 0 17);
     messages := seq 0 17 |}.

Lemma wf_compute s :
  messages s <> [] ->
  bool_decide (Forall (fun a => a < length (heap s)) (messages s)) = true ->
  bool_decide (NoDup (messages s)) = true -> wf s.
Proof.
  intros ? ?%bool_decide_eq_true ?%bool_decide_eq_true. by split.
Qed.

Lemma exchanges_refine_witness :
  exists s',
    exchanges [(shot, some_commands); (shot, no_commands)] (initial_memory "t") =
      (Ok (exchanges_spec [(shot, some_commands); (shot, no_commands)]
             (history (initial_memory "t"))).1, s') /\
    history s' =
      (exchanges_spec [(shot, some_commands); (shot, no_commands)]
         (history (initial_memory "t"))).2 /\
    wf s'.
Proof.
  apply (exchanges_refine [(shot, some_commands); (shot, no_commands)]
           (initial_memory "t")).
  apply wf_initial.
Defined.

Lemma truncate_exact_witness :
  exists s', truncate long_memory = (Ok tt, s') /\ wf s' /\
    if decide (length (history long_memory) <= max_messages) then
      history s' = history long_memory
    else
      length (history s') = max_messages /\
      head (history s') = head (history long_memory) /\
      py_last_n 14 (history s') = py_last_n 14 (history long_memory).
Proof. apply (truncate_exact long_memory). by apply wf_compute. Defined.

Lemma screenshot_stays_in_history_witness :
  exists s',
    exchange shot no_commands (initial_memory "t") =
      (Ok ([] ++ [Message User ([Text "New task: t"] ++ shot ++ [Text hidden])]),
       s') /\
    history s' =
      [] ++ [Message User ([Text "New task: t"] ++ shot ++ [Text hidden])].
Proof.
  apply (screenshot_stays_in_history shot no_commands (initial_memory "t") []
           [Text "New task: t"]); [apply wf_initial | reflexivity..].
Defined.

Lemma screenshot_after_assistant_witness :
  exists s',
    exchange shot no_commands after_commands =
      (Ok (history after_commands ++ [Message User shot]), s') /\
    history s' =
      history after_commands ++ [Message User [MessagePart User [Text hidden]]].
Proof.
  apply (screenshot_after_assistant shot no_commands after_commands
           [Message User [Text "New task: t"]] [Text "+"]);
    [by apply wf_compute | reflexivity..].
Defined.

Lemma idle_iterations_pile_up_witness :
  exists sents s',
    exchanges [(shot, no_commands); (shot, no_commands)] (initial_memory "t") =
      (Ok sents, s') /\ wf s' /\
    history s' =
      [] ++ [Message User ([Text "New task: t"] ++
               concat (map (fun t : turn => t.1 ++ [Text hidden])
                         [(shot, no_commands); (shot, no_commands)]))].
Proof.
  apply (idle_iterations_pile_up [(shot, no_commands); (shot, no_commands)]
           (initial_memory "t") [] [Text "New task: t"]);
    [apply wf_initial | reflexivity | by repeat constructor].
Defined.

Lemma results_get_their_own_message_witness :
  exists sent s1, show shot after_commands = (Ok sent, s1) /\
    forall results_text, exists s2,
      record_results results_text s1 = (Ok tt, s2) /\
      history s2 = history s1 ++ [Message Assistant [Text results_text]].
Proof.
  apply (results_get_their_own_message shot after_commands).
  by apply wf_compute.
Defined.

Lemma history_bounded_witness :
  exists sent s', exchange shot some_commands after_commands = (Ok sent, s') /\
    bounded (history s') /\
    (is_Some (some_commands sent) -> length (history s') <= max_messages).
Proof.
  apply (history_bounded shot some_commands after_commands);
    [by apply wf_compute | left; vm_compute; lia].
Defined.

(** Eight iterations with commands and one without: sixteen messages. *)
Example history_of_sixteen :
  let turns := replicate 8 (shot, some_commands) ++ [(shot, no_commands)] in
  length (history (exchanges turns (initial_memory "t")).2) = 16.
Proof. by vm_compute. Qed.

Definition is_image (p : part) : bool :=
  match p with ImageUrl _ => true | _ => false end.

(** Three iterations without commands: three screenshots in the first
    message of the history. *)
Example three_screenshots_kept :
  let turns := replicate 3 (shot, no_commands) in
  map (fun m => length (filter is_image (content m)))
    (history (exchanges turns (initial_memory "t")).2) = [3].
Proof. by vm_compute. Qed.
