(* ===== verification/Images.v ===== *)
(** * Images: the screenshot of the loop and the encoding of pictures

    src/services/screenshot_utils.py: [save_screenshot], the picture the
    agent loop sends to the model, resized to a height of 512 with a red
    dot at the pointer.

    src/services/image_utils.py: [convert_to_base64] and its cache
    [_base64_cache], which maps a path to the time of the encoding, the
    modification time of the file then, and the text.

    What the platform is asked is the record [disk]: whether a file is
    there, its modification time, what PIL makes of it and what its bytes
    are.  The pixels are not modelled: a picture is its size and the box
    of the dot, an encoding is the text the platform gives.  Numbers are
    exact rationals; [int] cuts towards zero. *)

From S2P Require Import Prelude PyValue Effects.
From Stdlib Require Import QArith.
From stdpp Require Import gmap.
#[local] Close Scope Q_scope.
#[local] Open Scope exec_scope.

(** ** The screenshot of the loop *)

(** [int(q)] *)
Definition int_q (q : Q) : Z := Z.quot (Qnum q) (Zpos (Qden q)).

(** [a / b] on numbers. *)
Definition py_div (a b : Z) : result Q :=
  if bool_decide (b = 0%Z) then Raise (Exception "division by zero")
  else Ok (inject_Z a / inject_Z b)%Q.

Definition new_height : Z := 512.

(** What is written to screenshots/fullscreen.jpg: the size of the
    picture and the box of the ellipse drawn on it. *)
Record fullscreen : Type := Fullscreen {
  picture_size : Z * Z;
  dot : Z * Z * Z * Z;
}.

(** [Image.resize]: PIL refuses a side that is not positive. *)
Definition resize (new_size : Z * Z) : result (Z * Z) :=
  if bool_decide (0 < new_size.1)%Z && bool_decide (0 < new_size.2)%Z
  then Ok new_size
  else Raise (Exception "height and width must be > 0").

(** [save_screenshot()]: [screenshot] is the size of what
    [pyautogui.screenshot()] gives, or what it raises; [position] is
    [pyautogui.position()]. *)
Definition save_screenshot (screenshot : result (Z * Z)) (position : Z * Z)
  : result fullscreen :=
  (fullscreen_pil <- screenshot ;;
   let original_width := fullscreen_pil.1 in
   let original_height := fullscreen_pil.2 in
   scale <- py_div new_height original_height ;;
   let new_width := int_q (inject_Z original_width * scale) in
   resized_fullscreen <- resize (new_width, new_height) ;;
   let cursor_x := position.1 in
   let cursor_y := position.2 in
   scale_x <- py_div new_width original_width ;;
   let resized_cursor_x := int_q (inject_Z cursor_x * scale_x) in
   scale_y <- py_div new_height original_height ;;
   let resized_cursor_y := int_q (inject_Z cursor_y * scale_y) in
   Ok {| picture_size := resized_fullscreen;
         dot := (resized_cursor_x - 5, resized_cursor_y - 5,
                 resized_cursor_x + 5, resized_cursor_y + 5)%Z |})%py.

(** The centre of the dot. *)
Definition dot_centre (f : fullscreen) : Z * Z :=
  let '(x0, y0, x1, y1) := dot f in ((x0 + x1) / 2, (y0 + y1) / 2)%Z.

(** ** The extension of a path *)

(** [p.rfind(c)], for the characters [P] holds of. *)
Fixpoint rfind (P : ascii -> bool) (p : text) : option nat :=
  match p with
  | [] => None
  | c :: p' =>
      match rfind P p' with
      | Some i => Some (S i)
      | None => if P c then Some 0 else None
      end
  end.

Definition is_dot (c : ascii) : bool := bool_decide (c = "."%char).

(** [os.path.splitext(p)]: the extension starts at the last dot, when
    that dot is in the last component of the path and not among the dots
    the component begins with. *)
Definition splitext (is_sep : ascii -> bool) (p : text) : text * text :=
  match rfind is_dot p with
  | None => (p, [])
  | Some dotIndex =>
      let filenameIndex :=
        match rfind is_sep p with Some sepIndex => S sepIndex | None => 0 end in
      if bool_decide (filenameIndex <= dotIndex)
         && existsb (fun c => negb (is_dot c)) (slice filenameIndex dotIndex p)
      then (take dotIndex p, drop dotIndex p)
      else (p, [])
  end.

(** [c.lower()] on the letters of ASCII; no other character becomes one
    of the letters of "jpeg", "jpg" or "png". *)
Definition ascii_lower (c : ascii) : ascii :=
  let n := nat_of_ascii c in
  if (65 <=? n) && (n <=? 90) then ascii_of_nat (n + 32) else c.

Inductive codec : Type := JPEG | PNG.

#[export] Instance codec_eq_dec : EqDecision codec.
Proof. solve_decision. Defined.

(** Lines 42-50 of image_utils.py: the format the picture is saved in. *)
Definition codec_of (is_sep : ascii -> bool) (path : string) : codec :=
  let format :=
    filter (fun c => c <> "."%char)
      (ascii_lower <$> (splitext is_sep (text_of path)).2) in
  let format :=
    if bool_decide (format ∈ [text_of "jpeg"; text_of "jpg"; text_of "png"])
    then format else text_of "jpeg" in
  if bool_decide (format ∈ [text_of "jpeg"; text_of "jpg"]) then JPEG else PNG.

(** ** The encoding and its cache *)

(** What the platform answers. *)
Record disk : Type := Disk {
  separator : ascii -> bool;                  (* [os.sep] and [os.altsep] *)
  exists_file : string -> bool;               (* [os.path.exists] *)
  getmtime : string -> result Q;              (* [os.path.getmtime] *)
  (* the base64 text of the picture of the file, saved again in a format *)
  reencoded : codec -> string -> result string;
  (* the base64 text of the bytes of the file *)
  raw_base64 : string -> result string;
}.

(** [cache_entry]: when the text was made, the modification time of the
    file then, and the text. *)
Record entry : Type := Entry {
  cache_time : Q;
  cache_mtime : Q;
  cached_string : string;
}.

(** [_base64_cache] *)
Abbreviation base64_cache := (gmap string entry).

Definition base64_cache_ttl : Q := 0.5.

(** Line 32: the entry is of this state of the file, and fresh. *)
Definition valid_entry (file_mtime now : Q) (e : entry) : bool :=
  Qeq_bool file_mtime (cache_mtime e)
  && negb (Qle_bool base64_cache_ttl (now - cache_time e)).

(** Lines 26-33: the text of the cache that is served. *)
Definition cached (file_mtime now : Q) (path : string) (cache : base64_cache)
  : option string :=
  cache_entry ← cache !! path;
  if valid_entry file_mtime now cache_entry then Some (cached_string cache_entry) else None.

(** [convert_to_base64(path)]: [now] is the [time.time()] of line 32,
    [later] that of line 59. *)
Definition convert_to_base64 (d : disk) (now later : Q) (path : string)
  : ST base64_cache string :=
  if negb (exists_file d path) then ret ""
  else
    file_mtime <~ lift (getmtime d path) ;;
    cache <~ get ;;
    match cached file_mtime now path cache with
    | Some cached_string => ret cached_string
    | None =>
        match reencoded d (codec_of (separator d) path) path with
        | Ok base64_string =>
            modify (insert path (Entry later file_mtime base64_string)) ;;;
            ret base64_string
        | Raise _ =>
            match raw_base64 d path with
            | Ok base64_string => ret base64_string
            | Raise _ => ret ""
            end
        end
    end.

(** What the loop of main.py has in [fullscreen_img] after the thread of
    [convert_screenshots]: the text, or [None] when the thread died of an
    exception; and how the f-string of line 331 prints it. *)
Definition convert_screenshots (d : disk) (now later : Q)
  : base64_cache -> option string * base64_cache :=
  fun cache =>
    match convert_to_base64 d now later "screenshots/fullscreen.jpg" cache with
    | (Ok base64_string, cache) => (Some base64_string, cache)
    | (Raise _, cache) => (None, cache)
    end.

Definition str_or_None (fullscreen_img : option string) : string :=
  default "None" fullscreen_img.

(** * The screenshot *)

Lemma int_q_scale a c b :
  (0 < b)%Z -> int_q (inject_Z a * (inject_Z c / inject_Z b)) = (a * c ÷ b)%Z.
Proof.
  intros Hb. destruct b as [| b' |]; try lia.
  unfold int_q, Qdiv, Qinv, Qmult, inject_Z. simpl. f_equal; lia.
Qed.

Lemma py_div_pos a b :
  (0 < b)%Z -> py_div a b = Ok (inject_Z a / inject_Z b)%Q.
Proof. intros Hb. unfold py_div. by rewrite bool_decide_eq_false_2 by lia. Qed.

(** The width of the picture, and where the pointer falls in it. *)
Definition resized_width (original_width original_height : Z) : Z :=
  (original_width * new_height ÷ original_height)%Z.

Definition resized_cursor (original_width original_height : Z) (position : Z * Z)
  : Z * Z :=
  ((position.1 * resized_width original_width original_height ÷ original_width)%Z,
   (position.2 * new_height ÷ original_height)%Z).

Lemma resized_width_bounds W H :
  (0 < H)%Z -> (0 <= W)%Z ->
  (resized_width W H * H <= new_height * W < (resized_width W H + 1) * H)%Z.
Proof.
  intros HH HW. unfold resized_width, new_height.
  rewrite Z.quot_div_nonneg by lia.
  pose proof (Z.mul_div_le (W * 512) H HH).
  pose proof (Z.mul_succ_div_gt (W * 512) H HH). lia.
Qed.

Lemma resized_width_pos W H :
  (0 < H)%Z -> (H <= new_height * W)%Z -> (0 < resized_width W H)%Z.
Proof.
  intros HH HW. unfold resized_width, new_height in *.
  rewrite Z.quot_div_nonneg by lia. apply Z.div_str_pos. lia.
Qed.

(** A coordinate within a side stays within the resized side. *)
Lemma scaled_within c side new_side :
  (0 <= c < side)%Z -> (0 < new_side)%Z ->
  (0 <= c * new_side ÷ side < new_side)%Z.
Proof.
  intros Hc Hn. rewrite Z.quot_div_nonneg by lia. split.
  - apply Z.div_pos; lia.
  - apply Z.div_lt_upper_bound; nia.
Qed.

(** [save_screenshot] on a screen that is not flatter than 512 to 1. *)
Lemma save_screenshot_Ok W H position :
  (0 < W)%Z -> (0 < H)%Z -> (H <= new_height * W)%Z ->
  save_screenshot (Ok (W, H)) position
  = Ok {| picture_size := (resized_width W H, new_height);
          dot := let '(x, y) := resized_cursor W H position in
                 (x - 5, y - 5, x + 5, y + 5)%Z |}.
Proof.
  intros HW HH Hflat. unfold save_screenshot. simpl.
  rewrite !(py_div_pos _ H) by done. simpl.
  rewrite !int_q_scale by done. fold (resized_width W H).
  unfold resize. simpl.
  rewrite bool_decide_eq_true_2 by (by apply resized_width_pos). simpl.
  rewrite (py_div_pos _ W) by done. simpl. by rewrite int_q_scale.
Qed.

Lemma dot_centre_box x y :
  dot_centre {| picture_size := (0, 0)%Z; dot := (x - 5, y - 5, x + 5, y + 5)%Z |} = (x, y).
Proof.
  unfold dot_centre. simpl. f_equal.
  - replace (x - 5 + (x + 5))%Z with (x * 2)%Z by lia. by rewrite Z.div_mul.
  - replace (y - 5 + (y + 5))%Z with (y * 2)%Z by lia. by rewrite Z.div_mul.
Qed.

(** C26: the screenshot of the loop is 512 high and as wide as the
    proportions of the screen ask, within a pixel, and the red dot is
    centred on a pixel of the picture whenever the pointer is on the
    screen. *)
Theorem save_screenshot_dot_in_picture W H position :
  (0 < H)%Z -> (H <= new_height * W)%Z ->
  (0 <= position.1 < W)%Z -> (0 <= position.2 < H)%Z ->
  exists f,
    save_screenshot (Ok (W, H)) position = Ok f /\
    (picture_size f).2 = new_height /\
    ((picture_size f).1 * H <= new_height * W < ((picture_size f).1 + 1) * H)%Z /\
    (0 <= (dot_centre f).1 < (picture_size f).1)%Z /\
    (0 <= (dot_centre f).2 < (picture_size f).2)%Z.
Proof.
  intros HH Hflat Hx Hy. eexists. split; [apply save_screenshot_Ok; lia |].
  unfold dot_centre, resized_cursor. simpl.
  replace (_ - 5 + (_ + 5))%Z with ((position.1 * resized_width W H ÷ W) * 2)%Z by lia.
  replace (_ - 5 + (_ + 5))%Z with ((position.2 * new_height ÷ H) * 2)%Z by lia.
  rewrite !Z.div_mul by done.
  split; [done |]. split; [apply resized_width_bounds; lia |].
  split; apply scaled_within; try done. apply resized_width_pos; lia.
Qed.

(** A capture that raises, or a screenshot without height, makes
    [save_screenshot] raise. *)
Lemma save_screenshot_Raise e position :
  save_screenshot (Raise e) position = Raise e /\
  forall W, save_screenshot (Ok (W, 0%Z)) position
            = Raise (Exception "division by zero").
Proof. done. Qed.

(** * The extension *)

Lemma rfind_lt P p i : rfind P p = Some i -> i < length p.
Proof.
  revert i. induction p as [| c p IH]; intros i; simpl; [done |].
  destruct (rfind P p) as [j |].
  - intros [= <-]. specialize (IH j eq_refl). lia.
  - destruct (P c); intros [= <-]. lia.
Qed.

Lemma rfind_lookup P p i : rfind P p = Some i -> exists c, p !! i = Some c /\ P c = true.
Proof.
  revert i. induction p as [| c p IH]; intros i; simpl; [done |].
  destruct (rfind P p) as [j |].
  - intros [= <-]. by apply IH.
  - destruct (P c) eqn:Hc; intros [= <-]. by exists c.
Qed.

(** Nothing after the place [rfind] gives satisfies [P]. *)
Lemma rfind_last P p i : rfind P p = Some i -> forallb (fun c => negb (P c)) (drop (S i) p) = true.
Proof.
  revert i. induction p as [| c p IH]; intros i; simpl; [done |].
  destruct (rfind P p) as [j |] eqn:Hj.
  - intros [= <-]. by apply IH.
  - destruct (P c); intros [= <-]. simpl. rewrite drop_0.
    clear IH. induction p as [| b p IH]; simpl in *; [done |].
    destruct (rfind P p); [done |]. destruct (P b); [done |]. by apply IH.
Qed.

(** The two parts [splitext] gives make up the path. *)
Lemma splitext_join is_sep p : (splitext is_sep p).1 ++ (splitext is_sep p).2 = p.
Proof.
  unfold splitext. destruct (rfind is_dot p); simpl; [| by rewrite app_nil_r].
  case_match; simpl; [apply take_drop | by rewrite app_nil_r].
Qed.

(** An extension is empty, or a dot and then no dot and no separator
    of the path. *)
Lemma splitext_ext is_sep p :
  (splitext is_sep p).2 = [] \/
  exists ext, (splitext is_sep p).2 = "."%char :: ext /\
              forallb (fun c => negb (is_dot c)) ext = true.
Proof.
  unfold splitext. destruct (rfind is_dot p) as [i |] eqn:Hi; simpl; [| by left].
  case_match; simpl; [| by left]. right.
  destruct (rfind_lookup _ _ _ Hi) as (c & Hc & Hdot).
  apply bool_decide_eq_true in Hdot as ->.
  exists (drop (S i) p). split; [by apply drop_S | by apply rfind_last].
Qed.

(** * The encoding *)

Section Convert.
Context (d : disk) (now later : Q) (path : string) (cache : base64_cache).

#[local] Abbreviation codec_here := (codec_of (separator d) path).

(** How a call of [convert_to_base64] ends. *)
Inductive converts : result string * base64_cache -> Prop :=
| no_file :
    exists_file d path = false -> converts (Ok "", cache)
| no_mtime e :
    exists_file d path = true -> getmtime d path = Raise e ->
    converts (Raise e, cache)
| from_cache file_mtime cache_entry :
    exists_file d path = true -> getmtime d path = Ok file_mtime ->
    cache !! path = Some cache_entry ->
    (file_mtime == cache_mtime cache_entry)%Q ->
    (now - cache_time cache_entry < base64_cache_ttl)%Q ->
    converts (Ok (cached_string cache_entry), cache)
| encoded file_mtime base64_string :
    exists_file d path = true -> getmtime d path = Ok file_mtime ->
    cached file_mtime now path cache = None ->
    reencoded d codec_here path = Ok base64_string ->
    converts (Ok base64_string, <[path := Entry later file_mtime base64_string]> cache)
| plain file_mtime e base64_string :
    exists_file d path = true -> getmtime d path = Ok file_mtime ->
    cached file_mtime now path cache = None ->
    reencoded d codec_here path = Raise e ->
    raw_base64 d path = Ok base64_string ->
    converts (Ok base64_string, cache)
| nothing file_mtime e e2 :
    exists_file d path = true -> getmtime d path = Ok file_mtime ->
    cached file_mtime now path cache = None ->
    reencoded d codec_here path = Raise e -> raw_base64 d path = Raise e2 ->
    converts (Ok "", cache).

Lemma valid_entry_iff file_mtime e :
  valid_entry file_mtime now e = true <->
  (file_mtime == cache_mtime e)%Q /\ (now - cache_time e < base64_cache_ttl)%Q.
Proof.
  unfold valid_entry. rewrite andb_true_iff, negb_true_iff, Qeq_bool_iff.
  rewrite <- not_true_iff_false, Qle_bool_iff. split; intros [? ?]; split; try done.
  - by apply Qnot_le_lt.
  - by apply Qlt_not_le.
Qed.

Lemma cached_Some file_mtime s :
  cached file_mtime now path cache = Some s <->
  exists e, cache !! path = Some e /\ valid_entry file_mtime now e = true /\
            s = cached_string e.
Proof.
  unfold cached. destruct (cache !! path) as [e |]; simpl.
  - destruct (valid_entry file_mtime now e) eqn:He; split.
    + intros [= <-]. exists e. done.
    + intros (? & [= <-] & _ & ->). done.
    + done.
    + intros (? & [= <-] & ? & _). congruence.
  - split; [done |]. intros (? & ? & _). done.
Qed.

(** C25: [convert_to_base64] ends in one of six ways.  It gives the empty
    text for a file that is not there; it raises what [os.path.getmtime]
    raises; it serves the text of the cache when the entry has the
    modification time of the file and is younger than half a second; it
    encodes the picture and stores the text; when PIL fails it gives the
    bytes of the file as they are and stores nothing; when that fails too
    it gives the empty text. *)
Theorem convert_to_base64_cases :
  converts (convert_to_base64 d now later path cache).
Proof.
  unfold convert_to_base64.
  destruct (exists_file d path) eqn:He; simpl; [| by constructor].
  unfold bindM, lift, get. destruct (getmtime d path) as [m | e] eqn:Hm;
    [| by constructor].
  destruct (cached m now path cache) as [s |] eqn:Hc.
  - apply cached_Some in Hc as (e & Hl & [? ?]%valid_entry_iff & ->).
    by econstructor.
  - destruct (reencoded d codec_here path) as [s | e] eqn:Hr; [by econstructor |].
    destruct (raw_base64 d path) eqn:Hraw; by econstructor.
Qed.

End Convert.

(** The cache changes by the entry of the path at most. *)
Lemma convert_to_base64_frame d now later path cache other :
  other <> path ->
  (convert_to_base64 d now later path cache).2 !! other = cache !! other.
Proof.
  intros Ho. unfold convert_to_base64, bindM, lift, get, modify, ret.
  repeat case_match; simplify_eq; cbn [snd]; try done.
  by rewrite lookup_insert_ne.
Qed.

Section Calls.
Context (d : disk) (now later : Q) (path : string) (cache : base64_cache).
Context (file_mtime : Q).
Context (Hexists : exists_file d path = true).
Context (Hmtime : getmtime d path = Ok file_mtime).

(** A call that finds a valid entry. *)
Lemma convert_to_base64_hit e :
  cache !! path = Some e -> valid_entry file_mtime now e = true ->
  convert_to_base64 d now later path cache = (Ok (cached_string e), cache).
Proof.
  intros Hl Hv. unfold convert_to_base64, bindM, lift, get.
  rewrite Hexists, Hmtime. simpl.
  assert (cached file_mtime now path cache = Some (cached_string e)) as ->; [| done].
  apply cached_Some. by exists e.
Qed.

(** A call that encodes the picture. *)
Lemma convert_to_base64_miss s :
  cached file_mtime now path cache = None ->
  reencoded d (codec_of (separator d) path) path = Ok s ->
  convert_to_base64 d now later path cache
  = (Ok s, <[path := Entry later file_mtime s]> cache).
Proof.
  intros Hc Hr. unfold convert_to_base64, bindM, lift, get.
  rewrite Hexists, Hmtime. simpl. by rewrite Hc, Hr.
Qed.

End Calls.

(** C30: what was encoded is served.  After a call that encoded the
    picture, a call for the same path that comes less than half a second
    after the first ended, and finds the file with the modification time
    it had, gives the text of the first call and leaves the cache as it
    is: whatever the file holds by then. *)
Theorem encoded_then_served d now later path cache s file_mtime d' now' later' m' :
  exists_file d path = true -> getmtime d path = Ok file_mtime ->
  cached file_mtime now path cache = None ->
  reencoded d (codec_of (separator d) path) path = Ok s ->
  exists_file d' path = true -> getmtime d' path = Ok m' ->
  (m' == file_mtime)%Q -> (now' - later < base64_cache_ttl)%Q ->
  (convert_to_base64 d now later path ;;; convert_to_base64 d' now' later' path)
    cache
  = (Ok s, <[path := Entry later file_mtime s]> cache).
Proof.
  intros He Hm Hc Hr He' Hm' Heq Ht. unfold bindM at 1.
  rewrite (convert_to_base64_miss d now later path cache file_mtime He Hm s Hc Hr).
  apply (convert_to_base64_hit d' now' later' path _ m' He' Hm'
           (Entry later file_mtime s)); [by rewrite lookup_insert_eq |].
  by apply valid_entry_iff.
Qed.

(** * Examples *)

Definition slash (c : ascii) : bool := bool_decide (c = "/"%char).

Example splitext_examples :
  splitext slash (text_of "screenshots/fullscreen.jpg")
  = (text_of "screenshots/fullscreen", text_of ".jpg") /\
  splitext slash (text_of "shots.old/grid") = (text_of "shots.old/grid", []) /\
  splitext slash (text_of "shots/.png") = (text_of "shots/.png", []) /\
  splitext slash (text_of "a.tar.PNG") = (text_of "a.tar", text_of ".PNG").
Proof. by vm_compute. Qed.

(** A picture is saved as PNG when its extension is png in any case of
    the letters, and as JPEG otherwise: whatever the file holds. *)
Example codec_of_examples :
  codec_of slash "screenshots/fullscreen.jpg" = JPEG /\
  codec_of slash "screenshots/grid.PNG" = PNG /\
  codec_of slash "screenshots/grid.bmp" = JPEG /\
  codec_of slash "screenshots/.png" = JPEG.
Proof. by vm_compute. Qed.

(** A disk with the screenshot of the loop on it, written at [mtime],
    which PIL encodes as [text]. *)
Definition disk_with (mtime : Q) (text : string) : disk :=
  {| separator := slash;
     exists_file := fun path => bool_decide (path = "screenshots/fullscreen.jpg");
     getmtime := fun _ => Ok mtime;
     reencoded := fun c _ => match c with
                             | JPEG => Ok text
                             | PNG => Raise (Exception "not a PNG")
                             end;
     raw_base64 := fun _ => Ok "cmF3" |}.

(** A screen of 1920 by 1080 with the pointer in its middle. *)
Lemma save_screenshot_dot_in_picture_witness :
  exists f,
    save_screenshot (Ok (1920, 1080)%Z) (960, 540)%Z = Ok f /\
    (picture_size f).2 = new_height /\
    ((picture_size f).1 * 1080 <= new_height * 1920 < ((picture_size f).1 + 1) * 1080)%Z /\
    (0 <= (dot_centre f).1 < (picture_size f).1)%Z /\
    (0 <= (dot_centre f).2 < (picture_size f).2)%Z.
Proof.
  apply (save_screenshot_dot_in_picture 1920 1080 (960, 540)%Z);
    unfold new_height; simpl; lia.
Defined.

Example save_screenshot_full_hd :
  save_screenshot (Ok (1920, 1080)%Z) (960, 540)%Z
  = Ok {| picture_size := (910, 512)%Z; dot := (450, 251, 460, 261)%Z |}.
Proof. by vm_compute. Qed.

(** The picture written at time 10 is encoded at 10.1; at 10.4 the file
    has been written again within the same tick of the clock of the
    files, and the text of the first picture is served. *)
Lemma encoded_then_served_witness :
  (convert_to_base64 (disk_with 10 "Zmlyc3Q=") 10.1 10.2 "screenshots/fullscreen.jpg" ;;;
   convert_to_base64 (disk_with 10 "c2Vjb25k") 10.4 10.5 "screenshots/fullscreen.jpg")
    ∅
  = (Ok "Zmlyc3Q=", {["screenshots/fullscreen.jpg" := Entry 10.2 10 "Zmlyc3Q="]}).
Proof.
  apply (encoded_then_served (disk_with 10 "Zmlyc3Q=") 10.1 10.2
           "screenshots/fullscreen.jpg" ∅ "Zmlyc3Q=" 10
           (disk_with 10 "c2Vjb25k") 10.4 10.5 10); done.
Defined.
