(* ===== verification/Remote.v ===== *)
(** * Remote: the questions put to the model

    src/services/openrouter_api.py, lines 18-35: what [generate] does
    before the cut of the context and the call, which file History has.
    The system prompt is read from ./prompts/<name>.md the first time a
    name is used and kept in [_prompt_cache]; the replacements of
    [replace_dict] are applied to it.

    src/services/find_ui.py, lines 13-70 and 166-193: the two questions a
    search for an element puts, [llm_choose_best_grid_cell] and the
    request of [fallback_llm_coordinate_detection], and
    [encode_image_to_base64].  [search_env] makes of them the answers
    the search of file FindUi is given.

    What is outside the program is the record [outside]: the text of a
    file, the base64 text of its bytes, and the API. *)

From S2P Require Import Prelude PyValue Effects FindUi History.
From stdpp Require Import gmap pretty.
#[local] Open Scope string_scope.
#[local] Open Scope list_scope.
#[local] Open Scope exec_scope.

(** ** The prompt *)

Record outside : Type := Outside {
  (* [open(path, encoding='utf8').read()] *)
  read_text : string -> result string;
  (* [base64.b64encode(open(path, 'rb').read()).decode('utf-8')] *)
  read_base64 : string -> result string;
  (* [openrouter_client.chat.completions.create], [None] when it raises *)
  api : string * list message -> option string;
}.

(** [_prompt_cache] *)
Abbreviation prompt_cache := (gmap string string).

Definition prompt_path (prompt : string) : string :=
  "./prompts/" +:+ prompt +:+ ".md".

(** Lines 22-30: the prompt of the cache, or of the file. *)
Definition load_prompt (o : outside) (prompt : string)
  : ST prompt_cache string :=
  cache <~ get ;;
  match cache !! prompt_path prompt with
  | Some system_message => ret system_message
  | None =>
      system_message <~ lift (read_text o (prompt_path prompt)) ;;
      modify (insert (prompt_path prompt) system_message) ;;;
      ret system_message
  end.

(** [s.replace(old, new)] for an [old] that is not empty: [skip] is what
    is left of an occurrence that has been replaced. *)
Fixpoint replace_from (skip : nat) (old new s : text) : text :=
  match s with
  | [] => []
  | c :: s' =>
      match skip with
      | S skip' => replace_from skip' old new s'
      | O =>
          if bool_decide (old `prefix_of` s)
          then new ++ replace_from (length old - 1) old new s'
          else c :: replace_from 0 old new s'
      end
  end.

(** [s.replace(old, new)]: an empty [old] is found before every
    character and at the end. *)
Definition py_replace (old new s : string) : string :=
  let '(old, new, s) := (text_of old, text_of new, text_of s) in
  String.string_of_list_ascii
    match old with
    | [] => new ++ (s ≫= fun c => c :: new)
    | _ :: _ => replace_from 0 old new s
    end.

(** Lines 32-35: a dictionary is the list of its items, in the order of
    their insertion. *)
Definition replacements (replace_dict : option (list (string * string)))
  (system_message : string) : string :=
  match replace_dict with
  | None | Some [] => system_message
  | Some items =>
      foldl (fun system_message item =>
               if bool_decide (item.2 = "") then system_message
               else py_replace item.1 item.2 system_message)
        system_message items
  end.

(** [generate(messages, prompt, replace_dict)], whole. *)
Definition generate_with_prompt (o : outside) (messages : list message)
  (prompt : string) (replace_dict : option (list (string * string)))
  : ST prompt_cache string :=
  system_message <~ load_prompt o prompt ;;
  ret (generate (api o) (replacements replace_dict system_message) messages).

(** ** The questions of a search *)

(** [encode_image_to_base64(image_path, pil_image)]: [jpeg] is what the
    picture makes as a JPEG, when a picture is given. *)
Definition encode_image_to_base64 (o : outside) (image_path : option string)
  (pil_image : option (result string)) : result string :=
  match pil_image, image_path with
  | Some jpeg, _ => jpeg
  | None, Some (String _ _ as image_path) => read_base64 o image_path
  | None, _ =>
      Raise (Exception "Either image_path or pil_image must be provided")
  end.

Definition quote : string := String (ascii_of_nat 34) EmptyString.

Definition image_url (base64 : string) : part :=
  ImageUrl ("data:image/jpeg;base64," +:+ base64).

(** Lines 53-64: the question that is sent, a text and the picture of
    the grid. *)
Definition cell_question (element_description grid_image_base64 : string)
  : list message :=
  let prompt_text :=
    "Find grid cell with element " +:+ quote +:+ element_description +:+ quote in
  [Message User [Text prompt_text; image_url grid_image_base64]].

(** [llm_choose_best_grid_cell]: both pictures are read, the picture of
    the grid is sent. *)
Definition llm_choose_best_grid_cell (o : outside) (element_description : string)
  (grid_image_path original_image_path : string) : ST prompt_cache string :=
  grid_image_base64 <~ lift (read_base64 o grid_image_path) ;;
  original_image_base64 <~ lift (read_base64 o original_image_path) ;;
  let messages := cell_question element_description grid_image_base64 in
  generate_with_prompt o messages "locate_ui_element" None.

(** Lines 166-193 of find_ui.py: the question of
    [fallback_llm_coordinate_detection]. *)
Definition ask_coordinates (o : outside) (image_path element_description : string)
  (screen_dimensions : Z * Z) : ST prompt_cache string :=
  img_base64 <~ lift (read_base64 o image_path) ;;
  let prompt_text :=
    "Look at this screenshot and find the exact pixel coordinates (x, y) of the center of "
    +:+ "this UI element: '" +:+ element_description
    +:+ "'. The screen resolution is " +:+ pretty screen_dimensions.1
    +:+ "x" +:+ pretty screen_dimensions.2 +:+ ". "
    +:+ "Respond with ONLY the x and y coordinates in this format: 'x: X, y: Y'" in
  let messages := [Message User [Text prompt_text; image_url img_base64]] in
  generate_with_prompt o messages "locate_ui_element" None.

(** The answers of a search, as file FindUi takes them: the paths are
    those of [get_ui_element_coordinates], and the second question is put
    with the prompts the first has left. *)
Definition search_env (o : outside) (stale : bool) (files : option exn)
  (r : Cache.readings) (screenshot_path : option string)
  (element_description : string) (screen_dimensions : Z * Z)
  (prompts : prompt_cache) : env :=
  let grid_path := "screenshots/grid.jpg" in
  let fullscreen_path := default "screenshots/fullscreen.jpg" screenshot_path in
  let first :=
    llm_choose_best_grid_cell o element_description grid_path fullscreen_path
      prompts in
  let second :=
    ask_coordinates o fullscreen_path element_description screen_dimensions
      first.2 in
  {| e_stale := stale; e_files := files; e_readings := r;
     e_cell_answer := (a <- first.1 ;; Ok (text_of a))%py;
     e_coordinates_answer := (a <- second.1 ;; Ok (text_of a))%py |}.

(** * The prompt cache *)

Section Prompt.
Context (o : outside) (prompt : string) (cache : prompt_cache).

Lemma load_prompt_cached system_message :
  cache !! prompt_path prompt = Some system_message ->
  load_prompt o prompt cache = (Ok system_message, cache).
Proof. intros Hc. unfold load_prompt, bindM, get. by rewrite Hc. Qed.

Lemma load_prompt_read system_message :
  cache !! prompt_path prompt = None ->
  read_text o (prompt_path prompt) = Ok system_message ->
  load_prompt o prompt cache
  = (Ok system_message, <[prompt_path prompt := system_message]> cache).
Proof. intros Hc Hr. unfold load_prompt, bindM, get, lift. by rewrite Hc, Hr. Qed.

Lemma load_prompt_unread e :
  cache !! prompt_path prompt = None ->
  read_text o (prompt_path prompt) = Raise e ->
  load_prompt o prompt cache = (Raise e, cache).
Proof. intros Hc Hr. unfold load_prompt, bindM, get, lift. by rewrite Hc, Hr. Qed.

(** How [load_prompt] ends. *)
Lemma load_prompt_cases :
  (exists system_message,
     load_prompt o prompt cache
     = (Ok system_message, <[prompt_path prompt := system_message]> cache) /\
     (cache !! prompt_path prompt = Some system_message \/
      cache !! prompt_path prompt = None /\
      read_text o (prompt_path prompt) = Ok system_message)) \/
  (exists e,
     load_prompt o prompt cache = (Raise e, cache) /\
     cache !! prompt_path prompt = None /\
     read_text o (prompt_path prompt) = Raise e).
Proof.
  destruct (cache !! prompt_path prompt) as [s |] eqn:Hc.
  - left. exists s. rewrite insert_id by done. eauto using load_prompt_cached.
  - destruct (read_text o (prompt_path prompt)) as [s | e] eqn:Hr.
    + left. exists s. eauto using load_prompt_read.
    + right. exists e. eauto using load_prompt_unread.
Qed.

(** C14: the one exception of [generate] is that of the prompt file.
    [generate] raises exactly when the prompt is not in the cache and its
    file cannot be read, whatever the API does, for the file is opened
    before the [try]; the cache is then as it was. *)
Theorem generate_raises_unread_prompt messages replace_dict e cache' :
  generate_with_prompt o messages prompt replace_dict cache = (Raise e, cache')
  <->
  cache !! prompt_path prompt = None /\
  read_text o (prompt_path prompt) = Raise e /\ cache' = cache.
Proof.
  unfold generate_with_prompt, bindM.
  destruct load_prompt_cases as [(s & -> & Hs) | (x & -> & Hc & Hr)].
  - split; [done |]. intros (Hc & Hr & _). destruct Hs as [? | [_ ?]]; congruence.
  - split; [intros [= <- <-]; done | intros (_ & Hr' & ->); congruence].
Qed.

(** When the prompt can be had, [generate] is the cut and the call of
    file History on it. *)
Lemma generate_with_prompt_Ok messages replace_dict system_message :
  load_prompt o prompt cache
  = (Ok system_message, <[prompt_path prompt := system_message]> cache) ->
  generate_with_prompt o messages prompt replace_dict cache
  = (Ok (generate (api o) (replacements replace_dict system_message) messages),
     <[prompt_path prompt := system_message]> cache).
Proof. intros Hl. unfold generate_with_prompt, bindM. by rewrite Hl. Qed.

End Prompt.

(** A prompt is read once: after a call of [generate] that read
    the prompt file, every later call for this prompt takes the text from
    the cache: it gives the answer of the API to that text also when the
    file has changed or has gone. *)
Theorem prompt_read_once o prompt cache system_message o' m1 m2 :
  cache !! prompt_path prompt = None ->
  read_text o (prompt_path prompt) = Ok system_message ->
  (generate_with_prompt o m1 prompt None ;;;
   generate_with_prompt o' m2 prompt None) cache
  = (Ok (generate (api o') system_message m2),
     <[prompt_path prompt := system_message]> cache).
Proof.
  intros Hc Hr. unfold bindM at 1.
  rewrite (generate_with_prompt_Ok o prompt cache m1 None system_message)
    by by apply load_prompt_read.
  rewrite (generate_with_prompt_Ok o' prompt _ m2 None system_message).
  - by rewrite insert_insert_eq.
  - rewrite insert_insert_eq. apply load_prompt_cached, lookup_insert_eq.
Qed.

(** * Replacements *)

Lemma replace_from_skip old new s k :
  replace_from k old new s = replace_from 0 old new (drop k s).
Proof.
  revert k. by induction s as [| c s IH]; intros [| k]; simpl.
Qed.

(** What [replace_from] does with a text that begins with [old]. *)
Lemma replace_from_prefix c old new rest :
  replace_from 0 (c :: old) new ((c :: old) ++ rest)
  = new ++ replace_from 0 (c :: old) new rest.
Proof.
  simpl. rewrite bool_decide_eq_true_2 by (by apply prefix_cons, prefix_app_r).
  rewrite replace_from_skip. simpl. by rewrite Nat.sub_0_r, drop_app_length.
Qed.

(** To replace a text by itself changes nothing. *)
Lemma replace_from_same old s : old <> [] -> replace_from 0 old old s = s.
Proof.
  intros Hold. destruct old as [| c old]; [done |]. clear Hold.
  assert (forall n s, length s <= n -> replace_from 0 (c :: old) (c :: old) s = s)
    as H; [| by apply (H (length s))].
  clear s. induction n as [| n IH]; intros [| b s] Hn; simpl in Hn; try done; [lia |].
  destruct (decide ((c :: old) `prefix_of` b :: s)) as [[rest Hs] | Hno].
  - rewrite Hs, replace_from_prefix. f_equal. apply IH.
    apply (f_equal length) in Hs. rewrite length_app in Hs. simpl in Hs. lia.
  - simpl. rewrite bool_decide_eq_false_2 by done. f_equal. apply IH. lia.
Qed.

(** No dictionary, or an empty one, leaves the prompt as it is. *)
Lemma replacements_none system_message :
  replacements None system_message = system_message /\
  replacements (Some []) system_message = system_message.
Proof. done. Qed.

(** * The questions of a search *)

Section Search.
Context (o : outside) (element_description : string).
Context (grid_image_path original_image_path : string).
Context (prompts : prompt_cache).

(** When both pictures and the prompt can be read, the answer is that of
    the API to the text and the picture of the grid; the other picture
    is not in the question. *)
Lemma llm_choose_best_grid_cell_Ok grid_image_base64 original_image_base64
    system_message :
  read_base64 o grid_image_path = Ok grid_image_base64 ->
  read_base64 o original_image_path = Ok original_image_base64 ->
  load_prompt o "locate_ui_element" prompts
  = (Ok system_message,
     <[prompt_path "locate_ui_element" := system_message]> prompts) ->
  llm_choose_best_grid_cell o element_description grid_image_path
    original_image_path prompts
  = (Ok (generate (api o) system_message
         (cell_question element_description grid_image_base64)),
     <[prompt_path "locate_ui_element" := system_message]> prompts).
Proof.
  intros Hg Ho Hl. unfold llm_choose_best_grid_cell, bindM at 1 2, lift.
  rewrite Hg, Ho.
  apply (generate_with_prompt_Ok o _ prompts _ None system_message Hl).
Qed.

(** A picture that cannot be read ends the question. *)
Lemma llm_choose_best_grid_cell_unread e :
  read_base64 o grid_image_path = Raise e \/
  (exists grid_image_base64, read_base64 o grid_image_path = Ok grid_image_base64) /\
  read_base64 o original_image_path = Raise e ->
  llm_choose_best_grid_cell o element_description grid_image_path
    original_image_path prompts
  = (Raise e, prompts).
Proof.
  unfold llm_choose_best_grid_cell, bindM, lift.
  by intros [-> | [[g ->] ->]].
Qed.

End Search.

(** C29: the picture that is not sent is needed all the same.  A search
    made while the pictures are fresh, whose picture of the grid can be
    read and whose screenshot cannot, raises what reading the screenshot
    raises and asks nothing, though the question holds the picture of the
    grid alone. *)
Theorem unsent_picture_stops_search refuses NUM_CELLS o files r description
    dimensions prompts w grid_image_base64 e :
  read_base64 o "screenshots/grid.jpg" = Ok grid_image_base64 ->
  read_base64 o "screenshots/fullscreen.jpg" = Raise e ->
  move_mouse_to_ui_element refuses NUM_CELLS None
    (search_env o false files r None description dimensions prompts) w
  = (Raise e, w).
Proof.
  intros Hg Ho.
  unfold move_mouse_to_ui_element, get_ui_element_coordinates,
    ensure_grid_screenshot_exists, search_env. simpl.
  rewrite (llm_choose_best_grid_cell_unread o description _ _ prompts e)
    by (right; eauto).
  by destruct w.
Qed.

(** * Examples *)

(** A machine whose files are read as their own names, with the prompt
    files it is given, and a model that answers by the number of parts
    of the question. *)
Definition machine (prompts unreadable : list string) : outside :=
  {| read_text := fun path =>
       if bool_decide (path ∈ prompts) then Ok ("prompt of " +:+ path)
       else Raise (Exception "No such file or directory");
     read_base64 := fun path =>
       if bool_decide (path ∈ unreadable)
       then Raise (Exception "No such file or directory")
       else Ok path;
     api := fun request =>
       match request.2 with
       | [m] => Some ("cell #" +:+ pretty (length (content m)))
       | _ => None
       end |}.

Lemma generate_raises_unread_prompt_witness :
  generate_with_prompt (machine [] []) [] "system" None ∅
  = (Raise (Exception "No such file or directory"), ∅)
  <->
  (∅ : prompt_cache) !! prompt_path "system" = None /\
  read_text (machine [] []) (prompt_path "system")
  = Raise (Exception "No such file or directory") /\
  (∅ : prompt_cache) = ∅.
Proof. apply (generate_raises_unread_prompt (machine [] []) "system" ∅). Defined.

Lemma prompt_read_once_witness :
  (generate_with_prompt (machine ["./prompts/system.md"] []) [] "system" None ;;;
   generate_with_prompt (machine [] []) [Message User [Text "go on"]] "system"
     None) ∅
  = (Ok (generate (api (machine [] [])) "prompt of ./prompts/system.md"
           [Message User [Text "go on"]]),
     {[prompt_path "system" := "prompt of ./prompts/system.md"]}).
Proof.
  apply (prompt_read_once (machine ["./prompts/system.md"] []) "system" ∅
           "prompt of ./prompts/system.md"); done.
Defined.

Lemma unsent_picture_stops_search_witness :
  move_mouse_to_ui_element willing 500 None
    (search_env
       (machine ["./prompts/locate_ui_element.md"] ["screenshots/fullscreen.jpg"])
       false None (e_readings names_cell) None "the Save button"
       (1920, 1080)%Z ∅)
    at_rest
  = (Raise (Exception "No such file or directory"), at_rest).
Proof.
  apply (unsent_picture_stops_search willing 500
           (machine ["./prompts/locate_ui_element.md"] ["screenshots/fullscreen.jpg"])
           None (e_readings names_cell) "the Save button" (1920, 1080)%Z ∅ at_rest
           "screenshots/grid.jpg"); done.
Defined.

(** The same search when both pictures are there: the model is asked,
    names cell 2, and the pointer goes to its centre in the grid the
    cache holds; here the cache holds none, the second question is put
    and its answer read as coordinates. *)
Example search_asks_twice :
  (move_mouse_to_ui_element willing 500 None
     (search_env (machine ["./prompts/locate_ui_element.md"] []) false None
        (e_readings names_cell) None "the Save button" (1920, 1080)%Z ∅)
     at_rest).1
  = Ok None.
Proof. by vm_compute. Qed.

Example py_replace_examples :
  py_replace "aa" "b" "aaaaa" = "bba" /\
  py_replace "" "-" "abc" = "-a-b-c-" /\
  py_replace "{task}" "open the editor" "Do {task}." = "Do open the editor." /\
  replacements (Some [("{a}", "{b}"); ("{b}", "c"); ("{c}", "")]) "{a}{b}{c}"
  = "cc{c}".
Proof. by vm_compute. Qed.
