(* ===== verification/Overlay.v ===== *)
(** * Overlay: the status of the agent and the window that shows it

    src/main.py, lines 22-26 and 46-99: the global [agent_status], the
    window [status_window] of class [StatusOverlay] and
    [update_agent_status], which the loop calls at every turn of its
    work.

    The window lives in a thread of its own.  Every 100 ms its method
    [check_running] looks at [agent_running] and destroys the window when
    the agent has stopped.  A window is the record [overlay]: where it
    stands, the text of its status label, and whether it has been
    destroyed; Tk raises when a widget of a destroyed window is used,
    which is what [update_status] does then. *)

From S2P Require Import Prelude PyValue Effects.
From stdpp Require Import pretty.
#[local] Open Scope string_scope.
#[local] Open Scope exec_scope.

(** ** The window *)

Record overlay : Type := Overlay {
  geometry : string;
  status_label : string;
  destroyed : bool;
}.

(** [StatusOverlay.__init__]: the window is 300 wide and stands 10 from
    the right edge of the screen. *)
Definition new_overlay (screen_width : Z) : overlay :=
  let window_width := 300%Z in
  {| geometry :=
       pretty window_width +:+ "x80+"
       +:+ pretty (screen_width - window_width - 10)%Z +:+ "+10";
     status_label := "Статус: Инициализация";
     destroyed := false |}.

Definition TclError : exn := Exception "invalid command name".

(** [StatusOverlay.update_status(status)] *)
Definition update_status (status : string) (w : overlay) : result overlay :=
  if destroyed w then Raise TclError
  else Ok {| geometry := geometry w; status_label := "Статус: " +:+ status;
             destroyed := false |}.

(** [StatusOverlay.check_running()], one firing of the timer: a window
    that is destroyed sets no timer again. *)
Definition check_running (agent_running : bool) (w : overlay) : overlay :=
  if destroyed w then w
  else if negb agent_running then
    {| geometry := geometry w; status_label := status_label w;
       destroyed := true |}
  else w.

(** ** The status *)

(** The globals [agent_status] and [status_window]. *)
Record status : Type := Status {
  agent_status : string;
  status_window : option overlay;
}.

Definition initial_status : status :=
  {| agent_status := "Инициализация"; status_window := None |}.

(** [run_status_overlay()], up to its main loop. *)
Definition run_status_overlay (screen_width : Z) (s : status) : status :=
  {| agent_status := agent_status s;
     status_window := Some (new_overlay screen_width) |}.

(** [update_agent_status(status)] *)
Definition update_agent_status (new_status : string) : ST status unit :=
  fun s =>
    let s' := {| agent_status := new_status; status_window := status_window s |} in
    match status_window s with
    | None => (Ok tt, s')
    | Some w =>
        match update_status new_status w with
        | Ok w' =>
            (Ok tt, {| agent_status := new_status; status_window := Some w' |})
        | Raise e => (Raise e, s')
        end
    end.

(** The timer of the window fires. *)
Definition tick (agent_running : bool) (s : status) : status :=
  {| agent_status := agent_status s;
     status_window := check_running agent_running <$> status_window s |}.

(** * Properties *)

(** The window, if there is one, can be written to. *)
Definition visible (s : status) : Prop :=
  forall w, status_window s = Some w -> destroyed w = false.

#[export] Instance visible_dec s : Decision (visible s).
Proof.
  unfold visible. destruct (status_window s) as [w |].
  - destruct (destroyed w) eqn:E; [right | left]; [| by intros ? [= <-]].
    intros H. specialize (H w eq_refl). congruence.
  - left. by intros.
Defined.

(** The label shows the status. *)
Definition agrees (s : status) : Prop :=
  forall w, status_window s = Some w ->
            status_label w = "Статус: " +:+ agent_status s.

(** With a window that can be written to, [update_agent_status] returns,
    sets the status, and the label shows it. *)
Lemma update_agent_status_visible new_status s :
  visible s ->
  exists s', update_agent_status new_status s = (Ok tt, s') /\
             agent_status s' = new_status /\ visible s' /\ agrees s' /\
             (status_window s = None <-> status_window s' = None).
Proof.
  intros Hv. unfold update_agent_status, update_status.
  destruct (status_window s) as [w |] eqn:Hw.
  - rewrite (Hv w Hw). eexists. split; [done |].
    split_and!; try done; by intros ? [= <-].
  - eexists. split; [done |]. split_and!; try done;
      unfold visible, agrees; simpl; by rewrite ?Hw.
Qed.

Lemma update_agent_status_Ok new_status s s' :
  update_agent_status new_status s = (Ok tt, s') ->
  visible s /\ visible s' /\ agent_status s' = new_status.
Proof.
  unfold update_agent_status, update_status, visible.
  destruct (status_window s) as [w |] eqn:Hw.
  - destruct (destroyed w) eqn:Hd; intros [= <-]; simpl.
    split_and!; try done; by intros ? [= <-].
  - intros [= <-]. simpl. by split_and!.
Qed.

(** Once the window is destroyed, [update_agent_status] sets the
    global and raises. *)
Lemma update_agent_status_gone new_status s w :
  status_window s = Some w -> destroyed w = true ->
  update_agent_status new_status s
  = (Raise TclError,
     {| agent_status := new_status; status_window := status_window s |}).
Proof.
  intros Hw Hd. unfold update_agent_status, update_status. by rewrite Hw, Hd.
Qed.

(** The timer that sees the agent stopped destroys the window. *)
Lemma tick_stopped s w :
  status_window s = Some w ->
  exists w', status_window (tick false s) = Some w' /\ destroyed w' = true.
Proof.
  intros Hw. unfold tick, check_running. simpl. rewrite Hw. simpl.
  destruct (destroyed w) eqn:Hd; eauto.
Qed.

(** A tick while the agent runs changes nothing; a tick keeps the status
    and its agreement with the label. *)
Lemma tick_running s : tick true s = s.
Proof.
  destruct s as [a [w |]]; unfold tick, check_running; simpl; [| done].
  by destruct w as [g l []].
Qed.

Lemma tick_visible s : visible s -> visible (tick true s).
Proof. by rewrite tick_running. Qed.

Lemma tick_agrees r s : agrees s -> agrees (tick r s).
Proof.
  unfold agrees, tick, check_running. simpl.
  destruct (status_window s) as [w |]; simpl; [| done].
  intros H w' [= <-]. specialize (H w eq_refl).
  by destruct (destroyed w), r.
Qed.

(** A window made after the status has changed shows the first status
    until the next change. *)
Example late_window_shows_initial :
  let s := run_status_overlay 1920
             (update_agent_status "Запуск" initial_status).2 in
  agent_status s = "Запуск" /\
  status_label <$> status_window s = Some "Статус: Инициализация" /\
  geometry <$> status_window s = Some "300x80+1610+10".
Proof. by vm_compute. Qed.
