(* ===== verification/Agent.v ===== *)
(** * Agent: [run_desktop_agent]

    src/main.py, lines 102-109 and 176-404: the handler of the ESC key,
    the set-up of [run_desktop_agent], [process_voice_input], the loop
    that asks the model, runs the commands of its reply and keeps the
    history, and the [finally] block.  The loop composes the other
    components: the voice processor (file Transcribe), the screenshot and
    its encoding (file Images), the history (file History), the prompt
    and the call of the model (file Remote), [extract_json] (file
    Extract), [process_commands] (file Executor) and the status shown in
    the window (file Overlay).

    The state of the agent is the record [agent]: the counter [i], the
    flags [agent_running] and [stop_event], the state of the executor (the
    pause gate and the calls made), the history, the voice processor if
    there is one, the status and its window, the two caches, the
    requests sent to the model so far, and [_command_results_queue].  One pass of the [while] loop is
    [pass]; what the world does during a pass (the key listener, the
    timer of the window, the threads of the voice processor, the console,
    the screen and the files) is the record [pass_env].  The loop runs on
    a list of them: it can go on for ever, and [run_loop] says whether it
    ended within the list.

    What the loop leaves alone is stated once: a [Frame] is a relation
    between a state and a later one that no write to the flags, the
    executor, the history, the voice processor, the window or the caches
    breaks, and every operation of the loop preserves every frame. *)

From S2P Require Import Prelude PyValue Effects Extract Executor.
From S2P Require Import Vad Transcribe History Images Remote Overlay.
From Stdlib Require Import QArith.
From stdpp Require Import gmap.
#[local] Close Scope Q_scope.
#[local] Open Scope exec_scope.

(** ** Texts *)

Fixpoint starts_with (needle hay : text) : bool :=
  match needle, hay with
  | [], _ => true
  | c :: needle, d :: hay => bool_decide (c = d) && starts_with needle hay
  | _ :: _, [] => false
  end.

(** [needle in hay], on strings. *)
Fixpoint py_in_text (needle hay : text) : bool :=
  starts_with needle hay
  || match hay with
     | [] => false
     | _ :: hay' => py_in_text needle hay'
     end.

Definition str (t : text) : string := String.string_of_list_ascii t.

Definition nl : string := String "010"%char EmptyString.

(** ** The agent *)

(** What is put in [_command_results_queue]: commands and the callback
    their results are for, known by a number; [None] is the sign to stop. *)
Definition item : Type := list json * nat.

Record agent : Type := Agent {
  i : nat;
  agent_running : bool;
  stop_event : bool;
  exec : Executor.state;
  mem : memory;
  voice_processor : option processor;
  requests : list (list History.message);  (* the calls of [generate] *)
  shown : status;                          (* [agent_status], [status_window] *)
  base64 : base64_cache;
  prompts : prompt_cache;
  command_queue : list (option item);      (* [_command_results_queue] *)
}.

(** What happens around one pass of the loop. *)
Record pass_env : Type := PassEnv {
  esc_at_head : bool;              (* ESC was pressed before the pass *)
  tick_at_head : bool;             (* the timer of the window fired then *)
  esc_in_pass : bool;              (* ESC between line 272 and line 273 *)
  heard_first : list label;        (* the voice threads, before line 280 *)
  heard_then : list label;         (* ... before line 231 *)
  rounds : list (list label);      (* ... before each poll of line 240 *)
  typed : text;                    (* what [input('>> ')] returns *)
  shot : result (Z * Z);           (* [pyautogui.screenshot()], its size *)
  pointer : Z * Z;                 (* [pyautogui.position()] *)
  files : disk;                    (* the files, when the picture is encoded *)
  clock : Q * Q;                   (* the two [time.time()] of the encoding *)
}.

(** *** The fields, one at a time *)

Definition set_i (n : nat) (s : agent) : agent :=
  {| i := n; agent_running := agent_running s; stop_event := stop_event s;
     exec := exec s; mem := mem s; voice_processor := voice_processor s;
     requests := requests s; shown := shown s; base64 := base64 s;
     prompts := prompts s;
     command_queue := command_queue s |}.

Definition set_flags (running stop : bool) (s : agent) : agent :=
  {| i := i s; agent_running := running; stop_event := stop;
     exec := exec s; mem := mem s; voice_processor := voice_processor s;
     requests := requests s; shown := shown s; base64 := base64 s;
     prompts := prompts s;
     command_queue := command_queue s |}.

Definition set_exec (st : Executor.state) (s : agent) : agent :=
  {| i := i s; agent_running := agent_running s; stop_event := stop_event s;
     exec := st; mem := mem s; voice_processor := voice_processor s;
     requests := requests s; shown := shown s; base64 := base64 s;
     prompts := prompts s;
     command_queue := command_queue s |}.

Definition set_mem (h : memory) (s : agent) : agent :=
  {| i := i s; agent_running := agent_running s; stop_event := stop_event s;
     exec := exec s; mem := h; voice_processor := voice_processor s;
     requests := requests s; shown := shown s; base64 := base64 s;
     prompts := prompts s;
     command_queue := command_queue s |}.

Definition set_voice (v : option processor) (s : agent) : agent :=
  {| i := i s; agent_running := agent_running s; stop_event := stop_event s;
     exec := exec s; mem := mem s; voice_processor := v;
     requests := requests s; shown := shown s; base64 := base64 s;
     prompts := prompts s;
     command_queue := command_queue s |}.

Definition set_requests (l : list (list History.message)) (s : agent) : agent :=
  {| i := i s; agent_running := agent_running s; stop_event := stop_event s;
     exec := exec s; mem := mem s; voice_processor := voice_processor s;
     requests := l; shown := shown s; base64 := base64 s;
     prompts := prompts s;
     command_queue := command_queue s |}.

Definition set_shown (w : status) (s : agent) : agent :=
  {| i := i s; agent_running := agent_running s; stop_event := stop_event s;
     exec := exec s; mem := mem s; voice_processor := voice_processor s;
     requests := requests s; shown := w; base64 := base64 s;
     prompts := prompts s;
     command_queue := command_queue s |}.

Definition set_base64 (c : base64_cache) (s : agent) : agent :=
  {| i := i s; agent_running := agent_running s; stop_event := stop_event s;
     exec := exec s; mem := mem s; voice_processor := voice_processor s;
     requests := requests s; shown := shown s; base64 := c;
     prompts := prompts s;
     command_queue := command_queue s |}.

Definition set_prompts (c : prompt_cache) (s : agent) : agent :=
  {| i := i s; agent_running := agent_running s; stop_event := stop_event s;
     exec := exec s; mem := mem s; voice_processor := voice_processor s;
     requests := requests s; shown := shown s; base64 := base64 s;
     prompts := c; command_queue := command_queue s |}.

Definition set_queue (q : list (option item)) (s : agent) : agent :=
  {| i := i s; agent_running := agent_running s; stop_event := stop_event s;
     exec := exec s; mem := mem s; voice_processor := voice_processor s;
     requests := requests s; shown := shown s; base64 := base64 s;
     prompts := prompts s; command_queue := q |}.

(** A computation on one field, run on the agent. *)
Definition on_field {S A} (proj : agent -> S) (set : S -> agent -> agent)
  (m : ST S A) : ST agent A :=
  fun s => let '(r, x) := m (proj s) in (r, set x s).

Definition on_mem {A} : ST memory A -> ST agent A := on_field mem set_mem.

Definition on_exec {A} : M A -> ST agent A := on_field exec set_exec.

Definition on_shown {A} : ST status A -> ST agent A := on_field shown set_shown.

Definition on_base64 {A} : ST base64_cache A -> ST agent A :=
  on_field base64 set_base64.

Definition on_prompts {A} : ST prompt_cache A -> ST agent A :=
  on_field prompts set_prompts.

(** A method of the voice processor, if there is one. *)
Definition on_voice (f : processor -> processor) : ST agent unit :=
  modify (fun s => set_voice (f <$> voice_processor s) s).

(** [_command_results_queue.put(item)] *)
Definition put_item (x : option item) : ST agent unit :=
  modify (fun s => set_queue (command_queue s ++ [x]) s).

(** [agent_running = value] *)
Definition set_agent_running (value : bool) : ST agent unit :=
  modify (fun s => set_flags value (stop_event s) s).

(** [on_esc_press(key)], lines 102-109. *)
Definition on_esc_press (key_is_esc : bool) : ST agent unit :=
  if key_is_esc then modify (set_flags false true) else ret tt.

(** The timer of the window fires, or not. *)
Definition on_tick (fires : bool) : ST agent unit :=
  if fires then modify (fun s => set_shown (tick (agent_running s) (shown s)) s)
  else ret tt.

(** [update_agent_status(status)], in the loop. *)
Definition update (new_status : string) : ST agent unit :=
  on_shown (update_agent_status new_status).

(** ** The voice *)

Definition STOP_COMMAND : text := text_of "STOP_COMMAND".

Definition stop_words : list text :=
  [text_of "стоп"; text_of "останови"; text_of "прекрати"].

Definition pause_words : list text := [text_of "пауза"; text_of "подожди"].

Definition resume_words : list text :=
  [text_of "продолжай"; text_of "продолжить"; text_of "дальше"].

(** The test of line 243. *)
Definition accepted (transcription : text) : bool :=
  negb (bool_decide (transcription = []))
  && negb (py_in_text (text_of "МУЗЫКА") transcription)
  && negb (py_in_text (text_of "Субтит") transcription)
  && negb (py_in_text (text_of "субтит") transcription).

(** A string counts as true when it is not empty. *)
Definition truthy (voice_feedback : option text) : bool :=
  match voice_feedback with
  | Some (_ :: _) => true
  | _ => false
  end.

Section Loop.
Context `{PyFormat} (dev : device).
Context (loads : text -> option json).
Context (o : outside).
Context (SYSTEM_PROMPT : string).
Context (lower : text -> text).
Context (model_name : string) (transcribe : option Z -> list Q -> result text).
Context (max_iterations : nat) (use_voice : bool).

(** [use_voice and voice_processor]: the processor the loop listens to. *)
Definition heard_by (s : agent) : option processor :=
  if use_voice then voice_processor s else None.

(** The threads of the voice processor make the steps [ls]. *)
Definition voice_runs (ls : list label) : ST agent unit :=
  if use_voice then on_voice (drive model_name transcribe ls) else ret tt.

(** Lines 244-264: what the first transcription that is accepted does. *)
Definition react (transcription : text) : ST agent (option text) :=
  let voice_feedback := strip transcription in
  let lower_feedback := lower voice_feedback in
  if bool_decide (lower_feedback ∈ stop_words) then ret (Some STOP_COMMAND)
  else if bool_decide (lower_feedback ∈ pause_words) then
    update "На паузе" ;;; on_exec (set_listening true) ;;; ret None
  else if bool_decide (lower_feedback ∈ resume_words) then
    update "Работаю" ;;; on_exec (set_listening false) ;;; ret None
  else on_exec (set_listening false) ;;; ret (Some voice_feedback).

(** Lines 239-266: the queue of texts is emptied again and again; the
    first transcription that is accepted ends the polling, and what was
    taken from the queue with it is not looked at. *)
Fixpoint poll (rounds : list (list label)) (v : processor)
  : option text * processor :=
  match rounds with
  | [] => (None, v)
  | ls :: rounds =>
      let '(transcriptions, v) :=
        get_all_transcriptions (drive model_name transcribe ls v) in
      match List.find accepted transcriptions with
      | Some transcription => (Some transcription, v)
      | None => poll rounds v
      end
  end.

(** [process_voice_input()] *)
Definition process_voice_input (e : pass_env) : ST agent (option text) :=
  voice_runs (heard_then e) ;;;
  s <~ get ;;
  match heard_by s with
  | Some v =>
      if is_processing v then update "Распознавание речи" ;;; ret None
      else
        let '(heard, v) := poll (rounds e) v in
        on_voice (fun _ => v) ;;;
        match heard with
        | Some transcription => react transcription
        | None => ret None
        end
  | None => ret None
  end.

(** ** One iteration *)

(** Lines 369-372. *)
Definition results_text (command_results : list res) : string :=
  foldl (fun results_text r =>
           results_text +:+ (if success r then "+" else "-") +:+ " "
           +:+ py_str (r_command r) +:+ ": " +:+ Executor.message r +:+ nl)
    ("Результаты выполнения команд:" +:+ nl) command_results.

(** Line 357: the commands in the reply of the model. *)
Definition commands_of (generated_text : string) : list json :=
  (extract_json loads (text_of generated_text)).1.

Definition log_request (sent : list History.message) : ST agent unit :=
  modify (fun s => set_requests (requests s ++ [sent]) s).

(** [i += 1] *)
Definition count : ST agent unit := modify (fun s => set_i (S (i s)) s).

(** Lines 313-331: the thread of [convert_screenshots] is started and
    waited for; the picture is what it left, printed in the URL. *)
Definition encode_screenshot (e : pass_env) : ST agent string :=
  on_base64 (fun cache =>
    let '(fullscreen_img, cache) :=
      convert_screenshots (files e) (clock e).1 (clock e).2 cache in
    (Ok (str_or_None fullscreen_img), cache)).

(** Lines 309-350: the screenshot is taken, encoded and attached to the
    request, and the history is told that it was there. *)
Definition look (e : pass_env) (voice_feedback : option text)
  : ST agent (list nat) :=
  update "Анализ экрана" ;;;
  lift (save_screenshot (shot e) (pointer e)) ;;;
  fullscreen_img <~ encode_screenshot e ;;
  let parts := message_content fullscreen_img (str <$> voice_feedback) in
  temp_messages <~ on_mem (attach parts) ;;
  on_mem hide ;;;
  ret temp_messages.

(** Lines 353-354: the model is asked. *)
Definition ask (temp_messages : list nat) : ST agent string :=
  update "Анализ и обработка" ;;;
  sent <~ on_mem (request temp_messages) ;;
  log_request sent ;;;
  on_prompts (generate_with_prompt o sent SYSTEM_PROMPT None).

(** Lines 357-388: the commands of the reply are run and their results
    recorded. *)
Definition obey (generated_text : string) : ST agent unit :=
  match commands_of generated_text with
  | [] => update "Ожидание"
  | commands =>
      update "Выполнение команд" ;;;
      command_results <~
        on_exec (fun st =>
                   let '(r, st) := process_commands dev commands st in
                   (Ok r, st)) ;;
      on_mem (record_results (results_text command_results)) ;;;
      on_mem truncate
  end.

(** Lines 309-394: one iteration. *)
Definition iteration (e : pass_env) (voice_feedback : option text)
  : ST agent unit :=
  temp_messages <~ look e voice_feedback ;;
  generated_text <~ ask temp_messages ;;
  obey generated_text ;;;
  count ;;;
  s <~ get ;;
  if agent_running s && negb (listening (exec s)) then update "Работаю"
  else ret tt.

(** What the head of the loop decides: to leave the loop, to go round
    without an iteration ([continue]), or to make an iteration with this
    feedback of the user. *)
Inductive decision : Type :=
| Break
| Skip
| Iterate (voice_feedback : option text).

(** Lines 272-308: the condition of the loop and what comes before the
    iteration proper. *)
Definition before (e : pass_env) : ST agent decision :=
  on_esc_press (esc_at_head e) ;;;
  on_tick (tick_at_head e) ;;;
  s <~ get ;;
  if negb ((i s <? max_iterations)%nat && agent_running s) then ret Break
  else
    on_esc_press (esc_in_pass e) ;;;
    s <~ get ;;
    if stop_event s then ret Break
    else
      voice_runs (heard_first e) ;;;
      s <~ get ;;
      if from_option is_processing false (heard_by s) then
        update "Распознавание речи" ;;; ret Skip
      else
        voice_feedback <~ process_voice_input e ;;
        if bool_decide (voice_feedback = Some STOP_COMMAND) then
          set_agent_running false ;;; ret Break
        else
          waiting <~ on_exec is_listening ;;
          (if waiting && truthy voice_feedback then on_exec (set_listening false)
           else ret tt) ;;;
          waiting <~ on_exec is_listening ;;
          if waiting && negb (truthy voice_feedback) then
            update "Ожидание пользователя" ;;;
            if use_voice then ret Skip else ret (Iterate (Some (typed e)))
          else ret (Iterate voice_feedback).

(** How a pass leaves the body of the loop. *)
Inductive control : Type := GoOn | Leave.

(** One pass of the loop. *)
Definition pass (e : pass_env) : ST agent control :=
  d <~ before e ;;
  match d with
  | Break => ret Leave
  | Skip => ret GoOn
  | Iterate voice_feedback => iteration e voice_feedback ;;; ret GoOn
  end.

(** The loop on the passes of [envs]: [Some] when it has ended within
    them, by its condition, a [break] or an exception. *)
Fixpoint run_loop (envs : list pass_env) (s : agent)
  : option (result unit) * agent :=
  match envs with
  | [] => (None, s)
  | e :: envs =>
      match pass e s with
      | (Ok GoOn, s) => run_loop envs s
      | (Ok Leave, s) => (Some (Ok tt), s)
      | (Raise x, s) => (Some (Raise x), s)
      end
  end.

End Loop.

(** Lines 396-404: [finally]; the thread that is joined for a second at
    most is that of file Program. *)
Definition finally : ST agent unit :=
  update "Завершение работы" ;;;
  set_agent_running false ;;;
  on_voice stop ;;;
  put_item None.

(** ** The set-up *)

(** What the machine does while the agent is set up. *)
Record boot : Type := Boot {
  VOICE_AVAILABLE : bool;       (* services.voice_input could be imported *)
  constructed : option exn;     (* what [VoiceInputProcessor(...)] raises *)
  stream_opened : option exn;   (* what opening the stream in [start()] raises *)
  first_shot : result (Z * Z);  (* the screenshot of line 210 *)
  first_pointer : Z * Z;
  window : status;              (* the status and the window, so far *)
}.

(** [start()] when the stream cannot be opened: the thread runs, no
    stream is there. *)
Definition start_without_stream (p : processor) : processor :=
  let p := start p in
  {| mic := mic p; is_running := is_running p; stream := false;
     thread := thread p; shut := shut p; pool := pool p;
     futures := futures p; text_queue := text_queue p;
     callback := callback p; callback_calls := callback_calls p |}.

(** Lines 183-201: the voice processor, and whether the voice is on. *)
Definition start_voice (use_voice : bool) (b : boot) : option processor * bool :=
  if use_voice && VOICE_AVAILABLE b then
    match constructed b, stream_opened b with
    | Some _, _ => (None, false)
    | None, Some _ => (Some (start_without_stream (init_processor true)), false)
    | None, None => (Some (start (init_processor true)), true)
    end
  else (None, false).

(** Lines 180-224: the history starts with the task, the voice processor
    is started, the desktop is shown and a first screenshot is taken.
    The result is whether the voice is on. *)
Definition setup (task : string) (use_voice : bool) (b : boot)
  : result bool * agent :=
  let '(voice_processor, use_voice) := start_voice use_voice b in
  let s :=
    {| i := 0; agent_running := true; stop_event := false;
       exec := {| listening := false;
                  trace := [PressHotkey [JStr "win"; JStr "d"]; Sleep (JInt 2)] |};
       mem := initial_memory task; voice_processor := voice_processor;
       requests := []; shown := window b; base64 := ∅; prompts := ∅;
       command_queue := [] |} in
  ((_ <- save_screenshot (first_shot b) (first_pointer b) ;; Ok use_voice)%py, s).

Section Run.
Context `{PyFormat} (dev : device).
Context (loads : text -> option json).
Context (o : outside).
Context (SYSTEM_PROMPT : string).
Context (lower : text -> text).
Context (model_name : string) (transcribe : option Z -> list Q -> result text).

(** [run_desktop_agent(task, max_iterations, use_voice)], when showing
    the desktop does not raise: an exception of the set-up leaves the
    function before its [try]; an exception of the [finally] block
    replaces that of the loop. *)
Definition run_desktop_agent (task : string) (max_iterations : nat)
  (use_voice : bool) (b : boot) (envs : list pass_env)
  : option (result unit) * agent :=
  match setup task use_voice b with
  | (Raise x, s) => (Some (Raise x), s)
  | (Ok use_voice, s) =>
      match run_loop dev loads o SYSTEM_PROMPT lower model_name transcribe
              max_iterations use_voice envs s with
      | (None, s) => (None, s)
      | (Some r, s) =>
          let '(cleanup, s) := finally s in
          (Some (_ <- cleanup ;; r)%py, s)
      end
  end.

End Run.

(** * Properties *)

(** ** What the loop leaves alone *)

(** A relation between a state and a later one that holds whatever is
    written to the flags, the executor, the history, the voice
    processor, the window and the two caches. *)
Class Frame (R : relation agent) : Prop := {
  frame_preorder :: PreOrder R;
  frame_flags running stop s : R s (set_flags running stop s);
  frame_exec st s : R s (set_exec st s);
  frame_mem h s : R s (set_mem h s);
  frame_voice v s : R s (set_voice v s);
  frame_shown w s : R s (set_shown w s);
  frame_base64 c s : R s (set_base64 c s);
  frame_prompts c s : R s (set_prompts c s);
}.

Section Frame.
Context (R : relation agent) `{!Frame R}.

Lemma frame_on_field {S A} (proj : agent -> S) set (m : ST S A) :
  (forall x s, R s (set x s)) -> preserves R (on_field proj set m).
Proof. intros Hset s. unfold on_field. destruct (m (proj s)). apply Hset. Qed.

Lemma frame_modify f : (forall s, R s (f s)) -> preserves R (modify f).
Proof. intros Hf s. apply Hf. Qed.

Lemma frame_on_mem {A} (m : ST memory A) : preserves R (on_mem m).
Proof. apply frame_on_field, frame_mem. Qed.

Lemma frame_on_exec {A} (m : M A) : preserves R (on_exec m).
Proof. apply frame_on_field, frame_exec. Qed.

Lemma frame_on_shown {A} (m : ST status A) : preserves R (on_shown m).
Proof. apply frame_on_field, frame_shown. Qed.

Lemma frame_on_base64 {A} (m : ST base64_cache A) : preserves R (on_base64 m).
Proof. apply frame_on_field, frame_base64. Qed.

Lemma frame_on_prompts {A} (m : ST prompt_cache A) : preserves R (on_prompts m).
Proof. apply frame_on_field, frame_prompts. Qed.

Lemma frame_update new_status : preserves R (update new_status).
Proof. apply frame_on_shown. Qed.

Lemma frame_on_voice f : preserves R (on_voice f).
Proof. apply frame_modify. intros s. apply frame_voice. Qed.

Lemma frame_on_esc_press key_is_esc : preserves R (on_esc_press key_is_esc).
Proof.
  intros s. unfold on_esc_press. destruct key_is_esc; [apply frame_flags | done].
Qed.

Lemma frame_on_tick fires : preserves R (on_tick fires).
Proof. intros s. unfold on_tick. destruct fires; [apply frame_shown | done]. Qed.

Lemma frame_set_agent_running value : preserves R (set_agent_running value).
Proof. apply frame_modify. intros s. apply frame_flags. Qed.

Lemma frame_ret {A} (a : A) : preserves R (ret a).
Proof. apply preserves_ret, _. Qed.

Lemma frame_lift {A} (r : result A) : preserves R (lift r).
Proof. apply preserves_lift, _. Qed.

Lemma frame_get : preserves R get.
Proof. apply preserves_get, _. Qed.

Lemma frame_bind {A B} (m : ST agent A) (k : A -> ST agent B) :
  preserves R m -> (forall a, preserves R (k a)) -> preserves R (bindM m k).
Proof. apply preserves_bind, _. Qed.

End Frame.

(** Follows a computation through the operations of a frame. *)
Ltac solve_frame :=
  lazymatch goal with
  | |- preserves ?R _ =>
      repeat first
        [ assumption | solve [auto 1]
        | apply (frame_ret R) | apply (frame_get R) | apply (frame_lift R)
        | apply (frame_on_mem R) | apply (frame_on_exec R)
        | apply (frame_on_voice R) | apply (frame_on_esc_press R)
        | apply (frame_on_tick R) | apply (frame_update R)
        | apply (frame_on_base64 R) | apply (frame_on_prompts R)
        | apply (frame_set_agent_running R)
        | apply (frame_bind R); [| intros ?]
        | case_match ]
  end.

Section Frames.
Context `{PyFormat} (dev : device).
Context (loads : text -> option json).
Context (o : outside).
Context (SYSTEM_PROMPT : string).
Context (lower : text -> text).
Context (model_name : string) (transcribe : option Z -> list Q -> result text).
Context (max_iterations : nat) (use_voice : bool).
Context (R : relation agent) `{!Frame R}.

#[local] Abbreviation process_voice_input :=
  (process_voice_input lower model_name transcribe use_voice).
#[local] Abbreviation ask := (ask o SYSTEM_PROMPT).
#[local] Abbreviation obey := (obey dev loads).
#[local] Abbreviation iteration := (iteration dev loads o SYSTEM_PROMPT).
#[local] Abbreviation before :=
  (before lower model_name transcribe max_iterations use_voice).
#[local] Abbreviation pass :=
  (pass dev loads o SYSTEM_PROMPT lower model_name transcribe
     max_iterations use_voice).
#[local] Abbreviation run_loop :=
  (run_loop dev loads o SYSTEM_PROMPT lower model_name transcribe
     max_iterations use_voice).

Lemma frame_voice_runs ls :
  preserves R (voice_runs model_name transcribe use_voice ls).
Proof. unfold voice_runs. solve_frame. Qed.

Lemma frame_react transcription : preserves R (react lower transcription).
Proof. unfold react. solve_frame. Qed.

Lemma frame_process_voice_input e : preserves R (process_voice_input e).
Proof.
  unfold Agent.process_voice_input.
  pose proof frame_voice_runs. pose proof frame_react. solve_frame.
Qed.

Lemma frame_before e : preserves R (before e).
Proof.
  unfold Agent.before.
  pose proof frame_voice_runs. pose proof (frame_process_voice_input e).
  solve_frame.
Qed.

Lemma frame_look e voice_feedback : preserves R (look e voice_feedback).
Proof. unfold look, encode_screenshot. solve_frame. Qed.

Lemma frame_obey generated_text : preserves R (obey generated_text).
Proof. unfold Agent.obey. solve_frame. Qed.

(** A frame that holds also when the loop counts and logs holds along
    the loop. *)
Section Whole.
Context (frame_i : forall n s, R s (set_i n s)).
Context (frame_requests : forall l s, R s (set_requests l s)).

Lemma frame_log_request sent : preserves R (log_request sent).
Proof. apply frame_modify. auto. Qed.

Lemma frame_count : preserves R count.
Proof. apply frame_modify. auto. Qed.

Lemma frame_ask temp_messages : preserves R (ask temp_messages).
Proof. unfold Agent.ask. pose proof frame_log_request. solve_frame. Qed.

Lemma frame_iteration e voice_feedback :
  preserves R (iteration e voice_feedback).
Proof.
  unfold Agent.iteration.
  pose proof (frame_look e voice_feedback). pose proof frame_ask.
  pose proof frame_obey. pose proof frame_count. solve_frame.
Qed.

Lemma frame_pass e : preserves R (pass e).
Proof.
  unfold Agent.pass.
  pose proof (frame_before e). pose proof (frame_iteration e). solve_frame.
Qed.

Lemma frame_run_loop envs s : R s (run_loop envs s).2.
Proof.
  revert s. induction envs as [| e envs IH]; intros s; simpl; [done |].
  pose proof (frame_pass e s) as Hp.
  destruct (pass e s) as [[[] |] s1]; simpl in *; [| done..].
  by etrans.
Qed.

End Whole.

End Frames.

(** ** What does not count *)

(** [s'] has made the iterations and the requests of [s], no more. *)
Definition still (s s' : agent) : Prop :=
  i s' = i s /\ requests s' = requests s.

#[export] Instance still_preorder : PreOrder still.
Proof.
  split; [by intros s | intros s1 s2 s3 [? ?] [? ?]].
  unfold still. split; congruence.
Qed.

#[export] Instance still_frame : Frame still.
Proof. by split; [apply _ | ..]. Qed.

Lemma still_finally : preserves still finally.
Proof. unfold finally, put_item. solve_frame. Qed.

Section Counts.
Context `{PyFormat} (dev : device).
Context (loads : text -> option json).
Context (o : outside).
Context (SYSTEM_PROMPT : string).
Context (lower : text -> text).
Context (model_name : string) (transcribe : option Z -> list Q -> result text).
Context (max_iterations : nat) (use_voice : bool).

#[local] Abbreviation ask := (ask o SYSTEM_PROMPT).
#[local] Abbreviation obey := (obey dev loads).
#[local] Abbreviation iteration := (iteration dev loads o SYSTEM_PROMPT).
#[local] Abbreviation before :=
  (before lower model_name transcribe max_iterations use_voice).
#[local] Abbreviation pass :=
  (pass dev loads o SYSTEM_PROMPT lower model_name transcribe
     max_iterations use_voice).
#[local] Abbreviation run_loop :=
  (run_loop dev loads o SYSTEM_PROMPT lower model_name transcribe
     max_iterations use_voice).

(** The model is asked once: the request is logged, whether the prompt
    can be read or not. *)
Lemma ask_logs temp_messages s :
  match ask temp_messages s with
  | (r, s') =>
      i s' = i s /\ length (requests s') <= S (length (requests s)) /\
      (returned r -> length (requests s') = S (length (requests s)))
  end.
Proof.
  unfold Agent.ask, bindM, update, on_shown, on_mem, on_prompts, on_field,
    log_request, modify.
  repeat (case_match; simplify_eq/=); rewrite ?length_app; simpl;
    (split; [done | split; [lia | intros Hret; try done; lia]]).
Qed.

(** An iteration counts once, and asks the model once. *)
Lemma iteration_counts e voice_feedback s :
  match iteration e voice_feedback s with
  | (r, s') =>
      i s' <= S (i s) /\ length (requests s') <= S (length (requests s)) /\
      (returned r ->
       i s' = S (i s) /\ length (requests s') = S (length (requests s)))
  end.
Proof.
  unfold Agent.iteration, bindM at 1.
  pose proof (frame_look still e voice_feedback s) as [Hi1 Hr1].
  destruct (look e voice_feedback s) as [[temp_messages | x] s1]; simpl in *;
    [| rewrite Hi1, Hr1; split_and!; [lia.. | by intros []]].
  unfold bindM at 1. pose proof (ask_logs temp_messages s1) as Ha.
  destruct (ask temp_messages s1) as [[generated_text | x] s2];
    destruct Ha as (Hi2 & Hr2 & Hr2');
    [| rewrite Hi2, Hi1; rewrite Hr1 in Hr2; split_and!; [lia.. | by intros []]].
  specialize (Hr2' I). unfold bindM at 1.
  pose proof (frame_obey dev loads still generated_text s2) as [Hi3 Hr3].
  destruct (obey generated_text s2) as [[[] | x] s3]; simpl in *;
    [| rewrite Hi3, Hr3, Hi2, Hi1; rewrite Hr1 in Hr2;
       split_and!; [lia.. | by intros []]].
  unfold bindM, count, modify, get, update, on_shown, on_field, ret. simpl.
  repeat (case_match; simplify_eq/=); rewrite ?Hi3, ?Hr3, ?Hi2, ?Hi1, ?Hr2', ?Hr1;
    (split; [lia | split; [lia | intros Hret; try done; split; lia]]).
Qed.

(** ** The head of the loop *)

(** The head of the loop decides for an iteration only below the
    bound. *)
Lemma before_cases e s :
  match before e s with
  | (Ok (Iterate _), _) => i s < max_iterations
  | _ => True
  end.
Proof.
  unfold Agent.before. unfold bindM at 1.
  pose proof (frame_on_esc_press still (esc_at_head e) s) as [Hi _].
  destruct (on_esc_press (esc_at_head e) s) as [[[] |] s1] eqn:E1; [| done].
  simpl in Hi. unfold bindM at 1.
  pose proof (frame_on_tick still (tick_at_head e) s1) as [Hi' _].
  destruct (on_tick (tick_at_head e) s1) as [[[] |] s2]; [| done].
  simpl in Hi'. unfold bindM at 1, get.
  destruct (i s2 <? max_iterations) eqn:Hlt; [| done].
  apply Nat.ltb_lt in Hlt. rewrite Hi', Hi in Hlt.
  by repeat case_match.
Qed.

(** ** The bound on the requests *)

(** At the head of the loop every request has been counted. *)
Definition counted (s : agent) : Prop :=
  length (requests s) = i s /\ i s <= max_iterations.

Definition within_bound (s : agent) : Prop :=
  length (requests s) <= max_iterations /\ i s <= max_iterations.

Lemma counted_bounded s : counted s -> within_bound s.
Proof. unfold counted, within_bound. lia. Qed.

Lemma within_bound_still s s' : within_bound s -> still s s' -> within_bound s'.
Proof. intros [? ?] [Hi Hr]. unfold within_bound. by rewrite Hi, Hr. Qed.

Lemma pass_counted e s :
  counted s ->
  match pass e s with
  | (Ok _, s') => counted s'
  | (Raise _, s') => within_bound s'
  end.
Proof.
  intros [Hreq Hi]. unfold Agent.pass, bindM, ret.
  pose proof (before_cases e s) as Hd. pose proof (frame_before lower model_name transcribe max_iterations use_voice
                still e s) as [Hi1 Hr1].
  destruct (before e s) as [[[| | voice_feedback] |] s1]; simpl in *;
    try (split; congruence).
  pose proof (iteration_counts e voice_feedback s1) as Hit.
  destruct (iteration e voice_feedback s1) as [[[] |] s2];
    destruct Hit as (Hi2 & Hr2 & Hok);
    unfold counted, within_bound; rewrite Hr1 in *; [destruct (Hok I) |]; lia.
Qed.

Lemma run_loop_bounded envs s : counted s -> within_bound (run_loop envs s).2.
Proof.
  revert s. induction envs as [| e envs IH]; intros s Hs; simpl.
  { by apply counted_bounded. }
  pose proof (pass_counted e s Hs) as Hp.
  destruct (pass e s) as [[[] |] s1]; simpl; auto using counted_bounded.
Qed.

End Counts.

Lemma setup_counted max_iterations task use_voice b :
  counted max_iterations (setup task use_voice b).2.
Proof.
  unfold setup. destruct (start_voice use_voice b). split; simpl; lia.
Qed.

(** C5: however long the loop runs and whatever the user, the model, the
    files and the desktop do, [run_desktop_agent] asks the model at most
    [max_iterations] times, and its counter never passes
    [max_iterations]: a pass that does not complete an iteration asks
    nothing. *)
Theorem requests_bounded `{PyFormat} dev loads o SYSTEM_PROMPT lower model_name
  transcribe task max_iterations use_voice b envs :
  let s := (run_desktop_agent dev loads o SYSTEM_PROMPT lower model_name
              transcribe task max_iterations use_voice b envs).2 in
  length (requests s) <= max_iterations /\ i s <= max_iterations.
Proof.
  unfold run_desktop_agent.
  pose proof (setup_counted max_iterations task use_voice b) as Hs.
  destruct (setup task use_voice b) as [[uv | x] s0]; simpl in *;
    [| by apply counted_bounded].
  pose proof (run_loop_bounded dev loads o SYSTEM_PROMPT lower model_name
                transcribe max_iterations uv envs s0 Hs) as Hb.
  destruct (run_loop _ _ _ _ _ _ _ _ _ envs s0) as [[r |] s]; simpl in *;
    [| done].
  pose proof (still_finally s) as Hf. destruct (finally s) as [c s']. simpl in *.
  by eapply within_bound_still.
Qed.

(** ** Without the voice *)

Section Silent.
Context `{PyFormat} (dev : device).
Context (loads : text -> option json).
Context (o : outside).
Context (SYSTEM_PROMPT : string).
Context (lower : text -> text).
Context (model_name : string) (transcribe : option Z -> list Q -> result text).
Context (max_iterations : nat).

#[local] Abbreviation before :=
  (before lower model_name transcribe max_iterations false).
#[local] Abbreviation pass :=
  (pass dev loads o SYSTEM_PROMPT lower model_name transcribe
     max_iterations false).
#[local] Abbreviation run_loop :=
  (run_loop dev loads o SYSTEM_PROMPT lower model_name transcribe
     max_iterations false).

(** Without the voice no pass is skipped. *)
Lemma before_decides e s :
  match before e s with
  | (Ok Skip, _) => False
  | _ => True
  end.
Proof.
  unfold Agent.before, on_esc_press, on_tick, voice_runs, on_voice,
    Agent.process_voice_input, heard_by, on_exec, update, on_shown, on_field,
    is_listening, set_listening, set_agent_running, modify, bindM, get, ret.
  repeat (case_match; simplify_eq/=); done.
Qed.

(** A pass that lets the loop go on has made an iteration. *)
Lemma pass_advances e s :
  match pass e s with
  | (Ok GoOn, s') => i s' = S (i s) /\ i s < max_iterations
  | _ => True
  end.
Proof.
  unfold Agent.pass, bindM, ret.
  pose proof (before_decides e s) as Hd.
  pose proof (before_cases lower model_name transcribe max_iterations false e s) as Hlt.
  pose proof (frame_before lower model_name transcribe max_iterations false
                still e s)
    as [Hi _].
  destruct (before e s) as [[[| | voice_feedback] |] s1]; simpl in *; try done.
  pose proof (iteration_counts dev loads o SYSTEM_PROMPT e voice_feedback s1) as Hit.
  destruct (iteration _ _ _ _ e voice_feedback s1) as [[[] |] s2]; [| done].
  destruct Hit as (_ & _ & Hok). destruct (Hok I). lia.
Qed.

Lemma run_loop_ends envs s :
  max_iterations - i s < length envs -> is_Some (run_loop envs s).1.
Proof.
  revert s. induction envs as [| e envs IH]; intros s Hlen; simpl in *; [lia |].
  pose proof (pass_advances e s) as Hp.
  destruct (pass e s) as [[[] |] s1]; simpl; [| done..].
  apply IH. lia.
Qed.

End Silent.

(** Without the voice the loop ends.  When the voice is not asked
    for, cannot be imported or cannot be started, and there are more
    passes at hand than [max_iterations], [run_desktop_agent] comes to
    its end: by the condition of the loop, by the ESC key or by an
    exception. *)
Lemma silent_agent_ends `{PyFormat} dev loads o SYSTEM_PROMPT lower model_name
  transcribe task max_iterations use_voice b envs :
  (start_voice use_voice b).2 = false ->
  max_iterations < length envs ->
  is_Some (run_desktop_agent dev loads o SYSTEM_PROMPT lower model_name
             transcribe task max_iterations use_voice b envs).1.
Proof.
  intros Hv Hlen. unfold run_desktop_agent, setup.
  destruct (start_voice use_voice b) as [v uv]. simpl in Hv. subst uv.
  destruct (save_screenshot _ _); simpl; [| done].
  set (s0 := {| i := 0 |}).
  pose proof (run_loop_ends dev loads o SYSTEM_PROMPT lower model_name
                transcribe max_iterations envs s0) as He.
  destruct (run_loop _ _ _ _ _ _ _ _ _ envs s0) as [[r |] s]; simpl in *;
    [by destruct (finally s) |].
  apply He. lia.
Qed.

(** ** With a voice that hangs *)

Section Hanging.
Context `{PyFormat} (dev : device).
Context (loads : text -> option json).
Context (o : outside).
Context (SYSTEM_PROMPT : string).
Context (lower : text -> text).
Context (model_name : string) (transcribe : option Z -> list Q -> result text).
Context (max_iterations : nat).

#[local] Abbreviation pass :=
  (pass dev loads o SYSTEM_PROMPT lower model_name transcribe
     max_iterations true).
#[local] Abbreviation run_loop :=
  (run_loop dev loads o SYSTEM_PROMPT lower model_name transcribe
     max_iterations true).

(** Nobody presses ESC, and no new recording is heard before line
    280. *)
Definition uneventful (e : pass_env) : Prop :=
  esc_at_head e = false /\ esc_in_pass e = false /\
  forallb no_hear (heard_first e) = true.

(** The agent is in its loop, its window can be written to, and its
    voice processor hangs. *)
Record hangs (s : agent) : Prop := Hangs {
  h_running : agent_running s = true;
  h_stop : stop_event s = false;
  h_bound : i s < max_iterations;
  h_window : visible (shown s);
  h_voice : exists v, voice_processor s = Some v /\
                      doomed model_name transcribe v;
}.

Lemma on_tick_running fires s :
  agent_running s = true -> on_tick fires s = (Ok tt, s).
Proof.
  intros Hr. unfold on_tick, modify. destruct fires; [| done].
  rewrite Hr, tick_running. by destruct s.
Qed.

Lemma update_visible new_status s :
  visible (shown s) ->
  exists w, update new_status s = (Ok tt, set_shown w s) /\ visible w.
Proof.
  intros Hv.
  destruct (update_agent_status_visible new_status _ Hv) as (w & Hu & _ & ? & _).
  exists w. unfold update, on_shown, on_field. by rewrite Hu.
Qed.

Lemma pass_hangs e s :
  uneventful e -> hangs s ->
  exists s', pass e s = (Ok GoOn, s') /\ hangs s' /\ still s s'.
Proof.
  intros (He1 & He2 & Hq) [Hrun Hstop Hi Hw (v & Hv & Hd)].
  pose proof (doomed_drive model_name transcribe _ _ Hq Hd) as Hd'.
  unfold Agent.pass, Agent.before. rewrite He1, He2.
  unfold bindM at 1 2 3. simpl. rewrite on_tick_running by done.
  unfold bindM at 1 2, get. apply Nat.ltb_lt in Hi as Hlt. rewrite Hlt, Hrun. simpl.
  unfold bindM at 1 2. simpl. rewrite Hstop.
  unfold bindM at 1 2. simpl. rewrite Hv. simpl.
  rewrite (d_indicator _ _ _ Hd'). unfold bindM.
  destruct (update_visible "Распознавание речи"
              (set_voice (Some (drive model_name transcribe (heard_first e) v)) s))
    as (w & -> & Hw'); [done |].
  eexists. split; [done |]. split; [| done]. split; simpl; eauto.
Qed.

Lemma run_loop_hangs envs s :
  Forall uneventful envs -> hangs s ->
  (run_loop envs s).1 = None /\ still s (run_loop envs s).2.
Proof.
  intros He. revert s. induction He as [| e envs He _ IH]; intros s Hs; simpl.
  { done. }
  destruct (pass_hangs e s He Hs) as (s' & -> & Hs' & Hst).
  destruct (IH s' Hs') as [Hr Hst']. split; [done | by etrans].
Qed.

(** C19: when Whisper raises on the recordings the voice processor still
    holds, the agent hangs: as long as nobody presses ESC and no new
    recording is heard, every pass of the loop is skipped at line 284,
    the counter stands still, the model is not asked, and the loop does
    not end, however many passes it makes. *)
Theorem doomed_voice_stalls_agent envs s :
  Forall uneventful envs -> hangs s ->
  (run_loop envs s).1 = None /\
  i (run_loop envs s).2 = i s /\
  requests (run_loop envs s).2 = requests s.
Proof. intros He Hs. by destruct (run_loop_hangs envs s He Hs) as [? [? ?]]. Qed.

End Hanging.

(** ** The iteration and the history *)

Ltac fields :=
  cbn [i agent_running stop_event exec mem voice_processor requests shown
       base64 prompts command_queue set_i set_flags set_exec set_mem set_voice
       set_requests set_shown set_base64 set_prompts set_queue fst snd].

(** The status after [update_agent_status(new_status)]. *)
Definition lit (new_status : string) (w : status) : status :=
  (update_agent_status new_status w).2.

Lemma visible_lit new_status w : visible w -> visible (lit new_status w).
Proof.
  intros Hv. unfold lit.
  by destruct (update_agent_status_visible new_status w Hv) as (w' & -> & _ & ? & _).
Qed.

Lemma update_Ok new_status s :
  visible (shown s) ->
  update new_status s = (Ok tt, set_shown (lit new_status (shown s)) s).
Proof.
  intros Hv. unfold update, on_shown, on_field, lit.
  by destruct (update_agent_status_visible new_status _ Hv) as (w' & -> & _).
Qed.

(** What an iteration sends as the screenshot: the text the encoding
    gives with the cache as it is. *)
Definition picture (e : pass_env) (cache : base64_cache) : string :=
  str_or_None (convert_screenshots (files e) (clock e).1 (clock e).2 cache).1.

Lemma encode_screenshot_run e s :
  exists cache, encode_screenshot e s = (Ok (picture e (base64 s)), set_base64 cache s).
Proof.
  unfold encode_screenshot, on_base64, on_field, picture.
  destruct (convert_screenshots _ _ _ _) as [img cache]. by exists cache.
Qed.

Section Exchange.
Context `{PyFormat} (dev : device).
Context (loads : text -> option json).
Context (o : outside).
Context (SYSTEM_PROMPT : string).

#[local] Abbreviation iteration := (iteration dev loads o SYSTEM_PROMPT).
#[local] Abbreviation commands_of := (commands_of loads).

(** The text of the results of the commands in the reply to [sent], run
    by an executor in state [st]; [None] when the reply holds no
    command. *)
Definition reply_of (system_message : string) (st : Executor.state)
  (sent : list History.message) : option string :=
  match commands_of (generate (api o) system_message sent) with
  | [] => None
  | commands => Some (results_text (process_commands dev commands st).1)
  end.

(** The executor after the commands in the reply to [sent]. *)
Definition exec_after (system_message : string) (st : Executor.state)
  (sent : list History.message) : Executor.state :=
  match commands_of (generate (api o) system_message sent) with
  | [] => st
  | commands => (process_commands dev commands st).2
  end.

Ltac by_refl := eexists; split_and!; reflexivity.

Ltac reduce := cbv beta iota; fields.

Ltac updated :=
  rewrite update_Ok by (fields; auto using visible_lit); reduce.

(** C9: when the window can be written to, the screenshot can be taken
    and the prompt can be had, an iteration of the loop does to the
    history what [exchange] does, with the reply of the model turned into
    the results of its commands by the executor: the same request is
    sent, the same history is left, and the same exception is raised if
    there is one.  When it returns, the request is logged, the counter
    has gone up by one and the executor has run the commands of the
    reply. *)
Theorem iteration_is_exchange e voice_feedback s f system_message cache :
  visible (shown s) ->
  save_screenshot (shot e) (pointer e) = Ok f ->
  load_prompt o SYSTEM_PROMPT (prompts s) = (Ok system_message, cache) ->
  match exchange (message_content (picture e (base64 s)) (str <$> voice_feedback))
          (reply_of system_message (exec s)) (mem s) with
  | (Ok sent, m) =>
      exists s', iteration e voice_feedback s = (Ok tt, s') /\ mem s' = m /\
        requests s' = requests s ++ [sent] /\ i s' = S (i s) /\
        exec s' = exec_after system_message (exec s) sent /\ prompts s' = cache
  | (Raise x, m) =>
      exists s', iteration e voice_feedback s = (Raise x, s') /\ mem s' = m
  end.
Proof.
  intros Hv Hshot Hprompt.
  destruct (encode_screenshot_run e (set_shown (lit "Анализ экрана" (shown s)) s))
    as (c & Henc). fields.
  unfold Agent.iteration, look, ask, obey, exchange, reply_of, exec_after, bindM,
    on_mem, on_exec, on_prompts, on_field, log_request, count, modify, get, ret,
    lift, generate_with_prompt.
  updated. rewrite Hshot, Henc. reduce.
  destruct (attach _ (mem s)) as [[temp_messages | x] m1]; reduce; [| by_refl].
  destruct (hide m1) as [[[] | x] m2]; reduce; [| by_refl].
  updated.
  destruct (request temp_messages m2) as [[sent | x] m3]; reduce; [| by_refl].
  unfold bindM. rewrite Hprompt. unfold ret, replacements. reduce.
  destruct (commands_of (generate (api o) system_message sent))
    as [| command commands] eqn:Hc; reduce; updated.
  - destruct (_ && _); [updated |]; eexists; rewrite Hc; by split_and!.
  - destruct (process_commands dev (command :: commands) (exec s)) as [rs st]
      eqn:Hp; reduce.
    destruct (record_results _ m3) as [[[] | x] m4]; reduce; [| by_refl].
    destruct (truncate m4) as [[[] | x] m5]; reduce; [| by_refl].
    destruct (_ && _); [updated |]; eexists; rewrite Hc, Hp; by split_and!.
Qed.

End Exchange.

(** ** Exceptions that end the loop *)

Section Failures.
Context `{PyFormat} (dev : device).
Context (loads : text -> option json).
Context (o : outside).
Context (SYSTEM_PROMPT : string).
Context (lower : text -> text).
Context (model_name : string) (transcribe : option Z -> list Q -> result text).
Context (max_iterations : nat) (use_voice : bool).

#[local] Abbreviation iteration := (iteration dev loads o SYSTEM_PROMPT).
#[local] Abbreviation before :=
  (before lower model_name transcribe max_iterations use_voice).
#[local] Abbreviation run_loop :=
  (run_loop dev loads o SYSTEM_PROMPT lower model_name transcribe
     max_iterations use_voice).

(** A pass that makes an iteration ends as the iteration does. *)
Lemma run_loop_raises e envs s s1 voice_feedback x s2 :
  before e s = (Ok (Iterate voice_feedback), s1) ->
  iteration e voice_feedback s1 = (Raise x, s2) ->
  run_loop (e :: envs) s = (Some (Raise x), s2).
Proof.
  intros Hb Hi. simpl. unfold pass, bindM at 1. rewrite Hb.
  unfold bindM. by rewrite Hi.
Qed.

(** C16: a screenshot that cannot be taken ends the agent.  When
    [save_screenshot] raises in a pass that has come to its iteration,
    the loop ends with that exception: the history is as the head of the
    loop left it and the model is not asked. *)
Theorem failed_capture_ends_loop e envs s s1 voice_feedback x :
  before e s = (Ok (Iterate voice_feedback), s1) ->
  visible (shown s1) ->
  save_screenshot (shot e) (pointer e) = Raise x ->
  run_loop (e :: envs) s
  = (Some (Raise x), set_shown (lit "Анализ экрана" (shown s1)) s1).
Proof.
  intros Hb Hv Hshot. apply (run_loop_raises _ _ _ _ _ _ _ Hb).
  unfold Agent.iteration, look, bindM, lift. rewrite update_Ok by done.
  by rewrite Hshot.
Qed.

(** A prompt file that cannot be read ends the agent.  When the
    prompt is not in the cache and its file cannot be read, the loop ends
    with the exception of the file in the first pass that comes to ask
    the model, after the screenshot has gone into the history. *)
Theorem unread_prompt_ends_loop e envs s s1 voice_feedback f x m :
  before e s = (Ok (Iterate voice_feedback), s1) ->
  visible (shown s1) ->
  save_screenshot (shot e) (pointer e) = Ok f ->
  prompts s1 !! prompt_path SYSTEM_PROMPT = None ->
  read_text o (prompt_path SYSTEM_PROMPT) = Raise x ->
  (attach (message_content (picture e (base64 s1)) (str <$> voice_feedback))
     ;;; hide) (mem s1) = (Ok tt, m) ->
  exists s2, run_loop (e :: envs) s = (Some (Raise x), s2) /\
             mem s2 = m /\ i s2 = i s1 /\ exec s2 = exec s1.
Proof.
  intros Hb Hv Hshot Hc Hr Hm.
  destruct (encode_screenshot_run e (set_shown (lit "Анализ экрана" (shown s1)) s1))
    as (c & Henc). fields.
  pose proof (load_prompt_unread o SYSTEM_PROMPT _ x Hc Hr) as Hl.
  revert Hm. unfold bindM.
  destruct (attach _ (mem s1)) as [[temp_messages | ?] m1] eqn:Ha; [| done].
  destruct (hide m1) as [[[] | ?] m2] eqn:Hh; intros [= <-].
  eexists. split; [apply (run_loop_raises _ _ _ _ _ _ _ Hb) |].
  - unfold Agent.iteration, look, ask, bindM, on_mem, on_prompts, on_field,
      log_request, modify, lift, ret, generate_with_prompt.
    rewrite update_Ok by done. rewrite Hshot, Henc. cbv beta iota. fields.
    rewrite Ha. cbv beta iota. fields. rewrite Hh. cbv beta iota. fields.
    rewrite update_Ok by (fields; auto using visible_lit). cbv beta iota. fields.
    unfold request. cbv beta iota. fields. unfold bindM. rewrite Hl. reflexivity.
  - done.
Qed.

End Failures.

(** ** The cleanup *)

(** With the window gone, the [finally] block raises at its first line:
    the flag is not cleared and the voice processor is not stopped. *)
Lemma finally_gone s w :
  status_window (shown s) = Some w -> destroyed w = true ->
  finally s
  = (Raise TclError,
     set_shown {| agent_status := "Завершение работы";
                  status_window := status_window (shown s) |} s).
Proof.
  intros Hw Hd. unfold finally, bindM, update, on_shown, on_field.
  by rewrite (update_agent_status_gone _ _ w).
Qed.

(** With a window that can be written to, the cleanup is made. *)
Lemma finally_visible s :
  visible (shown s) ->
  exists s', finally s = (Ok tt, s') /\ agent_running s' = false /\
             voice_processor s' = stop <$> voice_processor s.
Proof.
  intros Hv. unfold finally, bindM. rewrite update_Ok by done.
  eexists. by split_and!.
Qed.

(** The voice processor that was started. *)
Definition voice_on (b : boot) : Prop :=
  VOICE_AVAILABLE b = true /\ constructed b = None /\ stream_opened b = None.

Lemma start_voice_on b :
  voice_on b -> start_voice true b = (Some (start (init_processor true)), true).
Proof. intros (Ha & Hc & Ho). unfold start_voice. by rewrite Ha, Hc, Ho. Qed.

Section Cleanup.
Context `{PyFormat} (dev : device).
Context (loads : text -> option json).
Context (o : outside).
Context (SYSTEM_PROMPT : string).
Context (lower : text -> text).
Context (model_name : string) (transcribe : option Z -> list Q -> result text).

#[local] Abbreviation run_desktop_agent :=
  (run_desktop_agent dev loads o SYSTEM_PROMPT lower model_name transcribe).

(** The ESC key can make the cleanup fail.  When the voice is on,
    the status window is there, ESC is pressed before the first pass and
    the timer of the window fires before the loop looks at the flag, the
    window is destroyed, the loop ends, and the [finally] block raises
    at its first line: [run_desktop_agent] ends with the error of Tk and
    the voice processor is left running. *)
Lemma run_desktop_agent_window_gone task max_iterations b f w e envs :
  voice_on b -> status_window (window b) = Some w ->
  save_screenshot (first_shot b) (first_pointer b) = Ok f ->
  esc_at_head e = true -> tick_at_head e = true ->
  let '(r, s) := run_desktop_agent task max_iterations true b (e :: envs) in
  r = Some (Raise TclError) /\
  is_running <$> voice_processor s = Some true /\
  i s = 0 /\ requests s = [].
Proof.
  intros Hvoice Hw Hshot He Ht.
  unfold Agent.run_desktop_agent, setup. rewrite (start_voice_on b Hvoice), Hshot.
  cbn [bind]. set (s0 := {| i := 0 |}).
  destruct (tick_stopped (window b) w Hw) as (w' & Hw' & Hd).
  assert (pass dev loads o SYSTEM_PROMPT lower model_name transcribe
            max_iterations true e s0
          = (Ok Leave, set_shown (tick false (window b)) (set_flags false true s0)))
    as Hp.
  { unfold pass, before. rewrite He, Ht. unfold bindM, on_esc_press, on_tick,
      modify, get. fields. by rewrite andb_false_r. }
  cbn [run_loop]. rewrite Hp.
  by rewrite (finally_gone _ w') by done.
Qed.

(** C23: a first screenshot that cannot be taken leaves the voice
    processor running.  When the voice is on and the screenshot of line
    210 raises, [run_desktop_agent] ends with that exception before its
    [try]: the processor that was started is not stopped and the flag
    [agent_running] stays set. *)
Theorem failed_first_capture_skips_cleanup task max_iterations b x envs :
  voice_on b ->
  save_screenshot (first_shot b) (first_pointer b) = Raise x ->
  let '(r, s) := run_desktop_agent task max_iterations true b envs in
  r = Some (Raise x) /\
  is_running <$> voice_processor s = Some true /\
  agent_running s = true.
Proof.
  intros Hvoice Hshot.
  unfold Agent.run_desktop_agent, setup. by rewrite (start_voice_on b Hvoice), Hshot.
Qed.

End Cleanup.

(** ** What the polling drops *)

Section Polling.
Context (model_name : string) (transcribe : option Z -> list Q -> result text).

#[local] Abbreviation poll := (poll model_name transcribe).
#[local] Abbreviation drive := (drive model_name transcribe).

(** C31: the transcriptions that are on the text queue behind the first
    one that is accepted are lost: the poll takes them all from the queue
    and looks at the first alone, whatever the others are, a word that
    stops the agent included. *)
Theorem later_transcription_is_lost ls rounds v t rest :
  text_queue (drive ls v) = t :: rest -> accepted t = true ->
  (poll (ls :: rounds) v).1 = Some t /\
  text_queue (poll (ls :: rounds) v).2 = [].
Proof.
  intros Hq Ht. simpl. rewrite Hq. simpl. by rewrite Ht.
Qed.

(** What the poll returns has been accepted, and was on the text
    queue. *)
Lemma poll_accepted rounds v t :
  (poll rounds v).1 = Some t -> accepted t = true.
Proof.
  revert v. induction rounds as [| ls rounds IH]; intros v; simpl; [done |].
  destruct (List.find accepted _) as [t' |] eqn:Hf; simpl; [| apply IH].
  intros [= <-]. by apply find_some in Hf as [_ ?].
Qed.

End Polling.

(** * Runs that are computed *)

(** A model that always asks for a click, a decoder that knows the one
    object of its reply, a machine whose prompt file can be read, and
    passes in which nothing happens. *)
Definition click_reply : string := "I click. {click}".

Definition knows_click : text -> option json :=
  fun t => if bool_decide (t = text_of "{click}") then Some demo_click else None.

Definition clicker : outside :=
  {| read_text := fun _ => Ok "You drive a desktop.";
     read_base64 := fun path => Ok path;
     api := fun _ => Some click_reply |}.

(** The same, without its prompt file. *)
Definition unprompted : outside :=
  {| read_text := fun _ => Raise (Exception "No such file or directory");
     read_base64 := fun path => Ok path;
     api := fun _ => Some click_reply |}.

Definition nothing : pass_env :=
  {| esc_at_head := false; tick_at_head := false; esc_in_pass := false;
     heard_first := []; heard_then := []; rounds := [[]]; typed := [];
     shot := Ok (1920, 1080)%Z; pointer := (960, 540)%Z;
     files := disk_with 10 "IMG"; clock := (10.1, 10.2)%Q |}.

(** The threads of the voice processor go on, nothing new is heard. *)
Definition working : pass_env :=
  {| esc_at_head := false; tick_at_head := true; esc_in_pass := false;
     heard_first := [Take; Collect; Work; Finish 0; Transcribe.Empty];
     heard_then := []; rounds := [[]]; typed := [];
     shot := Ok (1920, 1080)%Z; pointer := (960, 540)%Z;
     files := disk_with 10 "IMG"; clock := (10.1, 10.2)%Q |}.

(** The screen cannot be captured. *)
Definition blind : pass_env :=
  {| esc_at_head := false; tick_at_head := false; esc_in_pass := false;
     heard_first := []; heard_then := []; rounds := [[]]; typed := [];
     shot := Raise (Exception "screen grab failed"); pointer := (960, 540)%Z;
     files := disk_with 10 "IMG"; clock := (10.1, 10.2)%Q |}.

(** ESC is pressed, and the window sees it. *)
Definition escaped : pass_env :=
  {| esc_at_head := true; tick_at_head := true; esc_in_pass := false;
     heard_first := []; heard_then := []; rounds := [[]]; typed := [];
     shot := Ok (1920, 1080)%Z; pointer := (960, 540)%Z;
     files := disk_with 10 "IMG"; clock := (10.1, 10.2)%Q |}.

(** A machine on which everything starts, with the status window up. *)
Definition ready : boot :=
  {| VOICE_AVAILABLE := true; constructed := None; stream_opened := None;
     first_shot := Ok (1920, 1080)%Z; first_pointer := (960, 540)%Z;
     window := run_status_overlay 1920 initial_status |}.

(** The same, with a screen that cannot be captured. *)
Definition dark : boot :=
  {| VOICE_AVAILABLE := true; constructed := None; stream_opened := None;
     first_shot := Raise (Exception "screen grab failed");
     first_pointer := (960, 540)%Z;
     window := run_status_overlay 1920 initial_status |}.

Definition demo_agent (o : outside) (use_voice : bool) (max_iterations : nat)
  (b : boot) : list pass_env -> option (result unit) * agent :=
  @run_desktop_agent demo_format calm knows_click o "system" id "tiny"
    whisper "task" max_iterations use_voice b.

Definition demo_loop (o : outside) (use_voice : bool) (max_iterations : nat)
  : list pass_env -> agent -> option (result unit) * agent :=
  @run_loop demo_format calm knows_click o "system" id "tiny"
    whisper max_iterations use_voice.

(** The agent after its set-up, without the voice. *)
Definition fresh : agent := (setup "task" false ready).2.

(** The agent whose voice processor has heard the phrase Whisper raises
    on. *)
Definition deaf : agent :=
  set_voice (Some (after humming (init_processor true))) fresh.

(** Two phrases, each transcribed and collected before the agent
    polls. *)
Definition two_collected : list label :=
  one_phrase ++ [Take; Collect; Work; Finish 0; Transcribe.Empty;
                 Hear cfg0 shout 1%Q; Hear cfg0 hush 1.4%Q;
                 Take; Collect; Work; Finish 1; Transcribe.Empty].

Lemma silent_agent_ends_witness :
  is_Some (demo_agent clicker false 1 ready [nothing; nothing]).1.
Proof.
  apply (@silent_agent_ends demo_format calm knows_click clicker "system" id
           "tiny" whisper "task" 1 false ready [nothing; nothing]).
  - done.
  - simpl. lia.
Defined.

Lemma deaf_hangs : hangs "tiny" whisper 15 deaf.
Proof.
  split; simpl; [done | done | lia | by_compute |].
  eexists. split; [done |]. apply humming_doomed.
Qed.

Lemma doomed_voice_stalls_agent_witness :
  (demo_loop clicker true 15 [working; working; working] deaf).1 = None /\
  i (demo_loop clicker true 15 [working; working; working] deaf).2 = i deaf /\
  requests (demo_loop clicker true 15 [working; working; working] deaf).2
  = requests deaf.
Proof.
  apply (@doomed_voice_stalls_agent demo_format calm knows_click clicker "system"
           id "tiny" whisper 15 [working; working; working] deaf);
    [| apply deaf_hangs].
  repeat constructor.
Defined.

Lemma later_transcription_is_lost_witness :
  (poll "tiny" whisper [two_collected] (init_processor true)).1
  = Some (text_of "open the browser") /\
  text_queue (poll "tiny" whisper [two_collected] (init_processor true)).2 = [].
Proof.
  apply (later_transcription_is_lost "tiny" whisper two_collected []
           (init_processor true) (text_of "open the browser") [text_of "стоп"]);
    by vm_compute.
Defined.

Lemma iteration_is_exchange_witness :
  match exchange (message_content (picture nothing (base64 fresh)) (str <$> None))
          (@reply_of demo_format calm knows_click clicker "You drive a desktop."
             (exec fresh))
          (mem fresh) with
  | (Ok sent, m) =>
      exists s',
        @iteration demo_format calm knows_click clicker "system" nothing None fresh
        = (Ok tt, s') /\ mem s' = m /\
        requests s' = requests fresh ++ [sent] /\ i s' = S (i fresh) /\
        exec s' = @exec_after demo_format calm knows_click clicker
                    "You drive a desktop." (exec fresh) sent /\
        prompts s' = {[prompt_path "system" := "You drive a desktop."]}
  | (Raise x, m) =>
      exists s',
        @iteration demo_format calm knows_click clicker "system" nothing None fresh
        = (Raise x, s') /\ mem s' = m
  end.
Proof.
  apply (@iteration_is_exchange demo_format calm knows_click clicker "system"
           nothing None fresh
           {| picture_size := (910, 512)%Z; dot := (450, 251, 460, 261)%Z |}
           "You drive a desktop.").
  - by_compute.
  - by vm_compute.
  - done.
Defined.

Lemma failed_capture_ends_loop_witness :
  demo_loop clicker false 15 [blind; nothing] fresh
  = (Some (Raise (Exception "screen grab failed")),
     set_shown (lit "Анализ экрана" (shown fresh)) fresh).
Proof.
  apply (@failed_capture_ends_loop demo_format calm knows_click clicker "system"
           id "tiny" whisper 15 false blind [nothing] fresh fresh None).
  - by vm_compute.
  - by_compute.
  - done.
Defined.

Lemma unread_prompt_ends_loop_witness :
  exists s2,
    demo_loop unprompted false 15 [nothing; nothing] fresh
    = (Some (Raise (Exception "No such file or directory")), s2) /\
    mem s2
    = ((attach (message_content (picture nothing (base64 fresh)) (str <$> None))
          ;;; hide) (mem fresh)).2 /\
    i s2 = i fresh /\ exec s2 = exec fresh.
Proof.
  apply (@unread_prompt_ends_loop demo_format calm knows_click unprompted "system"
           id "tiny" whisper 15 false nothing [nothing] fresh fresh None
           {| picture_size := (910, 512)%Z; dot := (450, 251, 460, 261)%Z |}).
  - by vm_compute.
  - by_compute.
  - by vm_compute.
  - done.
  - done.
  - by vm_compute.
Defined.

Lemma run_desktop_agent_window_gone_witness :
  let '(r, s) := demo_agent clicker true 15 ready [escaped; nothing] in
  r = Some (Raise TclError) /\
  is_running <$> voice_processor s = Some true /\
  i s = 0 /\ requests s = [].
Proof.
  apply (@run_desktop_agent_window_gone demo_format calm knows_click clicker
           "system" id "tiny" whisper "task" 15 ready
           {| picture_size := (910, 512)%Z; dot := (450, 251, 460, 261)%Z |}
           (new_overlay 1920) escaped [nothing]); done.
Defined.

Lemma failed_first_capture_skips_cleanup_witness :
  let '(r, s) := demo_agent clicker true 15 dark [nothing] in
  r = Some (Raise (Exception "screen grab failed")) /\
  is_running <$> voice_processor s = Some true /\
  agent_running s = true.
Proof.
  apply (@failed_first_capture_skips_cleanup demo_format calm knows_click clicker
           "system" id "tiny" whisper "task" 15 dark
           (Exception "screen grab failed") [nothing]); done.
Defined.

(** One iteration from the start: the model is asked once, its click is
    made and reported in the history, the status is shown in the window,
    and the loop ends at its bound. *)
Example one_iteration_runs :
  let '(r, s) := demo_agent clicker false 1 ready [nothing; nothing] in
  r = Some (Ok tt) /\ i s = 1 /\ length (requests s) = 1 /\
  trace (exec s)
  = [PressHotkey [JStr "win"; JStr "d"]; Sleep (JInt 2);
     ClickMouseButton (JStr "left"); Settle 0.5] /\
  (content <$> heap (mem s)) !! 1
  = Some [Text ("Результаты выполнения команд:" +:+ nl
                +:+ "+ mouse_button: Clicked left mouse button" +:+ nl)] /\
  status_label <$> status_window (shown s) = Some "Статус: Завершение работы" /\
  cached_string <$> base64 s !! "screenshots/fullscreen.jpg" = Some "IMG".
Proof. by vm_compute. Qed.

(** The word that stops the agent, heard behind another phrase, is not
    seen: the agent goes on with the first phrase as feedback. *)
Example stop_behind_a_phrase :
  let '(r, s) := demo_agent clicker true 1 ready
                   [{| esc_at_head := false; tick_at_head := false;
                       esc_in_pass := false;
                       heard_first := two_collected; heard_then := [];
                       rounds := [[]]; typed := [];
                       shot := Ok (1920, 1080)%Z; pointer := (960, 540)%Z;
                       files := disk_with 10 "IMG"; clock := (10.1, 10.2)%Q |};
                    nothing] in
  r = Some (Ok tt) /\ i s = 1 /\
  text_queue <$> voice_processor s = Some [] /\
  transcripts ∘ pool <$> voice_processor s
  = Some [text_of "open the browser"; text_of "стоп"] /\
  (content <$> heap (mem s)) !! 0
  = Some [Text "New task: task"; Text "Fullscreen screenshot:";
          ImageUrl "data:image/jpeg;base64,IMG";
          Text "Voice feedback: open the browser";
          Text "'*Screenshots hidden by system*'"].
Proof. by vm_compute. Qed.

(** Heard alone, the word stops the agent before it asks the model. *)
Definition stop_heard : list label :=
  [Hear cfg0 shout 0%Q; Hear cfg0 hush 0.4%Q; Take; Collect; Work; Finish 0; Transcribe.Empty].

Example stop_word_stops :
  let '(r, s) := demo_agent clicker true 15 ready
                   [{| esc_at_head := false; tick_at_head := false;
                       esc_in_pass := false;
                       heard_first := stop_heard; heard_then := [];
                       rounds := [[]]; typed := [];
                       shot := Ok (1920, 1080)%Z; pointer := (960, 540)%Z;
                       files := disk_with 10 "IMG"; clock := (10.1, 10.2)%Q |}] in
  r = Some (Ok tt) /\ i s = 0 /\ requests s = [] /\ agent_running s = false /\
  is_running <$> voice_processor s = Some false.
Proof. by vm_compute. Qed.

(** When the picture cannot be encoded at all the request carries an
    empty picture, and the text None when the thread of the encoding
    died. *)
Example empty_pictures :
  picture {| esc_at_head := false; tick_at_head := false; esc_in_pass := false;
             heard_first := []; heard_then := []; rounds := []; typed := [];
             shot := Ok (1920, 1080)%Z; pointer := (0, 0)%Z;
             files := {| separator := slash; exists_file := fun _ => false;
                         getmtime := fun _ => Ok 0%Q;
                         reencoded := fun _ _ => Ok "IMG";
                         raw_base64 := fun _ => Ok "RAW" |};
             clock := (0, 0)%Q |} ∅ = "" /\
  picture {| esc_at_head := false; tick_at_head := false; esc_in_pass := false;
             heard_first := []; heard_then := []; rounds := []; typed := [];
             shot := Ok (1920, 1080)%Z; pointer := (0, 0)%Z;
             files := {| separator := slash; exists_file := fun _ => true;
                         getmtime := fun _ => Raise (Exception "gone");
                         reencoded := fun _ _ => Ok "IMG";
                         raw_base64 := fun _ => Ok "RAW" |};
             clock := (0, 0)%Q |} ∅ = "None".
Proof. by vm_compute. Qed.
