(* ===== verification/Program.v ===== *)
(** * Program: the entry point and the threads beside the loop

    src/main.py, lines 112-175 and 405-446.

    - [transform_ui_elements] and [get_ui_visual_summary], the two
      functions on lists of elements: an element is a JSON object, what
      [dict.get], a subscript and an f-string do with it is that of file
      PyValue.  Nothing in the program calls them.
    - [update_position_info], [update_screenshots] and
      [command_processor_thread], the threads beside the loop, one turn
      of their [while] at a time, with what a thread does in a number of
      turns that nothing interrupts.
    - the entry point: the arguments of the command line with their
      defaults, the status window and the first status, the call of
      [run_desktop_agent] of file Agent and the [except] and [finally]
      around it.

    The parsing of the command line by argparse and the pynput listener
    are not modelled: [args] is what [parse_args] gave, and the handler
    of the listener is [on_esc_press] of file Agent. *)

From S2P Require Import Prelude PyValue Effects Extract Executor.
From S2P Require Import Cursor Transcribe Images Remote Overlay Agent.
From Stdlib Require Import QArith.
From stdpp Require Import pretty sorting.
#[local] Close Scope Q_scope.
#[local] Open Scope string_scope.
#[local] Open Scope list_scope.
#[local] Open Scope exec_scope.

(** ** Lists of elements *)

(** What [transform_ui_elements] makes of an element. *)
Record transformed_element : Type := Transformed {
  el_index : json;
  el_type : json;
  el_x : json;
  el_y : json;
}.

(** The dictionary of lines 123-127. *)
Definition element_dict (t : transformed_element) : json :=
  JObj [("index", el_index t); ("type", el_type t);
        ("position", JObj [("x", el_x t); ("y", el_y t)])].

Definition set_index (index : json) (t : transformed_element)
  : transformed_element :=
  {| el_index := index; el_type := el_type t; el_x := el_x t; el_y := el_y t |}.

(** [l.sort(key=...)] on keys that are numbers: what has the smaller key
    comes first, what has the same key stays in its order.  [(k, t)] is
    put before the first that has a key above [k]. *)
Fixpoint insert_sorted {A} (k : Q) (t : A) (l : list (Q * A)) : list (Q * A) :=
  match l with
  | [] => [(k, t)]
  | (k', t') :: l' =>
      if Qle_bool k k' then (k, t) :: l else (k', t') :: insert_sorted k t l'
  end.

Definition sort_keyed {A} (l : list (Q * A)) : list (Q * A) :=
  foldr (fun kt sorted => insert_sorted kt.1 kt.2 sorted) [] l.

Section Elements.
Context `{PyFormat}.

(** Lines 122-127: the values are read with [element.get]. *)
Definition transformed_of (element : json) : result transformed_element :=
  (index <- dict_get element "index" (JInt 0) ;;
   type <- dict_get element "type" (JStr "") ;;
   x <- dict_get element "x" (JInt 0) ;;
   y <- dict_get element "y" (JInt 0) ;;
   Ok {| el_index := index; el_type := type; el_x := x; el_y := y |})%py.

(** Lines 121-127: the loop over the elements stops at the first that is
    not a dictionary. *)
Fixpoint collect_elements (elements : list json) : result (list transformed_element) :=
  match elements with
  | [] => Ok []
  | element :: elements =>
      (t <- transformed_of element ;;
       transformed <- collect_elements elements ;;
       Ok (t :: transformed))%py
  end.

(** The key of an element, when its index is a number. *)
Definition keyed_by (t : transformed_element) : option (Q * transformed_element) :=
  k ← num_of (el_index t); Some (k, t).

(** Line 130, [transformed.sort(key=lambda e: e["index"])].  A list of
    one element or none is left as it is, whatever its key; a longer one
    is sorted when every index is a number.  [None] stands for the lists
    this does not say: what Python does with indexes that are not
    numbers depends on the comparisons its sort makes. *)
Definition sort_by_index (transformed : list transformed_element)
  : option (list transformed_element) :=
  match transformed with
  | [] | [_] => Some transformed
  | _ => keyed ← mapM keyed_by transformed; Some (sort_keyed keyed).*2
  end.

(** Lines 133-135: an index that is equal to 0 becomes the place in the
    list, counted from 1. *)
Definition reindex (transformed : list transformed_element)
  : list transformed_element :=
  imap (fun idx element =>
          if py_eq (el_index element) (JInt 0)
          then set_index (JInt (Z.of_nat (S idx))) element
          else element)
    transformed.

(** [transform_ui_elements(elements)] *)
Definition transform_ui_elements (elements : list json)
  : result (option (list json)) :=
  (transformed <- collect_elements elements ;;
   Ok (sorted ← sort_by_index transformed;
       Some (element_dict <$> reindex sorted)))%py.

(** Line 144: the line of an element. *)
Definition summary_line (element : json) : result string :=
  (index <- subscript element "index" ;;
   type <- subscript element "type" ;;
   position <- subscript element "position" ;;
   x <- subscript position "x" ;;
   position <- subscript element "position" ;;
   y <- subscript position "y" ;;
   Ok ("  [" +:+ py_str index +:+ "] " +:+ py_str type +:+ " at ("
       +:+ py_str x +:+ ", " +:+ py_str y +:+ ")" +:+ nl))%py.

(** [get_ui_visual_summary(ui_elements)] *)
Definition get_ui_visual_summary (ui_elements : list json) : result string :=
  foldl (fun summary element =>
           (summary <- summary ;;
            line <- summary_line element ;;
            Ok (summary +:+ line))%py)
    (Ok ("Распознанные UI-элементы:" +:+ nl)) ui_elements.

End Elements.

(** ** The threads beside the loop *)

(** [_last_cursor_position] and [_last_screen_dimensions] *)
Record position_info : Type := PositionInfo {
  _last_cursor_position : option (Z * Z);
  _last_screen_dimensions : option (Z * Z);
}.

Definition no_position_info : position_info :=
  {| _last_cursor_position := None; _last_screen_dimensions := None |}.

(** Lines 149-154: a turn of [update_position_info], on the libraries as
    they are then. *)
Definition update_position_turn (agent_running : bool) (g : gui)
  : ST position_info control :=
  if negb agent_running then ret Leave
  else
    cursor_position <~ lift (get_cursor_position g).1 ;;
    modify (fun p => {| _last_cursor_position := Some cursor_position;
                        _last_screen_dimensions := _last_screen_dimensions p |}) ;;;
    screen_dimensions <~ lift (get_screen_dimensions g).1 ;;
    modify (fun p => {| _last_cursor_position := _last_cursor_position p;
                        _last_screen_dimensions := Some screen_dimensions |}) ;;;
    ret GoOn.

(** [update_position_info()]: a turn for every reading of the flag and
    of the libraries, until one makes it leave. *)
Fixpoint update_position_info (readings : list (bool * gui)) (p : position_info)
  : option (result unit) * position_info :=
  match readings with
  | [] => (None, p)
  | (agent_running, g) :: readings =>
      match update_position_turn agent_running g p with
      | (Ok GoOn, p) => update_position_info readings p
      | (Ok Leave, p) => (Some (Ok tt), p)
      | (Raise e, p) => (Some (Raise e), p)
      end
  end.

(** Lines 157-159: a turn of [update_screenshots]. *)
Definition update_screenshots_turn (agent_running : bool)
  (shot : result (Z * Z)) (pointer : Z * Z) : result control :=
  if negb agent_running then Ok Leave
  else (_ <- save_screenshot shot pointer ;; Ok GoOn)%py.

Section Worker.
Context `{PyFormat} (dev : device).
(** What the callback of that number does with the results. *)
Context (callback : nat -> list res -> ST agent unit).

(** Lines 163-174: a turn of [command_processor_thread]. *)
Definition command_processor_turn : ST agent control :=
  s <~ get ;;
  if negb (agent_running s) then ret Leave
  else
    match command_queue s with
    | [] => ret GoOn
    | item :: rest =>
        modify (set_queue rest) ;;;
        match item with
        | None => ret Leave
        | Some (commands, cb) =>
            update "Выполнение команд" ;;;
            results <~
              on_exec (fun st =>
                         let '(r, st) := process_commands dev commands st in
                         (Ok r, st)) ;;
            callback cb results ;;;
            ret GoOn
        end
    end.

(** [command_processor_thread()], for [n] turns that nothing interrupts;
    [None] when it is running still. *)
Fixpoint command_processor_thread (n : nat) (s : agent)
  : option (result unit) * agent :=
  match n with
  | O => (None, s)
  | S n =>
      match command_processor_turn s with
      | (Ok GoOn, s) => command_processor_thread n s
      | (Ok Leave, s) => (Some (Ok tt), s)
      | (Raise e, s) => (Some (Raise e), s)
      end
  end.

End Worker.

(** ** The entry point *)

(** What [parse_args()] gives. *)
Record args : Type := Args {
  task : string;
  no_voice : bool;
  voice_model : string;
  voice_language : string;
  max_iterations : Z;
}.

(** Lines 409-417: the defaults. *)
Definition default_args : args :=
  {| task := "Open Chrome and navigate to youtube.com"; no_voice := false;
     voice_model := "tiny"; voice_language := "ru"; max_iterations := 15 |}.

(** Line 414: the models [--voice-model] takes. *)
Definition voice_models : list string :=
  ["tiny"; "base"; "small"; "medium"; "large"].

(** What the machine does while the program starts. *)
Record startup : Type := Startup {
  (* lines 29-35: [from services.voice_input import VoiceInputProcessor]
     succeeds *)
  voice_imported : bool;
  whisper_here : whisper_env;
  stream_starts : option exn;   (* what opening the stream in [start()] raises *)
  shot0 : result (Z * Z);       (* the screenshot of line 210 *)
  pointer0 : Z * Z;
  (* the width of the screen, when the status window was made before
     the first status is set *)
  overlay_up : option Z;
}.

(** Lines 424-430: the thread of the status window is started and the
    status set. *)
Definition launch (screen_width : option Z) : result unit * status :=
  update_agent_status "Запуск"
    (from_option (fun w => run_status_overlay w initial_status) initial_status
       screen_width).

(** What [run_desktop_agent] meets: the constructor of lines 186-191 is
    that of file Transcribe, called with the model and the language of
    the command line. *)
Definition boot_of (a : args) (st : startup) : boot :=
  {| VOICE_AVAILABLE := voice_imported st;
     constructed :=
       match VoiceInputProcessor (whisper_here st) (voice_model a)
               (voice_language a) 16000 None true with
       | Ok _ => None
       | Raise e => Some e
       end;
     stream_opened := stream_starts st;
     first_shot := shot0 st; first_pointer := pointer0 st;
     window := (launch (overlay_up st)).2 |}.

Section Main.
Context `{PyFormat} (dev : device).
Context (loads : text -> option json).
Context (o : outside).
Context (SYSTEM_PROMPT : string).
Context (lower : text -> text).
(** Whisper, by the language it is told. *)
Context (whisper : string -> option Z -> list Q -> result text).

(** Lines 430-446: the status is set, the agent is run, what it raises
    is printed, and the flag is cleared.  The result is the exception
    that was printed, if there was one; [None] when the agent has not
    ended within [envs].  The status is set on a window that was just
    made, or on none: that does not raise ([launch_Ok]). *)
Definition main_program (a : args) (st : startup) (envs : list pass_env)
  : option (option exn) * agent :=
  match run_desktop_agent dev loads o SYSTEM_PROMPT lower (voice_model a)
          (whisper (voice_language a)) (task a)
          (Z.to_nat (max_iterations a)) (negb (no_voice a)) (boot_of a st)
          envs with
  | (None, s) => (None, s)
  | (Some r, s) =>
      (Some (match r with Ok _ => None | Raise e => Some e end),
       set_flags false (stop_event s) s)
  end.

End Main.

(** * Properties *)

(** ** The sort *)

Section Sort.
Context {A : Type}.
Implicit Types (l : list (Q * A)) (k : Q) (t : A).

(** The order of the keys. *)
Definition by_key : relation (Q * A) := fun a b => (a.1 <= b.1)%Q.

Lemma insert_sorted_perm k t l : insert_sorted k t l ≡ₚ (k, t) :: l.
Proof.
  induction l as [| [k' t'] l IH]; simpl; [done |].
  destruct (Qle_bool k k'); [done |]. by rewrite IH, Permutation_swap.
Qed.

Lemma sort_keyed_perm l : sort_keyed l ≡ₚ l.
Proof.
  induction l as [| [k t] l IH]; simpl; [done |].
  by rewrite insert_sorted_perm, IH.
Qed.

Lemma insert_sorted_HdRel a k t l :
  by_key a (k, t) -> HdRel by_key a l -> HdRel by_key a (insert_sorted k t l).
Proof.
  intros Hk Hl. destruct l as [| [k' t'] l]; simpl; [by constructor |].
  destruct (Qle_bool k k'); constructor; [done |]. by inversion Hl.
Qed.

Lemma insert_sorted_Sorted k t l :
  Sorted by_key l -> Sorted by_key (insert_sorted k t l).
Proof.
  induction 1 as [| [k' t'] l Hl IH Hhd]; simpl; [by repeat constructor |].
  destruct (Qle_bool k k') eqn:Hle.
  - apply Qle_bool_iff in Hle. by repeat constructor.
  - constructor; [done |]. apply insert_sorted_HdRel; [| done].
    unfold by_key. simpl. apply Qlt_le_weak, Qnot_le_lt.
    by rewrite <- Qle_bool_iff, Hle.
Qed.

Lemma sort_keyed_Sorted l : Sorted by_key (sort_keyed l).
Proof.
  induction l as [| [k t] l IH]; simpl; [constructor |].
  by apply insert_sorted_Sorted.
Qed.

(** The sort is stable: what is in order is left as it is. *)
Lemma sort_keyed_id l : Sorted by_key l -> sort_keyed l = l.
Proof.
  induction 1 as [| [k t] l Hl IH Hhd]; simpl; [done |]. rewrite IH.
  destruct Hhd as [| [k' t'] l' Hle]; simpl; [done |].
  unfold by_key in Hle. simpl in Hle. by apply Qle_bool_iff in Hle as ->.
Qed.

Lemma same_key_Sorted k (ts : list A) : Sorted by_key ((fun t => (k, t)) <$> ts).
Proof.
  induction ts as [| t ts IH]; simpl; constructor; [done |].
  destruct ts; constructor. apply Qle_refl.
Qed.

End Sort.

(** ** Lists of elements *)

Section ElementLemmas.
Context `{PyFormat}.

Lemma py_eq_int_zero n : n <> 0%Z -> py_eq (JInt n) (JInt 0) = false.
Proof. intros Hn. simpl. unfold Qeq_bool. simpl. by destruct n. Qed.

Lemma keyed_elements transformed keyed :
  mapM keyed_by transformed = Some keyed -> keyed.*2 = transformed.
Proof.
  rewrite mapM_Some. induction 1 as [| t [k t'] ? ? Ht ? IH]; simpl; [done |].
  unfold keyed_by in Ht. by destruct (num_of (el_index t)); simplify_eq/=.
Qed.

(** The order of the indexes that are numbers. *)
Definition index_le (a b : transformed_element) : Prop :=
  exists x y, num_of (el_index a) = Some x /\ num_of (el_index b) = Some y /\
              (x <= y)%Q.

Lemma keyed_by_key transformed keyed :
  mapM keyed_by transformed = Some keyed ->
  Forall (fun kt => num_of (el_index kt.2) = Some kt.1) keyed.
Proof.
  rewrite mapM_Some. induction 1 as [| t [k t'] ? ? Ht ? IH]; constructor; [| done].
  unfold keyed_by in Ht. by destruct (num_of (el_index t)) eqn:E; simplify_eq/=.
Qed.

Lemma keyed_Sorted (keyed : list (Q * transformed_element)) :
  Forall (fun kt => num_of (el_index kt.2) = Some kt.1) keyed ->
  Sorted by_key keyed -> Sorted index_le keyed.*2.
Proof.
  intros Hk. induction 1 as [| a l Hl IH Hhd]; simpl; [constructor |].
  apply Forall_cons in Hk as [Ha Hk]. constructor; [by apply IH |].
  destruct Hhd as [| b l' Hab]; simpl; constructor.
  apply Forall_cons in Hk as [Hb _]. by exists a.1, b.1.
Qed.

(** The sort gives the elements it was given, in the order of their
    indexes. *)
Lemma sort_by_index_sorted transformed sorted :
  sort_by_index transformed = Some sorted ->
  sorted ≡ₚ transformed /\ Sorted index_le sorted.
Proof.
  unfold sort_by_index.
  destruct transformed as [| a [| b l]];
    [intros [= <-]; split; [done | by repeat constructor]..|].
  destruct (mapM keyed_by (a :: b :: l)) as [keyed |] eqn:Hk; [| done].
  intros [= <-]. split.
  - by rewrite sort_keyed_perm, (keyed_elements _ _ Hk).
  - apply keyed_Sorted; [| apply sort_keyed_Sorted].
    rewrite sort_keyed_perm. by eapply keyed_by_key.
Qed.

(** Elements that have the same number as their index stay in their
    order. *)
Lemma sort_by_index_same k transformed :
  Forall (fun t => num_of (el_index t) = Some k) transformed ->
  sort_by_index transformed = Some transformed.
Proof.
  intros Hk. unfold sort_by_index.
  assert (mapM keyed_by transformed = Some ((fun t => (k, t)) <$> transformed))
    as ->.
  { apply mapM_Some. induction Hk as [| t l Ht _ IH]; constructor; [| done].
    unfold keyed_by. by rewrite Ht. }
  simpl. rewrite sort_keyed_id by apply same_key_Sorted.
  rewrite <- list_fmap_compose, list_fmap_id.
  by destruct transformed as [| ? [| ? ?]].
Qed.

Lemma reindex_length transformed : length (reindex transformed) = length transformed.
Proof. apply length_imap. Qed.

Lemma reindex_lookup transformed idx element :
  transformed !! idx = Some element ->
  reindex transformed !! idx
  = Some (if py_eq (el_index element) (JInt 0)
          then set_index (JInt (Z.of_nat (S idx))) element else element).
Proof. intros Hl. unfold reindex. by rewrite list_lookup_imap, Hl. Qed.

(** Where no index is equal to 0 no index is set. *)
Lemma reindex_none transformed :
  Forall (fun t => py_eq (el_index t) (JInt 0) = false) transformed ->
  reindex transformed = transformed.
Proof.
  intros Hz. apply list_eq. intros idx. unfold reindex.
  rewrite list_lookup_imap. destruct (transformed !! idx) as [t |] eqn:Ht; [| done].
  simpl. by rewrite (proj1 (Forall_lookup _ _) Hz idx t Ht).
Qed.

(** Where every index is 0 the elements are numbered from 1. *)
Lemma reindex_all transformed :
  Forall (fun t => el_index t = JInt 0) transformed ->
  reindex transformed
  = imap (fun idx => set_index (JInt (Z.of_nat (S idx)))) transformed.
Proof.
  intros Hz. apply imap_ext. intros idx t Ht.
  by rewrite (proj1 (Forall_lookup _ _) Hz idx t Ht).
Qed.

(** No index is equal to 0 after the indexes were set. *)
Lemma reindex_no_zero transformed element :
  element ∈ reindex transformed -> py_eq (el_index element) (JInt 0) = false.
Proof.
  intros [idx Hidx]%list_elem_of_lookup. unfold reindex in Hidx.
  rewrite list_lookup_imap in Hidx.
  destruct (transformed !! idx) as [t |]; simplify_eq/=.
  destruct (py_eq (el_index t) (JInt 0)) eqn:E; [| done].
  apply py_eq_int_zero. lia.
Qed.

(** *** The whole function *)

(** An element without an index. *)
Definition unindexed (element : json) : Prop :=
  exists d, element = JObj d /\ PyValue.assoc "index" d = None.

Lemma collect_unindexed elements :
  Forall unindexed elements ->
  exists transformed,
    collect_elements elements = Ok transformed /\
    Forall (fun t => el_index t = JInt 0) transformed.
Proof.
  induction 1 as [| ? l (d & -> & Hd) _ (transformed & Hc & Hz)]; simpl.
  - by exists [].
  - rewrite Hd, Hc. simpl. eexists. split; [done |]. by constructor.
Qed.

(** What [collect_elements] raises is the [AttributeError] of the first element
    that is not a dictionary. *)
Lemma collect_Raise elements e :
  collect_elements elements = Raise e ->
  exists element, element ∈ elements /\
    (forall d, element <> JObj d) /\
    e = Exception (err_text (NoAttribute element "get")).
Proof.
  induction elements as [| element l IH]; simpl; [done |].
  destruct element; simpl;
    try (intros [= <-]; eexists; split; [by left | by split]).
  destruct (collect_elements l) eqn:Hl; simpl; [done |]. intros [= <-].
  destruct IH as (element & ? & ?); [done |]. exists element. split; [by right | done].
Qed.

(** Elements without indexes are numbered in their order.  When no
    element has an index, [transform_ui_elements] gives the elements in
    the order they came in, the first with the index 1, the next with
    2, and so on: the sort leaves elements of the same index where they
    are. *)
Theorem transform_numbers_unindexed elements :
  Forall unindexed elements ->
  exists transformed,
    collect_elements elements = Ok transformed /\
    transform_ui_elements elements
    = Ok (Some (imap (fun idx t =>
                        element_dict (set_index (JInt (Z.of_nat (S idx))) t))
                  transformed)).
Proof.
  intros (transformed & Hc & Hz)%collect_unindexed. exists transformed.
  split; [done |]. unfold transform_ui_elements. rewrite Hc. simpl.
  rewrite (sort_by_index_same (inject_Z 0))
    by (eapply Forall_impl; [done |]; by intros t ->).
  simpl. by rewrite reindex_all, fmap_imap.
Qed.

(** Elements with indexes are listed in the order of their indexes.
    When [transform_ui_elements] returns a list and no index is equal to
    0, the list holds the dictionaries of the elements that were given,
    each once, by rising index. *)
Theorem transform_sorts_indexed elements transformed result :
  collect_elements elements = Ok transformed ->
  Forall (fun t => py_eq (el_index t) (JInt 0) = false) transformed ->
  transform_ui_elements elements = Ok (Some result) ->
  exists sorted,
    result = element_dict <$> sorted /\ sorted ≡ₚ transformed /\
    Sorted index_le sorted.
Proof.
  intros Hc Hz. unfold transform_ui_elements. rewrite Hc. simpl.
  destruct (sort_by_index transformed) as [sorted |] eqn:Hs; [| done].
  intros [= <-]. destruct (sort_by_index_sorted _ _ Hs) as [Hp Hsorted].
  exists sorted. rewrite reindex_none; [done |]. by rewrite Hp.
Qed.

(** The summary of dictionaries [transform_ui_elements] has made. *)
Lemma summary_line_dict t :
  summary_line (element_dict t)
  = Ok ("  [" +:+ py_str (el_index t) +:+ "] " +:+ py_str (el_type t) +:+ " at ("
        +:+ py_str (el_x t) +:+ ", " +:+ py_str (el_y t) +:+ ")" +:+ nl).
Proof. reflexivity. Qed.

Lemma summary_of_dicts transformed :
  exists summary,
    get_ui_visual_summary (element_dict <$> transformed) = Ok summary.
Proof.
  unfold get_ui_visual_summary. generalize ("Распознанные UI-элементы:" +:+ nl).
  induction transformed as [| t l IH]; intros acc; [by eexists |].
  rewrite fmap_cons. cbn [foldl bind]. rewrite summary_line_dict. apply IH.
Qed.

(** What [transform_ui_elements] returns can be summed up: no key is
    missed by [get_ui_visual_summary]. *)
Lemma summary_of_transformed elements result :
  transform_ui_elements elements = Ok (Some result) ->
  exists summary, get_ui_visual_summary result = Ok summary.
Proof.
  unfold transform_ui_elements. destruct (collect_elements elements); simpl; [| done].
  destruct (sort_by_index _); simpl; [| done]. intros [= <-].
  apply summary_of_dicts.
Qed.

End ElementLemmas.

(** ** The threads beside the loop *)

(** A turn of [update_position_info] while the agent runs stores the two
    readings. *)
Lemma update_position_turn_running g p :
  update_position_turn true g p
  = (Ok GoOn, {| _last_cursor_position := Some (position g);
                 _last_screen_dimensions := Some (dims g) |}).
Proof.
  unfold update_position_turn, get_cursor_position, get_screen_dimensions, dims.
  by destruct (monitors g).
Qed.

(** The thread does not raise; it ends at the first reading of the flag
    that finds it cleared, and has stored what the libraries gave before
    that reading. *)
Lemma update_position_info_ends running g0 readings p :
  Forall (fun r => r.1 = true) running ->
  update_position_info (running ++ (false, g0) :: readings) p
  = (Some (Ok tt),
     from_option
       (fun r => {| _last_cursor_position := Some (position r.2);
                    _last_screen_dimensions := Some (dims r.2) |})
       p (last running)).
Proof.
  intros Hr. revert p.
  induction Hr as [| [r g] l Hg _ IH]; intros p; [reflexivity |].
  simpl in Hg. subst r. cbn [app update_position_info].
  rewrite update_position_turn_running, IH. destruct l as [| x l']; cbn; [done |].
  by destruct (proj2 (last_is_Some (x :: l'))) as [y ->].
Qed.

Lemma update_position_info_returns readings p e :
  (update_position_info readings p).1 <> Some (Raise e).
Proof.
  revert p. induction readings as [| [[] g] l IH]; intros p; simpl; [done | | done].
  rewrite update_position_turn_running. apply IH.
Qed.

(** *** The queue of commands *)

(** The queue is as it was. *)
Definition quiet (s s' : agent) : Prop := command_queue s' = command_queue s.

#[export] Instance quiet_preorder : PreOrder quiet.
Proof. split; [by intros s | intros s1 s2 s3 ? ?]. unfold quiet in *. congruence. Qed.

#[export] Instance quiet_frame : Frame quiet.
Proof. by split; [apply _ | ..]. Qed.

(** There is nothing for the worker to do: the queue is empty, or the
    agent has stopped. *)
Definition worker_idle (s : agent) : Prop :=
  command_queue s = [] \/ agent_running s = false.

Lemma finally_idle s : command_queue s = [] -> worker_idle (finally s).2.
Proof.
  intros Hq. unfold finally, bindM, update, on_shown, on_field.
  destruct (update_agent_status _ (shown s)) as [[[] | x] w]; [by right | by left].
Qed.

Section Queue.
Context `{PyFormat} (dev : device).
Context (loads : text -> option json).
Context (o : outside).
Context (SYSTEM_PROMPT : string).
Context (lower : text -> text).
Context (model_name : string) (transcribe : option Z -> list Q -> result text).

(** Nothing is put in the queue before the [finally] block. *)
Lemma run_loop_quiet max_iterations use_voice envs s :
  command_queue
    (run_loop dev loads o SYSTEM_PROMPT lower model_name transcribe
       max_iterations use_voice envs s).2
  = command_queue s.
Proof. by apply (frame_run_loop _ _ _ _ _ _ _ _ _ quiet). Qed.

Lemma run_desktop_agent_idle task max_iterations use_voice b envs :
  worker_idle
    (run_desktop_agent dev loads o SYSTEM_PROMPT lower model_name transcribe
       task max_iterations use_voice b envs).2.
Proof.
  unfold run_desktop_agent.
  assert (command_queue (setup task use_voice b).2 = []) as Hs.
  { unfold setup. by destruct (start_voice use_voice b). }
  destruct (setup task use_voice b) as [[uv | x] s0]; simpl in *; [| by left].
  pose proof (run_loop_quiet max_iterations uv envs s0) as Hq.
  destruct (run_loop _ _ _ _ _ _ _ _ _ envs s0) as [[r |] s]; simpl in *;
    [| left; congruence].
  pose proof (finally_idle s) as Hf. destruct (finally s). apply Hf. congruence.
Qed.

End Queue.

Section WorkerLemmas.
Context `{PyFormat} (dev : device).
Context (callback : nat -> list res -> ST agent unit).

#[local] Abbreviation command_processor_turn :=
  (command_processor_turn dev callback).
#[local] Abbreviation command_processor_thread :=
  (command_processor_thread dev callback).

(** With nothing to do, a turn of the worker changes nothing. *)
Lemma command_processor_turn_idle s :
  worker_idle s ->
  command_processor_turn s = (Ok (if agent_running s then GoOn else Leave), s).
Proof.
  intros Hi. unfold Program.command_processor_turn, bindM, get.
  destruct (agent_running s) eqn:Hr; [| done].
  destruct Hi as [-> | ?]; [done | congruence].
Qed.

Lemma command_processor_thread_idle n s :
  worker_idle s -> (command_processor_thread n s).2 = s.
Proof.
  intros Hi. induction n as [| n IH]; simpl; [done |].
  rewrite command_processor_turn_idle by done. by destruct (agent_running s).
Qed.

(** The worker that finds the sign to stop while the agent runs takes it
    and leaves. *)
Lemma command_processor_turn_sign s rest :
  agent_running s = true -> command_queue s = None :: rest ->
  command_processor_turn s = (Ok Leave, set_queue rest s).
Proof.
  intros Hr Hq. unfold Program.command_processor_turn, bindM, get.
  by rewrite Hr, Hq.
Qed.

(** The worker that finds commands while the agent runs and the window
    can be written to hands them to the executor and calls back. *)
Lemma command_processor_turn_runs s commands cb rest :
  agent_running s = true -> command_queue s = Some (commands, cb) :: rest ->
  visible (shown s) ->
  let s1 := set_shown (lit "Выполнение команд" (shown s)) (set_queue rest s) in
  let '(results, st) := process_commands dev commands (exec s) in
  command_processor_turn s
  = (callback cb results ;;; ret GoOn) (set_exec st s1).
Proof.
  intros Hr Hq Hv. unfold Program.command_processor_turn, bindM at 1, get.
  rewrite Hr, Hq. cbn [negb]. unfold bindM at 1, modify.
  unfold bindM at 1. rewrite update_Ok by done. cbv beta iota.
  unfold bindM at 1, on_exec, on_field. fields.
  by destruct (process_commands dev commands (exec s)).
Qed.

End WorkerLemmas.

(** C12: the commands are run by the loop alone.  At whatever pass
    [run_desktop_agent] stands, and after it has ended, the turns of
    [command_processor_thread] leave the agent as it is: the worker runs
    no command and calls no callback, for nothing but the sign to stop
    is ever put in [_command_results_queue], and that after the flag
    [agent_running] is cleared. *)
Theorem commands_run_by_loop_only `{PyFormat} dev loads o SYSTEM_PROMPT lower
  model_name transcribe task max_iterations use_voice b envs callback n :
  let s := (run_desktop_agent dev loads o SYSTEM_PROMPT lower model_name
              transcribe task max_iterations use_voice b envs).2 in
  (command_processor_thread dev callback n s).2 = s.
Proof. apply command_processor_thread_idle, run_desktop_agent_idle. Qed.

(** ** The entry point *)

(** The first status is set without an exception, on a window that can
    be written to. *)
Lemma launch_Ok screen_width :
  (launch screen_width).1 = Ok tt /\ visible (launch screen_width).2 /\
  (is_Some screen_width -> is_Some (status_window (launch screen_width).2)).
Proof.
  unfold launch.
  destruct (update_agent_status_visible "Запуск"
              (from_option (fun w => run_status_overlay w initial_status)
                 initial_status screen_width))
    as (s' & -> & _ & Hv & _ & Hw).
  { destruct screen_width; by intros w [= <-]. }
  split_and!; [done.. |]. intros [w ->]. simpl in *.
  destruct (status_window s'); [done |]. by destruct (proj2 Hw).
Qed.

(** The voice is off: it is not asked for, the module of the voice
    cannot be imported, Whisper is not there, the model cannot be
    loaded, or the stream cannot be opened. *)
Definition voiceless (a : args) (st : startup) : Prop :=
  no_voice a = true \/ voice_imported st = false \/
  whisper_imports (whisper_here st) = (false, false, false) \/
  is_Some (load_model (whisper_here st) (voice_model a)
             (device_for (whisper_here st) None)) \/
  is_Some (stream_starts st).

(** The voice processor is made and started. *)
Definition voiced (a : args) (st : startup) : Prop :=
  no_voice a = false /\ voice_imported st = true /\
  whisper_imports (whisper_here st) <> (false, false, false) /\
  load_model (whisper_here st) (voice_model a)
    (device_for (whisper_here st) None) = None /\
  stream_starts st = None.

(** What the constructor raises, when it is called. *)
Lemma constructed_boot_of a st :
  constructed (boot_of a st)
  = match whisper_module (whisper_here st) with
    | None =>
        Some (Exception "Модуль Whisper не найден. Голосовой ввод отключён.")
    | Some _ =>
        load_model (whisper_here st) (voice_model a)
          (device_for (whisper_here st) None)
    end.
Proof.
  unfold boot_of, VoiceInputProcessor. cbn [constructed].
  destruct (whisper_module _); [| done]. by destruct (load_model _ _ _).
Qed.

Lemma voiceless_start_voice a st :
  voiceless a st -> (start_voice (negb (no_voice a)) (boot_of a st)).2 = false.
Proof.
  intros Hv. unfold start_voice. rewrite constructed_boot_of.
  cbn [boot_of VOICE_AVAILABLE stream_opened].
  destruct Hv as [-> | [-> | [Hw | [[e He] | [e He]]]]];
    [done | by rewrite andb_false_r | ..]; destruct (negb _ && _); try done.
  - by apply whisper_module_None in Hw as ->.
  - rewrite He. by destruct (whisper_module _).
  - rewrite He. by repeat case_match.
Qed.

Lemma voiced_voice_on a st : voiced a st -> voice_on (boot_of a st).
Proof.
  intros (_ & Hi & Hw & Hl & Hs). unfold voice_on.
  rewrite constructed_boot_of, Hl. split_and!; [done | | done].
  destruct (whisper_module (whisper_here st)) eqn:E; [done |].
  by apply whisper_module_None in E.
Qed.

Section MainLemmas.
Context `{PyFormat} (dev : device).
Context (loads : text -> option json).
Context (o : outside).
Context (SYSTEM_PROMPT : string).
Context (lower : text -> text).
Context (whisper : string -> option Z -> list Q -> result text).

#[local] Abbreviation main_program :=
  (main_program dev loads o SYSTEM_PROMPT lower whisper).

(** C21: without the voice the program ends.  When the voice is off for
    one of its five reasons, a missing Whisper among them, and there are
    more passes at hand than [--max-iterations], a negative bound
    counting as none, the program comes to its end: the agent has left
    its loop by the bound, the ESC key or an exception that was printed,
    and the flag [agent_running] is cleared. *)
Theorem program_ends a st envs :
  voiceless a st -> Z.to_nat (max_iterations a) < length envs ->
  exists printed s,
    main_program a st envs = (Some printed, s) /\ agent_running s = false.
Proof.
  intros Hv Hlen. unfold Program.main_program.
  pose proof (silent_agent_ends dev loads o SYSTEM_PROMPT lower (voice_model a)
                (whisper (voice_language a)) (task a)
                (Z.to_nat (max_iterations a)) (negb (no_voice a)) (boot_of a st)
                envs (voiceless_start_voice a st Hv) Hlen) as [r Hr].
  destruct (run_desktop_agent _ _ _ _ _ _ _ _ _ _ _ _) as [r' s].
  simpl in Hr. subst r'. by eexists _, _.
Qed.

(** C11: the ESC key can leave the voice processor running.  When the
    voice processor was made and started, the status window is there,
    ESC is pressed before the first pass and the timer of the window
    fires before the loop looks at the flag, the [finally] block of
    [run_desktop_agent] raises at its first line: the program prints the
    error of Tk and ends with the flag cleared, and the voice processor
    was not stopped. *)
Theorem esc_leaves_voice_running a st f e envs :
  voiced a st -> is_Some (overlay_up st) ->
  save_screenshot (shot0 st) (pointer0 st) = Ok f ->
  esc_at_head e = true -> tick_at_head e = true ->
  let '(printed, s) := main_program a st (e :: envs) in
  printed = Some (Some TclError) /\ agent_running s = false /\
  is_running <$> voice_processor s = Some true /\ requests s = [].
Proof.
  intros Hvoiced Hup Hshot He Ht. unfold Program.main_program.
  rewrite (proj1 Hvoiced). cbn [negb].
  destruct (launch_Ok (overlay_up st)) as (_ & _ & Hw). destruct (Hw Hup) as [w Hw'].
  pose proof (run_desktop_agent_window_gone dev loads o SYSTEM_PROMPT lower
                (voice_model a) (whisper (voice_language a)) (task a)
                (Z.to_nat (max_iterations a)) (boot_of a st) f w e envs
                (voiced_voice_on a st Hvoiced) Hw' Hshot He Ht) as Hrun.
  destruct (run_desktop_agent _ _ _ _ _ _ _ _ _ _ _ _) as [r s].
  by destruct Hrun as (-> & ? & _ & ?).
Qed.

End MainLemmas.

(** * Examples *)

(** A machine on which everything starts, and one without Whisper. *)
Definition whisper_installed : whisper_env :=
  {| whisper_imports := (false, false, true); cuda_is_available := false;
     load_model := fun _ _ => None |}.

Definition all_there : startup :=
  {| voice_imported := true; whisper_here := whisper_installed;
     stream_starts := None; shot0 := Ok (1920, 1080)%Z;
     pointer0 := (960, 540)%Z; overlay_up := Some 1920%Z |}.

Definition no_whisper : startup :=
  {| voice_imported := true;
     whisper_here :=
       {| whisper_imports := (false, false, false); cuda_is_available := true;
          load_model := fun _ _ => None |};
     stream_starts := None; shot0 := Ok (1920, 1080)%Z;
     pointer0 := (960, 540)%Z; overlay_up := Some 1920%Z |}.

(** The program on the machine of the examples of file Agent. *)
Definition demo_program (a : args) (st : startup)
  : list pass_env -> option (option exn) * agent :=
  @main_program demo_format calm knows_click clicker "system" id
    (fun _ => whisper) a st.

Definition one_iteration : args :=
  {| task := "task"; no_voice := false; voice_model := "tiny";
     voice_language := "ru"; max_iterations := 1 |}.

Lemma program_ends_witness :
  exists printed s,
    demo_program one_iteration no_whisper [nothing; nothing] = (Some printed, s) /\
    agent_running s = false.
Proof.
  apply (@program_ends demo_format calm knows_click clicker "system" id
           (fun _ => whisper) one_iteration no_whisper [nothing; nothing]).
  - right. right. by left.
  - simpl. lia.
Defined.

Lemma esc_leaves_voice_running_witness :
  let '(printed, s) := demo_program default_args all_there [escaped] in
  printed = Some (Some TclError) /\ agent_running s = false /\
  is_running <$> voice_processor s = Some true /\ requests s = [].
Proof.
  apply (@esc_leaves_voice_running demo_format calm knows_click clicker "system"
           id (fun _ => whisper) default_args all_there
           {| picture_size := (910, 512)%Z; dot := (450, 251, 460, 261)%Z |}
           escaped []); done.
Defined.

(** Without Whisper the program runs as if the voice had not been asked
    for: it makes its iteration, ends at the bound it was given and
    clears the flag; nothing is printed, and the sign to stop is in the
    queue. *)
Example program_runs_to_bound :
  let '(printed, s) := demo_program one_iteration no_whisper [nothing; nothing] in
  printed = Some None /\ i s = 1%nat /\ agent_running s = false /\
  voice_processor s = None /\
  command_queue s = [None] /\ agent_status (shown s) = "Завершение работы".
Proof. by vm_compute. Qed.

(** A bound below zero is no iteration at all. *)
Example negative_bound_runs_nothing :
  let a := {| task := "task"; no_voice := true; voice_model := "tiny";
              voice_language := "ru"; max_iterations := -3 |} in
  let '(printed, s) := demo_program a all_there [nothing] in
  printed = Some None /\ i s = 0%nat /\ requests s = [].
Proof. by vm_compute. Qed.

(** Two elements of a screen, the second without an index. *)
Definition two_elements : list json :=
  [JObj [("index", JInt 1); ("type", JStr "button"); ("x", JInt 40); ("y", JInt 30)];
   JObj [("type", JStr "menu"); ("x", JInt 5)]].

Lemma transform_numbers_unindexed_witness :
  exists transformed,
    @collect_elements demo_format [JObj [("type", JStr "menu"); ("x", JInt 5)]; JObj []]
    = Ok transformed /\
    @transform_ui_elements demo_format
      [JObj [("type", JStr "menu"); ("x", JInt 5)]; JObj []]
    = Ok (Some (imap (fun idx t =>
                        element_dict (set_index (JInt (Z.of_nat (S idx))) t))
                  transformed)).
Proof.
  apply (@transform_numbers_unindexed demo_format).
  repeat constructor; eexists; by split.
Defined.

Lemma transform_sorts_indexed_witness :
  exists sorted,
    [JObj [("index", JInt 1); ("type", JStr ""); ("position", JObj [("x", JInt 0); ("y", JInt 0)])];
     JObj [("index", JInt 2); ("type", JStr ""); ("position", JObj [("x", JInt 0); ("y", JInt 0)])]]
    = element_dict <$> sorted /\
    sorted ≡ₚ [{| el_index := JInt 2; el_type := JStr ""; el_x := JInt 0; el_y := JInt 0 |};
               {| el_index := JInt 1; el_type := JStr ""; el_x := JInt 0; el_y := JInt 0 |}] /\
    Sorted index_le sorted.
Proof.
  apply (@transform_sorts_indexed demo_format
           [JObj [("index", JInt 2)]; JObj [("index", JInt 1)]]);
    [done | by repeat constructor | done].
Defined.

(** The index given to an element that had none can be the index of
    another: the element without an index is sorted first and becomes
    number 1, which the button is already; and the list is no longer in
    the order of its indexes when elements without an index stand before
    one that has a small index. *)
Example reindex_collides :
  @transform_ui_elements demo_format two_elements
  = Ok (Some
      [JObj [("index", JInt 1); ("type", JStr "menu");
             ("position", JObj [("x", JInt 5); ("y", JInt 0)])];
       JObj [("index", JInt 1); ("type", JStr "button");
             ("position", JObj [("x", JInt 40); ("y", JInt 30)])]]) /\
  @transform_ui_elements demo_format
    [JObj []; JObj []; JObj [("index", JInt 1)]]
  = Ok (Some
      ((fun index =>
          element_dict {| el_index := JInt index; el_type := JStr "";
                          el_x := JInt 0; el_y := JInt 0 |})
       <$> [1; 2; 1]%Z)).
Proof. by vm_compute. Qed.

(** The summary of the two elements. *)
Example summary_of_two :
  (l <- @transform_ui_elements demo_format two_elements ;;
   @get_ui_visual_summary demo_format (default [] l))%py
  = Ok ("Распознанные UI-элементы:" +:+ nl
        +:+ "  [1] menu at (5, 0)" +:+ nl
        +:+ "  [1] button at (40, 30)" +:+ nl).
Proof. by vm_compute. Qed.

(** An element that is no dictionary, and a summary of elements that
    were not transformed. *)
Example elements_that_raise :
  @transform_ui_elements demo_format [JObj []; JStr "button"]
  = Raise (Exception "AttributeError") /\
  @get_ui_visual_summary demo_format two_elements = Raise (KeyError "position").
Proof. by vm_compute. Qed.

(** A worker that is given commands runs them, and leaves at the sign
    to stop: a click is put in the queue of the agent after its
    set-up. *)
Example worker_runs_what_is_queued :
  let s := set_queue [Some ([demo_click], 7%nat); None] Agent.fresh in
  let '(r, s') :=
    @command_processor_thread demo_format calm (fun _ _ => ret tt) 3 s in
  r = Some (Ok tt) /\ command_queue s' = [] /\
  trace (exec s')
  = trace (exec s) ++ [ClickMouseButton (JStr "left"); Settle 0.5] /\
  agent_status (shown s') = "Выполнение команд".
Proof. by vm_compute. Qed.
